(* ===== verification/_CoqProject ===== *)
-Q . S2P
Prelude.v
Dates.v
Sequence.v
JsValue.v
PgValue.v
Json.v
Db.v
Sql.v
Orders.v
Inventory.v
Reports.v
Router.v
Catalog.v
Employees.v
Trends.v
Services.v
FrontLogin.v
Float.v
FrontCart.v
CartStore.v
Pages.v
ChartPages.v
Navigation.v
Tables.v
App.v
Forms.v
