(* ===== verification/Prelude.v ===== *)
(** * ShareTea: a verification development of the point-of-sale system

    ShareTea is a bubble-tea shop's point-of-sale system: an Express
    server ([src/backend/server.js], with the router
    [src/backend/routes/authRoutes.js]) in front of a PostgreSQL database,
    and a React front end ([src/frontend/src]) whose pages call the
    server with [axios].  This library models both sides and their
    composition, and proves what the code does, including where it departs
    from what it means to do.

    ** How the parts interact

    A request goes through the middleware stack of [server.js] in
    registration order ([Router]); the first layer that matches answers
    it.  The catch-all [app.get('*')] is registered before every API
    route, so every GET reaches it: the API is usable only through POST,
    PUT and DELETE.  The write handlers run SQL statements on the tables
    ([Db]); PostgreSQL's sequences ([Sequence]) and input functions
    ([PgValue]) decide ids and conversions.  The front-end pages build the
    requests from their inputs ([Forms], [FrontLogin], [FrontCart]) and
    use the answers ([Pages]).  [App] puts the router and every handler
    together as one step on the database.  The ordering pages hand the
    cart to one another as JSON text under the key [cart] of
    [localStorage] ([CartStore], through [Json]'s model of [JSON.parse]
    and [JSON.stringify]).

    ** Files, in dependency order

    - [Prelude] (this file): the result type and its monad instances, the [st] state-and-error
      monad with [for_each] (the [for ... of] loop with [await]), [res_map],
      the hint databases [tea] and [tea_rw], the tactic [invc], ordering
      by key ([by_key], [ORDER BY]), list and string lemmas, and the
      reflective check [blocks_check] used by [Dates].
    - [Dates]: JavaScript dates in UTC ([days_to_civil], [iso_date] for
      [toISOString().split('T')[0]]) and PostgreSQL's [date] input
      ([date_in]); the era-based conversion is checked over the 146097
      days of one 400-year era by [vm_compute], which makes it valid on all
      integers.
    - [Sequence]: [setval]/[nextval] of a PostgreSQL sequence with its
      bounds, and the resync statement of [POST /api/orders].
    - [JsValue]: JSON values as [express.json()] parses them (numbers as
      hundredths), truthiness, property access, [parseInt], [isNaN],
      [ToString], replies and [axios]'s acceptance of a 2xx answer.
    - [PgValue]: node-postgres' [prepareValue], PostgreSQL's [int4in],
      [numeric(10,2)] input and [numeric] output, the errors, and
      [JSON.stringify].
    - [Json]: [JSON.parse] as a recursive-descent parser with fuel
      ([parse_value], [parse_elements], [parse_members]), its fuel
      adequacy, and the round trip [JSON.parse(JSON.stringify(v))].
    - [Db]: the tables as a record (maps keyed by primary key, lists for
      append-only tables), snapshots and [ROLLBACK].
    - [Sql]: the SQL constructs of the reports (LEFT JOIN, SUM, COUNT
      DISTINCT, STRING_AGG DISTINCT, GROUP BY).
    - [Orders]: [POST /api/orders] (lines 136-193), the whole handler in the
      monad, and [GET /api/transactions] (631-641).
    - [Inventory]: [GET /api/inventory] and the add, update and delete
      handlers (236-331); the add handler also as two statements that
      concurrent requests interleave ([cstep]).
    - [Reports]: [GET /api/xreport] and [/api/zreport] (537-618).
    - [Router]: the layers of [server.js] and [authRoutes.js] and Express's
      dispatch, with path-to-regexp matching.
    - [Catalog]: sign-in ([/api/login], [/api/guest]) and the menu
      endpoints (83-226, 446-483).  [Employees]: [/api/employees]
      (392-443).  [Trends]: [/api/trends] (335-385) as query text parsed
      and resolved the way PostgreSQL does, and [/api/productusage]
      (487-534).  [Services]: Google sign-in, weather and the database
      probe.
    - [FrontLogin]: [Login.js] and [App.js]'s [handleLogin].
    - [Float]: IEEE binary64 numbers (rounding to nearest, [+], [<],
      [parseFloat], [Number], [toFixed(2)]).  [FrontCart]: [Menu.js]'s
      [addToCart], [Cart.js], the payment pages and the cash keypad.
    - [Pages]: each page's data request and what it shows from the answer;
      the Z report's CSV export; the weather lookup.
    - [CartStore]: the cart in [localStorage] across [Menu.js] (mount,
      [addToCart], [handleCustomizationChange] and the three selects),
      [MenuItemSelectionPage.js] ([handleCustomize]) and [Cart.js]
      ([removeItem], the end of [submitOrder]); a browser session is a
      list of [event]s run by [session] on the store and the page shown.
    - [ChartPages]: the controls of [Trends.js] and [ProductUsage.js]
      (buttons, selects, date inputs, the effects that load, answers
      arriving in any order) as step relations, and what the server's
      handlers answer to every request these pages can send.
    - [Navigation]: the pages' [navigate] calls, App's [user] with
      [handleLogin], [handleLogout] and [handleBack], the browser
      history and the thank-you timer, as steps of a tab; a search over
      the site graph computes the paths the controls reach, proved sound
      (an invariant of the runs, checked by reflection) and complete (one
      run per path, checked by [vm_compute]).  [header_buttons] is the
      header of [App.js], whose Back and Logout need a signed-in user.
    - [Tables]: the cells of every table the pages render ([DrinkMenu.js],
      [AddSeasonalItem.js], [OrderHistory.js], [Inventory.js],
      [Employee.js], [XReport.js], [ZReport.js], [Trends.js]): a row is a
      traversal of the fields in the result monad (a property read on
      [null] or an object as a React child throws), a price cell is
      [parseFloat] or [Number] then [toFixed(2)]; and the labels and data
      of the two charts.  [Pages] also has [WeatherPage.js]'s lookup and
      card.
    - [App]: the server as one step, [step], from [Router.serve] to the
      handler it names; [get_reply] is what a page's [axios.get]
      receives from it.
    - [Forms]: the requests the manager forms send (the add-drink forms'
      price read by [parseFloat] and written by [JSON.stringify]),
      served by [App.step].

    ** What the theorems show

    - Orders: the functional behaviour of [POST /api/orders] on every
      branch, rollback on any bad item, failure on an empty table (the
      resync calls [setval(seq, 0)]), increasing ids across all requests,
      and the refinement of the allocator contract by the resync.
    - Inventory: two concurrent adds for a new item both insert; served one
      at a time the handlers keep one row per item, and [App] lifts this to
      every request sequence the whole server serves.
    - Reports: a sale's amount counted once per line item, recorded orders
      never in any report, the reversed window, hours, tax rates, order.
    - Routing and pages: every GET is answered by the catch-all, which
      leaves twelve GET endpoints and two shadowed handlers dead, and no page
      of the front end ever shows server data.
    - Catalog, employees, trends, services: two interleaved menu adds
      ([Catalog.mstep], the two [await]s of the handler, shown to refine
      [post_menu_add] by [mstep_alone]) draw the same id and the second
      fails although each alone succeeds; the largest id is handed to the
      next item after a delete; the password
      lock-out of employee updates, the failing trend queries, the product
      usage window (dates round-trip through [toISOString] and [::DATE]),
      Google sign-in that never signs in, the weather endpoint that always
      fails.
    - Front end: sign-in routes by role, the cash keypad reaches every
      whole amount and only whole amounts, no amount the keypad can key
      below 14 pays a cart shown as 13.00, the CSV export maps different
      reports to the same text for any field values, the inventory
      form's Item ID is a row id on Update, deleting a drink deletes its
      namesakes, and a price typed as [i.ff] in the drink form reaches the
      [menuitem] table as exactly [100 i + f] cents ([parseFloat], then
      [JSON.stringify], then [numeric(10,2)] input).
    - The cart across pages: an item added on the Menu page reaches the
      Cart page unchanged (the JSON round trip, [Json.json_parse_stringify]);
      the selection page
      overwrites the stored cart and its items are posted with a [null]
      price; the cart records the options the selects show, and one change
      of a select changes that select only.
    - Navigation: the controls reach every route but [/orders] and
      [/menu-category/:category]; without signing in no staff page is
      ever reached, yet a guest reaches the order history the guest's
      menu hides; the thank-you page's redirect for guests never fires.
    - Chart pages: for any server, the Trends page shows whichever answer
      arrives last, not the one for its current controls; served by the
      real server ([App.chart_pages_show_no_data]) both chart pages stay
      empty and alert on every answer, whatever the user does.
    - Tables: a price cell ([parseFloat] then [toFixed(2)]) shows a
      [numeric(10,2)] value sent as PostgreSQL's text as exactly that
      text.
    - Theorems about handlers that the catch-all shadows (the reports and
      trend queries, whose GET never reaches them) state what the code of
      those handlers does, for the day the route order is fixed; the
      theorems about pages take the server's reply as a parameter unless
      they name [App].

    ** Bounds, fuel and assumptions

    Integers are [Z] with the column's range checked where the code relies
    on it ([int4], [numeric(10,2)]); sequences carry their bounds.  The
    fuel of [digits_aux] is [log2 n + 1] steps, enough for the
    decimal digits of [n] ([digits_fuel]), which is what lets
    [PgValue] read back every integer JavaScript prints.  [json_parse s]
    gives the parser [2 |s| + 1] steps: [Json.parse_fuel] proves that fuel
    above twice the length of the text is never exhausted (every nested
    call is made on a shorter rest, at most two calls per character), so
    the parser answers a value or a syntax error on every text.  The server's time zone is UTC, so
    [CURRENT_DATE] and [toISOString] agree.  The schema is not in the
    repository: only the primary keys and column types the code relies on
    are assumed.  Rows come back in an order PostgreSQL leaves unspecified
    unless the query orders them, so the theorems about such rows hold for
    every order or are stated up to permutation.  Prices shown by the
    tables are within [0, 10^15) hundredths, where every decimal with two
    places is the double nearest to it and [toFixed(2)] prints it back
    ([Tables.price_ok]; [numeric(10,2)] stays below [10^10]).

    ** Not modelled

    The markup and styling of the pages and the drawing of the charts
    (their cells and data are in [Tables]); the placeholder rows of empty
    tables; [db.js] (connection
    settings only); [routes/orders.js] and [routes/user.js], which are
    never mounted; the second [POST /api/menu/add] handler, which no
    request reaches; the JSON text of the report rows, which depends on
    PostgreSQL's numeric scales (so the report tables are modelled on any
    row the page receives, not tied to [Reports]); a number the front end sends that is not
    the double nearest to a decimal of at most 15 digits with two
    decimals (its [JSON.stringify] text is outside the model); the alerts
    and input resets of the forms; the Google verifier and the weather service,
    which are parameters.  In [Json], numbers other than those with at
    most two decimals and no more than 15 digits parse to an out-of-model
    error, and [\u] escapes above 255 likewise, since strings are byte
    strings; [localStorage] quotas and other tabs are not modelled.  In
    [Navigation], typing a URL and the browser's own back and forward
    buttons are not events (every route renders without a guard, so a
    typed URL reaches any page); the language switch of [App.js] and the
    random order number of the thank-you page change no state the
    theorems observe. *)

From stdpp Require Export base list gmap strings sorting.
From Stdlib Require Export ZArith Lia.
From Stdlib Require Import Ascii.

Declare Scope tea_scope.
Delimit Scope tea_scope with tea.
Open Scope Z_scope.

(** ** Results and the request monad *)

(** The outcome of a fallible step: [Ok] carries the value, [Err] the
    error that a JavaScript [throw] or a PostgreSQL error raises. *)
Inductive result (E A : Type) : Type :=
| Ok (a : A)
| Err (e : E).
Arguments Ok {E A} a.
Arguments Err {E A} e.

(** [result E] as a monad: [≫=] passes an [Ok] value on and stops at
    the first [Err], as a chain of property reads that may throw. *)
#[global] Instance result_ret {E} : MRet (result E) := fun A a => Ok a.
#[global] Instance result_bind {E} : MBind (result E) :=
  fun A B f r => match r with Ok a => f a | Err e => Err e end.

(** A stateful, fallible computation: a handler that threads a store [S]
    and may stop with an error of type [E].  The store reached before an
    error is returned too, because PostgreSQL keeps some effects of an
    aborted statement (sequence advances) that the caller must see. *)
Definition st (S E A : Type) : Type := S -> result E A * S.

Definition st_ret {S E A} (a : A) : st S E A := fun s => (Ok a, s).
Definition st_bind {S E A B} (c : st S E A) (k : A -> st S E B) : st S E B :=
  fun s => match c s with
           | (Ok a, s') => k a s'
           | (Err e, s') => (Err e, s')
           end.
Definition st_throw {S E A} (e : E) : st S E A := fun s => (Err e, s).
Definition st_get {S E} : st S E S := fun s => (Ok s, s).
Definition st_put {S E} (s : S) : st S E unit := fun _ => (Ok tt, s).

Notation "x <- c ;; k" := (st_bind c (fun x => k))
  (at level 100, c at next level, right associativity) : tea_scope.
Notation "c ;;; k" := (st_bind c (fun _ => k))
  (at level 100, right associativity) : tea_scope.
Open Scope tea_scope.

(** [map] with a step that may fail: the first error stops it, as a
    [throw] inside [Array.prototype.map] does. *)
Fixpoint res_map {E A B} (f : A -> result E B) (l : list A) : result E (list B) :=
  match l with
  | [] => Ok []
  | x :: r => match f x with
              | Ok y => match res_map f r with Ok ys => Ok (y :: ys) | Err e => Err e end
              | Err e => Err e
              end
  end.

(** [for (const x of xs) await f(x);]: runs [f] on every element in
    order and stops at the first error. *)
Fixpoint for_each {S E A} (f : A -> st S E unit) (xs : list A) : st S E unit :=
  match xs with
  | [] => st_ret tt
  | x :: xs' => f x ;;; for_each f xs'
  end.

(** ** Generic lemmas *)

Lemma st_bind_ok {S E A B} (c : st S E A) (k : A -> st S E B) s a s' :
  c s = (Ok a, s') -> st_bind c k s = k a s'.
Proof. intros H. unfold st_bind. by rewrite H. Qed.

Lemma st_bind_err {S E A B} (c : st S E A) (k : A -> st S E B) s e s' :
  c s = (Err e, s') -> st_bind c k s = (Err e, s').
Proof. intros H. unfold st_bind. by rewrite H. Qed.

(** An invariant of one step holds along every run. *)
Lemma rtc_invariant {A} (R : relation A) (P : A -> Prop) :
  (forall x y, P x -> R x y -> P y) -> forall x y, rtc R x y -> P x -> P y.
Proof. intros Hs x y Hr. induction Hr; eauto. Qed.

Lemma for_each_app {S E A} (f : A -> st S E unit) xs ys s :
  for_each f (xs ++ ys) s = st_bind (for_each f xs) (fun _ => for_each f ys) s.
Proof.
  revert s. induction xs as [|x xs IH]; intros s; simpl; [done|].
  unfold st_bind. destruct (f x s) as [[[]|e] s']; [|done].
  apply IH.
Qed.

(** A loop over a list that contains an element on which the body always
    fails, fails. *)
Lemma for_each_err_elem {S E A} (f : A -> st S E unit) xs x s :
  x ∈ xs -> (forall s0, exists e s1, f x s0 = (Err e, s1)) ->
  exists e s', for_each f xs s = (Err e, s').
Proof.
  intros Hx Hf. revert s. induction xs as [|y xs IH]; intros s;
    [by apply elem_of_nil in Hx|].
  simpl. unfold st_bind. apply elem_of_cons in Hx as [->|Hx].
  - destruct (Hf s) as (e & s1 & ->). eauto.
  - destruct (f y s) as [[[]|e] s1]; eauto.
Qed.

(** A property of the store that every run of [c] keeps, whether it
    returns or fails. *)
Definition st_keeps {S E A} (P : S -> Prop) (c : st S E A) : Prop := forall s, P s -> P (c s).2.

Lemma st_keeps_ret {S E A} (P : S -> Prop) (a : A) : st_keeps (E:=E) P (st_ret a).
Proof. by intros s. Qed.

Lemma st_keeps_throw {S E A} (P : S -> Prop) (e : E) : st_keeps (A:=A) P (st_throw e).
Proof. by intros s. Qed.

Lemma st_keeps_bind {S E A B} (P : S -> Prop) (c : st S E A) (k : A -> st S E B) :
  st_keeps P c -> (forall a, st_keeps P (k a)) -> st_keeps P (st_bind c k).
Proof. intros Hc Hk s Hs. unfold st_bind. specialize (Hc s Hs). destruct (c s) as [[a|e] s']; [by apply Hk|done]. Qed.

Lemma st_keeps_for_each {S E A} (P : S -> Prop) (f : A -> st S E unit) xs :
  (forall x, x ∈ xs -> st_keeps P (f x)) -> st_keeps P (for_each f xs).
Proof.
  induction xs as [|x xs IH]; intros Hf; simpl; [apply st_keeps_ret|].
  apply st_keeps_bind; [apply Hf; set_solver|]. intros _. apply IH. intros y Hy. apply Hf. set_solver.
Qed.

Lemma map_replicate {A B} (f : A -> B) n x : map f (replicate n x) = replicate n (f x).
Proof. induction n; simpl; congruence. Qed.

(** Sum of a list of integers (SQL [SUM] over non-null values, and
    [Array.prototype.reduce] with [+]). *)
Definition sumZ (l : list Z) : Z := foldr Z.add 0 l.

Lemma sumZ_app l1 l2 : sumZ (l1 ++ l2) = sumZ l1 + sumZ l2.
Proof. induction l1; simpl; lia. Qed.

Lemma sumZ_nonneg l : Forall (fun x => 0 <= x) l -> 0 <= sumZ l.
Proof. induction 1; simpl; lia. Qed.

(** Largest element of a list, [d] for the empty list
    ([COALESCE(MAX(x), d)]). *)
Definition max_or (d : Z) (l : list Z) : Z :=
  match l with [] => d | x :: l' => foldr Z.max x l' end.

Lemma max_or_ge d l x : In x l -> x <= max_or d l.
Proof.
  destruct l as [|y l]; [done|]. simpl. intros Hin.
  assert (forall z, In z l -> z <= foldr Z.max y l) as Hl.
  { clear. induction l as [|w l IH]; simpl; [done|]. intros z [->|Hz]; [lia|].
    specialize (IH z Hz). lia. }
  assert (y <= foldr Z.max y l) by (clear; induction l; simpl; lia).
  destruct Hin as [->|Hin]; [done|]. by apply Hl.
Qed.

Lemma max_or_in d l : l <> [] -> In (max_or d l) l.
Proof.
  destruct l as [|y l]; [done|]. intros _. simpl.
  induction l as [|w l IH]; simpl; [by left|].
  destruct (Z.max_spec w (foldr Z.max y l)) as [[_ ->]|[_ ->]];
    destruct IH as [IH|IH]; auto.
Qed.

(** ** Case folding *)

(** ASCII lower case: the [i] flag of a regular expression, and how
    PostgreSQL folds unquoted identifiers. *)
Definition ascii_lower (c : ascii) : ascii :=
  let n := nat_of_ascii c in
  if (65 <=? n)%nat && (n <=? 90)%nat then ascii_of_nat (n + 32) else c.

Fixpoint string_lower (s : string) : string :=
  match s with EmptyString => EmptyString | String c r => String (ascii_lower c) (string_lower r) end.

(** stdpp makes [String.append] opaque to [simpl]; these are proved by
    conversion. *)
Lemma string_app_assoc (s t u : string) : (s +:+ t) +:+ u = s +:+ (t +:+ u).
Proof. induction s as [|c s IH]; [reflexivity|]. exact (f_equal (String c) IH). Qed.

Lemma string_app_cons c s t : String c s +:+ t = String c (s +:+ t).
Proof. reflexivity. Qed.

Lemma string_app_nil_r (s : string) : s +:+ "" = s.
Proof. induction s as [|c s IH]; [reflexivity|]. exact (f_equal (String c) IH). Qed.

Lemma string_length_app (s t : string) : String.length (s +:+ t) = (String.length s + String.length t)%nat.
Proof. induction s as [|c s IH]; [reflexivity|]. exact (f_equal S IH). Qed.

Lemma substring_app_l s t : String.substring 0 (String.length s) (s +:+ t) = s.
Proof.
  induction s as [|c s IH]; [by destruct t|]. change (String c s +:+ t) with (String c (s +:+ t)).
  cbn [String.length String.substring]. by rewrite IH.
Qed.

Lemma substring_all t : String.substring 0 (String.length t) t = t.
Proof. induction t as [|c t IH]; [done|]. cbn [String.length String.substring]. by rewrite IH. Qed.

Lemma substring_app_r s t : String.substring (String.length s) (String.length t) (s +:+ t) = t.
Proof.
  induction s as [|c s IH]; [apply substring_all|]. change (String c s +:+ t) with (String c (s +:+ t)).
  cbn [String.length String.substring]. exact IH.
Qed.

Lemma substring_app_r' s t n : n = String.length t -> String.substring (String.length s) n (s +:+ t) = t.
Proof. intros ->. apply substring_app_r. Qed.

(** ** Ordering rows by an integer key ([ORDER BY key]) *)

Definition key_le {A} (a b : Z * A) : Prop := a.1 <= b.1.
#[global] Instance key_le_dec {A} : RelDecision (@key_le A) := fun a b => Z.le_dec a.1 b.1.
#[global] Instance key_le_trans {A} : Transitive (@key_le A).
Proof. unfold key_le. intros ???. lia. Qed.
#[global] Instance key_le_total {A} : Total (@key_le A).
Proof. unfold key_le. intros ??. lia. Qed.

(** The rows of a table by key. *)
Definition by_key {A} (m : gmap Z A) : list (Z * A) := merge_sort key_le (map_to_list m).

Lemma by_key_elem {A} (m : gmap Z A) k v : (k, v) ∈ by_key m <-> m !! k = Some v.
Proof. unfold by_key. by rewrite merge_sort_Permutation, elem_of_map_to_list. Qed.

Lemma StronglySorted_strict {A} (l : list (Z * A)) :
  StronglySorted key_le l -> NoDup l.*1 -> StronglySorted (fun a b => a.1 < b.1) l.
Proof.
  induction 1 as [|a l Hl IH Ha]; simpl; [constructor|]. intros (Hn & Hnd)%NoDup_cons.
  constructor; [by apply IH|]. apply Forall_forall. intros b Hb.
  eapply Forall_forall in Ha; [|done]. unfold key_le in Ha.
  assert (a.1 <> b.1); [|lia]. intros Heq. apply Hn. rewrite Heq. apply list_elem_of_fmap. eauto.
Qed.

Lemma by_key_sorted {A} (m : gmap Z A) : StronglySorted (fun a b => a.1 < b.1) (by_key m).
Proof.
  apply StronglySorted_strict; [apply StronglySorted_merge_sort; apply _|].
  unfold by_key. rewrite merge_sort_Permutation. apply NoDup_fst_map_to_list.
Qed.

Lemma StronglySorted_filter {A} (R : relation A) (P : A -> Prop) `{!forall x, Decision (P x)} l :
  StronglySorted R l -> StronglySorted R (filter P l).
Proof.
  induction 1 as [|a l Hl IH Ha]; [constructor|]. rewrite filter_cons. case_decide; [|done].
  constructor; [done|]. apply Forall_forall. intros b (_ & Hb)%list_elem_of_filter.
  by eapply Forall_forall in Ha.
Qed.

Lemma filter_map_comm {A B} (P : B -> Prop) `{!forall x, Decision (P x)} (f : A -> B) l :
  filter P (map f l) = map f (filter (fun x => P (f x)) l).
Proof. induction l as [|a l IH]; [done|]. simpl. rewrite !filter_cons. case_decide; simpl; by rewrite IH. Qed.

(** [COALESCE(MAX(x), d)] of a list whose largest element is [x]. *)
Lemma max_or_eq d l x : x ∈ l -> (forall y, y ∈ l -> y <= x) -> max_or d l = x.
Proof.
  intros Hx Hle. apply list_elem_of_In in Hx as Hx'.
  pose proof (max_or_ge d l x Hx').
  assert (In (max_or d l) l) as Hin by (apply max_or_in; by intros ->; apply elem_of_nil in Hx).
  apply list_elem_of_In, Hle in Hin. lia.
Qed.

(** ** Checking a property of every integer of a range by evaluation *)

(** [f] holds of [base], ..., [base + n - 1]. *)
Fixpoint range_check (f : Z -> bool) (base : Z) (n : nat) : bool :=
  match n with O => true | S k => f base && range_check f (base + 1) k end.

(** [f] holds of [0], ..., [nb * w - 1], checked as [nb] blocks of [w]
    so that both loop bounds stay small. *)
Fixpoint blocks_check (f : Z -> bool) (w nb : nat) : bool :=
  match nb with O => true | S b => range_check f (Z.of_nat b * Z.of_nat w) w && blocks_check f w b end.

Lemma range_check_spec f base n i :
  range_check f base n = true -> 0 <= i < Z.of_nat n -> f (base + i) = true.
Proof.
  revert base i. induction n as [|n IH]; intros base i; simpl; [lia|].
  intros [Hb Hn]%andb_true_iff Hi.
  destruct (decide (i = 0)) as [->|]; [by rewrite Z.add_0_r|].
  replace (base + i) with (base + 1 + (i - 1)) by lia. apply IH; [done|lia].
Qed.

Lemma blocks_check_spec f w nb x :
  blocks_check f w nb = true -> 0 <= x < Z.of_nat nb * Z.of_nat w -> f x = true.
Proof.
  induction nb as [|b IH]; simpl; [lia|]. intros [Hb Hr]%andb_true_iff Hx.
  destruct (decide (x < Z.of_nat b * Z.of_nat w)); [apply IH; [done|lia]|].
  replace x with (Z.of_nat b * Z.of_nat w + (x - Z.of_nat b * Z.of_nat w)) by lia.
  apply (range_check_spec _ _ w); [done|lia].
Qed.

Create HintDb tea discriminated.
Create Rewrite HintDb tea_rw.
#[export] Hint Resolve max_or_ge sumZ_nonneg st_keeps_ret st_keeps_throw st_keeps_bind : tea.
#[export] Hint Rewrite sumZ_app : tea_rw.

(** [invc H]: invert a hypothesis and clean up. *)
Ltac invc H := inversion H; subst; clear H.
