(* ===== verification/Dates.v ===== *)
(** * Calendar dates: [Date.prototype.toISOString] and PostgreSQL's [date] input

    JavaScript [Date]s are milliseconds since 1970-01-01T00:00:00Z; the
    product-usage handler (server.js lines 493-503) formats them with
    [toISOString().split('T')[0]], and PostgreSQL reads the result back
    with [$1::DATE].  Timestamps of the tables reach the client as
    [toISOString] strings too.  A day is a day number since 1970-01-01
    (a [Z]); the conversion to and from the proleptic Gregorian calendar
    is the era-based algorithm every date library uses. *)

From S2P Require Import Prelude.
From Stdlib Require Import Ascii.

Module Dates.

Record civil := mk_civil { c_year : Z; c_month : Z; c_day : Z }.

(** Day number to year, month, day (1970-01-01 is day 0). *)
Definition days_to_civil (z : Z) : civil :=
  let z := z + 719468 in
  let era := z / 146097 in
  let doe := z - era * 146097 in
  let yoe := (doe - doe / 1460 + doe / 36524 - doe / 146096) / 365 in
  let doy := doe - (365 * yoe + yoe / 4 - yoe / 100) in
  let mp := (5 * doy + 2) / 153 in
  let d := doy - (153 * mp + 2) / 5 + 1 in
  let m := if mp <? 10 then mp + 3 else mp - 9 in
  mk_civil (yoe + era * 400 + (if m <=? 2 then 1 else 0)) m d.

(** Year, month, day to day number. *)
Definition civil_to_days (c : civil) : Z :=
  let y := c_year c - (if c_month c <=? 2 then 1 else 0) in
  let era := y / 400 in
  let yoe := y - era * 400 in
  let mp := if 2 <? c_month c then c_month c - 3 else c_month c + 9 in
  let doy := (153 * mp + 2) / 5 + c_day c - 1 in
  let doe := yoe * 365 + yoe / 4 - yoe / 100 + doy in
  era * 146097 + doe - 719468.

Definition leap (y : Z) : bool := (y mod 4 =? 0) && negb (y mod 100 =? 0) || (y mod 400 =? 0).

Definition days_in_month (y m : Z) : Z :=
  if m =? 2 then (if leap y then 29 else 28)
  else if (m =? 4) || (m =? 6) || (m =? 9) || (m =? 11) then 30 else 31.

Definition valid_civil (c : civil) : bool :=
  (1 <=? c_month c) && (c_month c <=? 12) && (1 <=? c_day c) && (c_day c <=? days_in_month (c_year c) (c_month c)).

(** ** Text *)

Definition digit (d : Z) : ascii := ascii_of_nat (48 + Z.to_nat d).

(** The last [n] decimal digits of [v >= 0], zero-padded. *)
Fixpoint pad (n : nat) (v : Z) (acc : string) : string :=
  match n with
  | O => acc
  | S n' => pad n' (v / 10) (String (digit (v mod 10)) acc)
  end.

Definition dash : ascii := "-"%char.

(** [toISOString().split('T')[0]] of a day of the years 0 to 9999. *)
Definition iso_date (z : Z) : string :=
  let c := days_to_civil z in
  pad 4 (c_year c) (String dash (pad 2 (c_month c) (String dash (pad 2 (c_day c) "")))).

Definition ms_per_day : Z := 86400000.

(** The day of a [Date] given in milliseconds since the epoch. *)
Definition day_of_ms (t : Z) : Z := t / ms_per_day.

(** [toISOString()]: [YYYY-MM-DDTHH:mm:ss.sssZ]. *)
Definition iso_string (t : Z) : string :=
  let ms := t mod ms_per_day in
  iso_date (day_of_ms t) +:+
  String "T"%char (pad 2 (ms / 3600000) (String ":"%char (pad 2 (ms / 60000 mod 60)
    (String ":"%char (pad 2 (ms / 1000 mod 60) (String "."%char (pad 3 (ms mod 1000) "Z"))))))).

(** Exactly [n] decimal digits at the front of [s]: their value and the rest. *)
Fixpoint read_n (n : nat) (s : string) (acc : Z) : option (Z * string) :=
  match n with
  | O => Some (acc, s)
  | S n' => match s with
            | String c r =>
                let k := Z.of_nat (nat_of_ascii c) - 48 in
                if (0 <=? k) && (k <=? 9) then read_n n' r (10 * acc + k) else None
            | EmptyString => None
            end
  end.

Definition expect (c : ascii) (s : string) : option string :=
  match s with String c' r => if Ascii.eqb c c' then Some r else None | EmptyString => None end.

(** PostgreSQL's [date] input for the ISO form [YYYY-MM-DD] (the only
    form the program produces): [None] is the error [invalid input syntax
    for type date] or [date/time field value out of range]. *)
Definition date_in (s : string) : option Z :=
  '(y, r) ← read_n 4 s 0;
  r ← expect dash r;
  '(m, r) ← read_n 2 r 0;
  r ← expect dash r;
  '(d, r) ← read_n 2 r 0;
  if String.eqb r "" && valid_civil (mk_civil y m d) then Some (civil_to_days (mk_civil y m d)) else None.

(** ** The calendar is periodic over 400-year eras *)

(** What holds of every day of the era that starts on 0000-03-01. *)
Definition era_ok (doe : Z) : bool :=
  let c := days_to_civil (doe - 719468) in
  valid_civil c && (civil_to_days c =? doe - 719468) && (0 <=? c_year c) && (c_year c <=? 400).

Lemma era_ok_all doe : 0 <= doe < 146097 -> era_ok doe = true.
Proof.
  intros Hd. apply (blocks_check_spec _ 773 189); [vm_compute; reflexivity|].
  change (Z.of_nat 189 * Z.of_nat 773) with 146097. lia.
Qed.

Lemma days_to_civil_shift z k :
  days_to_civil (z + 146097 * k) =
  mk_civil (c_year (days_to_civil z) + 400 * k) (c_month (days_to_civil z)) (c_day (days_to_civil z)).
Proof.
  assert (E1 : (z + 146097 * k + 719468) / 146097 = (z + 719468) / 146097 + k).
  { replace (z + 146097 * k + 719468) with (z + 719468 + k * 146097) by lia.
    by rewrite Z.div_add by lia. }
  assert (E2 : z + 146097 * k + 719468 - ((z + 719468) / 146097 + k) * 146097 =
               z + 719468 - (z + 719468) / 146097 * 146097) by lia.
  unfold days_to_civil. cbv beta zeta. rewrite E1, E2. cbn [c_year c_month c_day]. f_equal. lia.
Qed.

Lemma civil_to_days_shift y m d k :
  civil_to_days (mk_civil (y + 400 * k) m d) = civil_to_days (mk_civil y m d) + 146097 * k.
Proof.
  unfold civil_to_days. cbv beta zeta. cbn [c_year c_month c_day].
  set (a := if m <=? 2 then 1 else 0).
  assert (E1 : (y + 400 * k - a) / 400 = (y - a) / 400 + k).
  { replace (y + 400 * k - a) with (y - a + k * 400) by lia. by rewrite Z.div_add by lia. }
  assert (E2 : y + 400 * k - a - ((y - a) / 400 + k) * 400 = y - a - (y - a) / 400 * 400) by lia.
  rewrite E1, E2. lia.
Qed.

Lemma leap_shift y k : leap (y + 400 * k) = leap y.
Proof.
  unfold leap.
  replace (y + 400 * k) with (y + (100 * k) * 4) by lia. rewrite Z.mod_add by lia.
  replace (y + 100 * k * 4) with (y + (4 * k) * 100) by lia. rewrite Z.mod_add by lia.
  replace (y + 4 * k * 100) with (y + k * 400) by lia. by rewrite Z.mod_add by lia.
Qed.

(** Every day is the shift by whole eras of a day of the first era. *)
Lemma era_decomp z : exists doe k, 0 <= doe < 146097 /\ z = doe - 719468 + 146097 * k.
Proof.
  exists ((z + 719468) mod 146097), ((z + 719468) / 146097).
  split; [apply Z.mod_pos_bound; lia|]. pose proof (Z.div_mod (z + 719468) 146097). lia.
Qed.

Lemma days_in_month_shift y m k : days_in_month (y + 400 * k) m = days_in_month y m.
Proof. unfold days_in_month. by rewrite leap_shift. Qed.

(** Decompose a day into its era and its day of the first era, and read
    off what [era_ok] says there. *)
Lemma era_facts z :
  exists doe k, 0 <= doe < 146097 /\ z = doe - 719468 + 146097 * k /\ era_ok doe = true.
Proof. destruct (era_decomp z) as (doe & k & ? & ?). exists doe, k. auto using era_ok_all. Qed.

Lemma civil_roundtrip z : civil_to_days (days_to_civil z) = z.
Proof.
  destruct (era_facts z) as (doe & k & _ & -> & Hok). unfold era_ok in Hok.
  rewrite days_to_civil_shift. destruct (days_to_civil (doe - 719468)) as [y m d]. simpl in *.
  rewrite civil_to_days_shift. apply andb_true_iff in Hok as [[[_ Heq]%andb_true_iff _]%andb_true_iff _].
  apply Z.eqb_eq in Heq. lia.
Qed.

Lemma days_to_civil_valid z : valid_civil (days_to_civil z) = true.
Proof.
  destruct (era_facts z) as (doe & k & _ & -> & Hok). unfold era_ok in Hok.
  rewrite days_to_civil_shift. destruct (days_to_civil (doe - 719468)) as [y m d]. simpl in *.
  apply andb_true_iff in Hok as [[[Hv _]%andb_true_iff _]%andb_true_iff _].
  unfold valid_civil in *. simpl in *. by rewrite days_in_month_shift.
Qed.

Lemma days_in_month_le y m : days_in_month y m <= 31.
Proof. unfold days_in_month. repeat case_match; lia. Qed.

(** ** Digits *)

Lemma digit_value k : 0 <= k <= 9 -> Z.of_nat (nat_of_ascii (digit k)) - 48 = k.
Proof.
  intros Hk. unfold digit. rewrite nat_ascii_embedding by lia. rewrite Nat2Z.inj_add, Z2Nat.id; lia.
Qed.

Lemma read_n_snoc n s acc :
  read_n (S n) s acc = match read_n n s acc with Some (a, r) => read_n 1 r a | None => None end.
Proof.
  revert s acc. induction n as [|n IH]; intros s acc; [reflexivity|].
  destruct s as [|c r]; [done|]. cbn [read_n]. case_match; [apply IH|done].
Qed.

(** Reading back [n] zero-padded digits. *)
Lemma read_n_pad n v s acc :
  0 <= v < 10 ^ Z.of_nat n -> read_n n (pad n v s) acc = Some (acc * 10 ^ Z.of_nat n + v, s).
Proof.
  revert v s acc. induction n as [|n IH]; intros v s acc Hv.
  - simpl in *. f_equal. f_equal. lia.
  - cbn [pad]. rewrite read_n_snoc.
    rewrite Nat2Z.inj_succ, Z.pow_succ_r in * by lia.
    assert (0 <= v mod 10 < 10) by (apply Z.mod_pos_bound; lia).
    rewrite IH by (split; [apply Z.div_pos|apply Z.div_lt_upper_bound]; lia).
    cbn [read_n]. rewrite digit_value by lia.
    replace ((0 <=? v mod 10) && (v mod 10 <=? 9)) with true by (symmetry; apply andb_true_iff; lia).
    cbn [read_n]. do 2 f_equal.
    pose proof (Z.div_mod v 10). lia.
Qed.

(** [date_in] reads back what [iso_date] writes. *)
Lemma date_in_iso z :
  0 <= c_year (days_to_civil z) <= 9999 -> date_in (iso_date z) = Some z.
Proof.
  intros Hy. pose proof (days_to_civil_valid z) as Hv. pose proof (civil_roundtrip z) as Hr.
  unfold iso_date, date_in. cbv beta zeta. destruct (days_to_civil z) as [y m d]. cbn [c_year c_month c_day] in *.
  pose proof (days_in_month_le y m).
  unfold valid_civil in Hv. cbn [c_year c_month c_day] in Hv.
  repeat rewrite andb_true_iff in Hv. rewrite !Z.leb_le in Hv.
  rewrite read_n_pad by (cbn; lia). cbn [mbind option_bind expect]; try rewrite Ascii.eqb_refl; cbn [mbind option_bind].
  rewrite read_n_pad by (cbn; lia). cbn [mbind option_bind expect]; try rewrite Ascii.eqb_refl; cbn [mbind option_bind].
  rewrite read_n_pad by (cbn; lia). cbn [mbind option_bind].
  rewrite !Z.mul_0_l, !Z.add_0_l. unfold valid_civil. cbn [c_year c_month c_day String.eqb].
  replace ((1 <=? m) && (m <=? 12) && (1 <=? d) && (d <=? days_in_month y m)) with true
    by (symmetry; repeat rewrite andb_true_iff; rewrite !Z.leb_le; lia).
  simpl. by rewrite Hr.
Qed.

(** ** Theorems *)

(** a day of the years 0 to 9999 formatted as the product-usage
    handler formats it ([toISOString().split('T')[0]]) is read back by
    PostgreSQL's [date] input as the same day: the window the handler
    computes reaches the query unchanged. *)
Theorem iso_date_roundtrip z :
  0 <= c_year (days_to_civil z) <= 9999 -> date_in (iso_date z) = Some z.
Proof. apply date_in_iso. Qed.

Lemma iso_date_roundtrip_witness : date_in (iso_date 19723) = Some 19723.
Proof. apply (iso_date_roundtrip 19723). vm_compute. split; discriminate. Defined.

End Dates.
