(* ===== verification/Sequence.v ===== *)
(** * The identifier sequence [transactions_id_seq]

    PostgreSQL sequence semantics as [server.js] relies on them: [setval]
    (the resync of [POST /api/orders], server.js lines 155-158) and
    [nextval] (the [DEFAULT] of the [id] column used by each [INSERT]).
    A sequence is not transactional: its state survives a [ROLLBACK]. *)

From S2P Require Import Prelude.

Module Sequence.

(** The sequence object: [last_value], [is_called] and its bounds
    ([MINVALUE] 1 and [MAXVALUE] 2^31-1 for a [serial] column). *)
Record sequence := mk_seq {
  last_value : Z;
  is_called : bool;
  min_value : Z;
  max_value : Z
}.

Inductive seq_error :=
| SetvalOutOfBounds (v : Z)   (** [setval: value v is out of bounds] *)
| ReachedMaxValue.            (** [nextval: reached maximum value] *)

#[export] Instance seq_error_eq_dec : EqDecision seq_error.
Proof. solve_decision. Qed.

(** [setval(seq, v)]: sets [last_value := v], [is_called := true]; a value
    outside [[min_value, max_value]] is an error. *)
Definition setval (v : Z) (s : sequence) : result seq_error sequence :=
  if (v <? min_value s) || (max_value s <? v) then Err (SetvalOutOfBounds v)
  else Ok (mk_seq v true (min_value s) (max_value s)).

(** [nextval(seq)]: the next value is [last_value + 1] once the sequence
    has been called, [last_value] itself before. *)
Definition nextval (s : sequence) : result seq_error (Z * sequence) :=
  let next := if is_called s then last_value s + 1 else last_value s in
  if max_value s <? next then Err ReachedMaxValue
  else Ok (next, mk_seq next true (min_value s) (max_value s)).

(** The resync statement
    [SELECT setval('transactions_id_seq', (SELECT COALESCE(MAX(id), 0) FROM transactions))]. *)
Definition resync (ids : list Z) (s : sequence) : result seq_error sequence :=
  setval (max_or 0 ids) s.

(** The invariant PostgreSQL keeps on every sequence. *)
Definition seq_wf (s : sequence) : Prop :=
  min_value s <= last_value s <= max_value s.

(** The value the next [nextval] returns, when it returns one. *)
Definition next_value (s : sequence) : Z :=
  if is_called s then last_value s + 1 else last_value s.

(** ** Lemmas *)

Lemma setval_ok v s :
  min_value s <= v <= max_value s ->
  setval v s = Ok (mk_seq v true (min_value s) (max_value s)).
Proof.
  intros Hv. unfold setval.
  by replace ((v <? min_value s) || (max_value s <? v))%bool with false by lia.
Qed.

Lemma setval_err v s :
  v < min_value s \/ max_value s < v -> setval v s = Err (SetvalOutOfBounds v).
Proof.
  intros Hv. unfold setval.
  by replace ((v <? min_value s) || (max_value s <? v))%bool with true by lia.
Qed.

Lemma setval_inv v s s' :
  setval v s = Ok s' ->
  min_value s <= v <= max_value s /\ s' = mk_seq v true (min_value s) (max_value s).
Proof.
  unfold setval. destruct (Z.ltb_spec v (min_value s)), (Z.ltb_spec (max_value s) v);
    simpl; intros Hs; inversion Hs; subst; split; lia || done.
Qed.

Lemma nextval_ok s :
  next_value s <= max_value s ->
  nextval s = Ok (next_value s, mk_seq (next_value s) true (min_value s) (max_value s)).
Proof.
  unfold nextval, next_value. intros Hn.
  by replace (max_value s <? _) with false by lia.
Qed.

Lemma nextval_inv s n s' :
  nextval s = Ok (n, s') ->
  n = next_value s /\ n <= max_value s /\
  s' = mk_seq n true (min_value s) (max_value s).
Proof.
  unfold nextval, next_value. intros Hs.
  destruct (Z.ltb_spec (max_value s) (if is_called s then last_value s + 1 else last_value s));
    inversion Hs; subst; repeat split; lia.
Qed.

Lemma nextval_err s :
  max_value s < next_value s -> nextval s = Err ReachedMaxValue.
Proof.
  unfold nextval, next_value. intros Hn.
  by replace (max_value s <? _) with true by lia.
Qed.

Lemma next_value_called v mn mx : next_value (mk_seq v true mn mx) = v + 1.
Proof. reflexivity. Qed.

(** The operations as a transition system on the sequence object: any
    session may call [setval] or [nextval] at any time. *)
Inductive seq_step : sequence -> sequence -> Prop :=
| step_setval v s s' : setval v s = Ok s' -> seq_step s s'
| step_nextval s n s' : nextval s = Ok (n, s') -> seq_step s s'.

Inductive seq_reach (s0 : sequence) : sequence -> Prop :=
| reach_init : seq_reach s0 s0
| reach_step s s' : seq_reach s0 s -> seq_step s s' -> seq_reach s0 s'.

(** ** Theorems *)

Lemma setval_preserves_wf v s s' : setval v s = Ok s' -> seq_wf s'.
Proof. intros [Hv ->]%setval_inv. unfold seq_wf; simpl; lia. Qed.

Lemma nextval_preserves_wf s n s' : seq_wf s -> nextval s = Ok (n, s') -> seq_wf s'.
Proof.
  unfold seq_wf. intros Hwf (-> & Hmax & ->)%nextval_inv. unfold next_value in *.
  simpl. destruct (is_called s); lia.
Qed.

Lemma seq_step_bounds s s' :
  seq_step s s' -> min_value s' = min_value s /\ max_value s' = max_value s.
Proof.
  destruct 1 as [v s s' [_ ->]%setval_inv | s n s' (_ & _ & ->)%nextval_inv]; done.
Qed.

(** Every state the sequence can reach from a well-formed state by
    [setval] and [nextval] calls is well-formed: [last_value] stays in
    [[min_value, max_value]] and the bounds never change. *)
Theorem seq_reach_wf s0 s :
  seq_wf s0 -> seq_reach s0 s ->
  seq_wf s /\ min_value s = min_value s0 /\ max_value s = max_value s0.
Proof.
  intros Hwf0. induction 1 as [|s s' _ IH Hstep]; [done|].
  destruct IH as (Hwf & Hmin & Hmax).
  destruct (seq_step_bounds _ _ Hstep) as [-> ->]. split; [|done].
  destruct Hstep as [v s s' Hset | s n s' Hnext].
  - by eapply setval_preserves_wf.
  - by eapply nextval_preserves_wf.
Qed.

Lemma seq_reach_wf_witness :
  seq_wf (mk_seq 6 true 1 100) /\ min_value (mk_seq 6 true 1 100) = 1 /\
  max_value (mk_seq 6 true 1 100) = 100.
Proof.
  apply (seq_reach_wf (mk_seq 1 false 1 100)); [unfold seq_wf; simpl; lia|].
  eapply reach_step; [eapply reach_step; [apply reach_init|] |].
  - apply (step_setval 5). reflexivity.
  - apply (step_nextval _ 6). reflexivity.
Defined.

(** C30: the resync refines the allocator contract of the design: after
    [resync ids] succeeds, the next [nextval] returns [max(ids, 0) + 1],
    which is greater than every existing id. *)
Theorem resync_refines_spec ids s s' n s'' :
  resync ids s = Ok s' -> nextval s' = Ok (n, s'') ->
  n = max_or 0 ids + 1 /\ Forall (fun i => i < n) ids.
Proof.
  unfold resync. intros [_ ->]%setval_inv (-> & _ & _)%nextval_inv.
  rewrite next_value_called. split; [done|]. apply Forall_forall. intros i Hi%list_elem_of_In%(max_or_ge 0). lia.
Qed.

Lemma resync_refines_spec_witness :
  6 = max_or 0 [3; 5] + 1 /\ Forall (fun i => i < 6) [3; 5].
Proof.
  apply (resync_refines_spec [3; 5] (mk_seq 1 false 1 100) (mk_seq 5 true 1 100) 6
           (mk_seq 6 true 1 100)); reflexivity.
Defined.

(** The resync fails whenever [COALESCE(MAX(id), 0)] is outside the
    bounds of the sequence; in particular on an empty [transactions]
    table, since [setval(seq, 0)] is below [MINVALUE 1]. *)
Theorem resync_empty_fails s :
  1 <= min_value s -> resync [] s = Err (SetvalOutOfBounds 0).
Proof. intros Hmin. apply setval_err. simpl. lia. Qed.

Lemma resync_empty_fails_witness :
  1 <= min_value (mk_seq 1 false 1 2147483647) /\
  resync [] (mk_seq 1 false 1 2147483647) = Err (SetvalOutOfBounds 0).
Proof. split; [simpl; lia | apply resync_empty_fails; simpl; lia]. Defined.

End Sequence.

#[export] Hint Rewrite Sequence.next_value_called : tea_rw.
