(* ===== verification/JsValue.v ===== *)
(** * JavaScript values as the Express handlers see them

    [express.json()] turns a request body into a JSON value; the handlers
    of [server.js] read it with destructuring and property access and test
    it with JavaScript truthiness ([!x]), [=== undefined] and
    [Array.isArray].  This file models those values and operations.
    Numbers are fixed-point decimals with two fractional digits: [JNum c]
    is the number [c / 100] (prices, ids and quantities of the program are
    all of this form). *)

From S2P Require Import Prelude.
From Stdlib Require Import Ascii.

Module Js.

#[local] Set Warnings "-register-all".

Inductive jsval :=
| JUndefined
| JNull
| JBool (b : bool)
| JNum (c : Z)                          (** the number [c / 100] *)
| JStr (s : string)
| JArr (l : list jsval)
| JObj (fields : list (string * jsval)).

(** The integer [n] as a JavaScript number. *)
Definition jint (n : Z) : jsval := JNum (100 * n).

(** The error a property access on [null] or [undefined] throws. *)
Inductive js_error := TypeError.

(** Truthiness, the test behind [!x] and [x || y]. *)
Definition truthy (v : jsval) : bool :=
  match v with
  | JUndefined | JNull => false
  | JBool b => b
  | JNum c => negb (c =? 0)
  | JStr s => negb (String.eqb s "")
  | JArr _ | JObj _ => true
  end.

(** [Array.isArray(v)]. *)
Definition is_array (v : jsval) : bool :=
  match v with JArr _ => true | _ => false end.

(** The last binding of [k] in an object literal ([JSON.parse] keeps the
    last of duplicated keys). *)
Definition field (k : string) (fs : list (string * jsval)) : option jsval :=
  foldl (fun acc kv => if String.eqb kv.1 k then Some kv.2 else acc) None fs.

(** [v.k]: a [TypeError] on [null] and [undefined]; [undefined] when an
    object has no such key or a primitive has no such property;
    the [length] of arrays and strings. *)
Definition get_prop (k : string) (v : jsval) : result js_error jsval :=
  match v with
  | JUndefined | JNull => Err TypeError
  | JObj fs => Ok (default JUndefined (field k fs))
  | JArr l => Ok (if String.eqb k "length" then jint (Z.of_nat (length l)) else JUndefined)
  | JStr s => Ok (if String.eqb k "length" then jint (Z.of_nat (String.length s)) else JUndefined)
  | JBool _ | JNum _ => Ok JUndefined
  end.

(** Destructuring [const { k } = body] on a parsed JSON body: the same as
    [body.k]. *)
Definition prop (k : string) (v : jsval) : jsval :=
  match get_prop k v with Ok x => x | Err _ => JUndefined end.

(** [v === undefined]. *)
Definition is_undefined (v : jsval) : bool :=
  match v with JUndefined => true | _ => false end.

(** ** Decimal printing of numbers: [String(n)] *)

Definition digit_char (d : Z) : Ascii.ascii := Ascii.ascii_of_nat (48 + Z.to_nat d).

(** The decimal digits of [n >= 0], most significant first; [fuel]
    bounds the number of digits. *)
Fixpoint digits_aux (fuel : nat) (n : Z) (acc : string) : string :=
  match fuel with
  | O => acc
  | S f => let acc' := String (digit_char (n mod 10)) acc in
           if n <? 10 then acc' else digits_aux f (n / 10) acc'
  end.

Definition digits (n : Z) : string := digits_aux (S (Z.to_nat (Z.log2 n))) n "".

(** [String(c / 100)] for a number of the model: no trailing zeros in
    the fraction and no decimal point for an integer. *)
Definition num_to_string (c : Z) : string :=
  let a := Z.abs c in
  let r := a mod 100 in
  (if c <? 0 then "-" else "") +:+ digits (a / 100) +:+
  (if r =? 0 then ""
   else if r mod 10 =? 0 then String "."%char (String (digit_char (r / 10)) "")
   else String "."%char (String (digit_char (r / 10)) (String (digit_char (r mod 10)) ""))).

Lemma digits_aux_S f n acc :
  digits_aux (S f) n acc =
  if n <? 10 then String (digit_char (n mod 10)) acc else digits_aux f (n / 10) (String (digit_char (n mod 10)) acc).
Proof. reflexivity. Qed.

Lemma digits_aux_app f n acc t : digits_aux f n acc +:+ t = digits_aux f n (acc +:+ t).
Proof.
  revert n acc. induction f as [|f IH]; intros n acc; [done|]. rewrite !digits_aux_S.
  destruct (n <? 10); [reflexivity|]. rewrite IH. reflexivity.
Qed.

Lemma digits_fuel n : 0 <= n -> n < 10 ^ Z.of_nat (S (Z.to_nat (Z.log2 n))).
Proof.
  intros Hn. destruct (Z.eq_dec n 0) as [->|]; [reflexivity|].
  pose proof (Z.log2_spec n ltac:(lia)) as [_ H2]. rewrite Nat2Z.inj_succ, Z2Nat.id by apply Z.log2_nonneg.
  eapply Z.lt_le_trans; [exact H2|]. apply Z.pow_le_mono_l. split; [lia|lia].
Qed.

(** The first character [digits_aux] prints is a digit. *)
Lemma digits_aux_head f n acc : exists d r, 0 <= d <= 9 /\ digits_aux (S f) n acc = String (digit_char d) r.
Proof.
  revert n acc. induction f as [|f IH]; intros n acc; rewrite digits_aux_S.
  - pose proof (Z.mod_pos_bound n 10 ltac:(lia)).
    destruct (n <? 10); exists (n mod 10), acc; split; [lia|reflexivity|lia|reflexivity].
  - destruct (n <? 10); [|apply IH]. pose proof (Z.mod_pos_bound n 10 ltac:(lia)).
    exists (n mod 10), acc. split; [lia|reflexivity].
Qed.

(** ** Number coercions: [String(v)], [isNaN(v)], [parseInt(v)]

    Query-string values are strings (or arrays and objects for repeated
    and bracketed keys).  Only ASCII white space is modelled; the other
    Unicode white-space characters JavaScript also trims are not. *)

(** [String(v)] for the values a query string or a JSON body holds. *)
Fixpoint to_js_string (v : jsval) : string :=
  match v with
  | JUndefined => "undefined"
  | JNull => "null"
  | JBool b => if b then "true" else "false"
  | JNum c => num_to_string c
  | JStr s => s
  | JArr l => String.concat "," (map (fun x => match x with
                                               | JUndefined | JNull => ""
                                               | _ => to_js_string x end) l)
  | JObj _ => "[object Object]"
  end.

Definition js_space (c : Ascii.ascii) : bool :=
  let n := Ascii.nat_of_ascii c in ((9 <=? n) && (n <=? 13))%nat || (n =? 32)%nat.

Fixpoint trim_left (s : string) : string :=
  match s with
  | String c r => if js_space c then trim_left r else s
  | EmptyString => s
  end.

Definition trim (s : string) : string :=
  String.string_of_list_ascii (rev (String.list_ascii_of_string
    (trim_left (String.string_of_list_ascii (rev (String.list_ascii_of_string (trim_left s))))))).

Definition dec_digit (c : Ascii.ascii) : bool :=
  let n := Ascii.nat_of_ascii c in ((48 <=? n) && (n <=? 57))%nat.
Definition radix_digit (radix : nat) (c : Ascii.ascii) : option nat :=
  let n := Ascii.nat_of_ascii c in
  let d := if ((48 <=? n) && (n <=? 57))%nat then Some (n - 48)%nat
           else if ((97 <=? n) && (n <=? 122))%nat then Some (n - 87)%nat
           else if ((65 <=? n) && (n <=? 90))%nat then Some (n - 55)%nat else None in
  match d with Some k => if (k <? radix)%nat then Some k else None | None => None end.

(** Longest prefix of digits of [radix]: its value, its length, the rest. *)
Fixpoint take_radix (radix : nat) (s : string) (acc : Z) (k : nat) : Z * nat * string :=
  match s with
  | String c r => match radix_digit radix c with
                  | Some d => take_radix radix r (Z.of_nat radix * acc + Z.of_nat d) (S k)
                  | None => (acc, k, s)
                  end
  | EmptyString => (acc, k, s)
  end.

Definition char_is (c : Ascii.ascii) (n : nat) : bool := (Ascii.nat_of_ascii c =? n)%nat.

(** The unsigned decimal literal of [StringToNumber], with an optional
    fraction and exponent. *)
Definition dec_literal_ok (s : string) : bool :=
  let '(_, ki, r1) := take_radix 10 s 0 0 in
  let '(kf, r2) := match r1 with
                   | String c r => if char_is c 46 then let '(_, k, r') := take_radix 10 r 0 0 in (k, r')
                                   else (O, r1)
                   | EmptyString => (O, r1) end in
  ((0 <? ki + kf)%nat) &&
  match r2 with
  | EmptyString => true
  | String c r => (char_is c 101 || char_is c 69) &&
      (let r' := match r with
                 | String c' r'' => if char_is c' 43 || char_is c' 45 then r'' else r
                 | EmptyString => r end in
       let '(_, ke, r3) := take_radix 10 r' 0 0 in (0 <? ke)%nat && String.eqb r3 "")
  end.

(** [isNaN] of a string: [StringToNumber] accepts the trimmed empty
    string, [0x]/[0o]/[0b] integers, and signed decimal literals or
    [Infinity]. *)
Definition string_is_nan (s : string) : bool :=
  let t := trim s in
  match t with
  | EmptyString => false
  | String c0 (String c1 rest) =>
      if char_is c0 48 && (char_is c1 120 || char_is c1 88 || char_is c1 111 ||
                           char_is c1 79 || char_is c1 98 || char_is c1 66) then
        let radix := if char_is c1 120 || char_is c1 88 then 16%nat
                     else if char_is c1 111 || char_is c1 79 then 8%nat else 2%nat in
        let '(_, k, r) := take_radix radix rest 0 0 in negb ((0 <? k)%nat && String.eqb r "")
      else
        let u := if char_is c0 43 || char_is c0 45 then String c1 rest else t in
        negb (String.eqb u "Infinity" || dec_literal_ok u)
  | String c0 EmptyString => negb (dec_digit c0)
  end.

(** [isNaN(v)]: [ToNumber] of the value. *)
Definition is_nan (v : jsval) : bool :=
  match v with
  | JUndefined => true
  | JNull | JBool _ | JNum _ => false
  | _ => string_is_nan (to_js_string v)
  end.

(** [parseInt(v)]: [None] is [NaN]. *)
Definition parse_int (v : jsval) : option Z :=
  let s := trim_left (to_js_string v) in
  let '(neg, s1) := match s with
                    | String c r => if char_is c 45 then (true, r)
                                    else if char_is c 43 then (false, r) else (false, s)
                    | EmptyString => (false, s) end in
  let '(radix, s2) := match s1 with
                      | String c0 (String c1 r) =>
                          if char_is c0 48 && (char_is c1 120 || char_is c1 88) then (16%nat, r)
                          else (10%nat, s1)
                      | _ => (10%nat, s1) end in
  let '(n, k, _) := take_radix radix s2 0 0 in
  if (k =? 0)%nat then None else Some (if neg then - n else n).

(** [v === s] for a string literal [s]. *)
Definition js_is (v : jsval) (s : string) : bool :=
  match v with JStr s' => String.eqb s' s | _ => false end.

Lemma js_is_eq v s : js_is v s = true -> v = JStr s.
Proof. destruct v; try done. simpl. by intros ->%String.eqb_eq. Qed.

(** ** Express responses *)

(** [res.status(status).json(body)] and [res.status(status).send(text)]
    (a text body is a [JStr]). *)
Record reply := mk_reply { status : Z; rbody : jsval }.

(** [{ success: false, message: m }] and [{ success: true }]. *)
Definition failure_body (m : string) : jsval :=
  JObj [("success", JBool false); ("message", JStr m)].
Definition success_body : jsval := JObj [("success", JBool true)].
Definition error_body (m : string) : jsval := JObj [("error", JStr m)].

(** What an [axios] request resolves to: the body of a 2xx answer; any
    other status rejects. *)
Definition axios_ok (r : reply) : option jsval :=
  if (200 <=? status r) && (status r <? 300) then Some (rbody r) else None.

Lemma radix_digit_char d : 0 <= d <= 9 -> radix_digit 10 (digit_char d) = Some (Z.to_nat d).
Proof.
  intros Hd. unfold radix_digit, digit_char. rewrite nat_ascii_embedding by lia.
  rewrite (proj2 (Nat.leb_le 48 _)), (proj2 (Nat.leb_le _ 57)) by lia. simpl.
  rewrite (proj2 (Nat.ltb_lt _ 10)) by lia. f_equal. lia.
Qed.

(** [take_radix] reads the digits [digits_aux] prints as the number. *)
Lemma take_radix_digits_aux f n acc a k :
  0 <= n < 10 ^ Z.of_nat (S f) ->
  exists j, (0 < j)%nat /\
    take_radix 10 (digits_aux (S f) n acc) a k = take_radix 10 acc (a * 10 ^ Z.of_nat j + n) (k + j).
Proof.
  revert n acc a k. induction f as [|f IH]; intros n acc a k Hn; rewrite digits_aux_S;
    pose proof (Z.mod_pos_bound n 10 ltac:(lia)) as Hr.
  - rewrite (proj2 (Z.ltb_lt n 10)) by lia. exists 1%nat. split; [lia|]. cbn [take_radix].
    rewrite radix_digit_char, Z2Nat.id by lia. rewrite Z.mod_small by lia. change (Z.of_nat 10) with 10. f_equal; lia.
  - destruct (n <? 10) eqn:E.
    + apply Z.ltb_lt in E. exists 1%nat. split; [lia|]. cbn [take_radix].
      rewrite radix_digit_char, Z2Nat.id by lia. rewrite Z.mod_small by lia. change (Z.of_nat 10) with 10. f_equal; lia.
    + apply Z.ltb_ge in E.
      destruct (IH (n / 10) (String (digit_char (n mod 10)) acc) a k) as (j & Hj & ->).
      { split; [apply Z.div_pos; lia|]. apply Z.div_lt_upper_bound; [lia|].
        rewrite Nat2Z.inj_succ, Z.pow_succ_r in Hn by lia. lia. }
      exists (S j). split; [lia|]. cbn [take_radix]. rewrite radix_digit_char, Z2Nat.id by lia.
      rewrite (Nat2Z.inj_succ j), Z.pow_succ_r by lia. change (Z.of_nat 10) with 10.
      pose proof (Z.div_mod n 10 ltac:(lia)). f_equal; lia.
Qed.

(** The first digit of a positive number is not [0], when the fuel is
    enough for all its digits. *)
Lemma digits_aux_head_pos f n acc :
  1 <= n < 10 ^ Z.of_nat (S f) -> exists d r, 1 <= d <= 9 /\ digits_aux (S f) n acc = String (digit_char d) r.
Proof.
  revert n acc. induction f as [|f IH]; intros n acc Hn; rewrite digits_aux_S.
  - rewrite (proj2 (Z.ltb_lt n 10)) by (simpl in Hn; lia). exists (n mod 10), acc.
    rewrite Z.mod_small by (simpl in Hn; lia). split; [simpl in Hn; lia|reflexivity].
  - destruct (Z.ltb_spec n 10).
    + exists (n mod 10), acc. rewrite Z.mod_small by lia. split; [lia|reflexivity].
    + apply IH. split; [apply Z.div_le_lower_bound; lia|]. apply Z.div_lt_upper_bound; [lia|].
      rewrite Nat2Z.inj_succ, Z.pow_succ_r in Hn by lia. lia.
Qed.

End Js.
