(* ===== verification/PgValue.v ===== *)
(** * Query parameters: from JavaScript values to PostgreSQL columns

    node-postgres sends every query parameter as text ([prepareValue]:
    [null]/[undefined] become SQL [NULL], numbers [String(n)], arrays a
    PostgreSQL array literal, objects [JSON.stringify]); PostgreSQL then
    reads the text with the input function of the column type.  This file
    models that path for the column types of the program: [integer]
    ([int4in]) and [numeric(10,2)] ([numeric_in] with the type modifier:
    rounding half away from zero to two places, at most eight integer
    digits).  Not modelled: the [NaN]/[Infinity] spellings and exponents
    of [numeric_in] (the model rejects them), and the hexadecimal and
    underscore forms PostgreSQL 16 added to [int4in]. *)

From S2P Require Import Prelude Sequence JsValue.
From Stdlib Require Import Ascii.
Import Js.

Module Pg.

Inductive pg_error :=
| InvalidTextRepresentation   (** SQLSTATE 22P02 *)
| NumericValueOutOfRange      (** SQLSTATE 22003 *)
| UniqueViolation             (** SQLSTATE 23505 *)
| SequenceFailure (e : Sequence.seq_error)
| InvalidDatetime             (** SQLSTATE 22007 and 22008 *)
| SyntaxError                 (** SQLSTATE 42601 *)
| UndefinedColumn (c : string). (** SQLSTATE 42703 *)

(** ** JSON text and array literals, as node-postgres builds them *)

Definition hex_char (d : nat) : ascii :=
  if (d <? 10)%nat then ascii_of_nat (48 + d) else ascii_of_nat (87 + d).

(** The characters [\] and the double quote. *)
Definition bslash : ascii := ascii_of_nat 92.
Definition dquote : ascii := ascii_of_nat 34.

(** Escaping of one character inside a JSON string. *)
Definition json_escape_char (c : ascii) : string :=
  let n := nat_of_ascii c in
  if (n =? 34)%nat then String bslash (String dquote "")
  else if (n =? 92)%nat then "\\"
  else if (n =? 10)%nat then "\n"
  else if (n =? 13)%nat then "\r"
  else if (n =? 9)%nat then "\t"
  else if (n =? 8)%nat then "\b"
  else if (n =? 12)%nat then "\f"
  else if (n <? 32)%nat then "\u00" +:+ String (hex_char (n / 16)) (String (hex_char (n mod 16)) "")
  else String c "".

Definition json_quote (s : string) : string :=
  String dquote (String.concat "" (map json_escape_char (String.list_ascii_of_string s)) +:+ String dquote "").

(** [JSON.stringify(v)]: [undefined] is written [null] inside an array and
    its field is left out of an object. *)
Fixpoint json_stringify (v : jsval) : string :=
  match v with
  | JUndefined | JNull => "null"
  | JBool b => if b then "true" else "false"
  | JNum c => num_to_string c
  | JStr s => json_quote s
  | JArr l => "[" +:+ String.concat "," (map json_stringify l) +:+ "]"
  | JObj fs => "{" +:+ String.concat ","
                 (flat_map (fun (kv : string * jsval) =>
                    if is_undefined kv.2 then [] else [json_quote kv.1 +:+ ":" +:+ json_stringify kv.2]) fs)
               +:+ "}"
  end.

(** [escapeElement]: a double-quoted array element with [\\] and the
    double quote escaped by a backslash. *)
Definition escape_element (s : string) : string :=
  String dquote (String.concat "" (map (fun c =>
    if (nat_of_ascii c =? 34)%nat || (nat_of_ascii c =? 92)%nat
    then String bslash (String c "") else String c "") (String.list_ascii_of_string s))
  +:+ String dquote "").

(** [prepareValue(v)]: the text sent for a parameter, [None] for SQL [NULL]. *)
Fixpoint prepare_value (v : jsval) : option string :=
  match v with
  | JUndefined | JNull => None
  | JBool b => Some (if b then "true" else "false")
  | JNum c => Some (num_to_string c)
  | JStr s => Some s
  | JArr l => Some ("{" +:+ String.concat "," (map (fun x =>
                 match x with
                 | JUndefined | JNull => "NULL"
                 | JArr _ => default "" (prepare_value x)
                 | _ => escape_element (default "" (prepare_value x))
                 end) l) +:+ "}")
  | JObj _ => Some (json_stringify v)
  end.

(** ** [int4in] *)

Definition is_space (c : ascii) : bool :=
  let n := nat_of_ascii c in (n =? 32)%nat || ((9 <=? n)%nat && (n <=? 13)%nat).

Definition digit_of (c : ascii) : option Z :=
  let n := nat_of_ascii c in
  if (48 <=? n)%nat && (n <=? 57)%nat then Some (Z.of_nat n - 48) else None.

Fixpoint skip_spaces (s : string) : string :=
  match s with
  | String c r => if is_space c then skip_spaces r else s
  | EmptyString => s
  end.

(** The leading decimal digits of [s] read onto [acc], with their count
    and the rest of the string. *)
Fixpoint read_digits (s : string) (acc : Z) (k : nat) : Z * nat * string :=
  match s with
  | String c r => match digit_of c with
                  | Some d => read_digits r (10 * acc + d) (S k)
                  | None => (acc, k, s)
                  end
  | EmptyString => (acc, k, s)
  end.

(** An optional sign. *)
Definition read_sign (s : string) : bool * string :=
  match s with
  | String c r => if (nat_of_ascii c =? 45)%nat then (true, r)
                  else if (nat_of_ascii c =? 43)%nat then (false, r) else (false, s)
  | EmptyString => (false, s)
  end.

Definition int4_min : Z := -2147483648.
Definition int4_max : Z := 2147483647.

(** [int4in]: spaces, a sign, at least one digit, spaces. *)
Definition int4_in (s : string) : result pg_error Z :=
  let '(neg, s1) := read_sign (skip_spaces s) in
  let '(n, k, rest) := read_digits s1 0 0 in
  let v := if neg then - n else n in
  if (k =? 0)%nat then Err InvalidTextRepresentation
  else if (v <? int4_min) || (int4_max <? v) then Err NumericValueOutOfRange
  else if String.eqb (skip_spaces rest) "" then Ok v
  else Err InvalidTextRepresentation.

(** ** [numeric_in] with type modifier [(10,2)]; the result in hundredths *)

Definition numeric_10_2_in (s : string) : result pg_error Z :=
  let '(neg, s1) := read_sign (skip_spaces s) in
  let '(ip, ki, rest) := read_digits s1 0 0 in
  let '(fp, kf, rest') :=
    match rest with
    | String c r => if (nat_of_ascii c =? 46)%nat then read_digits r 0 0 else (0, O, rest)
    | EmptyString => (0, O, rest)
    end in
  (* the fraction rounded half away from zero to two places *)
  let cents := if (kf <=? 2)%nat then ip * 100 + fp * 10 ^ (2 - Z.of_nat kf)
               else ip * 100 + (fp / 10 ^ (Z.of_nat kf - 3) + 5) / 10 in
  if ((ki + kf) =? 0)%nat then Err InvalidTextRepresentation
  else if negb (String.eqb (skip_spaces rest') "") then Err InvalidTextRepresentation
  else if 10 ^ 10 <=? cents then Err NumericValueOutOfRange
  else Ok (if neg then - cents else cents).

(** A parameter bound to an [integer] column; [None] is SQL [NULL]. *)
Definition to_int4 (v : jsval) : result pg_error (option Z) :=
  match prepare_value v with
  | None => Ok None
  | Some s => match int4_in s with Ok n => Ok (Some n) | Err e => Err e end
  end.

(** A parameter bound to a [numeric(10,2)] column. *)
Definition to_numeric (v : jsval) : result pg_error (option Z) :=
  match prepare_value v with
  | None => Ok None
  | Some s => match numeric_10_2_in s with Ok n => Ok (Some n) | Err e => Err e end
  end.

(** [numeric_in] without a type modifier: the exact value [m / 10^k] as
    [(m, k)] (a parameter compared with a [numeric] expression). *)
Definition numeric_in (s : string) : result pg_error (Z * nat) :=
  let '(neg, s1) := read_sign (skip_spaces s) in
  let '(ip, ki, rest) := read_digits s1 0 0 in
  let '(fp, kf, rest') :=
    match rest with
    | String c r => if (nat_of_ascii c =? 46)%nat then read_digits r 0 0 else (0, O, rest)
    | EmptyString => (0, O, rest)
    end in
  let m := ip * 10 ^ Z.of_nat kf + fp in
  if ((ki + kf) =? 0)%nat then Err InvalidTextRepresentation
  else if negb (String.eqb (skip_spaces rest') "") then Err InvalidTextRepresentation
  else Ok (if neg then - m else m, kf).

(** A parameter bound to a [numeric] comparison. *)
Definition to_numeric_exact (v : jsval) : result pg_error (option (Z * nat)) :=
  match prepare_value v with
  | None => Ok None
  | Some s => match numeric_in s with Ok n => Ok (Some n) | Err e => Err e end
  end.

(** [h BETWEEN lo AND hi] for an integer [h] and exact numerics; a [NULL]
    bound makes the test fail. *)
Definition between (h : Z) (lo hi : option (Z * nat)) : bool :=
  match lo, hi with
  | Some (m1, k1), Some (m2, k2) =>
      (m1 <=? h * 10 ^ Z.of_nat k1) && (h * 10 ^ Z.of_nat k2 <=? m2)
  | _, _ => false
  end.

(** [numeric_out] for a [numeric(10,2)] value in hundredths: node-postgres
    hands [numeric] columns to JavaScript as this text. *)
Definition numeric_out (c : Z) : string :=
  let a := Z.abs c in
  (if c <? 0 then "-" else "") +:+ digits (a / 100) +:+
  String "."%char (String (digit_char (a mod 100 / 10)) (String (digit_char (a mod 10)) "")).

(** ** Reading back what JavaScript prints *)

Lemma digit_of_char d : 0 <= d <= 9 -> digit_of (digit_char d) = Some d.
Proof.
  intros Hd. unfold digit_of, digit_char. rewrite nat_ascii_embedding by lia.
  rewrite (proj2 (Nat.leb_le 48 _)), (proj2 (Nat.leb_le _ 57)) by lia. simpl. f_equal. lia.
Qed.

(** The digits [digits_aux] prints are read back as the number, at least
    one digit of them. *)
Lemma read_digits_aux f n acc a k :
  0 <= n < 10 ^ Z.of_nat (S f) ->
  exists j, (0 < j)%nat /\ read_digits (digits_aux (S f) n acc) a k = read_digits acc (a * 10 ^ Z.of_nat j + n) (k + j).
Proof.
  revert n acc a k. induction f as [|f IH]; intros n acc a k Hn; rewrite digits_aux_S;
    pose proof (Z.mod_pos_bound n 10 ltac:(lia)) as Hr.
  - rewrite (proj2 (Z.ltb_lt n 10)) by lia. exists 1%nat. split; [lia|]. cbn [read_digits].
    rewrite digit_of_char by lia. rewrite Z.mod_small by lia. f_equal; lia.
  - destruct (n <? 10) eqn:E.
    + apply Z.ltb_lt in E. exists 1%nat. split; [lia|]. cbn [read_digits].
      rewrite digit_of_char by lia. rewrite Z.mod_small by lia. f_equal; lia.
    + apply Z.ltb_ge in E.
      destruct (IH (n / 10) (String (digit_char (n mod 10)) acc) a k) as (j & Hj & ->).
      { split; [apply Z.div_pos; lia|]. apply Z.div_lt_upper_bound; [lia|].
        rewrite Nat2Z.inj_succ, Z.pow_succ_r in Hn by lia. lia. }
      exists (S j). split; [lia|]. cbn [read_digits]. rewrite digit_of_char by lia.
      rewrite Nat2Z.inj_succ, Z.pow_succ_r by lia.
      pose proof (Z.div_mod n 10 ltac:(lia)). f_equal; lia.
Qed.

Lemma read_digits_digits n rest a k :
  0 <= n -> exists j, (0 < j)%nat /\ read_digits (digits n +:+ rest) a k = read_digits rest (a * 10 ^ Z.of_nat j + n) (k + j).
Proof. intros Hn. unfold digits. rewrite digits_aux_app. apply read_digits_aux. split; [done|]. by apply digits_fuel. Qed.

Lemma digit_char_not_space d : 0 <= d <= 9 -> is_space (digit_char d) = false.
Proof.
  intros Hd. unfold is_space, digit_char. rewrite nat_ascii_embedding by lia.
  apply orb_false_iff. split; [apply Nat.eqb_neq; lia|apply andb_false_iff; right; apply Nat.leb_gt; lia].
Qed.

(** PostgreSQL's [numeric(10,2)] input reads back a number of the model
    as JavaScript prints it ([String(c / 100)]). *)
Lemma numeric_10_2_in_num_to_string c : Z.abs c < 10 ^ 10 -> numeric_10_2_in (num_to_string c) = Ok c.
Proof.
  intros Hc. unfold num_to_string.
  pose proof (Z.mod_pos_bound (Z.abs c) 100 ltac:(lia)) as Hr.
  pose proof (Z.div_mod (Z.abs c) 100 ltac:(lia)) as Ha.
  set (frac := if Z.abs c mod 100 =? 0 then "" else _).
  destruct (read_digits_digits (Z.abs c / 100) frac 0 0) as (j & Hj & Hread); [apply Z.div_pos; lia|].
  rewrite Z.mul_0_l, Z.add_0_l in Hread.
  destruct (digits_aux_head (Z.to_nat (Z.log2 (Z.abs c / 100))) (Z.abs c / 100) "") as (d & r0 & Hd & Hhead).
  assert (Hsign : read_sign (skip_spaces ((if c <? 0 then "-" else "") +:+ digits (Z.abs c / 100) +:+ frac))
                 = (c <? 0, digits (Z.abs c / 100) +:+ frac)).
  { unfold digits. rewrite Hhead. destruct (c <? 0); [reflexivity|].
    change ("" +:+ String (digit_char d) r0 +:+ frac) with (String (digit_char d) (r0 +:+ frac)).
    cbn [skip_spaces]. rewrite digit_char_not_space by done.
    unfold read_sign, digit_char. rewrite nat_ascii_embedding by lia.
    rewrite (proj2 (Nat.eqb_neq _ 45)), (proj2 (Nat.eqb_neq _ 43)) by lia. reflexivity. }
  assert (Hd10 : 0 <= Z.abs c mod 100 / 10 <= 9)
    by (split; [apply Z.div_pos; lia|apply Z.lt_succ_r, Z.div_lt_upper_bound; lia]).
  assert (Hm10 : 0 <= (Z.abs c mod 100) mod 10 <= 9) by (pose proof (Z.mod_pos_bound (Z.abs c mod 100) 10); lia).
  pose proof (Z.div_mod (Z.abs c mod 100) 10 ltac:(lia)) as Hr10.
  unfold numeric_10_2_in. rewrite Hsign. lazy beta iota. rewrite Hread.
  unfold frac. destruct (Z.abs c mod 100 =? 0) eqn:E0; [|destruct ((Z.abs c mod 100) mod 10 =? 0) eqn:E1];
    cbn -[digit_char digit_of Z.mul Z.add Z.pow]; change (digit_of ".") with (@None Z);
    cbn -[digit_char digit_of Z.mul Z.add Z.pow]; rewrite ?digit_of_char by done;
    cbn -[digit_char digit_of Z.mul Z.add Z.pow]; change ((nat_of_ascii "." =? 46)%nat) with true;
    cbn -[digit_char digit_of Z.mul Z.add Z.pow]; rewrite (proj2 (Nat.eqb_neq _ 0)) by lia;
    [apply Z.eqb_eq in E0|apply Z.eqb_eq in E1|apply Z.eqb_neq in E1];
    match goal with |- context [10 ^ 10 <=? ?x] => replace x with (Z.abs c) by (simpl Z.pow; lia) end;
    rewrite (proj2 (Z.leb_gt _ _)) by lia; f_equal; destruct (Z.ltb_spec c 0); lia.
Qed.

End Pg.
