(* ===== verification/Json.v ===== *)
(** * JSON text: [JSON.parse], and its round trip with [JSON.stringify]

    The front end keeps its cart in [localStorage] as the text
    [JSON.stringify] writes and reads it back with [JSON.parse]
    ([Menu.js] line 32, [Cart.js] line 10); [express.json()] and [axios]
    read request and answer bodies the same way.  [parse_value] is the
    grammar of RFC 8259 by recursive descent, with fuel: [json_parse]
    gives it twice the length of the text, plus one, which
    [parse_fuel] shows is always enough.  A number is read as the
    model's [JNum c] when its value is a whole number [c] of hundredths
    with [|c| < 10^15] (the double [JSON.parse] returns is then the one
    nearest to [c / 100]); other numbers, and [\u] escapes above 255
    (the model's strings are strings of bytes), are outside the model. *)

From S2P Require Import Prelude JsValue PgValue.
From Stdlib Require Import Ascii.
Import Js Pg.

Module Json.

Inductive json_error :=
| JsonSyntax       (** the [SyntaxError] [JSON.parse] throws *)
| JsonOutOfModel   (** a value the model does not represent *)
| JsonFuel.        (** the fuel ran out *)

#[export] Instance json_error_eq_dec : EqDecision json_error.
Proof. solve_decision. Defined.

(** ** Lexical level *)

(** The white space of JSON: space, tab, line feed, carriage return. *)
Definition json_ws (c : ascii) : bool := char_is c 32 || char_is c 9 || char_is c 10 || char_is c 13.

Fixpoint skip_ws (s : string) : string :=
  match s with String c r => if json_ws c then skip_ws r else s | EmptyString => s end.

Fixpoint strip_prefix (p s : string) : option string :=
  match p, s with
  | EmptyString, _ => Some s
  | String a p', String b s' => if Ascii.eqb a b then strip_prefix p' s' else None
  | _, _ => None
  end.

Definition hex_val (c : ascii) : option nat :=
  let n := nat_of_ascii c in
  if ((48 <=? n) && (n <=? 57))%nat then Some (n - 48)%nat
  else if ((97 <=? n) && (n <=? 102))%nat then Some (n - 87)%nat
  else if ((65 <=? n) && (n <=? 70))%nat then Some (n - 55)%nat else None.

(** [\u h1 h2 h3 h4]: the code unit, when it is a byte. *)
Definition unicode_escape (h1 h2 h3 h4 : ascii) : result json_error ascii :=
  match hex_val h1, hex_val h2, hex_val h3, hex_val h4 with
  | Some a, Some b, Some c, Some d =>
      let n := (a * 4096 + b * 256 + c * 16 + d)%nat in
      if (n <? 256)%nat then Ok (ascii_of_nat n) else Err JsonOutOfModel
  | _, _, _, _ => Err JsonSyntax
  end.

(** The one-letter escapes: a backslash followed by the double quote,
    the backslash, the slash, or one of [b f n r t]. *)
Definition simple_escape (e : ascii) : option ascii :=
  let n := nat_of_ascii e in
  if (n =? 34)%nat || (n =? 92)%nat || (n =? 47)%nat then Some e
  else if (n =? 98)%nat then Some (ascii_of_nat 8)
  else if (n =? 102)%nat then Some (ascii_of_nat 12)
  else if (n =? 110)%nat then Some (ascii_of_nat 10)
  else if (n =? 114)%nat then Some (ascii_of_nat 13)
  else if (n =? 116)%nat then Some (ascii_of_nat 9)
  else None.

Definition cons_char (c : ascii) (x : result json_error (string * string)) : result json_error (string * string) :=
  match x with Ok (t, r) => Ok (String c t, r) | Err e => Err e end.

(** The characters of a string literal after its opening quote, through
    its closing quote; a raw control character is an error. *)
Fixpoint parse_chars (s : string) : result json_error (string * string) :=
  match s with
  | EmptyString => Err JsonSyntax
  | String c r =>
      if char_is c 34 then Ok (EmptyString, r)
      else if char_is c 92 then
        match r with
        | String e r1 =>
            match simple_escape e with
            | Some c' => cons_char c' (parse_chars r1)
            | None =>
                if char_is e 117 then
                  match r1 with
                  | String h1 (String h2 (String h3 (String h4 r2))) =>
                      match unicode_escape h1 h2 h3 h4 with
                      | Ok c' => cons_char c' (parse_chars r2)
                      | Err x => Err x
                      end
                  | _ => Err JsonSyntax
                  end
                else Err JsonSyntax
            end
        | EmptyString => Err JsonSyntax
        end
      else if (nat_of_ascii c <? 32)%nat then Err JsonSyntax
      else cons_char c (parse_chars r)
  end.

(** The exponent part [e[+-]digits], when there is one. *)
Definition parse_exponent (s : string) : option (Z * string) :=
  match s with
  | String c r =>
      if char_is c 101 || char_is c 69 then
        let '(sg, r') := match r with
                         | String c' r'' => if char_is c' 45 then (-1, r'') else if char_is c' 43 then (1, r'') else (1, r)
                         | EmptyString => (1, r)
                         end in
        let '(ev, ke, r3) := take_radix 10 r' 0 0 in
        if (ke =? 0)%nat then None else Some (sg * ev, r3)
      else Some (0, s)
  | EmptyString => Some (0, s)
  end.

(** The fraction part [.digits], when there is one. *)
Definition parse_fraction (s : string) : option (Z * nat * string) :=
  match s with
  | String c r =>
      if char_is c 46 then
        let '(fp, kf, r2) := take_radix 10 r 0 0 in
        if (kf =? 0)%nat then None else Some (fp, kf, r2)
      else Some (0, O, s)
  | EmptyString => Some (0, O, s)
  end.

(** [m * 10^x] in hundredths, when it is a whole number of them below
    [10^15]. *)
Definition to_hundredths (m x : Z) : option Z :=
  let y := x + 2 in
  let c := if 15 <? y then (if m =? 0 then Some 0 else None)
           else if 0 <=? y then Some (m * 10 ^ y)
           else if m mod 10 ^ (- y) =? 0 then Some (m / 10 ^ (- y)) else None in
  match c with Some c => if 10 ^ 15 <=? c then None else Some c | None => None end.

(** A number: [-]? then [0] or digits not starting with [0], then an
    optional fraction and exponent. *)
Definition parse_number (s : string) : result json_error (jsval * string) :=
  let '(neg, s1) := match s with
                    | String c r => if char_is c 45 then (true, r) else (false, s)
                    | EmptyString => (false, s)
                    end in
  let '(ip, ki, r1) := take_radix 10 s1 0 0 in
  let lead0 := match s1 with String c _ => char_is c 48 | EmptyString => false end in
  if (ki =? 0)%nat || (lead0 && (1 <? ki)%nat) then Err JsonSyntax else
  match parse_fraction r1 with
  | None => Err JsonSyntax
  | Some (fp, kf, r2) =>
      match parse_exponent r2 with
      | None => Err JsonSyntax
      | Some (x, r3) =>
          match to_hundredths (ip * 10 ^ Z.of_nat kf + fp) (x - Z.of_nat kf) with
          | Some c => Ok (JNum (if neg then - c else c), r3)
          | None => Err JsonOutOfModel
          end
      end
  end.

(** Setting a property: an existing key keeps its place and takes the
    new value, a new key goes last. *)
Fixpoint obj_set (k : string) (v : jsval) (fs : list (string * jsval)) : list (string * jsval) :=
  match fs with
  | [] => [(k, v)]
  | (k', v') :: r => if String.eqb k k' then (k, v) :: r else (k', v') :: obj_set k v r
  end.

Definition parse_literal (word : string) (v : jsval) (s : string) : result json_error (jsval * string) :=
  match strip_prefix word s with Some r => Ok (v, r) | None => Err JsonSyntax end.

(** ** Values, arrays and objects *)

(** A value after optional white space; [parse_elements] and
    [parse_members] continue an array after its [\[] or a [,], and an
    object after its [{] or a [,]. *)
Fixpoint parse_value (fuel : nat) (s : string) : result json_error (jsval * string) :=
  match fuel with
  | O => Err JsonFuel
  | S f =>
      match skip_ws s with
      | EmptyString => Err JsonSyntax
      | String c r =>
          if char_is c 110 then parse_literal "ull" JNull r
          else if char_is c 116 then parse_literal "rue" (JBool true) r
          else if char_is c 102 then parse_literal "alse" (JBool false) r
          else if char_is c 34 then
            match parse_chars r with Ok (t, r') => Ok (JStr t, r') | Err e => Err e end
          else if char_is c 91 then
            match skip_ws r with
            | String c' r' => if char_is c' 93 then Ok (JArr [], r') else parse_elements f r []
            | EmptyString => Err JsonSyntax
            end
          else if char_is c 123 then
            match skip_ws r with
            | String c' r' => if char_is c' 125 then Ok (JObj [], r') else parse_members f r []
            | EmptyString => Err JsonSyntax
            end
          else parse_number (String c r)
      end
  end
with parse_elements (fuel : nat) (s : string) (acc : list jsval) : result json_error (jsval * string) :=
  match fuel with
  | O => Err JsonFuel
  | S f =>
      match parse_value f s with
      | Err e => Err e
      | Ok (v, r) =>
          match skip_ws r with
          | String c r' =>
              if char_is c 44 then parse_elements f r' (acc ++ [v])
              else if char_is c 93 then Ok (JArr (acc ++ [v]), r')
              else Err JsonSyntax
          | EmptyString => Err JsonSyntax
          end
      end
  end
with parse_members (fuel : nat) (s : string) (acc : list (string * jsval)) : result json_error (jsval * string) :=
  match fuel with
  | O => Err JsonFuel
  | S f =>
      match skip_ws s with
      | String q r =>
          if char_is q 34 then
            match parse_chars r with
            | Err e => Err e
            | Ok (k, r1) =>
                match skip_ws r1 with
                | String col r2 =>
                    if char_is col 58 then
                      match parse_value f r2 with
                      | Err e => Err e
                      | Ok (v, r3) =>
                          match skip_ws r3 with
                          | String c r4 =>
                              if char_is c 44 then parse_members f r4 (obj_set k v acc)
                              else if char_is c 125 then Ok (JObj (obj_set k v acc), r4)
                              else Err JsonSyntax
                          | EmptyString => Err JsonSyntax
                          end
                      end
                    else Err JsonSyntax
                | EmptyString => Err JsonSyntax
                end
            end
          else Err JsonSyntax
      | EmptyString => Err JsonSyntax
      end
  end.

(** [JSON.parse(s)]: one value, then only white space. *)
Definition json_parse (s : string) : result json_error jsval :=
  match parse_value (S (2 * String.length s)) s with
  | Ok (v, r) => if String.eqb (skip_ws r) "" then Ok v else Err JsonSyntax
  | Err e => Err e
  end.

(** What may follow a value inside the text [JSON.stringify] writes: the
    end, a comma, or a closing bracket or brace. *)
Definition json_delim (s : string) : bool :=
  match s with EmptyString => true | String c _ => char_is c 44 || char_is c 93 || char_is c 125 end.

(** The value [JSON.parse] gives back for the text of [v]: [undefined]
    is [null] in an array, and its field is gone from an object. *)
Fixpoint json_normal (v : jsval) : jsval :=
  match v with
  | JUndefined => JNull
  | JArr l => JArr (map json_normal l)
  | JObj fs => JObj (flat_map (fun (kv : string * jsval) =>
                       if is_undefined kv.2 then [] else [(kv.1, json_normal kv.2)]) fs)
  | _ => v
  end.

(** The values whose text reads back: numbers of the model, and objects
    whose written keys are distinct. *)
Fixpoint json_ok (v : jsval) : bool :=
  match v with
  | JNum c => Z.abs c <? 10 ^ 15
  | JArr l => forallb json_ok l
  | JObj fs => bool_decide (NoDup (flat_map (fun (kv : string * jsval) =>
                                     if is_undefined kv.2 then [] else [kv.1]) fs))
               && forallb (fun kv => json_ok kv.2) fs
  | _ => true
  end.

(** ** Fuel *)

(** A run that did not run out of fuel, and whose rest is shorter than
    [len]. *)
Definition fuel_ok (x : result json_error (jsval * string)) (len : nat) : Prop :=
  match x with
  | Err JsonFuel => False
  | Err _ => True
  | Ok (_, r) => (String.length r < len)%nat
  end.

Lemma skip_ws_length s : (String.length (skip_ws s) <= String.length s)%nat.
Proof. induction s as [|c s IH]; simpl; [done|]. destruct (json_ws c); simpl; lia. Qed.

Lemma take_radix_length rd s a k v k' r :
  take_radix rd s a k = (v, k', r) -> (String.length r + k' = String.length s + k)%nat.
Proof.
  revert a k. induction s as [|c s IH]; intros a k; simpl; [by intros [= <- <- <-]|].
  destruct (radix_digit rd c); [intros H; apply IH in H; lia|]. intros [= <- <- <-]. simpl. lia.
Qed.

Lemma strip_prefix_length p s r : strip_prefix p s = Some r -> (String.length r <= String.length s)%nat.
Proof.
  revert s. induction p as [|a p IH]; intros [|b s]; simpl; try by intros [= <-].
  destruct (Ascii.eqb a b); [intros H; apply IH in H; lia|done].
Qed.

(** [parse_chars] never runs out and consumes its input. *)
Lemma parse_chars_fuel s :
  parse_chars s <> Err JsonFuel /\ forall t r, parse_chars s = Ok (t, r) -> (String.length r < String.length s)%nat.
Proof.
  remember (String.length s) as n eqn:Hn. revert s Hn. induction n as [n IH] using lt_wf_ind.
  intros [|c s] Hn; subst n; [done|]. simpl. destruct (char_is c 34); [split; [done|]; by intros ? ? [= _ <-]; simpl; lia|].
  assert (Hcons : forall c' u, (String.length u < String.length (String c s))%nat ->
            cons_char c' (parse_chars u) <> Err JsonFuel /\
            forall t r, cons_char c' (parse_chars u) = Ok (t, r) -> (String.length r < String.length (String c s))%nat).
  { intros c' u Hu. destruct (IH (String.length u) Hu u eq_refl) as [H1 H2]. destruct (parse_chars u) as [[t0 r0]|e]; simpl; [|done].
    split; [done|]. intros t r [= <- <-]. specialize (H2 _ _ eq_refl). simpl in Hu. lia. }
  destruct (char_is c 92).
  - destruct s as [|e r1]; [done|]. destruct (simple_escape e); [apply Hcons; simpl; lia|].
    destruct (char_is e 117); [|done].
    destruct r1 as [|h1 [|h2 [|h3 [|h4 r2]]]]; try done.
    destruct (unicode_escape h1 h2 h3 h4) eqn:Eu; [apply Hcons; simpl; lia|].
    split; [|done]. unfold unicode_escape in Eu. repeat case_match; congruence.
  - destruct (nat_of_ascii c <? 32)%nat; [done|]. apply Hcons. simpl. lia.
Qed.

Lemma parse_number_fuel s : fuel_ok (parse_number s) (String.length s).
Proof.
  unfold parse_number, fuel_ok.
  destruct (match s with String c r => _ | EmptyString => _ end) as [neg s1] eqn:Hs.
  assert (Hs1 : (String.length s1 <= String.length s)%nat)
    by (destruct s as [|c r]; [by simplify_eq|]; destruct (char_is c 45); simplify_eq; simpl; lia).
  destruct (take_radix 10 s1 0 0) as [[ip ki] r1] eqn:Hr1. apply take_radix_length in Hr1.
  destruct (_ || _)%bool eqn:Hk; [done|]. apply orb_false_iff in Hk as [Hk _]. apply Nat.eqb_neq in Hk.
  destruct (parse_fraction r1) as [[[fp kf] r2]|] eqn:Hf; [|done].
  assert (Hr2 : (String.length r2 <= String.length r1)%nat).
  { destruct r1 as [|c r]; simpl in Hf; [by simplify_eq|]. destruct (char_is c 46); [|simplify_eq; lia].
    destruct (take_radix 10 r 0 0) as [[? ?] ?] eqn:Ht. apply take_radix_length in Ht.
    destruct (_ =? 0)%nat; simplify_eq. simpl. lia. }
  destruct (parse_exponent r2) as [[x r3]|] eqn:He; [|done].
  assert (Hr3 : (String.length r3 <= String.length r2)%nat).
  { destruct r2 as [|c r]; simpl in He; [by simplify_eq|]. destruct (_ || _)%bool; [|simplify_eq; lia].
    destruct (match r with String c' r'' => _ | EmptyString => _ end) as [sg r'] eqn:Hsg.
    assert (String.length r' <= String.length r)%nat
      by (destruct r as [|c' r'']; [by simplify_eq|]; repeat destruct (char_is c' _); simplify_eq; simpl; lia).
    destruct (take_radix 10 r' 0 0) as [[? ?] ?] eqn:Ht. apply take_radix_length in Ht.
    destruct (_ =? 0)%nat; simplify_eq. simpl. lia. }
  destruct (to_hundredths _ _); [lia|done].
Qed.

Lemma parse_literal_fuel w v s len :
  (String.length s < len)%nat -> fuel_ok (parse_literal w v s) len.
Proof.
  unfold parse_literal, fuel_ok. destruct (strip_prefix w s) eqn:E; [|done].
  apply strip_prefix_length in E. lia.
Qed.

Lemma skip_ws_cons s c r : skip_ws s = String c r -> (String.length r < String.length s)%nat.
Proof. intros H. pose proof (skip_ws_length s) as L. rewrite H in L. simpl in L. lia. Qed.

Lemma parse_chars_fuel_ok r len :
  (String.length r < len)%nat ->
  fuel_ok (match parse_chars r with Ok (t, r') => Ok (JStr t, r') | Err e => Err e end) len.
Proof.
  intros Hr. destruct (parse_chars_fuel r) as [H1 H2].
  destruct (parse_chars r) as [[t r']|[]]; simpl; try done.
  specialize (H2 _ _ eq_refl). lia.
Qed.

(** Fuel [n] is enough for a value in a text shorter than [n / 2], and for
    the rest of an array or object in a text shorter than [(n - 1) / 2];
    the rest of a run is shorter than its text. *)
Lemma parse_fuel n :
  (forall s, (2 * String.length s < n)%nat -> fuel_ok (parse_value n s) (String.length s)) /\
  (forall s acc, (2 * String.length s + 1 < n)%nat -> fuel_ok (parse_elements n s acc) (String.length s)) /\
  (forall s acc, (2 * String.length s + 1 < n)%nat -> fuel_ok (parse_members n s acc) (String.length s)).
Proof.
  induction n as [|f IH]; [split_and!; intros; lia|]. destruct IH as (IHv & IHe & IHm). split_and!.
  - intros s Hs. simpl. pose proof (skip_ws_length s) as Ls.
    destruct (skip_ws s) as [|c r] eqn:Ew; [done|]. simpl in Ls.
    destruct (char_is c 110); [apply parse_literal_fuel; lia|].
    destruct (char_is c 116); [apply parse_literal_fuel; lia|].
    destruct (char_is c 102); [apply parse_literal_fuel; lia|].
    destruct (char_is c 34); [apply parse_chars_fuel_ok; lia|].
    destruct (char_is c 91).
    { destruct (skip_ws r) as [|c' r'] eqn:Ew'; [done|]. apply skip_ws_cons in Ew'.
      destruct (char_is c' 93); [simpl; lia|].
      pose proof (IHe r [] ltac:(lia)) as H. destruct (parse_elements f r []) as [[? ?]|e]; [simpl in *; lia|exact H]. }
    destruct (char_is c 123).
    { destruct (skip_ws r) as [|c' r'] eqn:Ew'; [done|]. apply skip_ws_cons in Ew'.
      destruct (char_is c' 125); [simpl; lia|].
      pose proof (IHm r [] ltac:(lia)) as H. destruct (parse_members f r []) as [[? ?]|e]; [simpl in *; lia|exact H]. }
    pose proof (parse_number_fuel (String c r)) as H.
    destruct (parse_number _) as [[? ?]|e]; [simpl in *; lia|exact H].
  - intros s acc Hs. simpl. pose proof (IHv s ltac:(lia)) as H.
    destruct (parse_value f s) as [[v r]|e]; [simpl in H|exact H].
    destruct (skip_ws r) as [|c r'] eqn:Ew; [done|]. apply skip_ws_cons in Ew.
    destruct (char_is c 44).
    + pose proof (IHe r' (acc ++ [v]) ltac:(lia)) as H'.
      destruct (parse_elements f r' _) as [[? ?]|e]; [simpl in *; lia|exact H'].
    + destruct (char_is c 93); simpl; [lia|done].
  - intros s acc Hs. simpl. destruct (skip_ws s) as [|q r] eqn:Ew; [done|]. apply skip_ws_cons in Ew.
    destruct (char_is q 34); [|done].
    destruct (parse_chars_fuel r) as [H1 H2].
    destruct (parse_chars r) as [[k r1]|e]; [|destruct e; [done|done|exact (H1 eq_refl)]].
    specialize (H2 _ _ eq_refl).
    destruct (skip_ws r1) as [|col r2] eqn:Ew1; [done|]. apply skip_ws_cons in Ew1.
    destruct (char_is col 58); [|done].
    pose proof (IHv r2 ltac:(lia)) as H. destruct (parse_value f r2) as [[v r3]|e]; [simpl in H|exact H].
    destruct (skip_ws r3) as [|c r4] eqn:Ew3; [done|]. apply skip_ws_cons in Ew3.
    destruct (char_is c 44).
    + pose proof (IHm r4 (obj_set k v acc) ltac:(lia)) as H'.
      destruct (parse_members f r4 _) as [[? ?]|e]; [simpl in *; lia|exact H'].
    + destruct (char_is c 125); simpl; [lia|done].
Qed.

Lemma json_parse_no_fuel s : json_parse s <> Err JsonFuel.
Proof.
  unfold json_parse. pose proof (proj1 (parse_fuel (S (2 * String.length s))) s ltac:(lia)) as H.
  destruct (parse_value _ s) as [[v r]|e]; [by destruct (String.eqb _ _)|]. by intros [= ->].
Qed.

(** ** The round trip *)

(** [parse_chars] reads back each escaped character. *)
Lemma parse_chars_escape c t : parse_chars (json_escape_char c +:+ t) = cons_char c (parse_chars t).
Proof. destruct c as [[] [] [] [] [] [] [] []]; reflexivity. Qed.

Lemma concat_empty_cons x l : String.concat "" (x :: l) = x +:+ String.concat "" l.
Proof. destruct l; [by rewrite string_app_nil_r|reflexivity]. Qed.

(** [parse_chars] reads back a string [json_quote] wrote. *)
Lemma parse_chars_quote s rest :
  parse_chars (String.concat "" (map json_escape_char (String.list_ascii_of_string s)) +:+ String dquote rest) = Ok (s, rest).
Proof.
  induction s as [|c s IH]; [reflexivity|]. cbn [String.list_ascii_of_string map].
  rewrite concat_empty_cons, string_app_assoc, parse_chars_escape, IH. reflexivity.
Qed.

Lemma json_quote_app s rest :
  json_quote s +:+ rest = String dquote (String.concat "" (map json_escape_char (String.list_ascii_of_string s)) +:+ String dquote rest).
Proof.
  unfold json_quote. set (X := String.concat _ _).
  change (String dquote (X +:+ String dquote "") +:+ rest) with (String dquote ((X +:+ String dquote "") +:+ rest)).
  by rewrite string_app_assoc.
Qed.

Lemma char_is_digit_char d n : 0 <= d <= 9 -> (n <> 48 + Z.to_nat d)%nat -> char_is (digit_char d) n = false.
Proof. intros Hd Hn. unfold char_is, digit_char. rewrite nat_ascii_embedding by lia. apply Nat.eqb_neq. lia. Qed.

(** After a delimiter the number has ended. *)
Lemma json_delim_stop t a k :
  json_delim t = true ->
  take_radix 10 t a k = (a, k, t) /\ parse_fraction t = Some (0, O, t) /\ parse_exponent t = Some (0, t).
Proof.
  destruct t as [|c t]; [done|]. simpl. unfold char_is. intros H.
  repeat (apply orb_true_iff in H as [H|H]); apply Nat.eqb_eq in H;
    rewrite <- (ascii_nat_embedding c), H; split_and!; reflexivity.
Qed.

(** The integer part [digits n] reads back as [n], and it does not start
    with the [0] the grammar forbids before other digits. *)
Lemma take_radix_digits n t :
  0 <= n -> exists j, (0 < j)%nat /\
    take_radix 10 (digits n +:+ t) 0 0 = take_radix 10 t n j /\
    (match digits n +:+ t with String c _ => char_is c 48 | EmptyString => false end && (1 <? j)%nat)%bool = false.
Proof.
  intros Hn. destruct (Z.eq_dec n 0) as [->|Hn0]; [exists 1%nat; split; [lia|split; reflexivity]|].
  unfold digits. rewrite digits_aux_app. change ("" +:+ t) with t.
  destruct (take_radix_digits_aux (Z.to_nat (Z.log2 n)) n t 0 0) as (j & Hj & Ht); [split; [lia|by apply digits_fuel]|].
  exists j. split; [done|]. split; [rewrite Ht; by replace (0 * _ + n) with n by lia|].
  destruct (digits_aux_head_pos (Z.to_nat (Z.log2 n)) n t) as (d & r & Hd & ->); [split; [lia|by apply digits_fuel]|].
  by rewrite char_is_digit_char by lia.
Qed.

Lemma digits_head n t : 0 <= n -> exists d r, 0 <= d <= 9 /\ digits n +:+ t = String (digit_char d) r.
Proof. intros Hn. unfold digits. rewrite digits_aux_app. apply digits_aux_head. Qed.

Lemma to_hundredths_ok m x y :
  x + 2 = y -> 0 <= y <= 2 -> 0 <= m -> m * 10 ^ y < 10 ^ 15 -> to_hundredths m x = Some (m * 10 ^ y).
Proof.
  intros <- Hy Hm Hb. unfold to_hundredths. rewrite (proj2 (Z.ltb_ge _ _)), (proj2 (Z.leb_le 0 _)) by lia.
  by rewrite (proj2 (Z.leb_gt _ _)) by lia.
Qed.

(** [parse_number] reads back what [num_to_string] wrote. *)
Lemma parse_number_num c rest :
  Z.abs c < 10 ^ 15 -> json_delim rest = true -> parse_number (num_to_string c +:+ rest) = Ok (JNum c, rest).
Proof.
  intros Hc Hd. unfold num_to_string. set (a := Z.abs c). set (n := a / 100). set (r := a mod 100).
  pose proof (Z.mod_pos_bound a 100 ltac:(lia)) as Hr. assert (Hn : 0 <= n) by (apply Z.div_pos; lia).
  pose proof (Z.div_mod a 100 ltac:(lia)) as Ha. fold n r in Ha.
  set (frac := if r =? 0 then "" else _). rewrite !string_app_assoc.
  set (X := digits n +:+ (frac +:+ rest)).
  assert (Hs : (if c <? 0 then "-" else "") +:+ X = if c <? 0 then String "-" X else X) by (by destruct (c <? 0)).
  destruct (digits_head n (frac +:+ rest) Hn) as (d & r0 & Hd0 & Hx). fold X in Hx.
  destruct (take_radix_digits n (frac +:+ rest) Hn) as (j & Hj & Ht & Hl). fold X in Ht, Hl.
  unfold parse_number. rewrite Hs.
  replace (match (if c <? 0 then String "-" X else X) with String c0 r1 => _ | EmptyString => _ end)
    with (c <? 0, X) by (destruct (c <? 0); [reflexivity|rewrite Hx, char_is_digit_char by lia; reflexivity]).
  cbv beta iota zeta. rewrite Ht.
  assert (Hf : take_radix 10 (frac +:+ rest) n j = (n, j, frac +:+ rest)).
  { unfold frac. destruct (r =? 0); [by apply json_delim_stop|]. destruct (r mod 10 =? 0); reflexivity. }
  rewrite Hf. cbv beta iota zeta. rewrite Hl, (proj2 (Nat.eqb_neq j 0)) by lia. cbn [orb].
  destruct (json_delim_stop rest 0 O Hd) as (_ & Hfr & Hex).
  pose proof (Z.mod_pos_bound r 10 ltac:(lia)). pose proof (Z.div_mod r 10 ltac:(lia)).
  assert (r / 10 < 10) by (apply Z.div_lt_upper_bound; lia). assert (0 <= r / 10) by (apply Z.div_pos; lia).
  unfold frac. destruct (r =? 0) eqn:E0; [|destruct (r mod 10 =? 0) eqn:E1].
  - change ("" +:+ rest) with rest. rewrite Hfr. cbv beta iota zeta. rewrite Hex. cbv beta iota zeta.
    apply Z.eqb_eq in E0. rewrite (to_hundredths_ok _ _ 2) by (simpl; lia). change (Z.of_nat 0) with 0; change (Z.of_nat 1) with 1; change (Z.of_nat 2) with 2.
    rewrite ?Z.pow_0_r, ?Z.pow_1_r. try change (10 ^ 2) with 100. unfold a in Ha.
    replace (if c <? 0 then _ else _) with c; [reflexivity|]. destruct (Z.ltb_spec c 0); lia.
  - change (String "." (String (digit_char (r / 10)) "") +:+ rest) with (String "." (String (digit_char (r / 10)) rest)).
    cbn [parse_fraction]. change (char_is "." 46) with true. cbn [take_radix].
    rewrite radix_digit_char, Z2Nat.id by lia. rewrite (proj1 (json_delim_stop rest _ _ Hd)). cbn [Nat.eqb].
    cbv beta iota zeta. rewrite Hex. cbv beta iota zeta.
    apply Z.eqb_eq in E1. rewrite (to_hundredths_ok _ _ 1) by (simpl; lia). change (Z.of_nat 0) with 0; change (Z.of_nat 1) with 1; change (Z.of_nat 2) with 2.
    rewrite ?Z.pow_0_r, ?Z.pow_1_r. try change (10 ^ 2) with 100. unfold a in Ha.
    replace (if c <? 0 then _ else _) with c; [reflexivity|]. destruct (Z.ltb_spec c 0); lia.
  - change (String "." (String (digit_char (r / 10)) (String (digit_char (r mod 10)) "")) +:+ rest)
      with (String "." (String (digit_char (r / 10)) (String (digit_char (r mod 10)) rest))).
    cbn [parse_fraction]. change (char_is "." 46) with true. cbn [take_radix].
    rewrite !radix_digit_char, !Z2Nat.id by lia. rewrite (proj1 (json_delim_stop rest _ _ Hd)). cbn [Nat.eqb].
    cbv beta iota zeta. rewrite Hex. cbv beta iota zeta.
    rewrite (to_hundredths_ok _ _ 0) by (simpl; lia). change (Z.of_nat 0) with 0; change (Z.of_nat 1) with 1; change (Z.of_nat 2) with 2.
    rewrite ?Z.pow_0_r, ?Z.pow_1_r. try change (10 ^ 2) with 100. unfold a in Ha.
    replace (if c <? 0 then _ else _) with c; [reflexivity|]. destruct (Z.ltb_spec c 0); lia.
Qed.

(** ** Induction on nested values *)

Section jsval_nested.
  Variable P : jsval -> Prop.
  Hypothesis HUndefined : P JUndefined.
  Hypothesis HNull : P JNull.
  Hypothesis HBool : forall b, P (JBool b).
  Hypothesis HNum : forall c, P (JNum c).
  Hypothesis HStr : forall s, P (JStr s).
  Hypothesis HArr : forall l, Forall P l -> P (JArr l).
  Hypothesis HObj : forall fs, Forall (fun kv => P kv.2) fs -> P (JObj fs).

Fixpoint jsval_nested_ind (v : jsval) : P v :=
    match v with
    | JUndefined => HUndefined
    | JNull => HNull
    | JBool b => HBool b
    | JNum c => HNum c
    | JStr s => HStr s
    | JArr l => HArr l ((fix F (l : list jsval) : Forall P l :=
                          match l with
                          | [] => Forall_nil_2 P
                          | x :: r => Forall_cons_2 P x r (jsval_nested_ind x) (F r)
                          end) l)
    | JObj fs => HObj fs ((fix F (fs : list (string * jsval)) : Forall (fun kv => P kv.2) fs :=
                            match fs with
                            | [] => Forall_nil_2 _
                            | kv :: r => Forall_cons_2 (fun kv => P kv.2) kv r (jsval_nested_ind kv.2) (F r)
                            end) fs)
    end.
End jsval_nested.

(** ** Reading back each kind of value *)

Lemma strip_prefix_app p t : strip_prefix p (p +:+ t) = Some t.
Proof. induction p as [|a p IH]; [reflexivity|]. simpl. by rewrite Ascii.eqb_refl. Qed.

Lemma skip_ws_head c t : json_ws c = false -> skip_ws (String c t) = String c t.
Proof. simpl. by intros ->. Qed.

(** The first character [JSON.stringify] writes is not white space and
    does not close an array or an object. *)
Lemma stringify_head v :
  exists c t, json_stringify v = String c t /\ json_ws c = false /\ char_is c 93 = false /\ char_is c 125 = false.
Proof.
  destruct v as [| |[]|c|s|l|fs]; try by do 2 eexists.
  simpl. unfold num_to_string. destruct (c <? 0); [by do 2 eexists|]. change ("" +:+ ?x) with x.
  match goal with |- context [digits ?n +:+ ?fr] =>
    destruct (digits_head n fr) as (d & r & Hd & ->); [apply Z.div_pos; lia|] end.
  exists (digit_char d), r. unfold json_ws. by rewrite !char_is_digit_char by lia.
Qed.

Lemma stringify_length v : (1 <= String.length (json_stringify v))%nat.
Proof. destruct (stringify_head v) as (c & t & -> & _). simpl. lia. Qed.

Lemma flat_map_defined {B} (f : string * jsval -> B) fs :
  flat_map (fun kv => if is_undefined kv.2 then [] else [f kv]) fs =
  map f (List.filter (fun kv => negb (is_undefined kv.2)) fs).
Proof. induction fs as [|kv fs IH]; [done|]. simpl. destruct (is_undefined kv.2); simpl; by rewrite IH. Qed.

Lemma obj_set_fresh k v fs : k ∉ map fst fs -> obj_set k v fs = fs ++ [(k, v)].
Proof.
  induction fs as [|[k' v'] fs IH]; [done|]. simpl. intros Hk.
  destruct (String.eqb_spec k k') as [->|]; [set_solver|]. rewrite IH by set_solver. done.
Qed.

(** A text whose first character starts no literal, string, array or
    object is read as a number. *)
Lemma parse_value_number f c t :
  json_ws c = false -> forallb (fun k => negb (char_is c k)) [110; 116; 102; 34; 91; 123]%nat = true ->
  parse_value (S f) (String c t) = parse_number (String c t).
Proof.
  intros Hw Hk. simpl in Hk. rewrite !andb_true_iff, !negb_true_iff in Hk.
  destruct Hk as (H1 & H2 & H3 & H4 & H5 & H6 & _). cbn [parse_value]. rewrite skip_ws_head by done.
  by rewrite H1, H2, H3, H4, H5, H6.
Qed.

(** [v]'s text, followed by any delimited rest, reads back as [v]'s normal
    form, given fuel over twice the length. *)
Definition roundtrips (v : jsval) : Prop :=
  json_ok v = true -> forall rest n, json_delim rest = true ->
  (2 * String.length (json_stringify v +:+ rest) < n)%nat ->
  parse_value n (json_stringify v +:+ rest) = Ok (json_normal v, rest).

Lemma parse_elements_stringify l acc rest f :
  Forall roundtrips l -> l <> [] -> forallb json_ok l = true -> json_delim rest = true ->
  (2 * String.length (String.concat "," (map json_stringify l) +:+ String "]" rest) + 1 < f)%nat ->
  parse_elements f (String.concat "," (map json_stringify l) +:+ String "]" rest) acc =
  Ok (JArr (acc ++ map json_normal l), rest).
Proof.
  revert acc f. induction l as [|x l IH]; intros acc f Hl Hne Hok Hd Hf; [done|].
  apply Forall_cons in Hl as [Hx Hl]. simpl in Hok. apply andb_true_iff in Hok as [Hox Hok].
  destruct f as [|g]; [lia|]. pose proof (stringify_length x) as Lx. cbn [parse_elements].
  destruct l as [|y l].
  - cbn [map String.concat] in *. rewrite (Hx Hox (String "]" rest)) by (done || lia).
    cbn [skip_ws]. change (json_ws "]") with false. cbv iota. change (char_is "]" 44) with false.
    change (char_is "]" 93) with true. reflexivity.
  - change (String.concat "," (map json_stringify (x :: y :: l)))
      with (json_stringify x +:+ String "," (String.concat "," (map json_stringify (y :: l)))) in *.
    rewrite string_app_assoc, string_app_cons in *. rewrite string_length_app in Hf. cbn [String.length] in Hf.
    rewrite (Hx Hox) by (done || (rewrite string_length_app; cbn [String.length]; lia)).
    cbn [skip_ws]. change (json_ws ",") with false. cbv iota. change (char_is "," 44) with true. cbv iota.
    rewrite IH by (done || lia). by rewrite <- app_assoc.
Qed.

(** One field as [JSON.stringify] writes it. *)
Definition member_text (kv : string * jsval) : string := json_quote kv.1 +:+ ":" +:+ json_stringify kv.2.

Lemma parse_members_stringify gs acc rest f :
  Forall (fun kv => roundtrips kv.2) gs -> gs <> [] -> forallb (fun kv => json_ok kv.2) gs = true ->
  NoDup (map fst acc ++ map fst gs) -> json_delim rest = true ->
  (2 * String.length (String.concat "," (map member_text gs) +:+ String "}" rest) + 1 < f)%nat ->
  parse_members f (String.concat "," (map member_text gs) +:+ String "}" rest) acc =
  Ok (JObj (acc ++ map (fun kv => (kv.1, json_normal kv.2)) gs), rest).
Proof.
  revert acc f. induction gs as [|[k v] gs IH]; intros acc f Hl Hne Hok Hnd Hd Hf; [done|].
  apply Forall_cons in Hl as [Hx Hl]. simpl in Hok, Hx. apply andb_true_iff in Hok as [Hox Hok].
  destruct f as [|g]; [lia|]. pose proof (stringify_length v) as Lv. cbn [parse_members].
  assert (Hk : k ∉ map fst acc).
  { intros Hin. cbn [map] in Hnd. apply NoDup_app in Hnd as (_ & Hdis & _). apply (Hdis k Hin). set_solver. }
  assert (Hnd' : NoDup (map fst (acc ++ [(k, json_normal v)]) ++ map fst gs))
    by (rewrite map_app, <- app_assoc; exact Hnd).
  set (T := match gs with [] => String "}" rest | _ => String "," (String.concat "," (map member_text gs) +:+ String "}" rest) end).
  assert (HT : String.concat "," (map member_text ((k, v) :: gs)) +:+ String "}" rest =
               json_quote k +:+ String ":" (json_stringify v +:+ T)).
  { unfold T. destruct gs as [|kv gs]; cbn [map String.concat]; unfold member_text; cbn [fst snd];
      rewrite ?string_app_assoc; reflexivity. }
  rewrite HT in Hf |- *. rewrite json_quote_app, skip_ws_head by reflexivity.
  change (char_is dquote 34) with true. cbv iota. rewrite parse_chars_quote. cbv iota.
  rewrite skip_ws_head by reflexivity. change (char_is ":" 58) with true. cbv iota.
  rewrite json_quote_app in Hf. cbn [String.length] in Hf. rewrite !string_length_app in Hf. cbn [String.length] in Hf.
  rewrite (Hx Hox T) by (lia || (unfold T; destruct gs; done)).
  rewrite (obj_set_fresh _ _ _ Hk). unfold T. destruct gs as [|kv gs].
  - rewrite skip_ws_head by reflexivity. change (char_is "}" 44) with false. change (char_is "}" 125) with true.
    reflexivity.
  - rewrite skip_ws_head by reflexivity. change (char_is "," 44) with true. cbv iota.
    unfold T in Hf. cbn [String.length] in Hf. rewrite ?string_length_app in Hf. cbn [String.length] in Hf.
    rewrite IH by (done || lia).
    by rewrite <- app_assoc.
Qed.

Lemma num_head c :
  exists c0 t, num_to_string c = String c0 t /\ json_ws c0 = false /\
    forallb (fun k => negb (char_is c0 k)) [110; 116; 102; 34; 91; 123]%nat = true.
Proof.
  unfold num_to_string. destruct (c <? 0); [by do 2 eexists|]. change ("" +:+ ?x) with x.
  match goal with |- context [digits ?n +:+ ?fr] =>
    destruct (digits_head n fr) as (d & r & Hd & ->); [apply Z.div_pos; lia|] end.
  exists (digit_char d), r. unfold json_ws. cbn [forallb]. by rewrite !char_is_digit_char by lia.
Qed.

Lemma stringify_obj fs :
  json_stringify (JObj fs) =
  "{" +:+ String.concat "," (map member_text (List.filter (fun kv => negb (is_undefined kv.2)) fs)) +:+ "}".
Proof. cbn [json_stringify]. by rewrite <- flat_map_defined. Qed.

Lemma Forall_list_filter {A} (P : A -> Prop) (g : A -> bool) l : Forall P l -> Forall P (List.filter g l).
Proof. rewrite !Forall_forall. intros H x Hx%list_elem_of_In. apply filter_In in Hx as [Hx _]. by apply H, list_elem_of_In. Qed.

Lemma forallb_list_filter {A} (p g : A -> bool) l : forallb p l = true -> forallb p (List.filter g l) = true.
Proof. induction l as [|x l IH]; [done|]. simpl. intros [Hx Hl]%andb_true_iff. destruct (g x); simpl; [rewrite Hx|]; auto. Qed.

(** Every value of the model reads back from its text as its normal form. *)
Lemma stringify_roundtrips v : roundtrips v.
Proof.
  induction v as [| |b|c|s0|l IH|fs IH] using jsval_nested_ind; intros Hok rest n Hd Hn;
    destruct n as [|f]; try lia.
  - cbn [json_stringify json_normal]. change ("null" +:+ rest) with (String "n" ("ull" +:+ rest)). cbn [parse_value].
    rewrite skip_ws_head by reflexivity. change (char_is "n" 110) with true. cbv iota.
    unfold parse_literal. by rewrite strip_prefix_app.
  - cbn [json_stringify json_normal]. change ("null" +:+ rest) with (String "n" ("ull" +:+ rest)). cbn [parse_value].
    rewrite skip_ws_head by reflexivity. change (char_is "n" 110) with true. cbv iota.
    unfold parse_literal. by rewrite strip_prefix_app.
  - destruct b; cbn [json_stringify json_normal].
    + change ("true" +:+ rest) with (String "t" ("rue" +:+ rest)). cbn [parse_value].
      rewrite skip_ws_head by reflexivity. change (char_is "t" 110) with false. change (char_is "t" 116) with true.
      cbv iota. unfold parse_literal. by rewrite strip_prefix_app.
    + change ("false" +:+ rest) with (String "f" ("alse" +:+ rest)). cbn [parse_value].
      rewrite skip_ws_head by reflexivity. change (char_is "f" 110) with false. change (char_is "f" 116) with false.
      change (char_is "f" 102) with true. cbv iota. unfold parse_literal. by rewrite strip_prefix_app.
  - cbn [json_stringify json_normal] in *. destruct (num_head c) as (c0 & t & Hs & Hw & Hk).
    rewrite Hs, string_app_cons, parse_value_number, <- string_app_cons, <- Hs by done.
    apply parse_number_num; [by apply Z.ltb_lt|done].
  - cbn [json_stringify json_normal]. rewrite json_quote_app. cbn [parse_value].
    rewrite skip_ws_head by reflexivity. change (char_is dquote 110) with false. change (char_is dquote 116) with false.
    change (char_is dquote 102) with false. change (char_is dquote 34) with true. cbv iota.
    by rewrite parse_chars_quote.
  - cbn [json_stringify json_normal json_ok] in *. rewrite !string_app_assoc in *. change ("]" +:+ rest) with (String "]" rest) in *.
    change ("[" +:+ ?x) with (String "[" x) in *. cbn [parse_value].
    rewrite skip_ws_head by reflexivity. change (char_is "[" 110) with false. change (char_is "[" 116) with false.
    change (char_is "[" 102) with false. change (char_is "[" 34) with false. change (char_is "[" 91) with true. cbv iota.
    destruct l as [|x l]; [reflexivity|].
    destruct (stringify_head x) as (c0 & t & Hs & Hw & H93 & _).
    assert (Hc : String.concat "," (map json_stringify (x :: l)) +:+ String "]" rest = String c0 (match l with [] => t | _ => t +:+ String "," (String.concat "," (map json_stringify l)) end +:+ String "]" rest)).
    { destruct l as [|y l]; [cbn [map String.concat]; rewrite Hs; reflexivity|].
      change (String.concat "," (map json_stringify (x :: y :: l)))
        with (json_stringify x +:+ String "," (String.concat "," (map json_stringify (y :: l)))).
      rewrite Hs. reflexivity. }
    rewrite Hc, skip_ws_head, H93 by done. cbv iota. rewrite <- Hc. cbn [String.length] in Hn.
    apply (parse_elements_stringify (x :: l) [] rest f); done || lia.
  - rewrite stringify_obj in *. cbn [json_normal json_ok] in *.
    rewrite (flat_map_defined (fun kv => (kv.1, json_normal kv.2))).
    apply andb_true_iff in Hok as [Hnd Hok]. apply bool_decide_eq_true in Hnd. rewrite (flat_map_defined fst) in Hnd.
    pose proof (Forall_list_filter _ (fun kv => negb (is_undefined kv.2)) _ IH) as IHg.
    pose proof (forallb_list_filter (fun kv => json_ok kv.2) (fun kv => negb (is_undefined kv.2)) _ Hok) as Hokg.
    remember (List.filter (fun kv => negb (is_undefined kv.2)) fs) as gs eqn:Egs. clear Egs IH Hok.
    rewrite !string_app_assoc in *. change ("}" +:+ rest) with (String "}" rest) in *.
    change ("{" +:+ ?x) with (String "{" x) in *. cbn [parse_value].
    rewrite skip_ws_head by reflexivity. change (char_is "{" 110) with false. change (char_is "{" 116) with false.
    change (char_is "{" 102) with false. change (char_is "{" 34) with false. change (char_is "{" 91) with false.
    change (char_is "{" 123) with true. cbv iota.
    destruct gs as [|kv gs]; [reflexivity|].
    assert (Hc : exists t, String.concat "," (map member_text (kv :: gs)) +:+ String "}" rest = String dquote t).
    { destruct gs as [|kv' gs].
      - cbn [map String.concat]. unfold member_text. rewrite json_quote_app. eexists. reflexivity.
      - change (String.concat "," (map member_text (kv :: kv' :: gs)))
          with (member_text kv +:+ String "," (String.concat "," (map member_text (kv' :: gs)))).
        unfold member_text at 1. rewrite json_quote_app. eexists. reflexivity. }
    destruct Hc as [t Hc]. rewrite Hc, skip_ws_head by reflexivity. change (char_is dquote 125) with false.
    cbv iota. rewrite <- Hc. cbn [String.length] in Hn.
    apply (parse_members_stringify (kv :: gs) [] rest f); done || lia.
Qed.


(** [JSON.parse(JSON.stringify(v))] is [v] in normal form. *)
Lemma json_parse_stringify v : json_ok v = true -> json_parse (json_stringify v) = Ok (json_normal v).
Proof.
  intros Hok. unfold json_parse.
  pose proof (stringify_roundtrips v Hok "" (S (2 * String.length (json_stringify v))) eq_refl) as H.
  rewrite string_app_nil_r in H. rewrite H by lia. reflexivity.
Qed.


(** ** Objects with distinct keys *)

Lemma field_foldl k (fs : list (string * jsval)) (init : option jsval) v :
  foldl (fun acc kv => if String.eqb kv.1 k then Some kv.2 else acc) init fs = Some v ->
  init = Some v \/ (k, v) ∈ fs.
Proof.
  revert init. induction fs as [|[k' w] fs IH]; intros init H; [by left|]. simpl in H.
  destruct (IH _ H) as [Hi|Hi]; [|right; set_solver].
  destruct (String.eqb_spec k' k) as [->|]; [right; injection Hi as ->; set_solver|by left].
Qed.

Lemma field_elem k fs v : field k fs = Some v -> (k, v) ∈ fs.
Proof. intros H. by destruct (field_foldl k fs None v H). Qed.

Lemma field_app k fs k2 v2 : field k (fs ++ [(k2, v2)]) = if String.eqb k2 k then Some v2 else field k fs.
Proof. unfold field. by rewrite foldl_app. Qed.

Lemma field_notin k fs : k ∉ map fst fs -> field k fs = None.
Proof.
  intros Hk. destruct (field k fs) as [v|] eqn:E; [|done]. apply field_elem in E.
  exfalso. apply Hk. apply list_elem_of_fmap. by exists (k, v).
Qed.

Lemma field_nodup k fs v : NoDup (map fst fs) -> (k, v) ∈ fs -> field k fs = Some v.
Proof.
  induction fs as [|[k' w] fs IH] using rev_ind; intros Hnd Hin; [by apply elem_of_nil in Hin|].
  rewrite map_app in Hnd. cbn [map fst] in Hnd. apply NoDup_app in Hnd as (Hnd & Hdis & _).
  rewrite field_app. apply elem_of_app in Hin as [Hin|Hin%list_elem_of_singleton].
  - destruct (String.eqb_spec k' k) as [->|]; [|by apply IH].
    exfalso. apply (Hdis k); [apply list_elem_of_fmap; by exists (k, v)|set_solver].
  - injection Hin as -> ->. by rewrite String.eqb_refl.
Qed.

Lemma obj_set_keys k v fs : map fst (obj_set k v fs) = if decide (k ∈ map fst fs) then map fst fs else map fst fs ++ [k].
Proof.
  induction fs as [|[k' w] fs IH]; [done|]. cbn [obj_set map fst].
  destruct (String.eqb_spec k k') as [->|Hne].
  - by rewrite decide_True by set_solver.
  - cbn [map fst]. rewrite IH. destruct (decide (k ∈ map fst fs)); [rewrite decide_True by set_solver|rewrite decide_False by set_solver]; done.
Qed.

Lemma obj_set_nodup k v fs : NoDup (map fst fs) -> NoDup (map fst (obj_set k v fs)).
Proof.
  intros Hnd. rewrite obj_set_keys. case_decide; [done|].
  apply NoDup_app. split_and!; [done| |by apply NoDup_singleton]. intros x Hx ->%list_elem_of_singleton. done.
Qed.

Lemma elem_of_obj_set k v fs k' w :
  NoDup (map fst fs) -> (k', w) ∈ obj_set k v fs -> (k' = k /\ w = v) \/ (k' <> k /\ (k', w) ∈ fs).
Proof.
  induction fs as [|[k0 w0] fs IH]; cbn [obj_set map fst]; intros Hnd Hin.
  - apply list_elem_of_singleton in Hin. injection Hin as -> ->. by left.
  - apply NoDup_cons in Hnd as [Hk0 Hnd]. destruct (String.eqb_spec k k0) as [->|Hne].
    + apply elem_of_cons in Hin as [[= -> ->]|Hin]; [by left|]. right. split; [|set_solver].
      intros ->. apply Hk0, list_elem_of_fmap. by exists (k0, w).
    + apply elem_of_cons in Hin as [[= -> ->]|Hin]; [right; split; [done|set_solver]|].
      destruct (IH Hnd Hin) as [?|[? ?]]; [by left|right; split; [done|set_solver]].
Qed.

Lemma obj_set_elem_ne k v fs k' w : k' <> k -> (k', w) ∈ fs -> (k', w) ∈ obj_set k v fs.
Proof.
  intros Hne. induction fs as [|[k0 w0] fs IH]; [by intros ?%elem_of_nil|]. cbn [obj_set].
  intros [[= -> ->]|Hin]%elem_of_cons; destruct (String.eqb_spec k k0) as [->|]; try set_solver.
Qed.

Lemma obj_set_elem k v fs : (k, v) ∈ obj_set k v fs.
Proof.
  induction fs as [|[k0 w0] fs IH]; cbn [obj_set]; [set_solver|].
  destruct (String.eqb_spec k k0); set_solver.
Qed.

(** Reading a key after setting one, in an object with distinct keys. *)
Lemma field_obj_set k' k v fs :
  NoDup (map fst fs) -> field k' (obj_set k v fs) = if String.eqb k' k then Some v else field k' fs.
Proof.
  intros Hnd. pose proof (obj_set_nodup k v fs Hnd) as Hnd'.
  destruct (String.eqb_spec k' k) as [->|Hne]; [by apply field_nodup, obj_set_elem|].
  destruct (field k' fs) as [w|] eqn:E.
  - apply field_nodup; [done|]. apply obj_set_elem_ne; [done|]. by apply field_elem.
  - destruct (field k' (obj_set k v fs)) as [w|] eqn:E'; [|done].
    apply field_elem in E'. destruct (elem_of_obj_set _ _ _ _ _ Hnd E') as [[? _]|[_ Hin]]; [done|].
    by rewrite (field_nodup _ _ _ Hnd Hin) in E.
Qed.

End Json.
