(* ===== verification/Db.v ===== *)
(** * The PostgreSQL database of the program

    The tables [server.js] reads and writes, with the columns its queries
    name ([menuitem], [transactions], [inventory], [sales], [orders],
    [employee]) and the sequences behind their [serial] keys.  SQL [NULL]
    is [None].  Timestamps are a day number and the seconds within the
    day.  The schema itself is not in the repository: the model assumes
    the primary keys the queries rely on ([transactions.id],
    [inventory.inventoryid], [menuitem.itemid], [employee.employeeid]) and
    no other constraint. *)

From S2P Require Import Prelude Dates Sequence JsValue PgValue.
Import Dates Sequence Js Pg.

Module Db.

Record timestamp := mk_ts { ts_day : Z; ts_sec : Z }.

(** [EXTRACT(HOUR FROM ts)] and [DATE(ts)]. *)
Definition ts_hour (t : timestamp) : Z := ts_sec t / 3600.
Definition ts_date (t : timestamp) : Z := ts_day t.

Record menu_row := mk_menu {
  itemname : option string;
  itemtype : option string;
  itemprice : option Z;
  available : option bool
}.

Record txn_row := mk_txn {
  t_id : Z;
  t_sale_id : option Z;
  t_menu_item_id : option Z;
  t_quantity : option Z;
  t_price : option Z;
  t_paymentmethod : option string;
  t_category : option string
}.

Record inv_row := mk_inv {
  i_quantity : option Z;
  i_menuitemid : option Z;
  i_timestamp : option timestamp;
  i_restockdate : option timestamp;
  i_lastupdated : option timestamp
}.

Record sale_row := mk_sale {
  s_id : Z;
  s_timestamp : option timestamp;
  s_total_amount : option Z;
  s_peak_day_flag : option bool
}.

Record order_row := mk_order {
  o_orderid : Z;
  o_rewards : option Z;
  o_userid : option Z
}.

Record employee_row := mk_employee {
  e_name : option string;
  e_password : option string;
  e_type : option string
}.

Record database := mk_db {
  menuitem : gmap Z menu_row;
  transactions : list txn_row;
  transactions_id_seq : sequence;
  inventory : gmap Z inv_row;
  inventory_id_seq : sequence;
  sales : list sale_row;
  orders : list order_row;
  employee : gmap Z employee_row;
  itemingredients : list (Z * Z);        (** (itemid, ingredientid) *)
  ingredients : gmap Z string;           (** ingredientid to ingredientname *)
  employee_id_seq : sequence
}.

Definition set_transactions (l : list txn_row) (d : database) : database :=
  mk_db (menuitem d) l (transactions_id_seq d) (inventory d) (inventory_id_seq d)
        (sales d) (orders d) (employee d)
        (itemingredients d) (ingredients d) (employee_id_seq d).
Definition set_txn_seq (s : sequence) (d : database) : database :=
  mk_db (menuitem d) (transactions d) s (inventory d) (inventory_id_seq d)
        (sales d) (orders d) (employee d)
        (itemingredients d) (ingredients d) (employee_id_seq d).
Definition set_inventory (m : gmap Z inv_row) (d : database) : database :=
  mk_db (menuitem d) (transactions d) (transactions_id_seq d) m (inventory_id_seq d)
        (sales d) (orders d) (employee d)
        (itemingredients d) (ingredients d) (employee_id_seq d).
Definition set_inv_seq (s : sequence) (d : database) : database :=
  mk_db (menuitem d) (transactions d) (transactions_id_seq d) (inventory d) s
        (sales d) (orders d) (employee d)
        (itemingredients d) (ingredients d) (employee_id_seq d).

Definition set_menuitem (m : gmap Z menu_row) (d : database) : database :=
  mk_db m (transactions d) (transactions_id_seq d) (inventory d) (inventory_id_seq d)
        (sales d) (orders d) (employee d)
        (itemingredients d) (ingredients d) (employee_id_seq d).
Definition set_employee (m : gmap Z employee_row) (d : database) : database :=
  mk_db (menuitem d) (transactions d) (transactions_id_seq d) (inventory d) (inventory_id_seq d)
        (sales d) (orders d) m
        (itemingredients d) (ingredients d) (employee_id_seq d).
Definition set_emp_seq (s : sequence) (d : database) : database :=
  mk_db (menuitem d) (transactions d) (transactions_id_seq d) (inventory d) (inventory_id_seq d)
        (sales d) (orders d) (employee d)
        (itemingredients d) (ingredients d) s.

(** ** Column values as [res.json(result.rows)] sends them

    node-postgres returns [integer] columns as numbers, [numeric] and
    [bigint] columns as their text, [timestamp] columns as [Date]s read in
    the server's time zone (taken to be UTC), which [JSON.stringify] writes
    with [toISOString]; [NULL] is [null]. *)

Definition jstr_opt (o : option string) : jsval := match o with Some s => JStr s | None => JNull end.
Definition jint_opt (o : option Z) : jsval := match o with Some n => jint n | None => JNull end.
Definition jnumeric_opt (o : option Z) : jsval :=
  match o with Some c => JStr (numeric_out c) | None => JNull end.
Definition jbool_opt (o : option bool) : jsval := match o with Some b => JBool b | None => JNull end.
Definition ts_ms (t : timestamp) : Z := ts_day t * ms_per_day + ts_sec t * 1000.
Definition jts_opt (o : option timestamp) : jsval :=
  match o with Some t => JStr (iso_string (ts_ms t)) | None => JNull end.

(** [ROLLBACK]: every table returns to the snapshot taken at [BEGIN];
    sequences are not transactional and keep their current state. *)
Definition rollback (snap cur : database) : database :=
  mk_db (menuitem snap) (transactions snap) (transactions_id_seq cur)
        (inventory snap) (inventory_id_seq cur) (sales snap) (orders snap) (employee snap)
        (itemingredients snap) (ingredients snap) (employee_id_seq cur).

(** The ids of the [transactions] table. *)
Definition txn_ids (d : database) : list Z := map t_id (transactions d).

(** Two databases with the same table contents (sequences aside). *)
Definition tables_equal (d d' : database) : Prop :=
  menuitem d' = menuitem d /\ transactions d' = transactions d /\
  inventory d' = inventory d /\ sales d' = sales d /\ orders d' = orders d /\
  employee d' = employee d /\ itemingredients d' = itemingredients d /\
  ingredients d' = ingredients d.

Lemma rollback_tables snap cur : tables_equal snap (rollback snap cur).
Proof. repeat split. Qed.

Lemma rollback_self d : rollback d d = d.
Proof. by destruct d. Qed.

Lemma set_txn_seq_id d : set_txn_seq (transactions_id_seq d) d = d.
Proof. by destruct d. Qed.

Lemma set_transactions_id d : set_transactions (transactions d) d = d.
Proof. by destruct d. Qed.

Lemma set_txn_seq_set_transactions s l d :
  set_txn_seq s (set_transactions l d) = set_transactions l (set_txn_seq s d).
Proof. done. Qed.
Lemma set_txn_seq_twice s s' d : set_txn_seq s (set_txn_seq s' d) = set_txn_seq s d.
Proof. done. Qed.
Lemma set_transactions_twice l l' d :
  set_transactions l (set_transactions l' d) = set_transactions l d.
Proof. done. Qed.
Lemma transactions_set_txn_seq s d : transactions (set_txn_seq s d) = transactions d.
Proof. done. Qed.
Lemma transactions_set_transactions l d : transactions (set_transactions l d) = l.
Proof. done. Qed.
Lemma txn_seq_set_txn_seq s d : transactions_id_seq (set_txn_seq s d) = s.
Proof. done. Qed.
Lemma txn_seq_set_transactions l d :
  transactions_id_seq (set_transactions l d) = transactions_id_seq d.
Proof. done. Qed.

End Db.

#[export] Hint Rewrite Db.set_txn_seq_set_transactions Db.set_txn_seq_twice
  Db.set_transactions_twice Db.transactions_set_txn_seq Db.txn_seq_set_transactions
  Db.transactions_set_transactions Db.txn_seq_set_txn_seq : tea_rw.
