(* ===== verification/Sql.v ===== *)
(** * SQL query semantics shared by the report queries

    [LEFT JOIN], the aggregates [SUM], [COUNT(DISTINCT ...)] and
    [STRING_AGG(DISTINCT ..., ', ')] with their treatment of [NULL], and
    the keys of [GROUP BY ... ORDER BY] on an integer expression.  The
    order of [STRING_AGG(DISTINCT ...)] is unspecified in SQL: the model
    returns the distinct values in first-occurrence order and the theorems
    only use their set. *)

From S2P Require Import Prelude.

Module Sql.

(** [l LEFT JOIN r ON on]: every left row with each matching right row,
    or with [NULL] when none matches. *)
Definition left_join {A B} (on : A -> B -> bool) (l : list A) (r : list B) : list (A * option B) :=
  flat_map (fun a => match filter (fun b => on a b = true) r with
                     | [] => [(a, None)]
                     | ms => map (fun b => (a, Some b)) ms
                     end) l.

(** [SUM(x)]: [NULL] when every value is [NULL]. *)
Definition sum_opt (l : list (option Z)) : option Z :=
  match omap id l with [] => None | xs => Some (sumZ xs) end.

(** [COALESCE(e, 0)]. *)
Definition coalesce0 (o : option Z) : Z := default 0 o.

(** [COUNT(DISTINCT x)]. *)
Definition count_distinct (l : list (option Z)) : Z :=
  Z.of_nat (length (remove_dups (omap id l))).

(** [STRING_AGG(DISTINCT x, ', ')], as the list of joined values. *)
Definition string_agg_distinct (l : list (option string)) : option (list string) :=
  match remove_dups (omap id l) with [] => None | xs => Some xs end.

(** Insertion of a key into a strictly increasing list of keys. *)
Fixpoint insert_key (k : Z) (ks : list Z) : list Z :=
  match ks with
  | [] => [k]
  | k' :: ks' => if k <? k' then k :: ks
                 else if k =? k' then ks else k' :: insert_key k ks'
  end.

(** The groups of [GROUP BY key ORDER BY key]: the distinct keys in
    increasing order. *)
Definition group_keys (ks : list Z) : list Z := foldr insert_key [] ks.

(** The rows of one group. *)
Definition group_rows {A} (key : A -> Z) (k : Z) (rows : list A) : list A :=
  filter (fun r => key r = k) rows.

(** ** Lemmas *)

Lemma elem_of_insert_key k ks x : x ∈ insert_key k ks <-> x = k \/ x ∈ ks.
Proof.
  induction ks as [|k' ks IH]; simpl; [set_solver|].
  destruct (Z.ltb_spec k k'); [set_solver|].
  destruct (Z.eqb_spec k k'); subst; [set_solver|].
  rewrite !elem_of_cons, IH. tauto.
Qed.

Lemma insert_key_sorted k ks : StronglySorted Z.lt ks -> StronglySorted Z.lt (insert_key k ks).
Proof.
  induction 1 as [|k' ks Hs IH Hall]; simpl; [by repeat constructor|].
  destruct (Z.ltb_spec k k').
  - constructor; [by constructor|]. constructor; [lia|].
    eapply Forall_impl; [done|]. simpl; lia.
  - destruct (Z.eqb_spec k k'); [by constructor|].
    constructor; [done|]. apply Forall_forall. intros x Hx%elem_of_insert_key.
    destruct Hx as [->|Hx]; [lia|]. by eapply Forall_forall in Hall.
Qed.

Lemma group_keys_sorted ks : StronglySorted Z.lt (group_keys ks).
Proof. induction ks; simpl; [constructor|by apply insert_key_sorted]. Qed.

Lemma elem_of_group_keys ks x : x ∈ group_keys ks <-> x ∈ ks.
Proof.
  induction ks as [|k ks IH]; simpl; [done|].
  rewrite elem_of_insert_key, elem_of_cons, IH. tauto.
Qed.

Lemma elem_of_left_join {A B} (on : A -> B -> bool) l r a ob :
  (a, ob) ∈ left_join on l r <->
  a ∈ l /\ match ob with
           | Some b => b ∈ r /\ on a b = true
           | None => forall b, b ∈ r -> on a b = false
           end.
Proof.
  unfold left_join. rewrite list_elem_of_In, in_flat_map. setoid_rewrite <- list_elem_of_In.
  split.
  - intros (a' & Ha' & Hin). destruct (filter _ r) as [|b0 bs] eqn:Hf.
    + apply list_elem_of_singleton in Hin. injection Hin as <- ->. split; [done|].
      intros b Hb. destruct (on a b) eqn:Hon; [|done].
      assert (b ∈ filter (fun b => on a b = true) r) by (apply list_elem_of_filter; auto).
      rewrite Hf in H. by apply elem_of_nil in H.
    + rewrite <- Hf in Hin. apply list_elem_of_fmap in Hin as (b & [= <- ->] & Hb).
      apply list_elem_of_filter in Hb as [Hon Hb]. naive_solver.
  - intros [Ha Hob]. exists a. split; [done|]. destruct ob as [b|].
    + destruct Hob as [Hb Hon]. destruct (filter _ r) as [|b0 bs] eqn:Hf.
      * assert (b ∈ filter (fun b => on a b = true) r) by (apply list_elem_of_filter; auto).
        rewrite Hf in H. by apply elem_of_nil in H.
      * rewrite <- Hf. apply list_elem_of_fmap. exists b. split; [done|].
        by apply list_elem_of_filter.
    + destruct (filter _ r) as [|b0 bs] eqn:Hf; [by left|].
      exfalso. assert (b0 ∈ filter (fun b => on a b = true) r) by (rewrite Hf; left).
      apply list_elem_of_filter in H as [Hon Hb]. by rewrite Hob in Hon.
Qed.

Lemma string_agg_distinct_spec l xs :
  string_agg_distinct l = Some xs -> NoDup xs /\ (forall x, x ∈ xs <-> Some x ∈ l).
Proof.
  unfold string_agg_distinct. destruct (remove_dups _) eqn:E; [done|]. intros [= <-].
  rewrite <- E. split; [apply NoDup_remove_dups|].
  intros x. rewrite elem_of_remove_dups, list_elem_of_omap. naive_solver.
Qed.

(** A [LEFT JOIN] keeps every left row. *)
Lemma left_join_total {A B} (on : A -> B -> bool) l r a :
  a ∈ l -> exists ob, (a, ob) ∈ left_join on l r.
Proof.
  intros Ha. destruct (filter (fun b => on a b = true) r) as [|b bs] eqn:Hf.
  - exists None. apply elem_of_left_join. split; [done|]. intros b Hb.
    destruct (on a b) eqn:Hon; [|done]. exfalso.
    assert (b ∈ filter (fun b => on a b = true) r) as Hin by (apply list_elem_of_filter; auto).
    rewrite Hf in Hin. by apply elem_of_nil in Hin.
  - exists (Some b). apply elem_of_left_join. split; [done|].
    assert (b ∈ filter (fun b => on a b = true) r) as Hin by (rewrite Hf; left).
    apply list_elem_of_filter in Hin as [Hon Hb]. auto.
Qed.

Lemma left_join_left {A B} (on : A -> B -> bool) l r a ob :
  (a, ob) ∈ left_join on l r -> a ∈ l.
Proof. by intros [? _]%elem_of_left_join. Qed.

Lemma filter_none {A} (P : A -> Prop) `{forall x, Decision (P x)} (l : list A) :
  (forall x, x ∈ l -> ~ P x) -> filter P l = [].
Proof.
  induction l as [|x l IH]; intros Hl; [done|]. rewrite filter_cons.
  rewrite decide_False by (apply Hl; left). apply IH. intros y Hy. apply Hl. by right.
Qed.

(** Right rows that match no left row do not change a [LEFT JOIN]. *)
Lemma left_join_app_unmatched {A B} (on : A -> B -> bool) l r r' :
  (forall a b, a ∈ l -> b ∈ r' -> on a b = false) ->
  left_join on l (r ++ r') = left_join on l r.
Proof.
  intros Hr'. unfold left_join. induction l as [|a l IH]; [done|]. simpl.
  rewrite filter_app, (filter_none _ r'), app_nil_r.
  - f_equal. apply IH. intros a' b Ha' Hb. apply Hr'; [by right|done].
  - intros b Hb Hon. rewrite (Hr' a b) in Hon; [done|by left|done].
Qed.

Lemma group_keys_map {A} (f : A -> Z) (rows : list A) h :
  h ∈ group_keys (map f rows) <-> exists r, r ∈ rows /\ f r = h.
Proof. rewrite elem_of_group_keys, list_elem_of_fmap. naive_solver. Qed.

Lemma filter_all {A} (P : A -> Prop) `{forall x, Decision (P x)} (l : list A) :
  (forall x, x ∈ l -> P x) -> filter P l = l.
Proof.
  induction l as [|x l IH]; intros Hl; [done|]. rewrite filter_cons.
  rewrite decide_True by (apply Hl; left). f_equal. apply IH. intros y Hy. apply Hl. by right.
Qed.

Lemma left_join_cons {A B} (on : A -> B -> bool) a l r :
  left_join on (a :: l) r =
  match filter (fun b => on a b = true) r with
  | [] => [(a, None)]
  | ms => map (fun b => (a, Some b)) ms
  end ++ left_join on l r.
Proof. done. Qed.

(** A [LEFT JOIN] in which each left row matches at most one right row
    has exactly one output row per left row. *)
Lemma left_join_fst_le1 {A B} (on : A -> B -> bool) l r :
  (forall a, a ∈ l -> length (filter (fun b => on a b = true) r) <= 1)%nat ->
  map fst (left_join on l r) = l.
Proof.
  induction l as [|a l IH]; intros Hl; [done|]. rewrite left_join_cons, map_app.
  rewrite IH by (intros a' Ha'; apply Hl; by right).
  specialize (Hl a (list_elem_of_here _ _)).
  destruct (filter _ r) as [|b [|b' bs]]; simpl in *; [done|done|lia].
Qed.

(** A [LEFT JOIN] of one left row that every right row matches. *)
Lemma left_join_all_match {A B} (on : A -> B -> bool) a r :
  r <> [] -> (forall b, b ∈ r -> on a b = true) ->
  left_join on [a] r = map (fun b => (a, Some b)) r.
Proof.
  intros Hne Hall. unfold left_join. simpl. rewrite filter_all by done.
  destruct r; [done|]. simpl. by rewrite app_nil_r.
Qed.

(** In a list of key/value pairs with distinct keys, at most one pair has
    a given key. *)
Lemma filter_key_le1 {K V} `{EqDecision K} (l : list (K * V)) (p : K -> bool) :
  NoDup (map fst l) -> (forall k k', p k = true -> p k' = true -> k = k') ->
  (length (filter (fun kv => p kv.1 = true) l) <= 1)%nat.
Proof.
  induction l as [|[k v] l IH]; intros Hnd Huniq; simpl; [lia|].
  apply NoDup_cons in Hnd as [Hk Hnd]. rewrite filter_cons. case_decide as Hp; simpl.
  - rewrite filter_none; [simpl; lia|]. intros [k' v'] Hin Hp'. simpl in Hp'.
    apply Hk. rewrite (Huniq k k') by done. apply list_elem_of_fmap. by exists (k', v').
  - by apply IH.
Qed.

Lemma group_keys_const (ks : list Z) h :
  ks <> [] -> (forall k, k ∈ ks -> k = h) -> group_keys ks = [h].
Proof.
  induction ks as [|k ks IH]; intros Hne Hall; [done|]. simpl.
  rewrite (Hall k (list_elem_of_here _ _)).
  destruct ks as [|k' ks]; [done|].
  rewrite IH; [|done|intros x Hx; apply Hall; by right]. simpl.
  by rewrite Z.ltb_irrefl, Z.eqb_refl.
Qed.

Lemma sum_opt_replicate n a :
  (0 < n)%nat -> sum_opt (replicate n (Some a)) = Some (Z.of_nat n * a).
Proof.
  intros Hn. unfold sum_opt.
  assert (omap id (replicate n (Some a)) = replicate n a) as ->.
  { clear. induction n; simpl; [done|]. f_equal. exact IHn. }
  destruct n as [|n]; [lia|]. f_equal. clear. induction n; simpl in *; lia.
Qed.

End Sql.
