(* ===== verification/Orders.v ===== *)
(** * Transaction recorder: [POST /api/orders] (server.js lines 136-193)

    The handler validates the request body, opens a database transaction,
    resynchronises [transactions_id_seq] with [MAX(id)], inserts one
    [transactions] row per cart item and commits; any exception inside
    the [try] (a JavaScript [TypeError], the handler's own
    [Invalid item format] error or a PostgreSQL error) rolls the tables
    back and answers 500.  The state is the [Db.database] record; the
    body of the [try] runs in the [st] monad of the prelude. *)

From S2P Require Import Prelude Sequence JsValue PgValue Db.
Import Sequence Js Pg Db.

Module Orders.

(** What the [catch] of the handler can receive. *)
Inductive exn :=
| ExnJs (e : js_error)
| ExnPg (e : pg_error)
| ExnInvalidItem (item : jsval).

Definition tx (A : Type) : Type := st database exn A.

Definition lift_js {A} (r : result js_error A) : tx A :=
  match r with Ok a => st_ret a | Err e => st_throw (ExnJs e) end.
Definition lift_pg {A} (r : result pg_error A) : tx A :=
  match r with Ok a => st_ret a | Err e => st_throw (ExnPg e) end.

(** The resync statement (lines 156-158). *)
Definition resync_stmt : tx unit :=
  fun d => match resync (txn_ids d) (transactions_id_seq d) with
           | Ok s => (Ok tt, set_txn_seq s d)
           | Err e => (Err (ExnPg (SequenceFailure e)), d)
           end.

(** The values of one row before its [id] is drawn. *)
Record line := mk_line {
  l_sale_id : option Z;
  l_menu_item_id : option Z;
  l_quantity : option Z;
  l_price : option Z;
  l_paymentmethod : option string;
  l_category : option string
}.

Definition row_of (id : Z) (l : line) : txn_row :=
  mk_txn id (l_sale_id l) (l_menu_item_id l) (l_quantity l) (l_price l)
         (l_paymentmethod l) (l_category l).

(** [INSERT INTO transactions (...) VALUES ...]: the [id] column takes
    [nextval] (which stays consumed if the statement fails) and must not
    collide with an existing row. *)
Definition insert_txn (l : line) : tx unit :=
  fun d => match nextval (transactions_id_seq d) with
           | Err e => (Err (ExnPg (SequenceFailure e)), d)
           | Ok (id, s) =>
               let d1 := set_txn_seq s d in
               if decide (id ∈ txn_ids d) then (Err (ExnPg UniqueViolation), d1)
               else (Ok tt, set_transactions (transactions d ++ [row_of id l]) d1)
           end.

(** The check of lines 161-163 and the parameters of lines 168-175,
    read through node-postgres and the column input functions. *)
Definition prepare_line (paymentMethod item : jsval) : result exn line :=
  match get_prop "itemid" item with
  | Err e => Err (ExnJs e)
  | Ok itemid =>
    if negb (truthy itemid) then Err (ExnInvalidItem item) else
    match get_prop "price" item with
    | Err e => Err (ExnJs e)
    | Ok price =>
      if is_undefined price then Err (ExnInvalidItem item) else
      match to_int4 (jint 0), to_int4 itemid, to_int4 (jint 1), to_numeric price with
      | Ok sid, Ok mid, Ok q, Ok p =>
          Ok (mk_line sid mid q p (prepare_value paymentMethod) (prepare_value (JStr "Sale")))
      | Err e, _, _, _ | _, Err e, _, _ | _, _, Err e, _ | _, _, _, Err e => Err (ExnPg e)
      end
    end
  end.

(** One iteration of the loop of lines 160-179. *)
Definition insert_item (paymentMethod item : jsval) : tx unit :=
  match prepare_line paymentMethod item with
  | Ok l => insert_txn l
  | Err e => st_throw e
  end.

(** The body of the [try] between [BEGIN] and [COMMIT]. *)
Definition submit_body (paymentMethod : jsval) (items : list jsval) : tx unit :=
  resync_stmt ;;; for_each (insert_item paymentMethod) items.

Definition items_of (v : jsval) : list jsval :=
  match v with JArr l => l | _ => [] end.

(** The whole handler: the validation of line 145, then [BEGIN], the
    body, and [COMMIT] or [ROLLBACK]. *)
Definition post_orders (body : jsval) (d : database) : reply * database :=
  let customerName := prop "customerName" body in
  let userId := prop "userId" body in
  let items := prop "items" body in
  let paymentMethod := prop "paymentMethod" body in
  if negb (truthy customerName) || negb (truthy userId) || negb (is_array items)
     || (length (items_of items) =? 0)%nat
  then (mk_reply 400 (failure_body "Missing order details"), d)
  else match submit_body paymentMethod (items_of items) d with
       | (Ok _, d') => (mk_reply 200 success_body, d')
       | (Err _, d') => (mk_reply 500 (failure_body "Failed to save transactions"), rollback d d')
       end.

(** The rows [k, k+1, ...] the loop appends for [ls]. *)
Fixpoint number_rows (k : Z) (ls : list line) : list txn_row :=
  match ls with
  | [] => []
  | l :: ls' => row_of k l :: number_rows (k + 1) ls'
  end.

(** The header check of line 145. *)
Definition header_ok (body : jsval) : bool :=
  truthy (prop "customerName" body) && truthy (prop "userId" body) &&
  is_array (prop "items" body) && negb (length (items_of (prop "items" body)) =? 0)%nat.

(** ** Order history *)

(** A row of [SELECT * FROM transactions]. *)
Definition txn_json (t : txn_row) : jsval :=
  JObj [("id", jint (t_id t)); ("sale_id", jint_opt (t_sale_id t)); ("menu_item_id", jint_opt (t_menu_item_id t));
        ("quantity", jint_opt (t_quantity t)); ("price", jnumeric_opt (t_price t));
        ("paymentmethod", jstr_opt (t_paymentmethod t)); ("transactioncategory", jstr_opt (t_category t))].

(** [ORDER BY id DESC]: the ids are the primary key, so the order is
    total. *)
Definition id_desc_le (a b : txn_row) : Prop := t_id b <= t_id a.

#[global] Instance id_desc_le_dec : RelDecision id_desc_le.
Proof. intros a b. unfold id_desc_le. apply _. Defined.

(** [GET /api/transactions] (lines 631-641):
    [SELECT * FROM transactions ORDER BY id DESC LIMIT 30]. *)
Definition get_transactions (d : database) : reply :=
  mk_reply 200 (JArr (map txn_json (take 30 (merge_sort id_desc_le (transactions d))))).

(** ** Lemmas on the loop *)

Lemma post_orders_unfold body d :
  post_orders body d =
  if negb (header_ok body) then (mk_reply 400 (failure_body "Missing order details"), d)
  else match submit_body (prop "paymentMethod" body) (items_of (prop "items" body)) d with
       | (Ok _, d') => (mk_reply 200 success_body, d')
       | (Err _, d') => (mk_reply 500 (failure_body "Failed to save transactions"), rollback d d')
       end.
Proof.
  unfold post_orders, header_ok.
  by destruct (truthy _), (truthy _), (is_array _), (length _ =? 0)%nat.
Qed.

Lemma number_rows_ids k ls :
  map t_id (number_rows k ls) = map (fun i => k + Z.of_nat i) (seq 0 (length ls)).
Proof.
  revert k. induction ls as [|l ls IH]; intros k; simpl; [done|].
  rewrite IH, <- seq_shift, map_map. f_equal; [lia|]. apply map_ext. intros; lia.
Qed.

(** A state in which the sequence has been called and its last value
    bounds every stored id. *)
Definition covered (k : Z) (d : database) : Prop :=
  is_called (transactions_id_seq d) = true /\
  last_value (transactions_id_seq d) = k /\ k <= max_value (transactions_id_seq d) /\
  Forall (fun i => i <= k) (txn_ids d).

Lemma insert_txn_ok l d k :
  covered k d -> k + 1 <= max_value (transactions_id_seq d) ->
  insert_txn l d =
  (Ok tt, set_transactions (transactions d ++ [row_of (k + 1) l])
            (set_txn_seq (mk_seq (k + 1) true (min_value (transactions_id_seq d))
                                 (max_value (transactions_id_seq d))) d)).
Proof.
  intros (Hc & Hk & _ & Hids) Hmax. unfold insert_txn.
  rewrite nextval_ok by (unfold next_value; rewrite Hc; lia).
  unfold next_value. rewrite Hc, Hk.
  rewrite decide_False; [done|].
  intros Hin. rewrite Forall_forall in Hids. specialize (Hids _ Hin). lia.
Qed.

Lemma insert_txn_full l d k :
  covered k d -> max_value (transactions_id_seq d) < k + 1 ->
  insert_txn l d = (Err (ExnPg (SequenceFailure ReachedMaxValue)), d).
Proof.
  intros (Hc & Hk & _ & _) Hmax. unfold insert_txn.
  by rewrite nextval_err by (unfold next_value; rewrite Hc; lia).
Qed.

Lemma covered_insert l d k mn mx :
  covered k d -> k + 1 <= mx ->
  covered (k + 1) (set_transactions (transactions d ++ [row_of (k + 1) l])
                     (set_txn_seq (mk_seq (k + 1) true mn mx) d)).
Proof.
  intros (_ & _ & _ & Hids) Hmx. repeat split; [done|]. unfold txn_ids in *. simpl.
  rewrite map_app, Forall_app. split; [|by repeat constructor].
  eapply Forall_impl; [done|]. simpl; lia.
Qed.

Lemma covered_seq k d :
  covered k d ->
  transactions_id_seq d = mk_seq k true (min_value (transactions_id_seq d))
                                 (max_value (transactions_id_seq d)).
Proof. intros (Hc & Hk & _). destruct (transactions_id_seq d); simpl in *; by subst. Qed.

(** The loop succeeds exactly when every item converts and the sequence
    has room for all of them; it then appends the numbered rows. *)
Lemma run_inserts_ok pm items lines d k :
  covered k d ->
  Forall2 (fun it l => prepare_line pm it = Ok l) items lines ->
  k + Z.of_nat (length items) <= max_value (transactions_id_seq d) ->
  for_each (insert_item pm) items d =
  (Ok tt, set_transactions (transactions d ++ number_rows (k + 1) lines)
            (set_txn_seq (mk_seq (k + Z.of_nat (length items)) true
                            (min_value (transactions_id_seq d))
                            (max_value (transactions_id_seq d))) d)).
Proof.
  intros Hcov Hprep. revert d k Hcov.
  induction Hprep as [|it l items lines Hit Hrest IH]; intros d k Hcov Hbound; simpl in *.
  - rewrite app_nil_r, Z.add_0_r, <- (covered_seq k d Hcov).
    by rewrite set_txn_seq_id, set_transactions_id.
  - unfold st_bind, insert_item. rewrite Hit.
    rewrite (insert_txn_ok l d k Hcov) by lia.
    rewrite (IH _ (k + 1)); [| apply covered_insert; [done|lia] | simpl; lia].
    autorewrite with tea_rw. rewrite <- List.app_assoc. simpl.
    by replace (k + 1 + Z.of_nat (length items)) with (k + Z.of_nat (S (length items))) by lia.
Qed.

Lemma run_inserts_ok_inv pm items d k d' :
  covered k d ->
  for_each (insert_item pm) items d = (Ok tt, d') ->
  exists lines, Forall2 (fun it l => prepare_line pm it = Ok l) items lines /\
    k + Z.of_nat (length items) <= max_value (transactions_id_seq d) /\
    d' = set_transactions (transactions d ++ number_rows (k + 1) lines)
           (set_txn_seq (mk_seq (k + Z.of_nat (length items)) true
                           (min_value (transactions_id_seq d))
                           (max_value (transactions_id_seq d))) d).
Proof.
  revert d k. induction items as [|it items IH]; intros d k Hcov Hrun; simpl in Hrun.
  - injection Hrun as <-. exists []. simpl. pose proof Hcov as (_ & _ & Hk & _).
    split; [done|]. split; [lia|].
    rewrite app_nil_r, Z.add_0_r, <- (covered_seq k d Hcov).
    by rewrite set_txn_seq_id, set_transactions_id.
  - unfold st_bind, insert_item in Hrun.
    destruct (prepare_line pm it) as [l|e] eqn:Hit; [|done].
    destruct (Z.le_gt_cases (k + 1) (max_value (transactions_id_seq d))) as [Hroom|Hfull];
      [|by rewrite (insert_txn_full l d k Hcov Hfull) in Hrun].
    rewrite (insert_txn_ok l d k Hcov Hroom) in Hrun.
    apply (IH _ (k + 1)) in Hrun as (lines & Hprep & Hb & ->); [|by apply covered_insert].
    exists (l :: lines). simpl in *. split; [by constructor|]. split; [lia|].
    autorewrite with tea_rw. rewrite <- List.app_assoc. simpl.
    by replace (k + 1 + Z.of_nat (length items)) with (k + Z.of_nat (S (length items))) by lia.
Qed.

Lemma resync_stmt_ok d :
  min_value (transactions_id_seq d) <= max_or 0 (txn_ids d) <= max_value (transactions_id_seq d) ->
  resync_stmt d = (Ok tt, set_txn_seq (mk_seq (max_or 0 (txn_ids d)) true
                                         (min_value (transactions_id_seq d))
                                         (max_value (transactions_id_seq d))) d).
Proof. intros Hm. unfold resync_stmt, resync. by rewrite setval_ok. Qed.

Lemma resync_stmt_err d :
  max_or 0 (txn_ids d) < min_value (transactions_id_seq d) \/
  max_value (transactions_id_seq d) < max_or 0 (txn_ids d) ->
  resync_stmt d = (Err (ExnPg (SequenceFailure (SetvalOutOfBounds (max_or 0 (txn_ids d))))), d).
Proof. intros Hm. unfold resync_stmt, resync. by rewrite setval_err. Qed.

Lemma covered_after_resync d mn mx :
  max_or 0 (txn_ids d) <= mx ->
  covered (max_or 0 (txn_ids d)) (set_txn_seq (mk_seq (max_or 0 (txn_ids d)) true mn mx) d).
Proof.
  intros Hmx. repeat split; [done|]. apply Forall_forall.
  intros i Hi%list_elem_of_In. by apply max_or_ge.
Qed.

(** What a successful run of the [try] body did to the store. *)
Lemma submit_body_ok_inv pm items d d' :
  submit_body pm items d = (Ok tt, d') ->
  exists lines,
    Forall2 (fun it l => prepare_line pm it = Ok l) items lines /\
    min_value (transactions_id_seq d) <= max_or 0 (txn_ids d) /\
    max_or 0 (txn_ids d) + Z.of_nat (length items) <= max_value (transactions_id_seq d) /\
    d' = set_transactions (transactions d ++ number_rows (max_or 0 (txn_ids d) + 1) lines)
           (set_txn_seq (mk_seq (max_or 0 (txn_ids d) + Z.of_nat (length items)) true
                           (min_value (transactions_id_seq d))
                           (max_value (transactions_id_seq d))) d).
Proof.
  unfold submit_body, st_bind. intros Hrun.
  destruct (Z.le_gt_cases (min_value (transactions_id_seq d)) (max_or 0 (txn_ids d))) as [H1|H1];
  [destruct (Z.le_gt_cases (max_or 0 (txn_ids d)) (max_value (transactions_id_seq d))) as [H2|H2]|];
    [|by rewrite resync_stmt_err in Hrun by lia..].
  rewrite resync_stmt_ok in Hrun by lia.
  apply (run_inserts_ok_inv _ _ _ (max_or 0 (txn_ids d))) in Hrun as (lines & Hprep & Hb & ->);
    [|by apply covered_after_resync].
  exists lines. autorewrite with tea_rw in *. done.
Qed.

(** ** Theorems *)

(** C1: a valid order whose items all convert is recorded as one
    [transactions] row per item, appended in input order with the ids
    [m+1, ..., m+n] after the largest stored id [m], and the sequence
    ends at [m+n]; the reply is [200 { success: true }]. *)
Theorem post_orders_success body d lines :
  header_ok body = true ->
  Forall2 (fun it l => prepare_line (prop "paymentMethod" body) it = Ok l)
          (items_of (prop "items" body)) lines ->
  min_value (transactions_id_seq d) <= max_or 0 (txn_ids d) ->
  max_or 0 (txn_ids d) + Z.of_nat (length lines) <= max_value (transactions_id_seq d) ->
  post_orders body d =
  (mk_reply 200 success_body,
   set_transactions (transactions d ++ number_rows (max_or 0 (txn_ids d) + 1) lines)
     (set_txn_seq (mk_seq (max_or 0 (txn_ids d) + Z.of_nat (length lines)) true
                     (min_value (transactions_id_seq d))
                     (max_value (transactions_id_seq d))) d)).
Proof.
  intros Hh Hprep Hmin Hmax. rewrite post_orders_unfold, Hh. simpl.
  pose proof (Forall2_length _ _ _ Hprep) as Hlen.
  unfold submit_body, st_bind. rewrite resync_stmt_ok by lia.
  rewrite (run_inserts_ok _ _ lines _ (max_or 0 (txn_ids d))); autorewrite with tea_rw;
    [by rewrite Hlen | apply covered_after_resync; lia | done | simpl; lia].
Qed.

Definition ex_row : txn_row := mk_txn 5 (Some 0) (Some 1) (Some 1) (Some 450) (Some "Cash") (Some "Sale").
Definition ex_db : database :=
  mk_db ∅ [ex_row] (mk_seq 5 true 1 2147483647) ∅ (mk_seq 1 false 1 2147483647) [] [] ∅ [] ∅ (mk_seq 1 false 1 2147483647).
Definition ex_item (i p : Z) : jsval :=
  JObj [("itemid", jint i); ("price", JNum p); ("customization", JStr "")].
Definition ex_body (items : list jsval) : jsval :=
  JObj [("customerName", JStr "Ann"); ("userId", jint 7); ("items", JArr items);
        ("paymentMethod", JStr "Cash")].
Definition ex_line (i p : Z) : line :=
  mk_line (Some 0) (Some i) (Some 1) (Some p) (Some "Cash") (Some "Sale").

Lemma post_orders_success_witness :
  post_orders (ex_body [ex_item 2 550; ex_item 3 600]) ex_db =
  (mk_reply 200 success_body,
   set_transactions ([ex_row] ++ number_rows 6 [ex_line 2 550; ex_line 3 600])
     (set_txn_seq (mk_seq 7 true 1 2147483647) ex_db)).
Proof.
  rewrite (post_orders_success _ _ [ex_line 2 550; ex_line 3 600]);
    [vm_compute; reflexivity | vm_compute; reflexivity | repeat constructor
    | vm_compute; congruence | vm_compute; congruence].
Defined.

(** C2: an order with an item that fails (a [null] item, a falsy
    [itemid], a missing [price], a value PostgreSQL rejects) answers 500
    and leaves every table as it was, whatever its position in the cart:
    the rows inserted for the items before it are rolled back. *)
Theorem post_orders_bad_item_rolls_back body d it e :
  header_ok body = true ->
  it ∈ items_of (prop "items" body) ->
  prepare_line (prop "paymentMethod" body) it = Err e ->
  status (post_orders body d).1 = 500 /\ tables_equal d (post_orders body d).2.
Proof.
  intros Hh Hit He. rewrite post_orders_unfold, Hh. simpl.
  unfold submit_body, st_bind. destruct (resync_stmt d) as [[[]|e'] d1].
  - destruct (for_each_err_elem (insert_item (prop "paymentMethod" body))
                (items_of (prop "items" body)) it d1) as (e2 & d2 & ->); [done| |].
    + intros s0. exists e, s0. unfold insert_item. by rewrite He.
    + split; [done|apply rollback_tables].
  - split; [done|apply rollback_tables].
Qed.

Lemma post_orders_bad_item_rolls_back_witness :
  header_ok (ex_body [ex_item 2 550; JNull]) = true /\
  JNull ∈ items_of (prop "items" (ex_body [ex_item 2 550; JNull])) /\
  prepare_line (prop "paymentMethod" (ex_body [ex_item 2 550; JNull])) JNull = Err (ExnJs TypeError) /\
  status (post_orders (ex_body [ex_item 2 550; JNull]) ex_db).1 = 500 /\
  tables_equal ex_db (post_orders (ex_body [ex_item 2 550; JNull]) ex_db).2.
Proof.
  assert (Hin : JNull ∈ items_of (prop "items" (ex_body [ex_item 2 550; JNull])))
    by (simpl; right; left).
  split; [vm_compute; reflexivity|]. split; [exact Hin|]. split; [vm_compute; reflexivity|].
  apply (post_orders_bad_item_rolls_back _ _ JNull (ExnJs TypeError));
    [vm_compute; reflexivity | exact Hin | vm_compute; reflexivity].
Defined.

(** C3: on an empty [transactions] table every order fails: the resync
    computes [COALESCE(MAX(id), 0) = 0], [setval] rejects a value below
    [MINVALUE 1], and the handler answers 500 without recording anything. *)
Theorem post_orders_empty_table_fails body d :
  header_ok body = true -> transactions d = [] -> 1 <= min_value (transactions_id_seq d) ->
  post_orders body d = (mk_reply 500 (failure_body "Failed to save transactions"), d).
Proof.
  intros Hh Hnil Hmin. rewrite post_orders_unfold, Hh. simpl.
  unfold submit_body, st_bind.
  rewrite resync_stmt_err by (unfold txn_ids; rewrite Hnil; simpl; lia).
  by rewrite rollback_self.
Qed.

Definition ex_empty_db : database :=
  mk_db ∅ [] (mk_seq 1 false 1 2147483647) ∅ (mk_seq 1 false 1 2147483647) [] [] ∅ [] ∅ (mk_seq 1 false 1 2147483647).

Lemma post_orders_empty_table_fails_witness :
  post_orders (ex_body [ex_item 2 550]) ex_empty_db =
  (mk_reply 500 (failure_body "Failed to save transactions"), ex_empty_db).
Proof.
  apply post_orders_empty_table_fails; [vm_compute; reflexivity | reflexivity | simpl; lia].
Defined.

(** a body without a truthy [customerName] or [userId], or whose
    [items] is not a non-empty array, is answered 400 before any query. *)
Theorem post_orders_missing_details body d :
  header_ok body = false ->
  post_orders body d = (mk_reply 400 (failure_body "Missing order details"), d).
Proof. intros Hh. by rewrite post_orders_unfold, Hh. Qed.

Lemma post_orders_missing_details_witness :
  post_orders (JObj [("customerName", JStr ""); ("userId", jint 7);
                     ("items", JArr [ex_item 2 550])]) ex_db =
  (mk_reply 400 (failure_body "Missing order details"), ex_db).
Proof. apply post_orders_missing_details. vm_compute. reflexivity. Defined.

Lemma number_rows_sorted k ls : StronglySorted Z.lt (map t_id (number_rows k ls)).
Proof.
  revert k. induction ls as [|l ls IH]; intros k; simpl; constructor; [apply IH|].
  rewrite number_rows_ids. apply Forall_forall. intros x (i & -> & _)%list_elem_of_fmap. lia.
Qed.

(** C4: the ids of the [transactions] table stay strictly increasing in
    insertion order across every request, accepted or not. *)
Theorem post_orders_preserves_sorted_ids body d :
  StronglySorted Z.lt (txn_ids d) -> StronglySorted Z.lt (txn_ids (post_orders body d).2).
Proof.
  intros Hs. rewrite post_orders_unfold. destruct (header_ok body); simpl; [|done].
  destruct (submit_body _ _ d) as [[[]|e] d'] eqn:Hrun; simpl; [|done].
  apply submit_body_ok_inv in Hrun as (lines & _ & _ & _ & ->).
  unfold txn_ids in *. autorewrite with tea_rw. rewrite map_app.
  apply StronglySorted_app_2; [|done|apply number_rows_sorted].
  intros x y Hx Hy. rewrite number_rows_ids in Hy.
  apply list_elem_of_fmap in Hy as (i & -> & _).
  apply list_elem_of_In, (max_or_ge 0) in Hx. lia.
Qed.

Lemma post_orders_preserves_sorted_ids_witness :
  StronglySorted Z.lt (txn_ids (post_orders (ex_body [ex_item 2 550; ex_item 3 600]) ex_db).2).
Proof. apply post_orders_preserves_sorted_ids. simpl. repeat constructor. Defined.

(** Every row a line yields is a [Sale] of quantity 1 with [sale_id] 0. *)
Lemma number_rows_shape pm items lines k :
  Forall2 (fun it l => prepare_line pm it = Ok l) items lines ->
  Forall (fun r => t_sale_id r = Some 0 /\ t_quantity r = Some 1 /\ t_category r = Some "Sale")
         (number_rows k lines).
Proof.
  intros Hprep. revert k.
  induction Hprep as [|it l items lines Hit _ IH]; intros k; simpl; constructor; [|apply IH].
  unfold prepare_line in Hit. simpl in Hit. repeat case_match; simplify_eq; simpl; auto.
Qed.

(** The two outcomes of the handler: a 200 reply that appended one
    [Sale] row per item, or another reply with every table unchanged. *)
Lemma post_orders_cases body d :
  (status (post_orders body d).1 = 200 /\
   exists new s, (post_orders body d).2 = set_transactions (transactions d ++ new) (set_txn_seq s d) /\
     length new = length (items_of (prop "items" body)) /\
     Forall (fun r => t_sale_id r = Some 0 /\ t_quantity r = Some 1 /\
                      t_category r = Some "Sale") new) \/
  (status (post_orders body d).1 <> 200 /\ tables_equal d (post_orders body d).2).
Proof.
  rewrite post_orders_unfold. destruct (header_ok body); simpl;
    [|right; split; [done|repeat split]].
  destruct (submit_body _ _ d) as [[[]|e] d'] eqn:Hrun; simpl;
    [|right; split; [done|apply rollback_tables]].
  left. split; [done|].
  apply submit_body_ok_inv in Hrun as (lines & Hprep & _ & _ & ->).
  do 2 eexists. split; [done|]. split.
  - rewrite (Forall2_length _ _ _ Hprep). clear. generalize (max_or 0 (txn_ids d) + 1).
    induction lines; simpl; auto.
  - by eapply number_rows_shape.
Qed.

(** a 200 reply means that exactly one row per cart item was
    appended, each a [Sale] of quantity 1 with the sentinel [sale_id] 0. *)
Theorem post_orders_rows_shape body d :
  status (post_orders body d).1 = 200 ->
  exists new, transactions (post_orders body d).2 = transactions d ++ new /\
    length new = length (items_of (prop "items" body)) /\
    Forall (fun r => t_sale_id r = Some 0 /\ t_quantity r = Some 1 /\
                     t_category r = Some "Sale") new.
Proof.
  intros H200. destruct (post_orders_cases body d) as [(_ & new & s & -> & Hlen & Hall)|[Hne _]];
    [|done].
  exists new. by autorewrite with tea_rw.
Qed.

Lemma post_orders_rows_shape_witness :
  status (post_orders (ex_body [ex_item 2 550; ex_item 3 600]) ex_db).1 = 200 /\
  exists new, transactions (post_orders (ex_body [ex_item 2 550; ex_item 3 600]) ex_db).2 =
              transactions ex_db ++ new /\ length new = 2%nat /\
    Forall (fun r => t_sale_id r = Some 0 /\ t_quantity r = Some 1 /\
                     t_category r = Some "Sale") new.
Proof.
  split; [vm_compute; reflexivity|].
  apply (post_orders_rows_shape (ex_body [ex_item 2 550; ex_item 3 600]) ex_db).
  vm_compute. reflexivity.
Defined.

End Orders.
