(* ===== verification/Inventory.v ===== *)
(** * Inventory adjuster: [/api/inventory/add], [/update], [/delete]
    (server.js lines 258-331)

    The [inventory] table is a map from [inventoryid] to its row.  The
    handlers run without [BEGIN]: every statement commits on its own, so
    the add handler is a [SELECT] followed by an [UPDATE] or an [INSERT]
    chosen from what the [SELECT] saw, and two requests can interleave
    between the two statements. *)

From S2P Require Import Prelude Sequence JsValue PgValue Db.
Import Sequence Js Pg Db.

Module Inventory.

(** [SELECT * FROM inventory WHERE menuitemid = $1]. *)
Definition rows_of_item (mid : Z) (m : gmap Z inv_row) : gmap Z inv_row :=
  filter (fun kv => i_menuitemid kv.2 = Some mid) m.

(** [UPDATE inventory SET quantity = quantity + $1, lastupdated = $2
    WHERE menuitemid = $3]: every matching row, or none if one sum leaves
    the [integer] range. *)
Definition bump_row (q : Z) (now : timestamp) (r : inv_row) : inv_row :=
  mk_inv (option_map (Z.add q) (i_quantity r)) (i_menuitemid r)
         (i_timestamp r) (i_restockdate r) (Some now).

Definition add_to_rows (q : Z) (now : timestamp) (mid : Z) (m : gmap Z inv_row)
  : result pg_error (gmap Z inv_row) :=
  if existsb (fun kv => match i_quantity kv.2 with
                        | Some x => (x + q <? int4_min) || (int4_max <? x + q)
                        | None => false end)
             (map_to_list (rows_of_item mid m))
  then Err NumericValueOutOfRange
  else Ok (map_imap (fun _ r => Some (if decide (i_menuitemid r = Some mid)
                                      then bump_row q now r else r)) m).

(** [INSERT INTO inventory (timestamp, menuitemid, quantity, restockdate,
    lastupdated) VALUES ($1, $2, $3, $1, $1)]: the key is drawn from the
    [inventoryid] sequence. *)
Definition insert_row (q : option Z) (now : timestamp) (mid : Z) (d : database)
  : result pg_error database * database :=
  match nextval (inventory_id_seq d) with
  | Err e => (Err (SequenceFailure e), d)
  | Ok (id, s) =>
      let d1 := set_inv_seq s d in
      match inventory d !! id with
      | Some _ => (Err UniqueViolation, d1)
      | None => (Ok (set_inventory (<[id := mk_inv q (Some mid) (Some now) (Some now) (Some now)]>
                                     (inventory d)) d1), d1)
      end
  end.

Definition add_error : reply := mk_reply 500 (error_body "Failed to add or update inventory").

(** The [SELECT] of the add handler (line 272): did it find a row? *)
Definition add_select (body : jsval) (d : database) : result pg_error bool :=
  match to_int4 (prop "menuitemid" body) with
  | Err e => Err e
  | Ok None => Ok false
  | Ok (Some mid) => Ok (bool_decide (rows_of_item mid (inventory d) <> ∅))
  end.

(** The write the add handler makes after its [SELECT] (lines 274-288). *)
Definition add_write (body : jsval) (now : timestamp) (found : bool) (d : database)
  : reply * database :=
  match to_int4 (prop "menuitemid" body), to_int4 (prop "quantity" body) with
  | Ok (Some mid), Ok q =>
      if found then
        match q with
        | None => (mk_reply 200 (JObj [("success", JBool true);
                     ("message", JStr "Inventory updated successfully")]),
                   set_inventory (map_imap (fun _ r => Some (if decide (i_menuitemid r = Some mid)
                       then mk_inv None (i_menuitemid r) (i_timestamp r) (i_restockdate r) (Some now)
                       else r)) (inventory d)) d)
        | Some q =>
          match add_to_rows q now mid (inventory d) with
          | Ok m => (mk_reply 200 (JObj [("success", JBool true);
                       ("message", JStr "Inventory updated successfully")]), set_inventory m d)
          | Err _ => (add_error, d)
          end
        end
      else
        match insert_row q now mid d with
        | (Ok d', _) => (mk_reply 200 (JObj [("success", JBool true);
                           ("message", JStr "Inventory added successfully")]), d')
        | (Err _, d') => (add_error, d')
        end
  | _, _ => (add_error, d)
  end.

(** [POST /api/inventory/add] (lines 261-293). *)
Definition post_inventory_add (body : jsval) (now : timestamp) (d : database) : reply * database :=
  if negb (truthy (prop "menuitemid" body)) || negb (truthy (prop "quantity" body))
  then (mk_reply 400 (error_body "Missing fields"), d)
  else match add_select body d with
       | Err _ => (add_error, d)
       | Ok found => add_write body now found d
       end.

(** [POST /api/inventory/update] (lines 317-331): an absolute overwrite. *)
Definition post_inventory_update (body : jsval) (d : database) : reply * database :=
  if negb (truthy (prop "inventoryid" body)) || negb (truthy (prop "quantity" body))
  then (mk_reply 400 (error_body "Missing inventory ID or quantity"), d)
  else match to_int4 (prop "quantity" body), to_int4 (prop "inventoryid" body) with
       | Ok q, Ok (Some id) =>
           (mk_reply 200 success_body,
            set_inventory (alter (fun r => mk_inv q (i_menuitemid r) (i_timestamp r)
                                                (i_restockdate r) (i_lastupdated r)) id
                                 (inventory d)) d)
       | Ok _, Ok None => (mk_reply 200 success_body, d)
       | _, _ => (mk_reply 500 (error_body "Failed to update inventory"), d)
       end.

(** [DELETE /api/inventory/delete] (lines 300-314). *)
Definition delete_inventory (body : jsval) (d : database) : reply * database :=
  if negb (truthy (prop "inventoryid" body))
  then (mk_reply 400 (error_body "Missing inventory ID"), d)
  else match to_int4 (prop "inventoryid" body) with
       | Ok (Some id) => (mk_reply 200 success_body, set_inventory (delete id (inventory d)) d)
       | Ok None => (mk_reply 200 success_body, d)
       | Err _ => (mk_reply 500 (error_body "Failed to delete inventory"), d)
       end.

(** ** Listing *)

(** A row of [GET /api/inventory]: [i.inventoryid, i.quantity,
    i.menuitemid, m.itemname, i.timestamp, i.restockdate, i.lastupdated]. *)
Definition inventory_json (r : Z * inv_row * menu_row) : jsval :=
  let '(k, i, m) := r in
  JObj [("inventoryid", jint k); ("quantity", jint_opt (i_quantity i)); ("menuitemid", jint_opt (i_menuitemid i));
        ("itemname", jstr_opt (itemname m)); ("timestamp", jts_opt (i_timestamp i));
        ("restockdate", jts_opt (i_restockdate i)); ("lastupdated", jts_opt (i_lastupdated i))].

(** [FROM inventory i JOIN menuitem m ON i.menuitemid = m.itemid
     ORDER BY i.inventoryid]: a row whose item is gone, or whose
    [menuitemid] is [NULL], has no partner and is left out. *)
Definition inventory_listing (d : database) : list (Z * inv_row * menu_row) :=
  omap (fun ki => match i_menuitemid ki.2 with
                  | Some mid => (fun m => (ki.1, ki.2, m)) <$> menuitem d !! mid
                  | None => None
                  end) (by_key (inventory d)).

(** [GET /api/inventory] (lines 236-256). *)
Definition get_inventory (d : database) : reply :=
  mk_reply 200 (JArr (map inventory_json (inventory_listing d))).

(** ** The uniqueness invariant of the design: one row per menu item *)

Definition item_unique (m : gmap Z inv_row) : Prop :=
  forall i j r s, m !! i = Some r -> m !! j = Some s ->
    i_menuitemid r = i_menuitemid s -> is_Some (i_menuitemid r) -> i = j.

Lemma imap_lookup (g : inv_row -> inv_row) (m : gmap Z inv_row) i :
  map_imap (fun _ r => Some (g r)) m !! i = g <$> m !! i.
Proof. rewrite map_lookup_imap. by destruct (m !! i). Qed.

Lemma item_unique_imap (g : inv_row -> inv_row) m :
  (forall r, i_menuitemid (g r) = i_menuitemid r) ->
  item_unique m -> item_unique (map_imap (fun _ r => Some (g r)) m).
Proof.
  intros Hg Hu i j r s. rewrite !imap_lookup.
  intros (r0 & Hr & ->)%fmap_Some (s0 & Hs & ->)%fmap_Some. rewrite !Hg. by apply Hu.
Qed.

Lemma rows_of_item_empty mid m :
  rows_of_item mid m = ∅ <-> forall i r, m !! i = Some r -> i_menuitemid r <> Some mid.
Proof.
  unfold rows_of_item. rewrite map_empty_filter, map_Forall_lookup. naive_solver.
Qed.

Lemma item_unique_insert_fresh m id row mid :
  item_unique m -> i_menuitemid row = Some mid -> rows_of_item mid m = ∅ ->
  item_unique (<[id := row]> m).
Proof.
  intros Hu Hrow Hfree0 i j r s.
  pose proof (proj1 (rows_of_item_empty mid m) Hfree0) as Hfree.
  rewrite !lookup_insert. intros Hi Hj Hrs Hsome.
  destruct (decide (id = i)) as [<-|Hni], (decide (id = j)) as [<-|Hnj];
    simplify_eq; [done| | |by eapply Hu].
  - exfalso. apply (Hfree j s Hj). congruence.
  - exfalso. apply (Hfree i r Hi). congruence.
Qed.

Lemma item_unique_alter (g : inv_row -> inv_row) id m :
  (forall r, i_menuitemid (g r) = i_menuitemid r) -> item_unique m -> item_unique (alter g id m).
Proof.
  intros Hg Hu i j r s. rewrite !lookup_alter.
  destruct (decide (id = i)) as [<-|], (decide (id = j)) as [<-|]; intros Hi Hj;
    repeat match goal with H : _ <$> _ = Some _ |- _ => apply fmap_Some in H as (? & ? & ->) end;
    rewrite ?Hg; by eapply Hu.
Qed.

Lemma item_unique_delete id m : item_unique m -> item_unique (delete id m).
Proof.
  intros Hu i j r s. rewrite !lookup_delete.
  destruct (decide (id = i)), (decide (id = j)); [done..|by apply Hu].
Qed.

Lemma add_select_fresh body d mid :
  to_int4 (prop "menuitemid" body) = Ok (Some mid) ->
  add_select body d = Ok false -> rows_of_item mid (inventory d) = ∅.
Proof.
  unfold add_select. intros ->. intros [= Hf]. by apply bool_decide_eq_false, dec_stable in Hf.
Qed.

(** every inventory handler keeps at most one row per menu item when
    requests are served one after another. *)
Lemma add_write_unique body now found d :
  item_unique (inventory d) ->
  (forall mid, to_int4 (prop "menuitemid" body) = Ok (Some mid) ->
               found = false -> rows_of_item mid (inventory d) = ∅) ->
  item_unique (inventory (add_write body now found d).2).
Proof.
  intros Hu Hfresh. unfold add_write.
  destruct (to_int4 (prop "menuitemid" body)) as [[mid|]|] eqn:Hmid; [|done..].
  destruct (to_int4 (prop "quantity" body)) as [q|]; [|done].
  destruct found.
  - destruct q as [q|]; simpl.
    + unfold add_to_rows. destruct (existsb _ _); simpl; [done|].
      apply item_unique_imap; [|done]. intros r. by case_decide.
    + apply item_unique_imap; [|done]. intros r. by case_decide.
  - unfold insert_row. destruct (nextval _) as [[id s1]|e]; [|done].
    destruct (inventory d !! id); simpl; [done|].
    eapply item_unique_insert_fresh; [done|done|]. by apply Hfresh.
Qed.

Lemma post_inventory_add_unique body now d :
  item_unique (inventory d) -> item_unique (inventory (post_inventory_add body now d).2).
Proof.
  intros Hu. unfold post_inventory_add.
  destruct (_ || _); [done|].
  destruct (add_select body d) as [found|e] eqn:Hsel; [|done].
  apply add_write_unique; [done|]. intros mid Hmid ->. by eapply add_select_fresh.
Qed.

Lemma post_inventory_update_unique body d :
  item_unique (inventory d) -> item_unique (inventory (post_inventory_update body d).2).
Proof.
  intros Hu. unfold post_inventory_update.
  destruct (_ || _); [done|]. repeat case_match; simpl; try done.
  by apply item_unique_alter.
Qed.

Lemma delete_inventory_unique body d :
  item_unique (inventory d) -> item_unique (inventory (delete_inventory body d).2).
Proof.
  intros Hu. unfold delete_inventory.
  destruct (negb _); [done|]. repeat case_match; simpl; try done.
  by apply item_unique_delete.
Qed.

(** The inventory handlers served one request at a time. *)
Inductive inv_step : database -> database -> Prop :=
| step_add body now d : inv_step d (post_inventory_add body now d).2
| step_update body d : inv_step d (post_inventory_update body d).2
| step_delete body d : inv_step d (delete_inventory body d).2.

(** Served one at a time, the inventory handlers keep at most one
    row per menu item in every reachable state. *)
Theorem inventory_unique_invariant d0 d :
  item_unique (inventory d0) -> rtc inv_step d0 d -> item_unique (inventory d).
Proof.
  intros Hu Hr. induction Hr as [|x y z Hstep _ IH]; [done|]. apply IH.
  destruct Hstep.
  - by apply post_inventory_add_unique.
  - by apply post_inventory_update_unique.
  - by apply delete_inventory_unique.
Qed.

Lemma inventory_unique_invariant_witness :
  item_unique (inventory (post_inventory_add (JObj [("menuitemid", JStr "3"); ("quantity", JStr "5")])
                            (mk_ts 100 3600)
                            (mk_db ∅ [] (mk_seq 1 false 1 2147483647) ∅
                                   (mk_seq 1 false 1 2147483647) [] [] ∅ [] ∅ (mk_seq 1 false 1 2147483647))).2).
Proof.
  eapply (inventory_unique_invariant (mk_db ∅ [] (mk_seq 1 false 1 2147483647) ∅
                                            (mk_seq 1 false 1 2147483647) [] [] ∅ [] ∅ (mk_seq 1 false 1 2147483647))).
  - intros i j r s Hi. simpl in Hi. by rewrite lookup_empty in Hi.
  - apply rtc_once. constructor.
Defined.

(** ** Two add requests interleaved *)

(** Where a request of [/api/inventory/add] is: before its [SELECT],
    between its [SELECT] and its write, or answered. *)
Inductive add_pc := PStart | PSelected (found : bool) | PDone (r : reply).

Record cstate := mk_cstate { cdb : database; creqs : list (jsval * add_pc) }.

(** One statement of one request: the scheduler may pick any request. *)
Inductive cstep (now : timestamp) : cstate -> cstate -> Prop :=
| cstep_reject d reqs i b :
    reqs !! i = Some (b, PStart) ->
    negb (truthy (prop "menuitemid" b)) || negb (truthy (prop "quantity" b)) = true ->
    cstep now (mk_cstate d reqs)
          (mk_cstate d (<[i := (b, PDone (mk_reply 400 (error_body "Missing fields")))]> reqs))
| cstep_select d reqs i b found :
    reqs !! i = Some (b, PStart) ->
    negb (truthy (prop "menuitemid" b)) || negb (truthy (prop "quantity" b)) = false ->
    add_select b d = Ok found ->
    cstep now (mk_cstate d reqs) (mk_cstate d (<[i := (b, PSelected found)]> reqs))
| cstep_select_err d reqs i b e :
    reqs !! i = Some (b, PStart) ->
    negb (truthy (prop "menuitemid" b)) || negb (truthy (prop "quantity" b)) = false ->
    add_select b d = Err e ->
    cstep now (mk_cstate d reqs) (mk_cstate d (<[i := (b, PDone add_error)]> reqs))
| cstep_write d reqs i b found r d' :
    reqs !! i = Some (b, PSelected found) ->
    add_write b now found d = (r, d') ->
    cstep now (mk_cstate d reqs) (mk_cstate d' (<[i := (b, PDone r)]> reqs)).

Definition added_reply : reply :=
  mk_reply 200 (JObj [("success", JBool true); ("message", JStr "Inventory added successfully")]).
Definition updated_reply : reply :=
  mk_reply 200 (JObj [("success", JBool true); ("message", JStr "Inventory updated successfully")]).

Definition new_row (q : option Z) (now : timestamp) (mid : Z) : inv_row :=
  mk_inv q (Some mid) (Some now) (Some now) (Some now).

Lemma insert_row_ok q now mid d n :
  next_value (inventory_id_seq d) = n -> n <= max_value (inventory_id_seq d) ->
  inventory d !! n = None ->
  insert_row q now mid d =
  (Ok (set_inventory (<[n := new_row q now mid]> (inventory d))
         (set_inv_seq (mk_seq n true (min_value (inventory_id_seq d))
                                      (max_value (inventory_id_seq d))) d)),
   set_inv_seq (mk_seq n true (min_value (inventory_id_seq d)) (max_value (inventory_id_seq d))) d).
Proof.
  intros <- Hmax Hfree. unfold insert_row. rewrite nextval_ok by done. simpl. by rewrite Hfree.
Qed.

Lemma add_select_found body d mid :
  to_int4 (prop "menuitemid" body) = Ok (Some mid) ->
  add_select body d = Ok (bool_decide (rows_of_item mid (inventory d) <> ∅)).
Proof. unfold add_select. by intros ->. Qed.

Lemma add_write_insert body now d mid q n :
  to_int4 (prop "menuitemid" body) = Ok (Some mid) -> to_int4 (prop "quantity" body) = Ok q ->
  next_value (inventory_id_seq d) = n -> n <= max_value (inventory_id_seq d) ->
  inventory d !! n = None ->
  add_write body now false d =
  (added_reply, set_inventory (<[n := new_row q now mid]> (inventory d))
                  (set_inv_seq (mk_seq n true (min_value (inventory_id_seq d))
                                               (max_value (inventory_id_seq d))) d)).
Proof. intros Hm Hq Hn Hmax Hfree. unfold add_write. rewrite Hm, Hq. by erewrite insert_row_ok. Qed.

(** C6: two add requests for the same new menu item, interleaved so that
    both run their [SELECT] before either writes, both take the [INSERT]
    branch: the table ends with two rows for the item.  The
    select-then-write of lines 272-288 is not the atomic upsert the
    design requires. *)
Theorem concurrent_adds_duplicate now d b mid q n :
  negb (truthy (prop "menuitemid" b)) || negb (truthy (prop "quantity" b)) = false ->
  to_int4 (prop "menuitemid" b) = Ok (Some mid) ->
  to_int4 (prop "quantity" b) = Ok (Some q) ->
  rows_of_item mid (inventory d) = ∅ ->
  next_value (inventory_id_seq d) = n -> n + 1 <= max_value (inventory_id_seq d) ->
  inventory d !! n = None -> inventory d !! (n + 1) = None ->
  exists s', rtc (cstep now) (mk_cstate d [(b, PStart); (b, PStart)]) s' /\
             ~ item_unique (inventory (cdb s')).
Proof.
  intros Hh Hm Hq Hfree Hn Hmax Hn0 Hn1.
  assert (Hsel : add_select b d = Ok false).
  { rewrite (add_select_found _ _ mid Hm), Hfree. rewrite bool_decide_eq_false_2; [done|]. naive_solver. }
  set (d1 := set_inventory (<[n := new_row (Some q) now mid]> (inventory d))
               (set_inv_seq (mk_seq n true (min_value (inventory_id_seq d))
                                            (max_value (inventory_id_seq d))) d)).
  assert (Hw1 : add_write b now false d = (added_reply, d1)) by (apply add_write_insert; auto; lia).
  assert (Hw2 : add_write b now false d1 =
    (added_reply, set_inventory (<[n + 1 := new_row (Some q) now mid]> (inventory d1))
                    (set_inv_seq (mk_seq (n + 1) true (min_value (inventory_id_seq d))
                                                      (max_value (inventory_id_seq d))) d1))).
  { rewrite (add_write_insert b now d1 mid (Some q) (n + 1));
      [reflexivity | done | done | reflexivity | simpl; lia |].
    simpl. by rewrite lookup_insert_ne by lia. }
  eexists. split.
  - eapply rtc_l; [by apply (cstep_select now d _ 0 b false)|]. simpl.
    eapply rtc_l; [by apply (cstep_select now d _ 1 b false)|]. simpl.
    eapply rtc_l; [by apply (cstep_write now d _ 0 b false added_reply d1)|]. simpl.
    eapply rtc_l; [by apply (cstep_write now d1 _ 1 b false added_reply)|]. apply rtc_refl.
  - simpl. intros Hu.
    assert (n = n + 1); [|lia].
    apply (Hu n (n + 1) (new_row (Some q) now mid) (new_row (Some q) now mid)); try done.
    + rewrite lookup_insert_ne by lia. simpl. apply lookup_insert_eq.
    + apply lookup_insert_eq.
Qed.

Definition ex_inv_body : jsval := JObj [("menuitemid", JStr "3"); ("quantity", JStr "5")].
Definition ex_inv_db : database :=
  mk_db ∅ [] (mk_seq 1 false 1 2147483647) ∅ (mk_seq 1 false 1 2147483647) [] [] ∅ [] ∅ (mk_seq 1 false 1 2147483647).

Lemma concurrent_adds_duplicate_witness :
  exists s', rtc (cstep (mk_ts 100 3600)) (mk_cstate ex_inv_db [(ex_inv_body, PStart); (ex_inv_body, PStart)]) s' /\
             ~ item_unique (inventory (cdb s')).
Proof.
  apply (concurrent_adds_duplicate (mk_ts 100 3600) ex_inv_db ex_inv_body 3 5 1);
    try (vm_compute; reflexivity).
  simpl; lia.
Defined.

Lemma rows_of_item_insert_lookup mid m n row j r :
  rows_of_item mid m = ∅ -> <[n := row]> m !! j = Some r -> i_menuitemid r = Some mid -> j = n.
Proof.
  intros Hfree Hj Hr. rewrite lookup_insert in Hj. case_decide; [done|].
  exfalso. by apply (proj1 (rows_of_item_empty mid m) Hfree j r).
Qed.

(** Two add requests for a new menu item served one after the
    other leave exactly one row for the item, holding the sum of both
    quantities (the first request inserts it, the second updates it). *)
Theorem adds_sequential_merge now1 now2 d b1 b2 mid q1 q2 n :
  negb (truthy (prop "menuitemid" b1)) || negb (truthy (prop "quantity" b1)) = false ->
  negb (truthy (prop "menuitemid" b2)) || negb (truthy (prop "quantity" b2)) = false ->
  to_int4 (prop "menuitemid" b1) = Ok (Some mid) -> to_int4 (prop "menuitemid" b2) = Ok (Some mid) ->
  to_int4 (prop "quantity" b1) = Ok (Some q1) -> to_int4 (prop "quantity" b2) = Ok (Some q2) ->
  int4_min <= q1 + q2 <= int4_max ->
  rows_of_item mid (inventory d) = ∅ ->
  next_value (inventory_id_seq d) = n -> n <= max_value (inventory_id_seq d) ->
  inventory d !! n = None ->
  let d2 := (post_inventory_add b2 now2 (post_inventory_add b1 now1 d).2).2 in
  inventory d2 !! n = Some (mk_inv (Some (q1 + q2)) (Some mid) (Some now1) (Some now1) (Some now2)) /\
  forall j r, inventory d2 !! j = Some r -> i_menuitemid r = Some mid -> j = n.
Proof.
  intros Hh1 Hh2 Hm1 Hm2 Hq1 Hq2 Hsum Hfree Hn Hmax Hn0 d2.
  assert (Hsel1 : add_select b1 d = Ok false).
  { rewrite (add_select_found _ _ mid Hm1), Hfree.
    rewrite bool_decide_eq_false_2; [done|]. naive_solver. }
  set (m1 := <[n := new_row (Some q1) now1 mid]> (inventory d)).
  set (d1 := set_inventory m1 (set_inv_seq (mk_seq n true (min_value (inventory_id_seq d))
                                                           (max_value (inventory_id_seq d))) d)).
  assert (Hd1 : post_inventory_add b1 now1 d = (added_reply, d1)).
  { unfold post_inventory_add. rewrite Hh1, Hsel1. by apply add_write_insert. }
  assert (Hne : rows_of_item mid m1 <> ∅).
  { intros Hemp. apply (proj1 (rows_of_item_empty mid m1) Hemp n (new_row (Some q1) now1 mid));
      [apply lookup_insert_eq | done]. }
  assert (Hrange : existsb (fun kv => match i_quantity kv.2 with
                        | Some x => (x + q2 <? int4_min) || (int4_max <? x + q2)
                        | None => false end) (map_to_list (rows_of_item mid m1)) = false).
  { apply not_true_iff_false. intros (kv & Hin & Hout)%existsb_exists.
    destruct kv as [j r]. apply list_elem_of_In, elem_of_map_to_list in Hin.
    apply map_lookup_filter_Some in Hin as [Hj Hr]. simpl in *.
    pose proof (rows_of_item_insert_lookup _ _ _ _ _ _ Hfree Hj Hr) as ->.
    unfold m1 in Hj. rewrite lookup_insert_eq in Hj. injection Hj as <-. simpl in Hout. lia. }
  assert (Hd2 : post_inventory_add b2 now2 d1 =
    (updated_reply, set_inventory (map_imap (fun _ r => Some (if decide (i_menuitemid r = Some mid)
                                      then bump_row q2 now2 r else r)) m1) d1)).
  { unfold post_inventory_add. rewrite Hh2, (add_select_found _ _ mid Hm2). simpl.
    rewrite bool_decide_eq_true_2 by done. unfold add_write. rewrite Hm2, Hq2.
    unfold add_to_rows. simpl. by rewrite Hrange. }
  unfold d2. rewrite Hd1. simpl. rewrite Hd2. simpl. split.
  - rewrite imap_lookup. unfold m1. rewrite lookup_insert_eq. simpl.
    rewrite decide_True by done. unfold bump_row, new_row. simpl. do 3 f_equal. lia.
  - intros j r. rewrite imap_lookup. intros (r0 & Hj & ->)%fmap_Some.
    case_decide; simpl; intros Hr; by eapply (rows_of_item_insert_lookup _ _ _ _ _ r0 Hfree).
Qed.

Lemma adds_sequential_merge_witness :
  let d2 := (post_inventory_add ex_inv_body (mk_ts 100 7200)
               (post_inventory_add ex_inv_body (mk_ts 100 3600) ex_inv_db).2).2 in
  inventory d2 !! 1 = Some (mk_inv (Some (5 + 5)) (Some 3) (Some (mk_ts 100 3600))
                              (Some (mk_ts 100 3600)) (Some (mk_ts 100 7200))) /\
  forall j r, inventory d2 !! j = Some r -> i_menuitemid r = Some 3 -> j = 1.
Proof.
  apply (adds_sequential_merge _ _ ex_inv_db ex_inv_body ex_inv_body 3 5 5 1);
    try (vm_compute; reflexivity); try (simpl; lia); vm_compute; split; congruence.
Defined.

(** The update handler on a body it accepts. *)
Lemma post_inventory_update_ok body d id q :
  negb (truthy (prop "inventoryid" body)) || negb (truthy (prop "quantity" body)) = false ->
  to_int4 (prop "inventoryid" body) = Ok (Some id) ->
  to_int4 (prop "quantity" body) = Ok (Some q) ->
  (post_inventory_update body d).1 = mk_reply 200 success_body /\
  (forall j, inventory (post_inventory_update body d).2 !! j =
     if decide (j = id)
     then (fun r => mk_inv (Some q) (i_menuitemid r) (i_timestamp r) (i_restockdate r)
                         (i_lastupdated r)) <$> inventory d !! id
     else inventory d !! j).
Proof.
  intros Hh Hid Hq. unfold post_inventory_update. rewrite Hh, Hid, Hq. simpl.
  split; [done|]. intros j. rewrite lookup_alter. by do 2 case_decide; subst.
Qed.

(** [/api/inventory/update] overwrites the quantity of the row it
    names with the converted request value, negative values included
    (the design allows no negative quantity), and leaves other rows
    alone; an unknown [inventoryid] changes nothing and still answers 200. *)
Theorem inventory_update_sets body d id q :
  negb (truthy (prop "inventoryid" body)) || negb (truthy (prop "quantity" body)) = false ->
  to_int4 (prop "inventoryid" body) = Ok (Some id) ->
  to_int4 (prop "quantity" body) = Ok (Some q) ->
  (post_inventory_update body d).1 = mk_reply 200 success_body /\
  (forall j, inventory (post_inventory_update body d).2 !! j =
     if decide (j = id)
     then (fun r => mk_inv (Some q) (i_menuitemid r) (i_timestamp r) (i_restockdate r)
                         (i_lastupdated r)) <$> inventory d !! id
     else inventory d !! j).
Proof. apply post_inventory_update_ok. Qed.

Lemma inventory_update_sets_witness :
  let body := JObj [("inventoryid", JStr "1"); ("quantity", JStr "-4")] in
  let d := (post_inventory_add ex_inv_body (mk_ts 100 3600) ex_inv_db).2 in
  (post_inventory_update body d).1 = mk_reply 200 success_body /\
  (forall j, inventory (post_inventory_update body d).2 !! j =
     if decide (j = 1)
     then (fun r => mk_inv (Some (-4)) (i_menuitemid r) (i_timestamp r) (i_restockdate r)
                         (i_lastupdated r)) <$> inventory d !! 1
     else inventory d !! j).
Proof. apply inventory_update_sets; vm_compute; reflexivity. Defined.

End Inventory.
