(* ===== verification/Reports.v ===== *)
(** * Report aggregator: [GET /api/xreport] and [GET /api/zreport]
    (server.js lines 537-618)

    Both handlers run one query over
    [Sales s LEFT JOIN Transactions t ON s.id = t.sale_id
     LEFT JOIN MenuItem mi ON t.menu_item_id = mi.ItemID
     LEFT JOIN Orders o ON o.OrderID = t.sale_id]
    (the Z report also [LEFT JOIN Employee e ON e.EmployeeID = o.UserID]),
    keep the rows of today between two hours, and aggregate them per hour.
    Amounts are in cents; the Z report's tax and service charge, which
    multiply a sum in cents by [0.08] and [0.05] exactly, are in
    ten-thousandths of a dollar. *)

From S2P Require Import Prelude Sequence JsValue PgValue Db Sql Orders.
Import Sequence Js Pg Db Sql Orders.

Module Reports.

(** One row of the joined tables; a [None] is the [NULL] row a [LEFT JOIN]
    adds when nothing matches. *)
Record jrow := mk_jrow {
  j_sale : sale_row;
  j_txn : option txn_row;
  j_menu : option (Z * menu_row);
  j_order : option order_row;
  j_emp : option (Z * employee_row)
}.

Definition on_txn (s : sale_row) (t : txn_row) : bool :=
  bool_decide (t_sale_id t = Some (s_id s)).
Definition item_matches (t : txn_row) (k : Z) : bool := bool_decide (t_menu_item_id t = Some k).
Definition on_menu (st : sale_row * option txn_row) (m : Z * menu_row) : bool :=
  match st.2 with Some t => item_matches t m.1 | None => false end.
Definition on_order (stm : sale_row * option txn_row * option (Z * menu_row)) (o : order_row) : bool :=
  match stm.1.2 with Some t => bool_decide (t_sale_id t = Some (o_orderid o)) | None => false end.
Definition on_emp (r : jrow) (e : Z * employee_row) : bool :=
  match j_order r with Some o => bool_decide (o_userid o = Some e.1) | None => false end.

(** The [FROM] clause of the X report. *)
Definition x_from (d : database) : list jrow :=
  map (fun '(stm, oo) => mk_jrow stm.1.1 stm.1.2 stm.2 oo None)
      (left_join on_order
         (left_join on_menu (left_join on_txn (sales d) (transactions d)) (map_to_list (menuitem d)))
         (orders d)).

(** The [FROM] clause of the Z report. *)
Definition z_from (d : database) : list jrow :=
  map (fun '(r, oe) => mk_jrow (j_sale r) (j_txn r) (j_menu r) (j_order r) oe)
      (left_join on_emp (x_from d) (map_to_list (employee d))).

(** [WHERE DATE(s.SalesTimestamp) = CURRENT_DATE AND
    EXTRACT(HOUR FROM s.SalesTimestamp) BETWEEN $1 AND $2]. *)
Definition where_ok (today : Z) (lo hi : option (Z * nat)) (r : jrow) : bool :=
  match s_timestamp (j_sale r) with
  | Some ts => bool_decide (ts_date ts = today) && between (ts_hour ts) lo hi
  | None => false
  end.

(** [EXTRACT(HOUR FROM s.SalesTimestamp) AS hour]. *)
Definition row_hour (r : jrow) : Z :=
  match s_timestamp (j_sale r) with Some ts => ts_hour ts | None => 0 end.

(** [t.price * t.quantity]. *)
Definition price_qty (r : jrow) : option Z :=
  match j_txn r with
  | Some t => match t_price t, t_quantity t with Some p, Some q => Some (p * q) | _, _ => None end
  | None => None
  end.

(** [CASE WHEN t.TransactionCategory = c THEN f ELSE 0 END]. *)
Definition when_category (c : string) (f : jrow -> option Z) (r : jrow) : option Z :=
  match j_txn r with
  | Some t => if bool_decide (t_category t = Some c) then f r else Some 0
  | None => Some 0
  end.

(** [CASE WHEN mi.ItemType = 'Drink' THEN t.quantity ELSE 0 END]. *)
Definition drink_qty (r : jrow) : option Z :=
  match j_menu r with
  | Some (_, m) => if bool_decide (itemtype m = Some "Drink") then j_txn r ≫= t_quantity else Some 0
  | None => Some 0
  end.

(** [CASE WHEN o.Rewards > 0 THEN o.Rewards ELSE 0 END]. *)
Definition reward (r : jrow) : option Z :=
  match j_order r ≫= o_rewards with Some w => Some (if 0 <? w then w else 0) | None => Some 0 end.

Record xrow := mk_xrow {
  x_hour : Z;
  x_total_transactions : Z;
  x_sales_revenue : Z;
  x_total_sales : Z;
  x_total_returns : Z;
  x_drink_sales : Z;
  x_voids : Z;
  x_discards : Z;
  x_payment_methods : option (list string)
}.

Record zrow := mk_zrow {
  z_hour : Z;
  z_total_transactions : Z;
  z_sales_revenue : Z;
  z_total_sales : Z;
  z_total_tax : Z;          (** ten-thousandths *)
  z_service_charges : Z;    (** ten-thousandths *)
  z_voids : Z;
  z_discards : Z;
  z_discounts : Z;
  z_employee_signatures : option (list string);
  z_payment_methods : option (list string)
}.

(** The select list of the X report on the rows of one hour. *)
Definition x_aggregate (h : Z) (g : list jrow) : xrow :=
  mk_xrow h
    (count_distinct (map (fun r => t_id <$> j_txn r) g))
    (coalesce0 (sum_opt (map (fun r => s_total_amount (j_sale r)) g)))
    (coalesce0 (sum_opt (map price_qty g)))
    (coalesce0 (sum_opt (map (when_category "Return" price_qty) g)))
    (coalesce0 (sum_opt (map drink_qty g)))
    (coalesce0 (sum_opt (map (when_category "Void" price_qty) g)))
    (coalesce0 (sum_opt (map (when_category "Discard" price_qty) g)))
    (string_agg_distinct (map (fun r => j_txn r ≫= t_paymentmethod) g)).

(** The select list of the Z report on the rows of one hour. *)
Definition z_aggregate (h : Z) (g : list jrow) : zrow :=
  mk_zrow h
    (count_distinct (map (fun r => t_id <$> j_txn r) g))
    (coalesce0 (sum_opt (map (fun r => s_total_amount (j_sale r)) g)))
    (coalesce0 (sum_opt (map price_qty g)))
    (coalesce0 ((fun x => x * 8) <$> sum_opt (map price_qty g)))
    (coalesce0 ((fun x => x * 5) <$> sum_opt (map price_qty g)))
    (coalesce0 (sum_opt (map (when_category "Void" (fun r => Z.abs <$> price_qty r)) g)))
    (coalesce0 (sum_opt (map (when_category "Discard" (fun r => Z.abs <$> price_qty r)) g)))
    (coalesce0 (sum_opt (map reward g)))
    (string_agg_distinct (map (fun r => (j_emp r) ≫= (fun e => e_name e.2)) g))
    (string_agg_distinct (map (fun r => j_txn r ≫= t_paymentmethod) g)).

(** [WHERE ... GROUP BY hour ORDER BY hour]. *)
Definition grouped {A} (agg : Z -> list jrow -> A) (rows : list jrow) : list A :=
  map (fun h => agg h (group_rows row_hour h rows)) (group_keys (map row_hour rows)).

Definition x_report_rows (today : Z) (lo hi : option (Z * nat)) (d : database) : list xrow :=
  grouped x_aggregate (filter (fun r => where_ok today lo hi r = true) (x_from d)).

Definition z_report_rows (today : Z) (lo hi : option (Z * nat)) (d : database) : list zrow :=
  grouped z_aggregate (filter (fun r => where_ok today lo hi r = true) (z_from d)).

(** [GET /api/xreport] (lines 537-574): [Ok rows] is a 200 reply with the
    rows; [Err] a reply with an error status. *)
Definition get_xreport (query : jsval) (today : Z) (d : database) : result reply (list xrow) :=
  let startHour := prop "startHour" query in
  let endHour := prop "endHour" query in
  if is_nan startHour || is_nan endHour then Err (mk_reply 400 (JStr "Invalid hours provided."))
  else match to_numeric_exact startHour, to_numeric_exact endHour with
       | Ok lo, Ok hi => Ok (x_report_rows today lo hi d)
       | _, _ => Err (mk_reply 500 (JStr "Failed to fetch report data"))
       end.

(** [parseInt(a) > parseInt(b)], false when either is [NaN]. *)
Definition js_gt (a b : option Z) : bool :=
  match a, b with Some x, Some y => y <? x | _, _ => false end.

(** [GET /api/zreport] (lines 578-618). *)
Definition get_zreport (query : jsval) (today : Z) (d : database) : result reply (list zrow) :=
  let startHour := prop "startHour" query in
  let endHour := prop "endHour" query in
  if js_gt (parse_int startHour) (parse_int endHour)
  then Err (mk_reply 400 (JStr "Start hour cannot be greater than end hour"))
  else match to_numeric_exact startHour, to_numeric_exact endHour with
       | Ok lo, Ok hi => Ok (z_report_rows today lo hi d)
       | _, _ => Err (mk_reply 500 (JStr "Error fetching report data"))
       end.

(** ** Lemmas on the joins *)

Lemma x_from_sale d r : r ∈ x_from d -> j_sale r ∈ sales d.
Proof.
  unfold x_from. intros ([stm oo] & -> & Hin)%list_elem_of_fmap.
  destruct stm as [[s ot] om]. simpl.
  apply left_join_left, left_join_left, left_join_left in Hin. done.
Qed.

Lemma x_from_total d s : s ∈ sales d -> exists r, r ∈ x_from d /\ j_sale r = s.
Proof.
  intros Hs.
  destruct (left_join_total on_txn _ (transactions d) s Hs) as [ot H1].
  destruct (left_join_total on_menu _ (map_to_list (menuitem d)) _ H1) as [om H2].
  destruct (left_join_total on_order _ (orders d) _ H2) as [oo H3].
  exists (mk_jrow s ot om oo None). split; [|done].
  apply list_elem_of_fmap. by exists ((s, ot, om), oo).
Qed.

Lemma z_from_sale d r : r ∈ z_from d -> j_sale r ∈ sales d.
Proof.
  unfold z_from. intros ([r0 oe] & -> & Hin)%list_elem_of_fmap.
  apply left_join_left, x_from_sale in Hin. done.
Qed.

Lemma z_from_total d s : s ∈ sales d -> exists r, r ∈ z_from d /\ j_sale r = s.
Proof.
  intros (r0 & Hr0 & <-)%x_from_total.
  destruct (left_join_total on_emp _ (map_to_list (employee d)) r0 Hr0) as [oe H].
  exists (mk_jrow (j_sale r0) (j_txn r0) (j_menu r0) (j_order r0) oe). split; [|done].
  apply list_elem_of_fmap. by exists (r0, oe).
Qed.

Lemma grouped_keys {A} (agg : Z -> list jrow -> A) (hour_of : A -> Z) rows :
  (forall h g, hour_of (agg h g) = h) ->
  map hour_of (grouped agg rows) = group_keys (map row_hour rows).
Proof.
  intros Hagg. unfold grouped. rewrite map_map. erewrite map_ext; [apply map_id|]. done.
Qed.

Lemma where_ok_spec today lo hi r :
  where_ok today lo hi r = true <->
  exists ts, s_timestamp (j_sale r) = Some ts /\ ts_date ts = today /\ between (ts_hour ts) lo hi = true.
Proof.
  unfold where_ok. destruct (s_timestamp _) as [ts|]; [|naive_solver].
  rewrite andb_true_iff, bool_decide_eq_true. naive_solver.
Qed.

(** The hours of a report over the rows a [FROM] clause yields. *)
Lemma report_hours {A} (agg : Z -> list jrow -> A) (hour_of : A -> Z) (from : list jrow)
  (sales0 : list sale_row)
  today lo hi h :
  (forall h g, hour_of (agg h g) = h) ->
  (forall r, r ∈ from -> j_sale r ∈ sales0) ->
  (forall s, s ∈ sales0 -> exists r, r ∈ from /\ j_sale r = s) ->
  h ∈ map hour_of (grouped agg (filter (fun r => where_ok today lo hi r = true) from)) <->
  exists s ts, s ∈ sales0 /\ s_timestamp s = Some ts /\ ts_date ts = today /\
               ts_hour ts = h /\ between h lo hi = true.
Proof.
  intros Hagg Hsound Hcompl. rewrite grouped_keys by done. rewrite group_keys_map. split.
  - intros (r & (Hw & Hr)%list_elem_of_filter & <-).
    apply where_ok_spec in Hw as (ts & Hts & Hd & Hb).
    exists (j_sale r), ts. unfold row_hour. rewrite Hts. auto.
  - intros (s & ts & Hs & Hts & Hd & <- & Hb). destruct (Hcompl s Hs) as (r & Hr & <-).
    exists r. split; [apply list_elem_of_filter; split; [apply where_ok_spec; eauto|done]|].
    unfold row_hour. by rewrite Hts.
Qed.

Lemma StronglySorted_map_lt {A} (f : A -> Z) (l : list A) :
  StronglySorted Z.lt (map f l) -> StronglySorted (fun a b => f a < f b) l.
Proof.
  induction l as [|x l IH]; simpl; intros Hs; [constructor|].
  apply StronglySorted_inv in Hs as [Hs Hall]. constructor; [by apply IH|].
  apply Forall_forall. intros y Hy. eapply Forall_forall in Hall; [done|].
  apply list_elem_of_fmap. eauto.
Qed.

(** ** Theorems *)

(** the X report has a row for an hour exactly when some sale of
    today falls in that hour within [[startHour, endHour]]: an hour
    without sales has no row at all (the design asks for a zero row), and
    an hour with sales but no transactions has one. *)
Theorem x_report_hours today lo hi d h :
  h ∈ map x_hour (x_report_rows today lo hi d) <->
  exists s ts, s ∈ sales d /\ s_timestamp s = Some ts /\ ts_date ts = today /\
               ts_hour ts = h /\ between h lo hi = true.
Proof.
  apply report_hours; [done|apply x_from_sale|apply x_from_total].
Qed.

(** the rows of both reports come in strictly increasing hour order. *)
Theorem reports_sorted_by_hour today lo hi d :
  StronglySorted (fun a b => x_hour a < x_hour b) (x_report_rows today lo hi d) /\
  StronglySorted (fun a b => z_hour a < z_hour b) (z_report_rows today lo hi d).
Proof.
  split; apply StronglySorted_map_lt; unfold x_report_rows, z_report_rows;
    rewrite grouped_keys by done; apply group_keys_sorted.
Qed.

(** in every Z-report row the tax is exactly 8% and the service
    charge exactly 5% of the row's total sales (in ten-thousandths of a
    dollar against cents), recomputed from the same sum. *)
Theorem z_report_tax_rates today lo hi d r :
  r ∈ z_report_rows today lo hi d ->
  z_total_tax r = 8 * z_total_sales r /\ z_service_charges r = 5 * z_total_sales r.
Proof.
  unfold z_report_rows, grouped. intros (h & -> & _)%list_elem_of_fmap. simpl.
  destruct (sum_opt _); simpl; lia.
Qed.

Lemma between_reversed h m1 k1 m2 k2 :
  m2 * 10 ^ Z.of_nat k1 < m1 * 10 ^ Z.of_nat k2 -> between h (Some (m1, k1)) (Some (m2, k2)) = false.
Proof.
  intros Hlt. unfold between. apply not_true_iff_false. rewrite andb_true_iff, !Z.leb_le.
  intros [H1 H2].
  assert (0 < 10 ^ Z.of_nat k1) by (apply Z.pow_pos_nonneg; lia).
  assert (0 < 10 ^ Z.of_nat k2) by (apply Z.pow_pos_nonneg; lia).
  assert (m1 * 10 ^ Z.of_nat k2 <= h * 10 ^ Z.of_nat k1 * 10 ^ Z.of_nat k2) by nia.
  assert (h * 10 ^ Z.of_nat k2 * 10 ^ Z.of_nat k1 <= m2 * 10 ^ Z.of_nat k1) by nia.
  nia.
Qed.

Lemma grouped_nil {A} (agg : Z -> list jrow -> A) : grouped agg [] = [].
Proof. done. Qed.

Lemma filter_where_reversed today m1 k1 m2 k2 (rows : list jrow) :
  m2 * 10 ^ Z.of_nat k1 < m1 * 10 ^ Z.of_nat k2 ->
  filter (fun r => where_ok today (Some (m1, k1)) (Some (m2, k2)) r = true) rows = [].
Proof.
  intros Hlt. apply filter_none. intros r _ (ts & _ & _ & Hb)%where_ok_spec.
  by rewrite between_reversed in Hb.
Qed.

(** C9: a reversed hour window ([startHour > endHour]) is rejected with
    400 before any query by the Z report, but the X report only checks
    [isNaN], runs its query and answers 200 with no rows (the design
    requires both to reject it). *)
Theorem reversed_window query today d a b m1 k1 m2 k2 :
  is_nan (prop "startHour" query) = false -> is_nan (prop "endHour" query) = false ->
  parse_int (prop "startHour" query) = Some a -> parse_int (prop "endHour" query) = Some b -> b < a ->
  to_numeric_exact (prop "startHour" query) = Ok (Some (m1, k1)) ->
  to_numeric_exact (prop "endHour" query) = Ok (Some (m2, k2)) ->
  m2 * 10 ^ Z.of_nat k1 < m1 * 10 ^ Z.of_nat k2 ->
  get_xreport query today d = Ok [] /\
  get_zreport query today d = Err (mk_reply 400 (JStr "Start hour cannot be greater than end hour")).
Proof.
  intros Hn1 Hn2 Ha Hb Hab H1 H2 Hlt. split.
  - unfold get_xreport. rewrite Hn1, Hn2, H1, H2. simpl.
    unfold x_report_rows. by rewrite filter_where_reversed.
  - unfold get_zreport, js_gt. rewrite Ha, Hb. by replace (b <? a) with true by lia.
Qed.

Lemma reversed_window_witness :
  get_xreport (JObj [("startHour", JStr "5"); ("endHour", JStr "3")]) 20 ex_db = Ok [] /\
  get_zreport (JObj [("startHour", JStr "5"); ("endHour", JStr "3")]) 20 ex_db =
  Err (mk_reply 400 (JStr "Start hour cannot be greater than end hour")).
Proof. apply (reversed_window _ _ _ 5 3 5 0 3 0); vm_compute; reflexivity. Defined.

Lemma x_from_ext d d' :
  sales d' = sales d -> transactions d' = transactions d -> menuitem d' = menuitem d ->
  orders d' = orders d -> x_from d' = x_from d.
Proof. unfold x_from. by intros -> -> -> ->. Qed.

Lemma z_from_ext d d' :
  sales d' = sales d -> transactions d' = transactions d -> menuitem d' = menuitem d ->
  orders d' = orders d -> employee d' = employee d -> z_from d' = z_from d.
Proof. unfold z_from. intros Hs Ht Hm Ho ->. by rewrite (x_from_ext d d'). Qed.

Lemma x_from_unlinked d new s :
  Forall (fun r => t_sale_id r = Some 0) new -> (forall sl, sl ∈ sales d -> s_id sl <> 0) ->
  x_from (set_transactions (transactions d ++ new) (set_txn_seq s d)) = x_from d.
Proof.
  intros Hnew Hsales. unfold x_from. simpl. f_equal. f_equal. f_equal.
  apply left_join_app_unmatched. intros sl t Hsl Ht. unfold on_txn.
  apply bool_decide_eq_false_2. eapply Forall_forall in Hnew; [|done].
  rewrite Hnew. intros [= Heq]. by apply (Hsales sl).
Qed.

(** C8: the rows [POST /api/orders] records never reach a report: they
    carry the sentinel [sale_id] 0, so as long as no [sales] row has id
    0, both reports are the same before and after any order request. *)
Theorem reports_ignore_recorded_orders body d today lo hi :
  (forall sl, sl ∈ sales d -> s_id sl <> 0) ->
  x_report_rows today lo hi (post_orders body d).2 = x_report_rows today lo hi d /\
  z_report_rows today lo hi (post_orders body d).2 = z_report_rows today lo hi d.
Proof.
  intros Hsales. unfold x_report_rows, z_report_rows, z_from.
  destruct (post_orders_cases body d) as [(_ & new & s & -> & _ & Hall)|(_ & Ht)].
  - rewrite x_from_unlinked; [done| |done].
    eapply Forall_impl; [done|]. naive_solver.
  - destruct Ht as (Hm & Htx & _ & Hs & Ho & He & _).
    rewrite (x_from_ext d), He by done. done.
Qed.

Lemma reports_ignore_recorded_orders_witness :
  x_report_rows 20 (Some (0, O)) (Some (23, O)) (post_orders (ex_body [ex_item 2 550]) ex_db).2 =
  x_report_rows 20 (Some (0, O)) (Some (23, O)) ex_db /\
  z_report_rows 20 (Some (0, O)) (Some (23, O)) (post_orders (ex_body [ex_item 2 550]) ex_db).2 =
  z_report_rows 20 (Some (0, O)) (Some (23, O)) ex_db.
Proof. apply reports_ignore_recorded_orders. simpl. intros sl Hsl. by apply elem_of_nil in Hsl. Defined.

(** The sale of each row of the X [FROM] clause, when the sale is the
    only one, every transaction belongs to it and no order matches. *)
Lemma x_from_single_sale d s :
  sales d = [s] -> orders d = [] -> transactions d <> [] ->
  Forall (fun t => t_sale_id t = Some (s_id s)) (transactions d) ->
  map j_sale (x_from d) = replicate (length (transactions d)) s.
Proof.
  intros Hs Ho Hne Hall. unfold x_from. rewrite Hs, Ho, map_map.
  rewrite (left_join_all_match on_txn s (transactions d)) by
    (done || (intros t Ht; unfold on_txn; apply bool_decide_eq_true_2;
              by eapply Forall_forall in Hall)).
  set (l1 := map (fun t => (s, Some t)) (transactions d)).
  set (l2 := left_join on_menu l1 (map_to_list (menuitem d))).
  assert (Hl2 : map fst l2 = l1).
  { apply left_join_fst_le1. intros [s' [t|]] _; unfold on_menu; simpl.
    - apply (filter_key_le1 _ (item_matches t)); [apply NoDup_fst_map_to_list|].
      unfold item_matches. intros k k' ?%bool_decide_eq_true ?%bool_decide_eq_true. congruence.
    - rewrite filter_none; [simpl; lia | done]. }
  assert (Hl3 : map fst (left_join on_order l2 []) = l2).
  { apply left_join_fst_le1. intros a _. simpl. lia. }
  transitivity (map (fun p => p.1.1) (map fst (left_join on_order l2 []))).
  - rewrite map_map. apply map_ext. by intros [[[? ?] ?] ?].
  - rewrite Hl3. transitivity (map fst (map fst l2)); [by rewrite map_map|].
    rewrite Hl2. unfold l1. rewrite map_map. simpl.
    clear. induction (transactions d); simpl; [done|by f_equal].
Qed.

(** C7: the X report sums [s.total_amount] over the joined rows, so a
    sale is counted once per transaction row joined to it: for a day
    whose only sale has [n] line items and no matching order, the
    hour's [sales_revenue] is [n] times the sale's amount. *)
Theorem x_revenue_counts_sale_per_line today lo hi d s ts a :
  sales d = [s] -> orders d = [] -> transactions d <> [] ->
  Forall (fun t => t_sale_id t = Some (s_id s)) (transactions d) ->
  s_timestamp s = Some ts -> ts_date ts = today -> between (ts_hour ts) lo hi = true ->
  s_total_amount s = Some a ->
  map x_sales_revenue (x_report_rows today lo hi d) = [Z.of_nat (length (transactions d)) * a].
Proof.
  intros Hs Ho Hne Hall Hts Hd Hb Ha.
  pose proof (x_from_single_sale d s Hs Ho Hne Hall) as Hsale.
  assert (Hsame : forall r, r ∈ x_from d -> j_sale r = s).
  { intros r Hr. assert (j_sale r ∈ map j_sale (x_from d)) as Hin
      by (apply list_elem_of_fmap; eauto).
    rewrite Hsale in Hin. by apply elem_of_replicate in Hin as [? _]. }
  assert (Hf : filter (fun r => where_ok today lo hi r = true) (x_from d) = x_from d).
  { apply filter_all. intros r Hr. apply where_ok_spec. rewrite (Hsame r Hr). eauto. }
  assert (Hlen : length (x_from d) = length (transactions d)).
  { by rewrite <- (length_map j_sale), Hsale, length_replicate. }
  unfold x_report_rows, grouped. rewrite Hf.
  rewrite (group_keys_const _ (ts_hour ts)).
  - simpl. unfold group_rows. rewrite filter_all.
    + simpl. f_equal. rewrite <- (map_map j_sale s_total_amount), Hsale, map_replicate, Ha.
      rewrite sum_opt_replicate; [done|]. destruct (transactions d); [done|simpl; lia].
    + intros r Hr. unfold row_hour. by rewrite (Hsame r Hr), Hts.
  - destruct (x_from d); [destruct (transactions d); simpl in *; congruence|done].
  - intros k (r & -> & Hr)%list_elem_of_fmap. unfold row_hour. by rewrite (Hsame r Hr), Hts.
Qed.

Definition ex_sale : sale_row := mk_sale 10 (Some (mk_ts 20 (9 * 3600))) (Some 1000) (Some false).
Definition ex_report_db : database :=
  mk_db ∅ [mk_txn 1 (Some 10) (Some 1) (Some 1) (Some 450) (Some "Cash") (Some "Sale");
          mk_txn 2 (Some 10) (Some 2) (Some 1) (Some 550) (Some "Cash") (Some "Sale")]
        (mk_seq 2 true 1 100) ∅ (mk_seq 1 false 1 100) [ex_sale] [] ∅ [] ∅ (mk_seq 1 false 1 100).

Lemma x_revenue_counts_sale_per_line_witness :
  map x_sales_revenue (x_report_rows 20 (Some (0, O)) (Some (23, O)) ex_report_db) = [2 * 1000].
Proof.
  rewrite (x_revenue_counts_sale_per_line 20 _ _ ex_report_db ex_sale (mk_ts 20 (9 * 3600)) 1000);
    try (vm_compute; reflexivity).
  - vm_compute. congruence.
  - repeat constructor.
Defined.

Definition ex_zrow : zrow := mk_zrow 9 2 2000 1000 8000 5000 0 0 0 None (Some ["Cash"]).

Lemma z_report_tax_rates_witness :
  z_total_tax ex_zrow = 8 * z_total_sales ex_zrow /\ z_service_charges ex_zrow = 5 * z_total_sales ex_zrow.
Proof.
  apply (z_report_tax_rates 20 (Some (0, O)) (Some (23, O)) ex_report_db).
  assert (z_report_rows 20 (Some (0, O)) (Some (23, O)) ex_report_db = [ex_zrow]) as ->
    by (vm_compute; reflexivity).
  apply list_elem_of_here.
Defined.

End Reports.
