(* ===== verification/Router.v ===== *)
(** * Request routing: the Express application of [server.js]

    [server.js] builds one Express application: [app.use] and
    [app.METHOD(path, handler)] push layers onto the application's stack
    in the order they are executed (lines 19-30 and every route after
    them), and a request is served by the first layer that accepts it; a
    layer that does not accept calls [next()].  This file models the
    stack as a list of layers, the path patterns of Express 4
    (path-to-regexp 0.1: case-insensitive, optional trailing slash, [:name]
    parameters, [*]), the [cors()] preflight answer, [express.static] and
    the mounted router of [routes/authRoutes.js]. *)

From S2P Require Import Prelude.
From Stdlib Require Import Ascii.

Module Router.

Inductive meth := GET | POST | PUT | DELETE | HEAD | OPTIONS.

#[global] Instance meth_eq_dec : EqDecision meth.
Proof. solve_decision. Defined.

(** A compiled path pattern: literal text, a [:name] parameter matching
    one non-empty segment without a slash (lazily), or [*] (any text, greedily). *)
Inductive tok := Lit (s : string) | Param (n : string) | Star.

Definition params := list (string * string).

Definition slash : ascii := "/"%char.

(** [s] starts with [l], up to case: the rest of [s]. *)
Fixpoint strip_prefix_ci (l s : string) : option string :=
  match l, s with
  | EmptyString, _ => Some s
  | String a l', String b s' => if Ascii.eqb (ascii_lower a) (ascii_lower b) then strip_prefix_ci l' s' else None
  | String _ _, EmptyString => None
  end.

(** The suffixes of [s], longest first. *)
Fixpoint suffixes (s : string) : list string :=
  match s with
  | EmptyString => [EmptyString]
  | String _ s' => s :: suffixes s'
  end.

Definition first_some {A B} (f : A -> option B) (l : list A) : option B :=
  foldr (fun a acc => match f a with Some b => Some b | None => acc end) None l.

Definition prefix_len (s rest : string) : string := String.substring 0 (String.length s - String.length rest) s.

(** [^pattern\/?$] with the [i] flag, the regular expression a route
    path compiles to; the parameters it captures.  A parameter is lazy
    and [*] greedy, as in the regular expression. *)
Fixpoint match_toks (ts : list tok) (s : string) {struct ts} : option params :=
  match ts with
  | [] => if String.eqb s "" || String.eqb s (String slash "") then Some [] else None
  | Lit l :: ts' => match strip_prefix_ci l s with Some s' => match_toks ts' s' | None => None end
  | Param n :: ts' =>
      (fix go (acc : string) (s : string) : option params :=
         match s with
         | EmptyString => None
         | String c s' =>
             if Ascii.eqb c slash then None
             else let acc' := acc +:+ String c EmptyString in
                  match match_toks ts' s' with
                  | Some ps => Some ((n, acc') :: ps)
                  | None => go acc' s'
                  end
         end) EmptyString s
  | Star :: ts' =>
      first_some (fun rest => match match_toks ts' rest with
                              | Some ps => Some (("0", prefix_len s rest) :: ps)
                              | None => None end)
                 (rev (suffixes s))
  end.

(** The prefix of a mounted router, [^prefix\/?(?=\/|$)] with the [i]
    flag: the rest of the path, which becomes [req.url] inside the router
    with a leading [/] added when it has none. *)
Definition match_mount (prefix : string) (s : string) : option string :=
  match strip_prefix_ci prefix s with
  | Some EmptyString => Some (String slash EmptyString)
  | Some (String c r) => if Ascii.eqb c slash then Some (String c r) else None
  | None => None
  end.

(** Every handler of the application, by the route that registers it. *)
Inductive handler :=
| HAuthGoogleLogin            (** routes/authRoutes.js, POST /google-login *)
| HCatchAll                   (** GET * : index.html *)
| HLogin | HGuest | HMenu | HMenuType | HOrders | HMenuAdd | HMenuDelete
| HInventory | HInventoryAdd | HInventoryDelete | HInventoryUpdate | HTrends
| HEmployees | HEmployeesAdd | HEmployeesUpdate | HEmployeesDelete
| HSeasonal | HMenuAddSeasonal | HMenuDeleteById | HProductUsage
| HXReport | HZReport | HTestDb | HTransactions | HGoogleLogin | HWeather.

#[global] Instance handler_eq_dec : EqDecision handler.
Proof. solve_decision. Defined.

(** What answers a request. *)
Inductive outcome :=
| Handled (h : handler) (ps : params)
| Preflight          (** [cors()]: 204 to an [OPTIONS] request *)
| StaticFile         (** [express.static]: a file of the build directory *)
| NotFound.          (** Express's final handler: 404 *)

Inductive layer :=
| LPass                                              (** [express.json()] *)
| LCors                                              (** [cors()] *)
| LMount (prefix : string) (routes : list (meth * list tok * handler))
| LStatic                                            (** [express.static] *)
| LRoute (m : meth) (p : list tok) (h : handler).

Record request := mk_req { rmethod : meth; rpath : string }.

(** A route for [m] also answers [HEAD] when [m] is [GET]. *)
Definition method_matches (m r : meth) : bool :=
  bool_decide (m = r) || (bool_decide (m = GET) && bool_decide (r = HEAD)).

Definition route_accepts (m : meth) (p : list tok) (h : handler) (r : request) : option outcome :=
  if method_matches m (rmethod r) then Handled h <$> match_toks p (rpath r) else None.

(** One layer on a request: [None] is [next()].  [static_hit] says which
    paths name a file of the build directory, which is not part of the
    repository. *)
Definition accepts (static_hit : string -> bool) (l : layer) (r : request) : option outcome :=
  match l with
  | LPass => None
  | LCors => if bool_decide (rmethod r = OPTIONS) then Some Preflight else None
  | LMount prefix routes =>
      match match_mount prefix (rpath r) with
      | Some rest => first_some (fun '(m, p, h) => route_accepts m p h (mk_req (rmethod r) rest)) routes
      | None => None
      end
  | LStatic =>
      if (bool_decide (rmethod r = GET) || bool_decide (rmethod r = HEAD)) && static_hit (rpath r)
      then Some StaticFile else None
  | LRoute m p h => route_accepts m p h r
  end.

Definition dispatch (static_hit : string -> bool) (stack : list layer) (r : request) : outcome :=
  default NotFound (first_some (fun l => accepts static_hit l r) stack).

(** [routes/authRoutes.js]: the router mounted at [/api/auth]. *)
Definition auth_routes : list (meth * list tok * handler) :=
  [(POST, [Lit "/google-login"], HAuthGoogleLogin)].

(** The stack [server.js] builds, in the order of its statements. *)
Definition app_stack : list layer :=
  [ LCors;                                                     (* line 19 *)
    LPass;                                                     (* line 20 *)
    LMount "/api/auth" auth_routes;                            (* line 22 *)
    LStatic;                                                   (* line 25 *)
    LRoute GET [Star] HCatchAll;                               (* line 28 *)
    LRoute POST [Lit "/api/login"] HLogin;                     (* line 43 *)
    LRoute POST [Lit "/api/guest"] HGuest;                     (* line 71 *)
    LRoute GET [Lit "/api/menu"] HMenu;                        (* line 83 *)
    LRoute GET [Lit "/api/menu/"; Param "type"] HMenuType;     (* line 109 *)
    LRoute POST [Lit "/api/orders"] HOrders;                   (* line 136 *)
    LRoute POST [Lit "/api/menu/add"] HMenuAdd;                (* line 198 *)
    LRoute POST [Lit "/api/menu/delete"] HMenuDelete;          (* line 217 *)
    LRoute GET [Lit "/api/inventory"] HInventory;              (* line 236 *)
    LRoute POST [Lit "/api/inventory/add"] HInventoryAdd;      (* line 261 *)
    LRoute DELETE [Lit "/api/inventory/delete"] HInventoryDelete; (* line 300 *)
    LRoute POST [Lit "/api/inventory/update"] HInventoryUpdate; (* line 317 *)
    LRoute GET [Lit "/api/trends"] HTrends;                    (* line 335 *)
    LRoute GET [Lit "/api/employees"] HEmployees;              (* line 392 *)
    LRoute POST [Lit "/api/employees"] HEmployeesAdd;          (* line 403 *)
    LRoute PUT [Lit "/api/employees/"; Param "id"] HEmployeesUpdate; (* line 418 *)
    LRoute DELETE [Lit "/api/employees/"; Param "id"] HEmployeesDelete; (* line 434 *)
    LRoute GET [Lit "/api/menu/seasonal"] HSeasonal;           (* line 446 *)
    LRoute POST [Lit "/api/menu/add"] HMenuAddSeasonal;        (* line 455 *)
    LRoute POST [Lit "/api/menu/delete"] HMenuDeleteById;      (* line 471 *)
    LRoute GET [Lit "/api/productusage"] HProductUsage;        (* line 487 *)
    LRoute GET [Lit "/api/xreport"] HXReport;                  (* line 537 *)
    LRoute GET [Lit "/api/zreport"] HZReport;                  (* line 578 *)
    LRoute GET [Lit "/api/test-db"] HTestDb;                   (* line 619 *)
    LRoute GET [Lit "/api/transactions"] HTransactions;        (* line 631 *)
    LRoute POST [Lit "/api/google-login"] HGoogleLogin;        (* line 648 *)
    LRoute GET [Lit "/api/weather/"; Param "city"] HWeather ]. (* line 665 *)

Definition serve (static_hit : string -> bool) (r : request) : outcome :=
  dispatch static_hit app_stack r.

(** The handlers a layer can answer with. *)
Definition handlers_of (l : layer) : list handler :=
  match l with
  | LMount _ rs => map (fun '(_, _, h) => h) rs
  | LRoute _ _ h => [h]
  | _ => []
  end.

(** The handlers no request can reach. *)
Definition dead_handlers : list handler :=
  [HMenu; HMenuType; HInventory; HTrends; HEmployees; HSeasonal; HProductUsage;
   HXReport; HZReport; HTestDb; HTransactions; HWeather; HMenuAddSeasonal; HMenuDeleteById].

(** ** Lemmas on patterns and the stack *)

Lemma first_some_app {A B} (f : A -> option B) l1 l2 :
  first_some f (l1 ++ l2) = match first_some f l1 with Some b => Some b | None => first_some f l2 end.
Proof. induction l1 as [|a l1 IH]; simpl; [done|]. rewrite IH. by destruct (f a). Qed.

Lemma first_some_elem {A B} (f : A -> option B) l b :
  first_some f l = Some b -> exists a, a ∈ l /\ f a = Some b.
Proof.
  induction l as [|a l IH]; simpl; [done|].
  destruct (f a) eqn:Ha; [intros [= <-]; exists a; split; [left|done]|].
  intros (a' & ? & ?)%IH. exists a'. split; [by right|done].
Qed.

Lemma route_accepts_handler m p h r h' ps :
  route_accepts m p h r = Some (Handled h' ps) -> h' = h.
Proof. unfold route_accepts. case_match; [|done]. by intros (? & _ & [= -> _])%fmap_Some. Qed.

Lemma accepts_handler static l r h ps :
  accepts static l r = Some (Handled h ps) -> h ∈ handlers_of l.
Proof.
  destruct l as [| |prefix rs| |m p h']; simpl; repeat case_match; try done.
  - intros ([[m p] h''] & Hin & Hr)%first_some_elem. apply route_accepts_handler in Hr as ->.
    apply list_elem_of_fmap. by exists (m, p, h'').
  - intros ->%route_accepts_handler. by left.
Qed.

Lemma dispatch_handler static st r h ps :
  first_some (fun l => accepts static l r) st = Some (Handled h ps) ->
  exists l, l ∈ st /\ h ∈ handlers_of l /\ accepts static l r = Some (Handled h ps).
Proof. intros (l & Hl & Ha)%first_some_elem. exists l. eauto using accepts_handler. Qed.

(** A layer is shadowed: when an earlier layer [l] accepts every request
    a later layer answering with [h] accepts, and nothing before answers
    with [h], no request reaches [h]. *)
Lemma shadowed static st1 l st2 r h ps :
  h ∉ concat (map handlers_of st1) -> h ∉ handlers_of l ->
  (forall l', l' ∈ st2 -> h ∈ handlers_of l' -> accepts static l' r <> None -> accepts static l r <> None) ->
  dispatch static (st1 ++ l :: st2) r <> Handled h ps.
Proof.
  intros H1 Hl H2. unfold dispatch. rewrite first_some_app. simpl.
  destruct (first_some _ st1) as [o|] eqn:Hst1.
  - simpl. intros ->. apply dispatch_handler in Hst1 as (l' & ? & ? & _).
    apply H1, list_elem_of_In, in_concat. exists (handlers_of l').
    rewrite <- !list_elem_of_In. split; [apply list_elem_of_fmap; eauto|done].
  - destruct (accepts static l r) as [o|] eqn:Hl'.
    + simpl. intros ->. by apply Hl, (accepts_handler static l r _ ps).
    + destruct (first_some _ st2) as [o|] eqn:Hst2; simpl; [|done].
      intros ->. apply dispatch_handler in Hst2 as (l' & ? & ? & ?). eapply (H2 l'); eauto; congruence.
Qed.

Lemma suffixes_last s : exists l, suffixes s = l ++ [EmptyString].
Proof.
  induction s as [|c s (l & IH)]; [by exists []|]. exists (String c s :: l). simpl. by rewrite IH.
Qed.

Lemma match_star s : match_toks [Star] s = Some [("0", s)].
Proof.
  simpl. destruct (suffixes_last s) as [l ->]. rewrite rev_app_distr. simpl.
  unfold prefix_len. by rewrite Nat.sub_0_r, substring_all.
Qed.

Lemma catch_all_covers_get static p h r :
  accepts static (LRoute GET p h) r <> None -> accepts static (LRoute GET [Star] HCatchAll) r <> None.
Proof. simpl. unfold route_accepts. case_match; [|done]. by rewrite match_star. Qed.

Lemma same_route_covers static m p h h' r :
  accepts static (LRoute m p h') r <> None -> accepts static (LRoute m p h) r <> None.
Proof. simpl. unfold route_accepts. destruct (method_matches _ _), (match_toks p (rpath r)); done. Qed.

(** A request that reaches [h] when [h] is reachable. *)
Definition sample_request (h : handler) : request :=
  match h with
  | HAuthGoogleLogin => mk_req POST "/api/auth/google-login"
  | HLogin => mk_req POST "/api/login"
  | HGuest => mk_req POST "/api/guest"
  | HOrders => mk_req POST "/api/orders"
  | HMenuAdd => mk_req POST "/api/menu/add"
  | HMenuDelete => mk_req POST "/api/menu/delete"
  | HInventoryAdd => mk_req POST "/api/inventory/add"
  | HInventoryDelete => mk_req DELETE "/api/inventory/delete"
  | HInventoryUpdate => mk_req POST "/api/inventory/update"
  | HEmployeesAdd => mk_req POST "/api/employees"
  | HEmployeesUpdate => mk_req PUT "/api/employees/1"
  | HEmployeesDelete => mk_req DELETE "/api/employees/1"
  | HGoogleLogin => mk_req POST "/api/google-login"
  | _ => mk_req GET "/"
  end.

(** Proves that the handler of a layer of [app_stack] at position [n]
    shadows the handler of the goal. *)
Ltac shadow n :=
  unfold serve; rewrite <- (take_drop_middle app_stack n _ eq_refl);
  apply shadowed; [apply (bool_decide_unpack _); vm_compute; reflexivity
                  |apply (bool_decide_unpack _); vm_compute; reflexivity|];
  let l' := fresh "l" in let Hl := fresh "Hl" in let Hin := fresh "Hin" in
  intros l' Hl; cbn in Hl;
  repeat (apply elem_of_cons in Hl as [->|Hl];
          [intros Hin; first [apply catch_all_covers_get | apply same_route_covers
                             | (cbn in Hin; apply list_elem_of_singleton in Hin; discriminate)]|]);
  by apply elem_of_nil in Hl.

Lemma dead_unreachable static r h ps : h ∈ dead_handlers -> serve static r <> Handled h ps.
Proof.
  unfold dead_handlers. intros Hh.
  repeat (apply elem_of_cons in Hh as [->|Hh]; [first [shadow 4%nat | shadow 10%nat | shadow 11%nat]|]).
  by apply elem_of_nil in Hh.
Qed.

(** A [GET] or [HEAD] request that no file of the build answers reaches
    the catch-all. *)
Lemma serve_get_catch_all static m p :
  m = GET \/ m = HEAD -> static p = false -> serve static (mk_req m p) = Handled HCatchAll [("0", p)].
Proof.
  intros Hm Hs.
  assert (Hc : accepts static (LRoute GET [Star] HCatchAll) (mk_req m p) = Some (Handled HCatchAll [("0", p)]))
    by (simpl; unfold route_accepts; rewrite match_star; by destruct Hm as [-> | ->]).
  unfold serve, dispatch, app_stack, first_some. cbn [foldr]. rewrite Hc.
  destruct Hm as [-> | ->]; simpl; destruct (match_mount _ _); simpl; by rewrite Hs.
Qed.

(** ** Theorems *)

(** C5: every [GET] (and [HEAD]) request whose path is not a file of the
    build directory is answered by the catch-all [app.get('*')] of line
    28 with [index.html], whatever its path: the route registered before
    every API route shadows the GET endpoints of the API. *)
Theorem get_served_by_index static m p :
  m = GET \/ m = HEAD -> static p = false -> serve static (mk_req m p) = Handled HCatchAll [("0", p)].
Proof. apply serve_get_catch_all. Qed.

Lemma get_served_by_index_witness :
  serve (fun _ => false) (mk_req GET "/api/xreport") = Handled HCatchAll [("0", "/api/xreport")].
Proof. apply get_served_by_index; [by left | reflexivity]. Defined.

(** C22: apart from the catch-all, a handler answers some request exactly
    when it is not one of [dead_handlers]: the twelve [GET] endpoints
    behind the catch-all and the second registrations of
    [POST /api/menu/add] (line 455) and [POST /api/menu/delete] (line
    471), which the first ones (lines 198 and 217) shadow. *)
Theorem handler_reachable static h :
  h <> HCatchAll -> (exists r ps, serve static r = Handled h ps) <-> h ∉ dead_handlers.
Proof.
  intros Hc. split.
  - intros (r & ps & Hr) Hd. by apply (dead_unreachable static r h ps).
  - intros Hd. exists (sample_request h).
    destruct h; try done; try (exfalso; apply Hd; unfold dead_handlers; by repeat constructor);
      eexists; unfold serve, dispatch; vm_compute; reflexivity.
Qed.

Lemma handler_reachable_witness :
  HOrders <> HCatchAll /\ exists r ps, serve (fun _ => false) r = Handled HOrders ps.
Proof.
  split; [discriminate|]. apply (handler_reachable (fun _ => false) HOrders); [discriminate|].
  apply (bool_decide_unpack _); vm_compute; reflexivity.
Defined.

End Router.
