(* ===== verification/Catalog.v ===== *)
(** * Catalog and sign-in: the menu and employee-login handlers of [server.js]

    [POST /api/login] (lines 43-68) and [POST /api/guest] (71-80) sign a
    user in; [GET /api/menu] (83-105) and [GET /api/menu/:type] (109-132)
    list the available items with their ingredients; [POST /api/menu/add]
    (198-213) draws the next [itemid] as [COALESCE(MAX(itemid), 0) + 1] and
    inserts, in two awaited statements that concurrent requests
    interleave ([mstep]); [POST /api/menu/delete] (217-226) deletes by name;
    [GET /api/menu/seasonal] (446-454) and the second [POST /api/menu/delete]
    (471-483) are shadowed by earlier routes (see [Router]) but are modelled
    as written.  Rows reach the client as [res.json(result.rows)]:
    integers as numbers, [numeric] as its text, [NULL] as [null].  The
    order of rows a query without [ORDER BY] returns is not specified by
    SQL; the model returns them by key. *)

From S2P Require Import Prelude Sequence JsValue PgValue Db.
Import Sequence Js Pg Db.

Module Catalog.

(** ** Sign-in *)

(** [employeename = $1 AND employeepassword = $2]: a [NULL] parameter or
    column makes the test fail. *)
Definition login_match (u p : option string) (e : employee_row) : bool :=
  match u, p with
  | Some u, Some p => bool_decide (e_name e = Some u) && bool_decide (e_password e = Some p)
  | _, _ => false
  end.

Definition login_rows (u p : option string) (d : database) : list (Z * employee_row) :=
  filter (fun ke => login_match u p ke.2 = true) (by_key (employee d)).

(** [employee.employeetype === "Chef" ? "USER" : employee.employeetype]. *)
Definition role_of (t : option string) : jsval :=
  if bool_decide (t = Some "Chef") then JStr "USER" else jstr_opt t.

Definition user_json (id : Z) (name role : jsval) : jsval :=
  JObj [("success", JBool true); ("user", JObj [("id", jint id); ("name", name); ("role", role)])].

(** [POST /api/login]. *)
Definition post_login (body : jsval) (d : database) : reply :=
  match login_rows (prepare_value (prop "username" body)) (prepare_value (prop "password" body)) d with
  | (id, e) :: _ => mk_reply 200 (user_json id (jstr_opt (e_name e)) (role_of (e_type e)))
  | [] => mk_reply 401 (failure_body "Invalid credentials")
  end.

(** [POST /api/guest]. *)
Definition post_guest : reply := mk_reply 200 (user_json 0 (JStr "Guest") (JStr "USER")).

(** ** Menu listing *)

(** [ARRAY_REMOVE(ARRAY_AGG(i.ingredientname), NULL)] over
    [LEFT JOIN itemingredients mi ON m.itemid = mi.itemid
     LEFT JOIN ingredients i ON mi.ingredientid = i.ingredientid]. *)
Definition ingredients_of (d : database) (id : Z) : list string :=
  omap (fun '(iid, ing) => if bool_decide (iid = id) then ingredients d !! ing else None) (itemingredients d).

Definition menu_json (d : database) (km : Z * menu_row) : jsval :=
  JObj [("itemid", jint km.1); ("itemname", jstr_opt (itemname km.2));
        ("itemtype", jstr_opt (itemtype km.2)); ("itemprice", jnumeric_opt (itemprice km.2));
        ("ingredients", JArr (map JStr (ingredients_of d km.1)))].

(** [m.available = TRUE]. *)
Definition is_available (m : menu_row) : bool := bool_decide (available m = Some true).

(** The items a listing shows, [GROUP BY m.itemid ... ORDER BY m.itemid]. *)
Definition menu_items (keep : menu_row -> bool) (d : database) : list (Z * menu_row) :=
  filter (fun km => keep km.2 = true) (by_key (menuitem d)).

(** [GET /api/menu]. *)
Definition get_menu (d : database) : reply :=
  mk_reply 200 (JArr (map (menu_json d) (menu_items is_available d))).

(** [GET /api/menu/:type]: [AND m.itemtype = $1]. *)
Definition get_menu_type (ty : string) (d : database) : reply :=
  mk_reply 200 (JArr (map (menu_json d)
    (menu_items (fun m => is_available m && bool_decide (itemtype m = Some ty)) d))).

(** [GET /api/menu/seasonal]: [SELECT * FROM menuitem WHERE itemtype = 'Seasonal']. *)
Definition get_seasonal (d : database) : reply :=
  mk_reply 200 (JArr (map (fun km => JObj [("itemid", jint km.1); ("itemname", jstr_opt (itemname km.2));
                                           ("itemtype", jstr_opt (itemtype km.2));
                                           ("itemprice", jnumeric_opt (itemprice km.2));
                                           ("available", jbool_opt (available km.2))])
    (menu_items (fun m => bool_decide (itemtype m = Some "Seasonal")) d))).

(** ** Adding and deleting items *)

Definition menu_ids (d : database) : list Z := map fst (map_to_list (menuitem d)).

(** [SELECT COALESCE(MAX(itemid), 0) + 1 AS nextid FROM menuitem]: an
    [integer] sum, out of range past [int4_max]. *)
Definition menu_next_id (d : database) : result pg_error Z :=
  let n := max_or 0 (menu_ids d) + 1 in
  if int4_max <? n then Err NumericValueOutOfRange else Ok n.

(** [INSERT INTO menuitem (itemid, itemname, itemtype, itemprice,
    available) VALUES ($1, $2, $3, $4, TRUE)]: the parameters are
    converted first, then the primary key is checked. *)
Definition menu_insert (body : jsval) (id : Z) (d : database) : result pg_error database :=
  match to_numeric (prop "itemprice" body) with
  | Err e => Err e
  | Ok price =>
      if bool_decide (is_Some (menuitem d !! id)) then Err UniqueViolation
      else Ok (set_menuitem (<[id := mk_menu (prepare_value (prop "itemname" body))
                                             (prepare_value (prop "itemtype" body)) price (Some true)]>
                               (menuitem d)) d)
  end.

Definition add_drink_error : reply := mk_reply 500 (failure_body "Failed to add drink").

(** [POST /api/menu/add] (the first registration, the one that runs). *)
Definition post_menu_add (body : jsval) (d : database) : reply * database :=
  match menu_next_id d with
  | Err _ => (add_drink_error, d)
  | Ok id => match menu_insert body id d with
             | Ok d' => (mk_reply 200 success_body, d')
             | Err _ => (add_drink_error, d)
             end
  end.

(** [POST /api/menu/delete] (the first registration):
    [DELETE FROM menuitem WHERE itemname = $1]; a missing name is [NULL]
    and deletes nothing. *)
Definition post_menu_delete (body : jsval) (d : database) : reply * database :=
  match prepare_value (prop "itemname" body) with
  | Some n => (mk_reply 200 success_body,
               set_menuitem (filter (fun km => itemname km.2 <> Some n) (menuitem d)) d)
  | None => (mk_reply 200 success_body, d)
  end.

(** The second [POST /api/menu/delete] (lines 471-483):
    [DELETE FROM menuitem WHERE itemid = $1]. *)
Definition post_menu_delete_by_id (body : jsval) (d : database) : reply * database :=
  if negb (truthy (prop "itemid" body)) then (mk_reply 400 (error_body "Missing item ID"), d)
  else match to_int4 (prop "itemid" body) with
       | Ok (Some id) => (mk_reply 200 success_body, set_menuitem (delete id (menuitem d)) d)
       | Ok None => (mk_reply 200 success_body, d)
       | Err _ => (mk_reply 500 (error_body "Failed to delete menu item"), d)
       end.

(** ** Two add requests interleaved *)

(** Where a request of [POST /api/menu/add] (lines 198-213) is: before
    its [SELECT COALESCE(MAX(itemid), 0) + 1] (line 201), between it
    and its [INSERT] (lines 204-207), or answered.  Each [await] lets
    the server run another request in between. *)
Inductive madd_pc := MStart | MSelected (id : Z) | MDone (r : reply).

Record mstate := mk_mstate { mdb : database; mreqs : list (jsval * madd_pc) }.

(** One statement of one request; the scheduler may pick any request. *)
Inductive mstep : mstate -> mstate -> Prop :=
| mstep_select d reqs i b id :
    reqs !! i = Some (b, MStart) -> menu_next_id d = Ok id ->
    mstep (mk_mstate d reqs) (mk_mstate d (<[i := (b, MSelected id)]> reqs))
| mstep_select_err d reqs i b e :
    reqs !! i = Some (b, MStart) -> menu_next_id d = Err e ->
    mstep (mk_mstate d reqs) (mk_mstate d (<[i := (b, MDone add_drink_error)]> reqs))
| mstep_insert d reqs i b id d' :
    reqs !! i = Some (b, MSelected id) -> menu_insert b id d = Ok d' ->
    mstep (mk_mstate d reqs) (mk_mstate d' (<[i := (b, MDone (mk_reply 200 success_body))]> reqs))
| mstep_insert_err d reqs i b id e :
    reqs !! i = Some (b, MSelected id) -> menu_insert b id d = Err e ->
    mstep (mk_mstate d reqs) (mk_mstate d (<[i := (b, MDone add_drink_error)]> reqs)).

(** ** Lemmas *)

Lemma login_rows_elem u p d k e :
  (k, e) ∈ login_rows u p d <-> employee d !! k = Some e /\ login_match u p e = true.
Proof. unfold login_rows. rewrite list_elem_of_filter, by_key_elem. simpl. tauto. Qed.

Lemma login_match_spec u p e :
  login_match u p e = true <-> exists u' p', u = Some u' /\ p = Some p' /\ e_name e = Some u' /\ e_password e = Some p'.
Proof.
  unfold login_match. destruct u as [u'|], p as [p'|]; [|naive_solver..].
  rewrite andb_true_iff, !bool_decide_eq_true. naive_solver.
Qed.

Lemma menu_items_elem keep d k m :
  (k, m) ∈ menu_items keep d <-> menuitem d !! k = Some m /\ keep m = true.
Proof. unfold menu_items. rewrite list_elem_of_filter, by_key_elem. simpl. tauto. Qed.

Lemma menu_items_sorted keep d : StronglySorted (fun a b => a.1 < b.1) (menu_items keep d).
Proof. apply StronglySorted_filter, by_key_sorted. Qed.

Lemma menu_ids_elem d k : k ∈ menu_ids d <-> is_Some (menuitem d !! k).
Proof.
  unfold menu_ids. rewrite list_elem_of_fmap. split.
  - intros ([k' v] & -> & Hin%elem_of_map_to_list). by exists v.
  - intros [v Hv]. exists (k, v). split; [done|]. by apply elem_of_map_to_list.
Qed.

(** The id [COALESCE(MAX(itemid), 0) + 1] is larger than every id. *)
Lemma menu_next_id_fresh d id : menu_next_id d = Ok id -> forall k, is_Some (menuitem d !! k) -> k < id.
Proof.
  unfold menu_next_id. cbv zeta. intros Hid k Hk.
  assert (id = max_or 0 (menu_ids d) + 1) as -> by (repeat case_match; congruence).
  apply menu_ids_elem, list_elem_of_In, (max_or_ge 0) in Hk. lia.
Qed.

Lemma menu_insert_ok body id d price :
  to_numeric (prop "itemprice" body) = Ok price -> menuitem d !! id = None ->
  menu_insert body id d =
  Ok (set_menuitem (<[id := mk_menu (prepare_value (prop "itemname" body))
                                    (prepare_value (prop "itemtype" body)) price (Some true)]>
                      (menuitem d)) d).
Proof. intros Hp Hid. unfold menu_insert. rewrite Hp, Hid. by rewrite bool_decide_eq_false_2 by (by intros []). Qed.

Lemma menu_insert_lookup body id d d1 : menu_insert body id d = Ok d1 -> is_Some (menuitem d1 !! id).
Proof.
  unfold menu_insert. repeat case_match; intros; simplify_eq. simpl. rewrite lookup_insert_eq. eauto.
Qed.

Lemma post_menu_delete_items body d n :
  prepare_value (prop "itemname" body) = Some n ->
  menuitem (post_menu_delete body d).2 = filter (fun km => itemname km.2 <> Some n) (menuitem d).
Proof. unfold post_menu_delete. by intros ->. Qed.

(** A request that runs alone does what [post_menu_add] does: the
    steps refine the handler. *)
Lemma mstep_alone b d :
  rtc mstep (mk_mstate d [(b, MStart)]) (mk_mstate (post_menu_add b d).2 [(b, MDone (post_menu_add b d).1)]).
Proof.
  unfold post_menu_add. destruct (menu_next_id d) as [id|e] eqn:Hid.
  - eapply rtc_l; [by apply (mstep_select d _ 0 b id)|]. cbn.
    destruct (menu_insert b id d) as [d'|e] eqn:Hi.
    + cbn. apply rtc_once. by apply (mstep_insert d [(b, MSelected id)] 0 b id d').
    + cbn. apply rtc_once. by apply (mstep_insert_err d [(b, MSelected id)] 0 b id e).
  - cbn. apply rtc_once. by apply (mstep_select_err d [(b, MStart)] 0 b e).
Qed.

Lemma menu_next_id_free d id : menu_next_id d = Ok id -> menuitem d !! id = None.
Proof.
  intros Hid. destruct (menuitem d !! id) eqn:E; [|done].
  pose proof (menu_next_id_fresh d id Hid id ltac:(by eexists)). lia.
Qed.

(** After an insert at the id [MAX + 1], the next id is one more. *)
Lemma menu_next_id_insert d id r :
  menu_next_id d = Ok id -> id < int4_max -> menu_next_id (set_menuitem (<[id := r]> (menuitem d)) d) = Ok (id + 1).
Proof.
  intros Hid Hb. pose proof (menu_next_id_fresh d id Hid) as Hf.
  unfold menu_next_id. rewrite (max_or_eq 0 _ id).
  - cbv zeta. by rewrite (proj2 (Z.ltb_ge _ _)) by lia.
  - apply menu_ids_elem. simpl. rewrite lookup_insert_eq. eauto.
  - intros y Hy%menu_ids_elem. simpl in Hy. destruct (decide (y = id)) as [->|Hne]; [lia|].
    rewrite lookup_insert_ne in Hy by done. specialize (Hf y Hy). lia.
Qed.

(** The menu handlers leave [transactions] as it is. *)
Lemma menu_handlers_transactions b d :
  transactions (post_menu_add b d).2 = transactions d /\ transactions (post_menu_delete b d).2 = transactions d.
Proof. unfold post_menu_add, post_menu_delete, menu_insert. split; repeat case_match; by simplify_eq. Qed.

(** The [itemtype] a listing row carries is the item's. *)
Lemma menu_json_type d km ty : js_is (prop "itemtype" (menu_json d km)) ty = bool_decide (itemtype km.2 = Some ty).
Proof.
  unfold menu_json, prop. simpl. destruct (itemtype km.2) as [t|]; simpl; [|done].
  destruct (String.eqb_spec t ty) as [->|Hne]; [by rewrite bool_decide_eq_true_2|].
  rewrite bool_decide_eq_false_2; congruence.
Qed.

(** ** Theorems *)

(** [GET /api/menu/:type] answers exactly the rows of [GET /api/menu]
    whose [itemtype] is the parameter, in the same order: the typed
    listing is the full listing filtered by type. *)
Theorem get_menu_type_filters ty d :
  exists l, get_menu d = mk_reply 200 (JArr l) /\
            get_menu_type ty d = mk_reply 200 (JArr (filter (fun j => js_is (prop "itemtype" j) ty = true) l)).
Proof.
  eexists. split; [reflexivity|]. unfold get_menu_type, menu_items. rewrite filter_map_comm. do 3 f_equal.
  rewrite list_filter_filter. apply list_filter_iff. intros km. rewrite menu_json_type.
  destruct (is_available km.2), (bool_decide (itemtype km.2 = Some ty)); naive_solver.
Qed.

(** [POST /api/login] answers 200 exactly when some employee row has
    the given name and password (both present and compared as the text
    node-postgres sends); otherwise 401. *)
Theorem login_succeeds_iff body d :
  status (post_login body d) = 200 <->
  exists id e u p, employee d !! id = Some e /\ prepare_value (prop "username" body) = Some u /\
    prepare_value (prop "password" body) = Some p /\ e_name e = Some u /\ e_password e = Some p.
Proof.
  unfold post_login.
  destruct (login_rows _ _ d) as [|[id e] rest] eqn:E; simpl.
  - split; [done|]. intros (id & e & u & p & Hid & Hu & Hp & Hn & Hpw).
    assert (Hin : (id, e) ∈ login_rows (prepare_value (prop "username" body))
                                       (prepare_value (prop "password" body)) d).
    { apply login_rows_elem. split; [done|]. apply login_match_spec. eauto 10. }
    rewrite E in Hin. by apply elem_of_nil in Hin.
  - split; [intros _|done].
    assert (Hin : (id, e) ∈ login_rows (prepare_value (prop "username" body))
                                       (prepare_value (prop "password" body)) d) by (rewrite E; left).
    apply login_rows_elem in Hin as [Hid (u & p & ? & ? & ? & ?)%login_match_spec]. eauto 10.
Qed.

(** [GET /api/menu] lists exactly the items whose [available] is
    true, one row per item however many ingredients it has, in strictly
    increasing [itemid] order. *)
Theorem get_menu_lists_available d :
  exists kms, get_menu d = mk_reply 200 (JArr (map (menu_json d) kms)) /\
    StronglySorted (fun a b => a.1 < b.1) kms /\
    forall k m, (k, m) ∈ kms <-> menuitem d !! k = Some m /\ available m = Some true.
Proof.
  exists (menu_items is_available d). split; [done|]. split; [apply menu_items_sorted|].
  intros k m. rewrite menu_items_elem. unfold is_available. by rewrite bool_decide_eq_true.
Qed.

(** C29: [POST /api/menu/add] reads [MAX(itemid)] and inserts in two
    statements with an [await] between them.  Two requests with valid
    prices, served one after the other, both succeed; but when both run
    their [SELECT] before either [INSERT], both draw the same id: the
    first is added and the second fails with 500 on the primary key,
    leaving the table as the first request alone leaves it. *)
Theorem menu_add_race d b1 b2 id p1 p2 :
  menu_next_id d = Ok id -> id < int4_max ->
  to_numeric (prop "itemprice" b1) = Ok p1 -> to_numeric (prop "itemprice" b2) = Ok p2 ->
  (status (post_menu_add b1 d).1 = 200 /\ status (post_menu_add b2 (post_menu_add b1 d).2).1 = 200) /\
  exists s, rtc mstep (mk_mstate d [(b1, MStart); (b2, MStart)]) s /\
    mreqs s = [(b1, MDone (mk_reply 200 success_body)); (b2, MDone add_drink_error)] /\
    mdb s = (post_menu_add b1 d).2.
Proof.
  intros Hid Hb Hp1 Hp2. pose proof (menu_next_id_free d id Hid) as Hfree.
  pose proof (menu_insert_ok b1 id d p1 Hp1 Hfree) as H1.
  set (d1 := set_menuitem _ d) in H1.
  assert (Hpost : post_menu_add b1 d = (mk_reply 200 success_body, d1)) by (unfold post_menu_add; by rewrite Hid, H1).
  rewrite Hpost. split.
  - split; [done|]. cbn [snd]. unfold post_menu_add, d1. rewrite (menu_next_id_insert d id) by done. fold d1.
    rewrite (menu_insert_ok b2 (id + 1) d1 p2 Hp2); [done|].
    simpl. rewrite lookup_insert_ne by lia. destruct (menuitem d !! (id + 1)) eqn:E; [|done].
    pose proof (menu_next_id_fresh d id Hid (id + 1) ltac:(by eexists)). lia.
  - exists (mk_mstate d1 [(b1, MDone (mk_reply 200 success_body)); (b2, MDone add_drink_error)]).
    split_and!; [|done|done].
    eapply rtc_l; [by apply (mstep_select d _ 0 b1 id)|]. cbn.
    eapply rtc_l; [by apply (mstep_select d _ 1 b2 id)|]. cbn.
    eapply rtc_l; [by apply (mstep_insert d _ 0 b1 id d1)|]. cbn.
    eapply rtc_l; [apply (mstep_insert_err d1 _ 1 b2 id UniqueViolation); [done|]|apply rtc_refl].
    unfold menu_insert. rewrite Hp2, bool_decide_eq_true_2; [done|]. simpl. rewrite lookup_insert_eq. eauto.
Qed.

(** C28: when the item [k] with the largest id is deleted by its name and
    the item [k - 1] remains (it has another name), the next item added
    gets the id [k]: the delete leaves [transactions] as it is, so every
    row that referred to the deleted item ([menu_item_id = k]) now
    refers to the new one. *)
Theorem menu_id_reused bdel badd d k m m1 n price :
  menuitem d !! k = Some m -> itemname m = Some n -> prepare_value (prop "itemname" bdel) = Some n ->
  menuitem d !! (k - 1) = Some m1 -> itemname m1 <> Some n ->
  (forall k', is_Some (menuitem d !! k') -> k' <= k) -> k <= int4_max ->
  to_numeric (prop "itemprice" badd) = Ok price ->
  menuitem (post_menu_add badd (post_menu_delete bdel d).2).2 !! k =
    Some (mk_menu (prepare_value (prop "itemname" badd)) (prepare_value (prop "itemtype" badd)) price (Some true)) /\
  transactions (post_menu_add badd (post_menu_delete bdel d).2).2 = transactions d.
Proof.
  intros Hk Hn Hdel Hk1 Hn1 Hmax Hbound Hp.
  set (d' := (post_menu_delete bdel d).2).
  assert (Hd' : menuitem d' = filter (fun km => itemname km.2 <> Some n) (menuitem d))
    by (by apply post_menu_delete_items).
  assert (Hgone : menuitem d' !! k = None).
  { rewrite Hd'. apply map_lookup_filter_None. right. intros x Hx. simplify_eq. simpl. by intros []. }
  assert (Hid : menu_next_id d' = Ok k).
  { unfold menu_next_id.
    rewrite (max_or_eq 0 (menu_ids d') (k - 1)).
    - replace (k - 1 + 1) with k by lia. cbv zeta.
      by try rewrite (proj2 (Z.ltb_ge _ _)) by (unfold int4_max in *; lia).
    - apply menu_ids_elem. rewrite Hd'. exists m1. by apply map_lookup_filter_Some.
    - intros y [v Hv]%menu_ids_elem.
      assert (y <= k) by (apply Hmax; rewrite Hd' in Hv; apply map_lookup_filter_Some in Hv as [Hv _]; eauto).
      assert (y <> k) by (intros ->; congruence). lia. }
  split; [|unfold d'; by rewrite (proj1 (menu_handlers_transactions _ _)), (proj2 (menu_handlers_transactions _ _))].
  unfold post_menu_add. rewrite Hid, (menu_insert_ok badd k d' price) by done.
  simpl. apply lookup_insert_eq.
Qed.

Definition ex_mango : menu_row := mk_menu (Some "Mango") (Some "Fruit Tea") (Some 450) (Some true).
Definition ex_taro : menu_row := mk_menu (Some "Taro") (Some "Milk Tea") (Some 550) (Some true).
Definition ex_menu_db : database :=
  mk_db (<[2 := ex_taro]> (<[1 := ex_mango]> ∅)) [] (mk_seq 1 false 1 100) ∅ (mk_seq 1 false 1 100)
        [] [] ∅ [] ∅ (mk_seq 1 false 1 100).
Definition ex_add_body : jsval := JObj [("itemname", JStr "Lychee"); ("itemprice", JNum 425)].

(** Two requests adding Lychee to the menu of Mango and Taro. *)
Lemma menu_add_race_witness :
  (status (post_menu_add ex_add_body ex_menu_db).1 = 200 /\
   status (post_menu_add ex_add_body (post_menu_add ex_add_body ex_menu_db).2).1 = 200) /\
  exists s, rtc mstep (mk_mstate ex_menu_db [(ex_add_body, MStart); (ex_add_body, MStart)]) s /\
    mreqs s = [(ex_add_body, MDone (mk_reply 200 success_body)); (ex_add_body, MDone add_drink_error)] /\
    mdb s = (post_menu_add ex_add_body ex_menu_db).2.
Proof.
  apply (menu_add_race ex_menu_db ex_add_body ex_add_body 3 (Some 425) (Some 425)); vm_compute; reflexivity.
Defined.

Lemma menu_id_reused_witness :
  menuitem (post_menu_add ex_add_body (post_menu_delete (JObj [("itemname", JStr "Taro")]) ex_menu_db).2).2 !! 2 =
  Some (mk_menu (Some "Lychee") None (Some 425) (Some true)) /\
  transactions (post_menu_add ex_add_body (post_menu_delete (JObj [("itemname", JStr "Taro")]) ex_menu_db).2).2 =
  transactions ex_menu_db.
Proof.
  apply (menu_id_reused (JObj [("itemname", JStr "Taro")]) ex_add_body ex_menu_db 2 ex_taro ex_mango
                          "Taro" (Some 425)); try (vm_compute; reflexivity).
  - discriminate.
  - intros k' [v Hv]. simpl in Hv.
    apply lookup_insert_Some in Hv as [[<- _]|[_ Hv]]; [lia|].
    apply lookup_insert_Some in Hv as [[<- _]|[_ Hv]]; [lia|]. by rewrite lookup_empty in Hv.
  - vm_compute. discriminate.
Defined.

End Catalog.
