(* ===== verification/Employees.v ===== *)
(** * Employee administration: [/api/employees] (server.js lines 392-443)

    [GET] lists the [employee] table, [POST] inserts a row whose
    [employeeid] the [employee_employeeid_seq] sequence draws, [PUT
    /:id] overwrites the three columns of one row and [DELETE /:id]
    deletes it.  The [:id] parameter is the text of the URL segment,
    which PostgreSQL converts with [int4in]. *)

From S2P Require Import Prelude Sequence JsValue PgValue Db Catalog.
Import Sequence Js Pg Db Catalog.

Module Employees.

(** [SELECT * FROM employee]: every column, the password included. *)
Definition employee_json (ke : Z * employee_row) : jsval :=
  JObj [("employeeid", jint ke.1); ("employeename", jstr_opt (e_name ke.2));
        ("employeepassword", jstr_opt (e_password ke.2)); ("employeetype", jstr_opt (e_type ke.2))].

(** [GET /api/employees]. *)
Definition get_employees (d : database) : reply :=
  mk_reply 200 (JArr (map employee_json (by_key (employee d)))).

(** The row a body describes: absent fields are [NULL]. *)
Definition employee_of (body : jsval) : employee_row :=
  mk_employee (prepare_value (prop "employeename" body)) (prepare_value (prop "employeepassword" body))
              (prepare_value (prop "employeetype" body)).

(** [INSERT INTO employee (employeename, employeepassword, employeetype)
    VALUES ($1, $2, $3)]: the key is drawn from the sequence, which keeps
    its advance when the insert fails. *)
Definition insert_employee (body : jsval) (d : database) : result pg_error database * database :=
  match nextval (employee_id_seq d) with
  | Err e => (Err (SequenceFailure e), d)
  | Ok (id, s) =>
      let d1 := set_emp_seq s d in
      if bool_decide (is_Some (employee d !! id)) then (Err UniqueViolation, d1)
      else (Ok (set_employee (<[id := employee_of body]> (employee d)) d1), d1)
  end.

(** [POST /api/employees]. *)
Definition post_employees (body : jsval) (d : database) : reply * database :=
  match insert_employee body d with
  | (Ok d', _) => (mk_reply 200 success_body, d')
  | (Err _, d') => (mk_reply 500 (error_body "Failed to add employee"), d')
  end.

(** [PUT /api/employees/:id]: [UPDATE employee SET employeename = $1,
    employeepassword = $2, employeetype = $3 WHERE employeeid = $4]. *)
Definition put_employee (id : string) (body : jsval) (d : database) : reply * database :=
  match int4_in id with
  | Ok k => (mk_reply 200 success_body,
             set_employee (alter (fun _ => employee_of body) k (employee d)) d)
  | Err _ => (mk_reply 500 (error_body "Failed to update employee"), d)
  end.

(** [DELETE /api/employees/:id]: [DELETE FROM employee WHERE employeeid = $1]. *)
Definition delete_employee (id : string) (d : database) : reply * database :=
  match int4_in id with
  | Ok k => (mk_reply 200 success_body, set_employee (delete k (employee d)) d)
  | Err _ => (mk_reply 500 (error_body "Failed to delete employee"), d)
  end.

(** ** Theorems *)

Lemma put_employee_rows id k body d :
  int4_in id = Ok k ->
  employee (put_employee id body d).2 = alter (fun _ => employee_of body) k (employee d).
Proof. unfold put_employee. by intros ->. Qed.

(** C34: [PUT /api/employees/:id] overwrites all three columns, so a body
    without [employeepassword] stores [NULL] as the password: when the
    updated employee is the only one, every later [POST /api/login] is
    refused with 401. *)
Theorem update_without_password_locks_out id k body d lb :
  int4_in id = Ok k -> prepare_value (prop "employeepassword" body) = None ->
  (forall k' e', employee d !! k' = Some e' -> k' = k) ->
  status (post_login lb (put_employee id body d).2) = 401.
Proof.
  intros Hid Hpw Honly. unfold post_login.
  destruct (login_rows _ _ _) as [|[k' e'] rest] eqn:E; [done|]. exfalso.
  assert (Hin : (k', e') ∈ login_rows (prepare_value (prop "username" lb))
                                      (prepare_value (prop "password" lb)) (put_employee id body d).2)
    by (rewrite E; left).
  apply login_rows_elem in Hin as [Hk Hm]. rewrite (put_employee_rows id k) in Hk by done.
  apply lookup_alter_Some in Hk as [(<- & e0 & Hd & ->)|(Hne & Hd)]; [|apply Honly in Hd; congruence].
  apply login_match_spec in Hm as (u & p & _ & _ & _ & Hp). simpl in Hp. congruence.
Qed.

Definition ex_emp_db : database :=
  mk_db ∅ [] (mk_seq 1 false 1 100) ∅ (mk_seq 1 false 1 100) [] []
        (<[7 := mk_employee (Some "amy") (Some "pw") (Some "Cashier")]> ∅) [] ∅ (mk_seq 7 true 1 100).

Lemma update_without_password_locks_out_witness :
  status (post_login (JObj [("username", JStr "amy"); ("password", JStr "pw")])
                     (put_employee "7" (JObj [("employeename", JStr "amy")]) ex_emp_db).2) = 401.
Proof.
  apply (update_without_password_locks_out "7" 7); try (vm_compute; reflexivity).
  intros k' e' Hk. simpl in Hk. apply lookup_insert_Some in Hk as [[<- _]|[_ Hk]]; [done|].
  by rewrite lookup_empty in Hk.
Defined.

End Employees.
