(* ===== verification/Trends.v ===== *)
(** * Trend series: [GET /api/trends] (server.js lines 335-385) and
      [GET /api/productusage] (lines 487-534)

    The trends handler builds its SQL text from templates: a time filter
    [" WHERE SalesTimestamp >= CURRENT_DATE - INTERVAL 'n days'"] (or
    nothing) is spliced into one of four queries.  The model keeps the
    text as the sequence of its clauses, parses it with the grammar of a
    simple [SELECT] ([FROM], at most one [WHERE], [GROUP BY], [ORDER BY],
    in that order), checks that the columns it names belong to the table,
    and evaluates it.  The product-usage handler computes a date window
    with [Date] arithmetic and [toISOString], which PostgreSQL reads back
    with [::DATE].  [today] is [CURRENT_DATE] and the clock readings of
    [new Date()] are parameters; the server's time zone is taken to be
    UTC. *)

From S2P Require Import Prelude Dates Sequence JsValue PgValue Db.
Import Dates Sequence Js Pg Db.

Module Trends.

(** ** The query text *)

Inductive cond :=
| Since (col : string) (days : Z)   (** [col >= CURRENT_DATE - INTERVAL 'days days'] *)
| PeakFlag.                          (** [peak_day_flag = TRUE] *)

Inductive clause :=
| Select (items : list string)
| From (table : string)
| Where (c : cond)
| GroupBy (col : string)
| OrderBy (col : string) (desc : bool).

(** [timeFilter] (lines 338-343). *)
Definition time_filter (range : jsval) : list clause :=
  if js_is range "Last 7 Days" then [Where (Since "SalesTimestamp" 7)]
  else if js_is range "Last 30 Days" then [Where (Since "SalesTimestamp" 30)]
  else [].

Inductive trend := DailySales | PeakDays | TotalOrders | ProductUsage.

(** The [switch (trendType)] (lines 346-376): [None] is the [default]. *)
Definition trend_of (ty : jsval) : option trend :=
  if js_is ty "Daily Sales" then Some DailySales
  else if js_is ty "Peak Days" then Some PeakDays
  else if js_is ty "Total Orders" then Some TotalOrders
  else if js_is ty "Product Usage" then Some ProductUsage
  else None.

(** The query text of each case, with [${timeFilter}] spliced in. *)
Definition trend_query (t : trend) (tf : list clause) : list clause :=
  match t with
  | DailySales => [Select ["SalesTimestamp"; "total_amount"]; From "sales"] ++ tf ++
                  [OrderBy "SalesTimestamp" false]
  | PeakDays => [Select ["SalesTimestamp"; "total_amount"]; From "sales"; Where PeakFlag] ++ tf ++
                [OrderBy "total_amount" true]
  | TotalOrders => [Select ["SalesTimestamp"; "COUNT(*)"]; From "sales"] ++ tf ++
                   [GroupBy "SalesTimestamp"; OrderBy "SalesTimestamp" false]
  | ProductUsage => [Select ["RestockDate"; "SUM(quantity)"]; From "inventory"] ++ tf ++
                    [GroupBy "RestockDate"; OrderBy "RestockDate" false]
  end.

(** ** Parsing and name resolution *)

Record select_stmt := mk_select {
  st_table : string;
  st_where : option cond;
  st_group : option string;
  st_order : string * bool
}.

(** [SELECT items FROM t [WHERE c] [GROUP BY g] ORDER BY o]; anything
    else, a second [WHERE] in particular, is a syntax error. *)
Definition parse (q : list clause) : result pg_error select_stmt :=
  match q with
  | Select _ :: From t :: rest =>
      let '(w, rest) := match rest with Where c :: r => (Some c, r) | r => (None, r) end in
      let '(g, rest) := match rest with GroupBy c :: r => (Some c, r) | r => (None, r) end in
      match rest with
      | [OrderBy c dsc] => Ok (mk_select t w g (c, dsc))
      | _ => Err SyntaxError
      end
  | _ => Err SyntaxError
  end.

(** The columns of the two tables the queries read, folded to lower case. *)
Definition columns (t : string) : list string :=
  if String.eqb t "sales" then ["id"; "salestimestamp"; "total_amount"; "peak_day_flag"]
  else if String.eqb t "inventory" then
    ["inventoryid"; "quantity"; "menuitemid"; "timestamp"; "restockdate"; "lastupdated"]
  else [].

Definition cond_cols (c : cond) : list string :=
  match c with Since col _ => [col] | PeakFlag => ["peak_day_flag"] end.

(** Every column a statement names is a column of its table. *)
Definition resolve (s : select_stmt) : result pg_error select_stmt :=
  let named := default [] (cond_cols <$> st_where s) ++ option_list (st_group s) ++ [(st_order s).1] in
  match filter (fun c => string_lower c ∉ columns (st_table s)) named with
  | [] => Ok s
  | c :: _ => Err (UndefinedColumn c)
  end.

(** ** Evaluation *)

(** A column value. *)
Inductive sqlval := VNull | VInt (n : Z) | VNum (c : Z) | VTs (t : timestamp) | VBool (b : bool).

#[global] Instance timestamp_eq_dec : EqDecision timestamp.
Proof. solve_decision. Defined.
#[global] Instance sqlval_eq_dec : EqDecision sqlval.
Proof. solve_decision. Defined.

Definition opt_val {A} (f : A -> sqlval) (o : option A) : sqlval := default VNull (f <$> o).

Definition sale_vals (s : sale_row) : list (string * sqlval) :=
  [("id", VInt (s_id s)); ("salestimestamp", opt_val VTs (s_timestamp s));
   ("total_amount", opt_val VNum (s_total_amount s)); ("peak_day_flag", opt_val VBool (s_peak_day_flag s))].

Definition inv_vals (kr : Z * inv_row) : list (string * sqlval) :=
  [("inventoryid", VInt kr.1); ("quantity", opt_val VInt (i_quantity kr.2));
   ("menuitemid", opt_val VInt (i_menuitemid kr.2)); ("timestamp", opt_val VTs (i_timestamp kr.2));
   ("restockdate", opt_val VTs (i_restockdate kr.2)); ("lastupdated", opt_val VTs (i_lastupdated kr.2))].

Definition table_rows (t : string) (d : database) : list (list (string * sqlval)) :=
  if String.eqb t "sales" then map sale_vals (sales d)
  else if String.eqb t "inventory" then map inv_vals (by_key (inventory d)) else [].

(** The value of column [c] (an unquoted name, folded to lower case). *)
Definition col (r : list (string * sqlval)) (c : string) : sqlval :=
  default VNull ((fun ikv => ikv.2.2) <$> list_find (fun kv : string * sqlval => kv.1 = string_lower c) r).

Definition holds (today : Z) (r : list (string * sqlval)) (c : cond) : bool :=
  match c with
  | Since cn n => match col r cn with VTs t => bool_decide (today - n <= ts_day t) | _ => false end
  | PeakFlag => bool_decide (col r "peak_day_flag" = VBool true)
  end.

(** The key [ORDER BY] compares; [None] is [NULL]. *)
Definition sort_key (v : sqlval) : option Z :=
  match v with
  | VNull => None
  | VInt n | VNum n => Some n
  | VTs t => Some (ts_ms t)
  | VBool b => Some (if b then 1 else 0)
  end.

(** [ASC] puts [NULL]s last, [DESC] first. *)
Definition order_le (desc : bool) (a b : option Z) : bool :=
  match a, b with
  | Some x, Some y => if desc then y <=? x else x <=? y
  | Some _, None => negb desc
  | None, Some _ => desc
  | None, None => true
  end.

Definition row_le (o : string * bool) (r1 r2 : list (string * sqlval)) : Prop :=
  order_le o.2 (sort_key (col r1 o.1)) (sort_key (col r2 o.1)) = true.
#[global] Instance row_le_dec o : RelDecision (row_le o) :=
  fun r1 r2 => decide (order_le o.2 (sort_key (col r1 o.1)) (sort_key (col r2 o.1)) = true).

Definition val_json (v : sqlval) : jsval :=
  match v with
  | VNull => JNull
  | VInt n => jint n
  | VNum c => JStr (numeric_out c)
  | VTs t => JStr (iso_string (ts_ms t))
  | VBool b => JBool b
  end.

(** A [bigint] as node-postgres returns it: its text. *)
Definition bigint_text (n : Z) : jsval := JStr ((if n <? 0 then "-" else "") +:+ digits (Z.abs n)).

(** The rows of a statement, filtered and ordered, before the select list. *)
Definition ordered_rows (s : select_stmt) (today : Z) (d : database) : list (list (string * sqlval)) :=
  merge_sort (row_le (st_order s))
    (filter (fun r => default true (holds today r <$> st_where s) = true) (table_rows (st_table s) d)).

(** [GROUP BY g]: the groups, in the order of their first row. *)
Definition groups (g : string) (rows : list (list (string * sqlval))) : list (sqlval * list (list (string * sqlval))) :=
  map (fun k => (k, filter (fun r => col r g = k) rows)) (reverse (remove_dups (reverse (map (fun r => col r g) rows)))).

(** [SELECT SalesTimestamp AS date, total_amount]. *)
Definition sale_point (r : list (string * sqlval)) : jsval :=
  JObj [("date", val_json (col r "SalesTimestamp")); ("total_amount", val_json (col r "total_amount"))].

(** The select list of each trend on the rows of its statement. *)
Definition run (t : trend) (s : select_stmt) (today : Z) (d : database) : list jsval :=
  let rows := ordered_rows s today d in
  match t with
  | DailySales | PeakDays => map sale_point rows
  | TotalOrders =>
      map (fun '(k, g) => JObj [("date", val_json k); ("order_count", bigint_text (Z.of_nat (length g)))])
          (groups "SalesTimestamp" rows)
  | ProductUsage =>
      map (fun '(k, g) =>
             let qs := omap (fun r => match col r "quantity" with VInt n => Some n | _ => None end) g in
             JObj [("usage_date", val_json k);
                   ("used_quantity", match qs with [] => JNull | _ => bigint_text (sumZ qs) end)])
          (groups "RestockDate" rows)
  end.

(** [GET /api/trends]. *)
Definition get_trends (query : jsval) (today : Z) (d : database) : reply :=
  match trend_of (prop "trendType" query) with
  | None => mk_reply 400 (error_body "Invalid trend type")
  | Some t =>
      match parse (trend_query t (time_filter (prop "timeRange" query))) with
      | Ok s0 => match resolve s0 with
                 | Ok s => mk_reply 200 (JArr (run t s today d))
                 | Err _ => mk_reply 500 (error_body "Failed to fetch trend data")
                 end
      | Err _ => mk_reply 500 (error_body "Failed to fetch trend data")
      end
  end.

(** ** Product usage *)

(** The dates of lines 489-509.  [t1] and [t2] are the two readings of
    [new Date()]; [setDate(getDate() - n)] moves [n] days back. *)
Definition usage_window (query : jsval) (t1 t2 : Z) : jsval * jsval :=
  let range := prop "timeRange" query in
  let startDate := prop "startDate" query in
  let endDate := prop "endDate" query in
  let '(qs, qe) :=
    if js_is range "Last 7 Days" then
      (JStr (iso_date (day_of_ms (t1 - 7 * ms_per_day))), JStr (iso_date (day_of_ms t2)))
    else if js_is range "Last 30 Days" then
      (JStr (iso_date (day_of_ms (t1 - 30 * ms_per_day))), JStr (iso_date (day_of_ms t2)))
    else (startDate, endDate) in
  if js_is range "Custom Range" && truthy qs && truthy qe then (startDate, endDate) else (qs, qe).

(** A [$n::DATE] parameter: [NULL] for [null] and [undefined]. *)
Definition date_param (v : jsval) : result pg_error (option Z) :=
  match prepare_value v with
  | None => Ok None
  | Some s => match date_in s with Some z => Ok (Some z) | None => Err InvalidDatetime end
  end.

(** [FROM inventory i JOIN menuitem m ON i.menuitemid = m.itemid
     WHERE i.timestamp::DATE BETWEEN $1::DATE AND $2::DATE]. *)
Definition usage_joined (lo hi : option Z) (d : database) : list (inv_row * menu_row) :=
  omap (fun kr => match i_menuitemid kr.2 ≫= fun mid => menuitem d !! mid with
                  | Some m =>
                      match i_timestamp kr.2, lo, hi with
                      | Some t, Some l, Some h => if bool_decide (l <= ts_day t <= h) then Some (kr.2, m) else None
                      | _, _, _ => None
                      end
                  | None => None
                  end)
       (by_key (inventory d)).

(** [SUM(i.quantity)]: [None] when every quantity is [NULL]. *)
Definition sum_quantity (g : list (inv_row * menu_row)) : option Z :=
  match omap (fun im => i_quantity im.1) g with [] => None | qs => Some (sumZ qs) end.

Definition usage_le (a b : option string * option Z) : Prop := order_le true a.2 b.2 = true.
#[global] Instance usage_le_dec : RelDecision usage_le := fun a b => decide (order_le true a.2 b.2 = true).

(** [GROUP BY m.itemname ORDER BY total_used DESC]. *)
Definition usage_groups (lo hi : option Z) (d : database) : list (option string * option Z) :=
  let rows := usage_joined lo hi d in
  merge_sort usage_le
    (map (fun n => (n, sum_quantity (filter (fun im => itemname im.2 = n) rows)))
         (reverse (remove_dups (reverse (map (fun im => itemname im.2) rows))))).

(** [result.rows.map(row => ({ itemName: row.itemname, totalUsed: row.total_used }))]. *)
Definition usage_json (g : option string * option Z) : jsval :=
  JObj [("itemName", jstr_opt g.1); ("totalUsed", match g.2 with Some n => bigint_text n | None => JNull end)].

(** [GET /api/productusage]. *)
Definition get_productusage (query : jsval) (t1 t2 : Z) (d : database) : reply :=
  let '(qs, qe) := usage_window query t1 t2 in
  match date_param qs, date_param qe with
  | Ok lo, Ok hi => mk_reply 200 (JArr (map usage_json (usage_groups lo hi d)))
  | _, _ => mk_reply 500 (error_body "Failed to fetch product usage data")
  end.

(** ** Lemmas *)

(** A sale inside the window [SalesTimestamp >= CURRENT_DATE - n days]. *)
Definition sale_in_window (today n : Z) (s : sale_row) : bool :=
  match s_timestamp s with Some t => bool_decide (today - n <= ts_day t) | None => false end.

#[global] Instance row_le_total o : Total (row_le o).
Proof.
  intros r1 r2. unfold row_le, order_le.
  destruct (sort_key (col r1 o.1)), (sort_key (col r2 o.1)), o.2; simpl; auto;
    rewrite !Z.leb_le; lia.
Qed.

Lemma time_filter_cases range :
  js_is range "Last 7 Days" || js_is range "Last 30 Days" = true ->
  exists n, time_filter range = [Where (Since "SalesTimestamp" n)].
Proof.
  intros [->%js_is_eq | ->%js_is_eq]%orb_true_iff; [by exists 7 | by exists 30].
Qed.

Lemma col_sale_ts s : col (sale_vals s) "SalesTimestamp" = opt_val VTs (s_timestamp s).
Proof. reflexivity. Qed.

Lemma holds_sale_window today n s :
  holds today (sale_vals s) (Since "SalesTimestamp" n) = sale_in_window today n s.
Proof. unfold sale_in_window, holds. rewrite col_sale_ts. by destruct (s_timestamp s). Qed.

Lemma date_param_str s : date_param (JStr s) = match date_in s with Some z => Ok (Some z) | None => Err InvalidDatetime end.
Proof. done. Qed.

Lemma day_of_ms_sub t n : day_of_ms (t - n * ms_per_day) = day_of_ms t - n.
Proof.
  unfold day_of_ms. replace (t - n * ms_per_day) with (t + (- n) * ms_per_day) by lia.
  rewrite Z.div_add by (unfold ms_per_day; lia). lia.
Qed.

Definition ex_trend_db : database :=
  mk_db (<[1 := mk_menu (Some "Mango") None None None]> ∅) [] (mk_seq 1 false 1 100)
        (<[1 := mk_inv (Some 5) (Some 1) (Some (mk_ts 19720 0)) None None]> ∅) (mk_seq 1 false 1 100)
        [mk_sale 1 (Some (mk_ts 19720 3600)) (Some 1000) (Some true);
         mk_sale 2 (Some (mk_ts 19700 3600)) (Some 500) (Some false)] [] ∅ [] ∅ (mk_seq 1 false 1 100).

Lemma usage_window_last7 query t1 t2 :
  prop "timeRange" query = JStr "Last 7 Days" ->
  usage_window query t1 t2 = (JStr (iso_date (day_of_ms t1 - 7)), JStr (iso_date (day_of_ms t2))).
Proof. intros Hr. unfold usage_window. rewrite Hr, day_of_ms_sub. reflexivity. Qed.

(** ** Theorems *)

(** C25: [GET /api/trends] for ["Peak Days"] or ["Product Usage"] with a
    ["Last 7 Days"] or ["Last 30 Days"] range always fails with 500: the
    first query gets a second [WHERE] (a syntax error), the second names
    [SalesTimestamp], which [inventory] does not have. *)
Theorem filtered_trends_fail query today d :
  js_is (prop "timeRange" query) "Last 7 Days" || js_is (prop "timeRange" query) "Last 30 Days" = true ->
  trend_of (prop "trendType" query) = Some PeakDays \/ trend_of (prop "trendType" query) = Some ProductUsage ->
  get_trends query today d = mk_reply 500 (error_body "Failed to fetch trend data").
Proof.
  intros (n & Hn)%time_filter_cases Ht. unfold get_trends. rewrite Hn.
  destruct Ht as [-> | ->]; reflexivity.
Qed.

Lemma filtered_trends_fail_witness :
  get_trends (JObj [("trendType", JStr "Peak Days"); ("timeRange", JStr "Last 7 Days")]) 19723 ex_trend_db =
  mk_reply 500 (error_body "Failed to fetch trend data").
Proof. apply filtered_trends_fail; [reflexivity | by left]. Defined.

(** [GET /api/trends] for ["Daily Sales"] over ["Last 7 Days"]
    answers 200 with one point per sale whose timestamp is on or after
    [CURRENT_DATE - 7 days], each sale once, in increasing timestamp
    order. *)
Theorem daily_sales_window query today d :
  trend_of (prop "trendType" query) = Some DailySales -> js_is (prop "timeRange" query) "Last 7 Days" = true ->
  exists rows, get_trends query today d = mk_reply 200 (JArr (map sale_point rows)) /\
    rows ≡ₚ map sale_vals (filter (fun s => sale_in_window today 7 s = true) (sales d)) /\
    Sorted (row_le ("SalesTimestamp", false)) rows.
Proof.
  intros Ht Hr%js_is_eq. unfold get_trends. rewrite Ht, Hr.
  eexists. split; [reflexivity|]. unfold ordered_rows. split; [|apply Sorted_merge_sort; apply _].
  rewrite merge_sort_Permutation. cbn [st_table st_where].
  change (table_rows "sales" d) with (map sale_vals (sales d)).
  rewrite filter_map_comm. f_equiv. rewrite (list_filter_iff _ (fun s => sale_in_window today 7 s = true)); [done|].
  intros s. rewrite <- holds_sale_window. reflexivity.
Qed.

Lemma daily_sales_window_witness :
  exists rows, get_trends (JObj [("trendType", JStr "Daily Sales"); ("timeRange", JStr "Last 7 Days")]) 19723 ex_trend_db =
    mk_reply 200 (JArr (map sale_point rows)) /\
    rows ≡ₚ map sale_vals (filter (fun s => sale_in_window 19723 7 s = true) (sales ex_trend_db)) /\
    Sorted (row_le ("SalesTimestamp", false)) rows.
Proof. apply daily_sales_window; reflexivity. Defined.

(** for a ["Last 7 Days"] range [GET /api/productusage] sends
    PostgreSQL exactly the window from seven days before the first clock
    reading to the day of the second: the dates it formats with
    [toISOString] are read back by [::DATE] unchanged, so the rows it
    aggregates are the inventory rows of those days. *)
Theorem usage_last7_window query t1 t2 d :
  js_is (prop "timeRange" query) "Last 7 Days" = true ->
  0 <= c_year (days_to_civil (day_of_ms t1 - 7)) <= 9999 ->
  0 <= c_year (days_to_civil (day_of_ms t2)) <= 9999 ->
  get_productusage query t1 t2 d =
    mk_reply 200 (JArr (map usage_json (usage_groups (Some (day_of_ms t1 - 7)) (Some (day_of_ms t2)) d))).
Proof.
  intros Hr%js_is_eq H1 H2. unfold get_productusage. rewrite usage_window_last7 by done.
  lazy beta iota. rewrite !date_param_str, !date_in_iso by done. reflexivity.
Qed.

Lemma usage_last7_window_witness :
  get_productusage (JObj [("timeRange", JStr "Last 7 Days")]) (19723 * ms_per_day) (19723 * ms_per_day + 5) ex_trend_db =
    mk_reply 200 (JArr (map usage_json (usage_groups (Some (19723 - 7)) (Some 19723) ex_trend_db))).
Proof.
  rewrite (usage_last7_window _ (19723 * ms_per_day) (19723 * ms_per_day + 5));
    [reflexivity | reflexivity | vm_compute; split; discriminate ..].
Defined.

End Trends.
