(* ===== verification/Services.v ===== *)
(** * External services: Google sign-in, weather, the database probe

    [POST /api/google-login] (server.js lines 648-662) and the mounted
    [POST /api/auth/google-login] (routes/authRoutes.js lines 8-29) hand
    the token to Google's [verifyIdToken]; the verifier is external, so it
    is a parameter of the section: [verify t] is the token's payload, or
    [None] when verification throws.  [GET /api/weather/:city] (lines
    665-678) calls [axios], which [server.js] never imports; the
    identifiers the module binds are listed in [server_scope].
    [GET /api/test-db] (619-627) answers [SELECT NOW()]. *)

From S2P Require Import Prelude Dates JsValue.
Import Dates Js.

Module Services.

Section Google.
Variable verify : string -> option (list (string * jsval)).

(** The payload of a verified token; a missing or non-string token
    makes [verifyIdToken] throw. *)
Definition verified (body : jsval) : option (list (string * jsval)) :=
  match prop "token" body with JStr t => verify t | _ => None end.

(** [POST /api/google-login]: [res.json({ user: payload })], or 401 with
    the text [Invalid token]. *)
Definition post_google_login (body : jsval) : reply :=
  match verified body with
  | Some p => mk_reply 200 (JObj [("user", JObj p)])
  | None => mk_reply 401 (JStr "Invalid token")
  end.

(** [POST /api/auth/google-login]. *)
Definition post_auth_google_login (body : jsval) : reply :=
  match verified body with
  | Some p => mk_reply 200 (JObj [("success", JBool true);
                                  ("user", JObj [("name", prop "name" (JObj p));
                                                 ("email", prop "email" (JObj p));
                                                 ("picture", prop "picture" (JObj p))])])
  | None => mk_reply 401 (failure_body "Invalid Token")
  end.
End Google.

(** The names [server.js] binds at module level (lines 3-40, 645-646,
    681) and the Node.js globals its handlers use. *)
Definition server_scope : list string :=
  ["express"; "cors"; "dotenv"; "Pool"; "path"; "app"; "corsOptions"; "authRoutes"; "pool";
   "OAuth2Client"; "client"; "PORT"; "require"; "process"; "console"; "__dirname"].

(** [GET /api/weather/:city]: the first statement of the [try] reads
    [axios]; an unbound name throws a [ReferenceError], which the [catch]
    answers with 500.  [fetch] is the weather service. *)
Definition get_weather (fetch : string -> option jsval) (city : string) : reply :=
  let failure := mk_reply 500 (error_body "获取天气失败，请检查城市名称") in
  if bool_decide ("axios" ∈ server_scope) then
    match fetch ("https://api.openweathermap.org/data/2.5/weather?q=" +:+ city) with
    | Some data => mk_reply 200 data
    | None => failure
    end
  else failure.

(** [GET /api/test-db]: one row [{ now }], [now] in milliseconds. *)
Definition get_test_db (now : Z) : reply :=
  mk_reply 200 (JArr [JObj [("now", JStr (iso_string now))]]).

(** ** Theorems *)

(** [GET /api/weather/:city] fails with 500 for every city and
    whatever the weather service answers: [axios] is not bound in
    [server.js]. *)
Theorem weather_always_fails fetch city :
  get_weather fetch city = mk_reply 500 (error_body "获取天气失败，请检查城市名称").
Proof. unfold get_weather. by rewrite bool_decide_eq_false_2 by (unfold server_scope; set_solver). Qed.

End Services.
