(* ===== verification/FrontLogin.v ===== *)
(** * Front end: signing in (src/frontend/src/components/Login.js, App.js)

    [Login.js] posts the credentials ([handleSubmit], lines 14-27) or the
    Google credential ([handleGoogleLogin], lines 29-40) and, when the
    answer's [success] is truthy, hands [res.data.user] to [onLogin].
    [App.js]'s [handleLogin] (lines 40-57) lower-cases [userData.role] and
    navigates by it.  [axios] resolves with the body of a 2xx answer and
    rejects otherwise.  [toLowerCase] is modelled on ASCII letters. *)

From S2P Require Import Prelude Sequence JsValue PgValue Db Catalog Services.
Import Sequence Js Pg Db Catalog Services.

Module FrontLogin.

(** [if (res.data.success) onLogin(res.data.user)]: the value passed to
    [onLogin], if any. *)
Definition login_outcome (r : reply) : option jsval :=
  match axios_ok r with
  | Some b => if truthy (prop "success" b) then Some (prop "user" b) else None
  | None => None
  end.

(** The [switch (role)] of [handleLogin]. *)
Definition landing (role : string) : string :=
  if String.eqb role "manager" then "/manager"
  else if String.eqb role "cashier" then "/cashier"
  else "/menu".

(** [handleLogin(userData)]: the route it navigates to, or the
    [TypeError] of [userData.role.toLowerCase()] when [role] is not a
    string. *)
Definition handle_login (user : jsval) : result js_error string :=
  match get_prop "role" user with
  | Ok (JStr r) => Ok (landing (string_lower r))
  | Ok _ => Err TypeError
  | Err e => Err e
  end.

(** ** Theorems *)

(** C26: Google sign-in never signs anyone in: [POST /api/google-login]
    answers [{ user: payload }] without a [success] field, so
    [handleGoogleLogin] never calls [onLogin], whatever the token and the
    verifier say. *)
Theorem google_login_never_signs_in verify body :
  login_outcome (post_google_login verify body) = None.
Proof. unfold post_google_login. by destruct (verified verify body). Qed.

(** C33: an employee whose credentials match signs in and lands on the
    page of their role ([Chef] becomes [USER] on the server and lands on
    [/menu]); when the matching employee's [employeetype] is [NULL], the
    server accepts the login but [handleLogin] throws a [TypeError]. *)
Theorem signin_route body d ty :
  (exists k e, employee d !! k = Some e /\ login_match (prepare_value (prop "username" body))
                                                       (prepare_value (prop "password" body)) e = true) ->
  (forall k e, employee d !! k = Some e ->
     login_match (prepare_value (prop "username" body)) (prepare_value (prop "password" body)) e = true ->
     e_type e = ty) ->
  exists user, login_outcome (post_login body d) = Some user /\
    handle_login user = match ty with
                        | Some t => Ok (landing (string_lower (if String.eqb t "Chef" then "USER" else t)))
                        | None => Err TypeError
                        end.
Proof.
  intros (k & e & Hk & Hm) Hty. unfold post_login.
  destruct (login_rows _ _ d) as [|[k' e'] rest] eqn:E.
  - assert (Hin : (k, e) ∈ login_rows (prepare_value (prop "username" body))
                                      (prepare_value (prop "password" body)) d)
      by (by apply login_rows_elem).
    rewrite E in Hin. by apply elem_of_nil in Hin.
  - assert (Hin : (k', e') ∈ login_rows (prepare_value (prop "username" body))
                                        (prepare_value (prop "password" body)) d) by (rewrite E; left).
    apply login_rows_elem in Hin as [Hk' Hm']. rewrite <- (Hty k' e' Hk' Hm').
    eexists. split; [reflexivity|]. unfold handle_login, role_of. simpl.
    destruct (e_type e') as [t|]; simpl; [|done].
    destruct (String.eqb_spec t "Chef") as [->|Hne].
    + by rewrite bool_decide_eq_true_2.
    + by rewrite bool_decide_eq_false_2 by congruence.
Qed.

(** The cashier [amy] with password [pw]. *)
Definition ex_login_db : database :=
  mk_db ∅ [] (mk_seq 1 false 1 100) ∅ (mk_seq 1 false 1 100) [] []
        (<[7 := mk_employee (Some "amy") (Some "pw") (Some "Cashier")]> ∅) [] ∅ (mk_seq 7 true 1 100).

Definition ex_login_body : jsval := JObj [("username", JStr "amy"); ("password", JStr "pw")].

Lemma signin_route_witness :
  exists user, login_outcome (post_login ex_login_body ex_login_db) = Some user /\
               handle_login user = Ok "/cashier".
Proof.
  destruct (signin_route ex_login_body ex_login_db (Some "Cashier")) as (u & H1 & H2).
  - exists 7, (mk_employee (Some "amy") (Some "pw") (Some "Cashier")). split; vm_compute; reflexivity.
  - intros k e Hk _. unfold ex_login_db in Hk; simpl in Hk. apply lookup_insert_Some in Hk as [[_ <-]|[_ Hk]]; [done|].
    by rewrite lookup_empty in Hk.
  - exists u. split; [exact H1|]. rewrite H2. vm_compute. reflexivity.
Defined.

End FrontLogin.
