(* ===== verification/Float.v ===== *)
(** * JavaScript numbers: IEEE 754 binary64

    The front end computes with JavaScript numbers: it reads prices with
    [Number] and [parseFloat], adds them with [+], compares with [<] and
    prints with [toFixed(2)].  A finite double is [Fin m e], the value
    [m * 2^e] with [|m| < 2^53] and [-1074 <= e <= 971]; rounding is to
    nearest, ties to even.  Signed zeros are not distinguished (no
    computation of the program depends on the sign of a zero). *)

From S2P Require Import Prelude JsValue.
From Stdlib Require Import Ascii.
Import Js.

Module F64.

Inductive dbl := Fin (m e : Z) | PInf | NInf | NaN.

#[global] Instance dbl_eq_dec : EqDecision dbl.
Proof. solve_decision. Defined.

Definition emin : Z := -1074.
Definition emax : Z := 971.

(** [a / b] rounded to the nearest integer, ties to even ([a >= 0], [b > 0]). *)
Definition div_ne (a b : Z) : Z :=
  let q := a / b in
  let r := a mod b in
  if b <? 2 * r then q + 1 else if 2 * r <? b then q else if Z.even q then q else q + 1.

(** [floor (log2 (p / q))] for [p, q > 0]. *)
Definition ilog2_q (p q : Z) : Z :=
  let e := Z.log2 p - Z.log2 q in
  if 0 <=? e then (if q * 2 ^ e <=? p then e else e - 1)
  else (if q <=? p * 2 ^ (- e) then e else e - 1).

(** The double nearest to [p / q] ([p >= 0], [q > 0]), negated when [neg]. *)
Definition round_q (neg : bool) (p q : Z) : dbl :=
  if p =? 0 then Fin 0 0 else
  let e := Z.max (ilog2_q p q - 52) emin in
  let m := if 0 <=? e then div_ne p (q * 2 ^ e) else div_ne (p * 2 ^ (- e)) q in
  let '(m, e) := if m =? 2 ^ 53 then (2 ^ 52, e + 1) else (m, e) in
  if emax <? e then (if neg then NInf else PInf) else Fin (if neg then - m else m) e.

(** The double nearest to [m * 10^x]. *)
Definition of_dec (neg : bool) (m x : Z) : dbl :=
  if 0 <=? x then round_q neg (m * 10 ^ x) 1 else round_q neg m (10 ^ (- x)).

(** ** Arithmetic and comparison *)

(** [m1 * 2^e1] and [m2 * 2^e2] over the common exponent. *)
Definition align (m1 e1 m2 e2 : Z) : Z * Z * Z :=
  let e := Z.min e1 e2 in (m1 * 2 ^ (e1 - e), m2 * 2 ^ (e2 - e), e).

(** [x + y]. *)
Definition add (x y : dbl) : dbl :=
  match x, y with
  | NaN, _ | _, NaN | PInf, NInf | NInf, PInf => NaN
  | PInf, _ | _, PInf => PInf
  | NInf, _ | _, NInf => NInf
  | Fin m1 e1, Fin m2 e2 =>
      let '(a, b, e) := align m1 e1 m2 e2 in
      let s := a + b in
      if 0 <=? e then round_q (s <? 0) (Z.abs s * 2 ^ e) 1 else round_q (s <? 0) (Z.abs s) (2 ^ (- e))
  end.

Definition neg (x : dbl) : dbl :=
  match x with Fin m e => Fin (- m) e | PInf => NInf | NInf => PInf | NaN => NaN end.

(** [x - y]. *)
Definition sub (x y : dbl) : dbl := add x (neg y).

(** [x < y]. *)
Definition lt (x y : dbl) : bool :=
  match x, y with
  | NaN, _ | _, NaN => false
  | Fin m1 e1, Fin m2 e2 => let '(a, b, _) := align m1 e1 m2 e2 in a <? b
  | NInf, NInf | PInf, _ => false
  | NInf, _ | _, PInf => true
  | Fin _ _, NInf => false
  end.

Definition is_nan (x : dbl) : bool := match x with NaN => true | _ => false end.

(** ** Reading numbers *)

(** The longest unsigned [StrDecimalLiteral] at the front of [s]:
    mantissa [m] and exponent [x] of its value [m * 10^x], and the rest. *)
Definition dec_prefix (s : string) : option (Z * Z * string) :=
  let '(ip, ki, r1) := take_radix 10 s 0 0 in
  let '(fp, kf, r2) := match r1 with
                       | String c r => if char_is c 46 then take_radix 10 r 0 0 else (0, O, r1)
                       | EmptyString => (0, O, r1)
                       end in
  if (ki + kf =? 0)%nat then None else
  let m := ip * 10 ^ Z.of_nat kf + fp in
  let '(x, r3) :=
    match r2 with
    | String c r =>
        if char_is c 101 || char_is c 69 then
          let '(sg, r') := match r with
                           | String c' r'' => if char_is c' 45 then (-1, r'')
                                              else if char_is c' 43 then (1, r'') else (1, r)
                           | EmptyString => (1, r) end in
          let '(ev, ke, r4) := take_radix 10 r' 0 0 in
          if (ke =? 0)%nat then (0, r2) else (sg * ev, r4)
        else (0, r2)
    | EmptyString => (0, r2)
    end in
  Some (m, x - Z.of_nat kf, r3).

Definition infinity : string := "Infinity".

(** An optional sign. *)
Definition take_sign (s : string) : bool * string :=
  match s with
  | String c r => if char_is c 45 then (true, r) else if char_is c 43 then (false, r) else (false, s)
  | EmptyString => (false, s)
  end.

(** [parseFloat(s)]. *)
Definition parse_float (s : string) : dbl :=
  let '(ng, u) := take_sign (trim_left s) in
  if String.prefix infinity u then (if ng then NInf else PInf)
  else match dec_prefix u with
       | Some (m, x, _) => of_dec ng m x
       | None => NaN
       end.

(** [Number(s)] for a string ([StringToNumber]). *)
Definition string_to_number (s : string) : dbl :=
  let t := trim s in
  match t with
  | EmptyString => Fin 0 0
  | String c0 (String c1 rest) =>
      if char_is c0 48 && (char_is c1 120 || char_is c1 88 || char_is c1 111 ||
                           char_is c1 79 || char_is c1 98 || char_is c1 66) then
        let radix := if char_is c1 120 || char_is c1 88 then 16%nat
                     else if char_is c1 111 || char_is c1 79 then 8%nat else 2%nat in
        let '(v, k, r) := take_radix radix rest 0 0 in
        if (0 <? k)%nat && String.eqb r "" then of_dec false v 0 else NaN
      else
        let '(ng, u) := take_sign t in
        if String.eqb u infinity then (if ng then NInf else PInf)
        else match dec_prefix u with
             | Some (m, x, EmptyString) => of_dec ng m x
             | _ => NaN
             end
  | String c0 EmptyString =>
      if dec_digit c0 then of_dec false (Z.of_nat (nat_of_ascii c0) - 48) 0 else NaN
  end.

(** [Number(v)]. *)
Definition to_number (v : jsval) : dbl :=
  match v with
  | JUndefined => NaN
  | JNull => Fin 0 0
  | JBool b => Fin (if b then 1 else 0) 0
  | JNum c => of_dec (c <? 0) (Z.abs c) (-2)
  | _ => string_to_number (to_js_string v)
  end.

(** ** [toFixed(2)] *)

(** The digits of [n >= 0] with a point before the last two, padded
    with zeros to at least [0.00]. *)
Definition cents_text (n : Z) : string :=
  let ds := if n =? 0 then "0" else digits n in
  let ds := if (String.length ds <=? 2)%nat
            then String.append (if (String.length ds =? 1)%nat then "00" else "0") ds else ds in
  let k := (String.length ds - 2)%nat in
  String.append (String.substring 0 k ds) (String "."%char (String.substring k 2 ds)).

(** [x.toFixed(2)]: the integer [n] nearest to [100 |x|] (the larger one
    on a tie), printed with two decimals; [None] for [|x| >= 10^21],
    which [toFixed] prints with [ToString] (not modelled). *)
Definition to_fixed2 (x : dbl) : option string :=
  match x with
  | NaN => Some "NaN"
  | PInf => Some "Infinity"
  | NInf => Some "-Infinity"
  | Fin m e =>
      let a := Z.abs m in
      let big := if 0 <=? e then 10 ^ 21 <=? a * 2 ^ e else 10 ^ 21 * 2 ^ (- e) <=? a in
      if big then None else
      let n := if 0 <=? e then a * 2 ^ e * 100 else (2 * a * 100 + 2 ^ (- e)) / (2 * 2 ^ (- e)) in
      Some (String.append (if m <? 0 then "-" else "") (cents_text n))
  end.

(** ** Rounding error *)

(** [div_ne a b] is within half of [b] of [a]. *)
Lemma div_ne_bound a b : 0 < b -> 2 * Z.abs (div_ne a b * b - a) <= b.
Proof.
  intros Hb. unfold div_ne.
  pose proof (Z.div_mod a b ltac:(lia)) as Ha. pose proof (Z.mod_pos_bound a b Hb) as Hr.
  destruct (b <? 2 * (a mod b)) eqn:E1; [apply Z.ltb_lt in E1; lia|apply Z.ltb_ge in E1].
  destruct (2 * (a mod b) <? b) eqn:E2; [apply Z.ltb_lt in E2; lia|apply Z.ltb_ge in E2].
  destruct (Z.even (a / b)); lia.
Qed.

Lemma ilog2_q_le p q : ilog2_q p q <= Z.log2 p - Z.log2 q.
Proof. unfold ilog2_q. repeat case_match; lia. Qed.

(** The double nearest to [p / q] for [0 < p / q < 2^44] is a finite
    [mm * 2^e] with [e <= -8], within half of [2^e] of [p / q]:
    [2 |mm q - p 2^-e| <= q]. *)
Lemma round_q_small p q :
  0 < p -> 0 < q -> Z.log2 p - Z.log2 q <= 43 ->
  exists mm e, round_q false p q = Fin mm e /\ e <= -8 /\ 0 <= mm /\
               2 * Z.abs (mm * q - p * 2 ^ (- e)) <= q.
Proof.
  intros Hp Hq Hl. unfold round_q.
  rewrite (proj2 (Z.eqb_neq p 0)) by lia.
  pose proof (ilog2_q_le p q) as Hi.
  set (e := Z.max (ilog2_q p q - 52) emin).
  assert (He : e <= -9) by (unfold e, emin; lia).
  rewrite (proj2 (Z.leb_gt 0 e)) by lia.
  pose proof (div_ne_bound (p * 2 ^ (- e)) q Hq) as Hb.
  assert (Hpos : 0 <= div_ne (p * 2 ^ (- e)) q).
  { assert (0 < 2 ^ (- e)) by (apply Z.pow_pos_nonneg; lia). nia. }
  destruct (div_ne (p * 2 ^ (- e)) q =? 2 ^ 53) eqn:E.
  - apply Z.eqb_eq in E. rewrite (proj2 (Z.ltb_ge emax (e + 1))) by (unfold emax; lia).
    exists (2 ^ 52), (e + 1). split; [done|]. split; [lia|]. split; [lia|].
    rewrite E in Hb.
    replace (2 ^ (- e)) with (2 * 2 ^ (- (e + 1))) in Hb
      by (rewrite <- Z.pow_succ_r by lia; f_equal; lia).
    replace (2 ^ 53) with (2 * 2 ^ 52) in Hb by reflexivity. lia.
  - rewrite (proj2 (Z.ltb_ge emax e)) by (unfold emax; lia).
    eexists _, e. split; [reflexivity|]. lia.
Qed.

End F64.
