(* ===== verification/FrontCart.v ===== *)
(** * Front end: the cart and cash payment

    [Menu.js] [addToCart] (lines 58-72) appends an item to the cart kept
    in [localStorage]; [Cart.js] [removeItem] (15-20) splices one out and
    [submitOrder] (22-62) posts the order and passes the total to the
    payment pages; [PaymentPage.js] (4-16) forwards it and
    [CashPaymentPage.js] (4-34) reads the tendered amount from a keypad.
    The cart is the list of JSON values [localStorage] holds; totals and
    amounts are doubles ([F64]).  A number the front end sends in a JSON
    body is the server's [JNum c] when it is the double nearest to a
    decimal [c / 100] with at most 15 digits: that decimal is then the
    shortest text that reads back as the double, which is what
    [JSON.stringify] writes; other numbers are outside the model. *)

From S2P Require Import Prelude JsValue Float.
From Stdlib Require Import Ascii.
Import Js F64.

Module FrontCart.

(** ** Adding and removing items *)

(** [const { sugar = "100%", ice = "Normal Ice", topping = "None" } =
    customizations[item.itemid] || {}]: a default replaces [undefined]. *)
Definition with_default (d : string) (v : jsval) : jsval :=
  match v with JUndefined => JStr d | _ => v end.

(** [addToCart(item)] given the [customizations] state object. *)
Definition add_to_cart (customizations : jsval) (item : jsval) (cart : list jsval) : list jsval :=
  let c := prop (to_js_string (prop "itemid" item)) customizations in
  let c := if truthy c then c else JObj [] in
  let sugar := with_default "100%" (prop "sugar" c) in
  let ice := with_default "Normal Ice" (prop "ice" c) in
  let topping := with_default "None" (prop "topping" c) in
  cart ++ [JObj [("itemid", prop "itemid" item); ("itemname", prop "itemname" item);
                 ("price", prop "itemprice" item);
                 ("customization", JStr ("Sugar: " +:+ to_js_string sugar +:+ " | Ice: " +:+
                                         to_js_string ice +:+ " | Topping: " +:+ to_js_string topping))]].

(** [updated.splice(index, 1)]: a negative index counts from the end. *)
Definition splice1 {A} (index : Z) (l : list A) : list A :=
  let len := Z.of_nat (length l) in
  let start := if index <? 0 then Z.max (len + index) 0 else Z.min index len in
  take (Z.to_nat start) l ++ drop (S (Z.to_nat start)) l.

(** [removeItem(index)]. *)
Definition remove_item (index : Z) (cart : list jsval) : list jsval := splice1 index cart.

(** ** Submitting the order *)

(** The integer [n] nearest to [100 x]: [Some n] when [x] is the double
    nearest to [n / 100]. *)
Definition hundredths (x : dbl) : option Z :=
  match x with
  | Fin m e =>
      let n := if 0 <=? e then m * 2 ^ e * 100 else Z.div (2 * m * 100 + 2 ^ (- e)) (2 * 2 ^ (- e)) in
      if bool_decide (Z.abs n < 10 ^ 15) && bool_decide (of_dec (n <? 0) (Z.abs n) (-2) = x)
      then Some n else None
  | _ => None
  end.

(** A number in a JSON body: [NaN] and the infinities are [null]. *)
Definition json_number (x : dbl) : option jsval :=
  match x with
  | NaN | PInf | NInf => Some JNull
  | Fin _ _ => JNum <$> hundredths x
  end.

(** [cart.map(item => ({ itemid: Number(item.itemid), price: Number(item.price),
    customization: item.customization || "" }))]. *)
Definition order_item (item : jsval) : option jsval :=
  itemid ← json_number (to_number (prop "itemid" item));
  price ← json_number (to_number (prop "price" item));
  let cz := prop "customization" item in
  Some (JObj [("itemid", itemid); ("price", price); ("customization", if truthy cz then cz else JStr "")]).

(** The body [submitOrder] posts, [None] when its guard returns first
    ([customerName] and [userId] are what [prompt] returned: a string, or
    [null] on cancel). *)
Definition order_payload (customerName userId : jsval) (cart : list jsval) : option (option jsval) :=
  if negb (truthy customerName) || negb (truthy userId) || bool_decide (cart = []) then None
  else Some (items ← mapM order_item cart;
             Some (JObj [("customerName", customerName);
                         ("userId", match parse_int userId with Some n => jint n | None => JNull end);
                         ("items", JArr items); ("paymentMethod", JStr "Cash")])).

(** [items.reduce((sum, i) => sum + i.price, 0)] over the cart's prices. *)
Definition cart_total (cart : list jsval) : dbl :=
  foldl (fun s item => add s (to_number (prop "price" item))) (Fin 0 0) cart.

(** [location.state?.total || 0] of the payment pages. *)
Definition page_total (t : dbl) : dbl :=
  match t with NaN => Fin 0 0 | Fin 0 _ => Fin 0 0 | _ => t end.

(** ** The cash keypad *)

Inductive key := KDigit (d : nat) | KClear | KBack.

(** The keys on the pad: ["1"] to ["9"], ["C"], ["0"], the backspace. *)
Definition keypad : list key :=
  [KDigit 1; KDigit 2; KDigit 3; KDigit 4; KDigit 5; KDigit 6; KDigit 7; KDigit 8; KDigit 9;
   KClear; KDigit 0; KBack].

(** [handleKey(val)]. *)
Definition handle_key (k : key) (input : string) : string :=
  match k with
  | KClear => ""
  | KBack => String.substring 0 (String.length input - 1) input
  | KDigit d => input +:+ String (ascii_of_nat (48 + d)) ""
  end.

Inductive key_step : string -> string -> Prop :=
| key_press k s : k ∈ keypad -> key_step s (handle_key k s).

Inductive cash_result := Invalid | Insufficient | Paid (change : dbl).

(** [handleSubmit()] against the order total. *)
Definition cash_submit (input : string) (orderTotal : dbl) : cash_result :=
  let received := parse_float input in
  if F64.is_nan received then Invalid
  else if lt received orderTotal then Insufficient
  else Paid (sub received orderTotal).

(** A price as typed in the drink forms: digits, a point, two digits. *)
Definition price_text (i f : Z) : string :=
  digits i +:+ String "." (String (digit_char (f / 10)) (String (digit_char (f mod 10)) "")).

(** ** Lemmas *)

Fixpoint all_digits (s : string) : bool :=
  match s with EmptyString => true | String c r => dec_digit c && all_digits r end.

Lemma all_digits_app s t : all_digits (s +:+ t) = all_digits s && all_digits t.
Proof. induction s as [|c s IH]; simpl; [done|]. rewrite IH. by destruct (dec_digit c). Qed.

Lemma all_digits_substring n s : all_digits s = true -> all_digits (String.substring 0 n s) = true.
Proof.
  revert n. induction s as [|c s IH]; intros [|n]; simpl; try done.
  intros [-> Hs]%andb_true_iff. by apply IH.
Qed.

Lemma handle_key_digits k s : k ∈ keypad -> all_digits s = true -> all_digits (handle_key k s) = true.
Proof.
  intros Hk Hs. destruct k as [d| |]; [|done|by apply all_digits_substring].
  unfold keypad in Hk.
  repeat (apply elem_of_cons in Hk as [Hk|Hk];
          [simplify_eq; cbn [handle_key]; rewrite all_digits_app, Hs; reflexivity|]).
  by apply elem_of_nil in Hk.
Qed.

Lemma radix_digit_dec c : dec_digit c = true -> radix_digit 10 c = Some (nat_of_ascii c - 48)%nat.
Proof.
  unfold dec_digit, radix_digit. intros [H1 H2]%andb_true_iff.
  rewrite H1, H2. simpl. apply Nat.leb_le in H1. apply Nat.leb_le in H2.
  by rewrite (proj2 (Nat.ltb_lt _ 10)) by lia.
Qed.

(** A string of digits is read whole: its value and nothing left. *)
Lemma take_radix_all_digits s acc k :
  all_digits s = true -> 0 <= acc ->
  exists v, 0 <= v /\ take_radix 10 s acc k = (v, (k + String.length s)%nat, EmptyString).
Proof.
  revert acc k. induction s as [|c s IH]; intros acc k Hs Hacc; simpl.
  - exists acc. by rewrite Nat.add_0_r.
  - apply andb_true_iff in Hs as [Hc Hs]. rewrite radix_digit_dec by done.
    destruct (IH (Z.of_nat 10 * acc + Z.of_nat (nat_of_ascii c - 48)) (S k)) as (v & Hv & ->);
      [done|lia|].
    exists v. split; [done|]. by rewrite Nat.add_succ_r.
Qed.

(** [parseFloat] of a non-empty string of digits is its integer value. *)
Lemma parse_float_digits s :
  all_digits s = true -> s <> EmptyString -> exists n, 0 <= n /\ parse_float s = of_dec false n 0.
Proof.
  intros Hs Hne. destruct s as [|c r]; [done|]. clear Hne.
  pose proof Hs as Hs'. apply andb_true_iff in Hs' as [Hc _].
  destruct (take_radix_all_digits (String c r) 0 0) as (v & Hv & Ht); [done|lia|].
  exists v. split; [done|].
  assert (Hsp : js_space c = false).
  { unfold dec_digit in Hc. unfold js_space. apply andb_true_iff in Hc as [H1 H2].
    apply Nat.leb_le in H1. apply Nat.leb_le in H2.
    apply orb_false_iff. split; [apply andb_false_iff; right; apply Nat.leb_gt; lia|apply Nat.eqb_neq; lia]. }
  assert (Hsg : char_is c 45 = false /\ char_is c 43 = false).
  { unfold dec_digit in Hc. unfold char_is. apply andb_true_iff in Hc as [H1 H2].
    apply Nat.leb_le in H1. split; apply Nat.eqb_neq; lia. }
  assert (Hinf : String.prefix infinity (String c r) = false).
  { change (String.prefix infinity (String c r))
      with (if Ascii.ascii_dec "I"%char c then String.prefix "nfinity" r else false).
    destruct (Ascii.ascii_dec "I"%char c) as [<-|]; [|done].
    exfalso. vm_compute in Hc. discriminate. }
  unfold parse_float. simpl. rewrite Hsp. simpl. rewrite (proj1 Hsg), (proj2 Hsg), Hinf.
  unfold dec_prefix. rewrite Ht. simpl. f_equal. lia.
Qed.

(** Every input the keypad can produce from the empty one is a string of
    digits. *)
Lemma key_steps_digits s : rtc key_step "" s -> all_digits s = true.
Proof.
  assert (H : forall s t, rtc key_step s t -> all_digits s = true -> all_digits t = true).
  { induction 1 as [|x y z [k ? Hk] _ IH]; [done|]. intros Hx. apply IH. by apply handle_key_digits. }
  intros Hs. by apply (H "").
Qed.

(** Each digit character is keyed by a key of the pad. *)
Lemma digit_key c : dec_digit c = true -> exists d, KDigit d ∈ keypad /\ ascii_of_nat (48 + d) = c.
Proof.
  unfold dec_digit. intros [H1 H2]%andb_true_iff. apply Nat.leb_le in H1. apply Nat.leb_le in H2.
  exists (nat_of_ascii c - 48)%nat. split.
  - assert (Hd : (nat_of_ascii c - 48 < 10)%nat) by lia. revert Hd. generalize (nat_of_ascii c - 48)%nat.
    intros d Hd. unfold keypad. do 10 (destruct d as [|d]; [set_solver|]). lia.
  - replace (48 + (nat_of_ascii c - 48))%nat with (nat_of_ascii c) by lia. apply ascii_nat_embedding.
Qed.

(** Keying the digits of [s] appends them to the input. *)
Lemma key_steps_append t s : all_digits s = true -> rtc key_step t (t +:+ s).
Proof.
  revert t. induction s as [|c s IH]; intros t Hs; simpl in Hs.
  - rewrite string_app_nil_r. apply rtc_refl.
  - apply andb_true_iff in Hs as [Hc Hs]. destruct (digit_key c Hc) as (d & Hd & Hcd).
    eapply rtc_l; [apply (key_press (KDigit d) t Hd)|]. cbn [handle_key]. rewrite Hcd.
    replace (t +:+ String c s) with ((t +:+ String c "") +:+ s) by (by rewrite string_app_assoc).
    by apply IH.
Qed.

(** A double nearest to a number of cents below [10^15] is read back as
    those cents: [JSON.stringify] writes that decimal, which [express.json]
    reads as the same number. *)
Lemma hundredths_of_dec m : 0 <= m < 10 ^ 15 -> hundredths (of_dec false m (-2)) = Some m.
Proof.
  intros Hm. destruct (Z.eq_dec m 0) as [->|Hm0]; [vm_compute; reflexivity|].
  change (of_dec false m (-2)) with (round_q false m 100).
  assert (Hl : Z.log2 m <= 49).
  { assert (Z.log2 m < 50); [apply Z.log2_lt_pow2; [lia|]; change (2 ^ 50) with 1125899906842624; lia|lia]. }
  destruct (round_q_small m 100) as (mm & e & Hr & He & Hmm & Hb);
    [lia|lia|change (Z.log2 100) with 6; lia|].
  unfold hundredths. rewrite Hr, (proj2 (Z.leb_gt 0 e)) by lia.
  assert (Hk : 256 <= 2 ^ (- e)) by (change 256 with (2 ^ 8); apply Z.pow_le_mono_r; lia).
  replace ((2 * mm * 100 + 2 ^ (- e)) / (2 * 2 ^ (- e))) with m.
  2:{ apply (Z.div_unique_pos _ _ _ (2 * mm * 100 + 2 ^ (- e) - 2 * 2 ^ (- e) * m)); lia. }
  rewrite <- Hr. change (round_q false m 100) with (of_dec false m (-2)).
  rewrite (proj2 (Z.ltb_ge m 0)), Z.abs_eq by lia.
  rewrite bool_decide_eq_true_2 by lia. by rewrite bool_decide_eq_true_2.
Qed.

Lemma digit_char_facts d r :
  0 <= d <= 9 -> js_space (digit_char d) = false /\ char_is (digit_char d) 45 = false /\
                 char_is (digit_char d) 43 = false /\ String.prefix infinity (String (digit_char d) r) = false.
Proof.
  intros Hd. assert (Hn : nat_of_ascii (digit_char d) = (48 + Z.to_nat d)%nat)
    by (unfold digit_char; apply nat_ascii_embedding; lia).
  unfold js_space, char_is. rewrite Hn. split; [|split; [|split]].
  - apply orb_false_iff. split; [apply andb_false_iff; right; apply Nat.leb_gt; lia|apply Nat.eqb_neq; lia].
  - apply Nat.eqb_neq; lia.
  - apply Nat.eqb_neq; lia.
  - change (String.prefix infinity (String (digit_char d) r))
      with (if Ascii.ascii_dec "I"%char (digit_char d) then String.prefix "nfinity" r else false).
    destruct (Ascii.ascii_dec "I"%char (digit_char d)) as [He|]; [|done].
    apply (f_equal nat_of_ascii) in He. rewrite Hn in He. change (nat_of_ascii "I") with 73%nat in He. lia.
Qed.

(** [parseFloat] of such a price is the double nearest to its cents. *)
Lemma parse_float_price i f : 0 <= i -> 0 <= f < 100 -> parse_float (price_text i f) = of_dec false (100 * i + f) (-2).
Proof.
  intros Hi Hf. unfold price_text, digits. set (L := Z.to_nat (Z.log2 i)).
  set (tail := String "." _). rewrite digits_aux_app. change ("" +:+ tail) with tail.
  destruct (take_radix_digits_aux L i tail 0 0) as (j & Hj & Ht); [split; [done|]; by apply digits_fuel|].
  destruct (digits_aux_head L i tail) as (d & r0 & Hd & Hs).
  destruct (digit_char_facts d r0 Hd) as (Hsp & Hm & Hp & Hinf).
  unfold parse_float. rewrite Hs. cbn [trim_left]. rewrite Hsp. cbn [take_sign]. rewrite Hm, Hp.
  replace (String.prefix infinity (String (digit_char d) r0)) with false
    by (symmetry; revert Hinf; unfold infinity; cbn [String.prefix]; by destruct (Ascii.ascii_dec _ _)).
  unfold dec_prefix. rewrite <- Hs, Ht. unfold tail. cbn [take_radix].
  change (radix_digit 10 ".") with (@None nat). change (char_is "." 46) with true.
  pose proof (Z.mod_pos_bound f 10 ltac:(lia)). pose proof (Z.div_pos f 10 ltac:(lia) ltac:(lia)).
  assert (f / 10 < 10) by (apply Z.div_lt_upper_bound; lia).
  cbn -[digit_char radix_digit Z.mul Z.add Z.pow Z.div Z.modulo].
  rewrite !radix_digit_char by lia.
  cbn -[digit_char Z.mul Z.add Z.pow Z.div Z.modulo]. change (char_is "." 46) with true.
  cbn -[digit_char Z.mul Z.add Z.pow Z.div Z.modulo]. rewrite (proj2 (Nat.eqb_neq _ 0)) by lia.
  rewrite !Z2Nat.id by lia.
  match goal with |- of_dec false ?m _ = _ =>
    replace m with (100 * i + f) by (pose proof (Z.div_mod f 10 ltac:(lia)); simpl Z.pow; lia) end.
  reflexivity.
Qed.

(** [JSON.stringify] writes the double nearest to [m] hundredths as [m]. *)
Lemma json_number_of_dec m : 0 <= m < 10 ^ 15 -> json_number (of_dec false m (-2)) = Some (JNum m).
Proof.
  intros Hm. pose proof (hundredths_of_dec m Hm) as H. revert H. unfold json_number.
  destruct (of_dec _ _ _); intros H; try discriminate H. by rewrite H.
Qed.

(** [Number(v)] of a number of the model is written back as itself. *)
Lemma json_number_num c : 0 <= c < 10 ^ 15 -> json_number (to_number (JNum c)) = Some (JNum c).
Proof. intros Hc. cbn [to_number]. rewrite (proj2 (Z.ltb_ge c 0)), Z.abs_eq by lia. by apply json_number_of_dec. Qed.

(** [JSON.stringify] writes such a price as its cents. *)
Lemma json_number_price i f :
  0 <= i -> 0 <= f < 100 -> 100 * i + f < 10 ^ 15 -> json_number (parse_float (price_text i f)) = Some (JNum (100 * i + f)).
Proof. intros Hi Hf Hm. rewrite parse_float_price by done. apply json_number_of_dec. lia. Qed.

(** ** Examples *)

(** A menu row as [GET /api/menu] sends it: [itemprice] is a [numeric],
    which node-postgres hands over as text. *)
Definition ex_menu_row (id : Z) (name price : string) : jsval :=
  JObj [("itemid", jint id); ("itemname", JStr name); ("itemprice", JStr price)].

(** A cart of a 3.20 drink and two 4.90 drinks, added without
    customizations. *)
Definition ex_cart : list jsval :=
  foldl (fun c it => add_to_cart (JObj []) it c) []
        [ex_menu_row 1 "Mango" "3.20"; ex_menu_row 2 "Taro" "4.90"; ex_menu_row 2 "Taro" "4.90"].

(** ** Theorems *)

(** the cash keypad has no decimal point: every amount a cashier can
    key in is read by [parseFloat] as a whole number of dollars, or as
    [NaN] when nothing was keyed. *)
Theorem keypad_whole_dollars s :
  rtc key_step "" s -> s = EmptyString /\ parse_float s = NaN \/
                       exists n, 0 <= n /\ parse_float s = of_dec false n 0.
Proof.
  intros Hs. destruct (decide (s = EmptyString)) as [->|Hne]; [by left|right].
  apply parse_float_digits; [by apply key_steps_digits|done].
Qed.

Lemma keypad_whole_dollars_witness :
  rtc key_step "" "13" /\ exists n, 0 <= n /\ parse_float "13" = of_dec false n 0.
Proof.
  assert (H : rtc key_step "" "13").
  { eapply rtc_l; [apply (key_press (KDigit 1)); unfold keypad; set_solver|].
    eapply rtc_l; [apply (key_press (KDigit 3)); unfold keypad; set_solver|]. apply rtc_refl. }
  split; [exact H|].
  destruct (keypad_whole_dollars "13" H) as [[? _]|Hn]; [discriminate|exact Hn].
Defined.

(** C24: the cart of 3.20, 4.90 and 4.90 is shown with the total 13.00,
    yet of all the amounts the cash keypad can key, the page accepts
    none below 14 dollars: the keypad keys whole dollars only, and the
    total it compares with is the double sum [13.000000000000002], so
    13 is refused as insufficient and the shown total can never be paid
    exactly. *)
Theorem exact_total_refused s :
  rtc key_step "" s ->
  to_fixed2 (page_total (cart_total ex_cart)) = Some "13.00" /\
  (forall r, cash_submit s (page_total (cart_total ex_cart)) = Paid r ->
   exists n, 14 <= n /\ parse_float s = of_dec false n 0).
Proof.
  intros Hs. split; [vm_compute; reflexivity|]. intros r Hr.
  destruct (keypad_whole_dollars s Hs) as [[-> _]|(n & Hn & Hp)]; [discriminate Hr|].
  exists n. split; [|done]. destruct (Z.le_gt_cases 14 n) as [|Hlt]; [done|]. exfalso.
  assert (Hc : forallb (fun k => negb (F64.is_nan (of_dec false (Z.of_nat k) 0)) &&
                                 lt (of_dec false (Z.of_nat k) 0) (page_total (cart_total ex_cart)))
                       (seq 0 14) = true) by (vm_compute; reflexivity).
  rewrite forallb_forall in Hc. specialize (Hc (Z.to_nat n) ltac:(apply in_seq; lia)).
  rewrite Z2Nat.id in Hc by lia. apply andb_prop in Hc as [Hnan Hlt'].
  unfold cash_submit in Hr. rewrite Hp in Hr. apply negb_true_iff in Hnan. by rewrite Hnan, Hlt' in Hr.
Qed.

(** Paying 14 is accepted, with the change computed from the double sum. *)
Lemma exact_total_refused_witness :
  rtc key_step "" "14" /\
  exists r, cash_submit "14" (page_total (cart_total ex_cart)) = Paid r /\
  exists n, 14 <= n /\ parse_float "14" = of_dec false n 0.
Proof.
  assert (H : rtc key_step "" "14").
  { eapply rtc_l; [apply (key_press (KDigit 1)); unfold keypad; set_solver|].
    eapply rtc_l; [apply (key_press (KDigit 4)); unfold keypad; set_solver|]. apply rtc_refl. }
  split; [exact H|]. eexists. split; [vm_compute; reflexivity|].
  eapply (proj2 (exact_total_refused "14" H)). vm_compute. reflexivity.
Defined.

(** C35: whatever the cashier has keyed so far, every whole amount can
    still be keyed: [C] clears the input and the digit keys append the
    amount's digits. *)
Theorem keypad_reaches_any_amount x s : all_digits s = true -> rtc key_step x s.
Proof.
  intros Hs. eapply rtc_l; [apply (key_press KClear x); unfold keypad; set_solver|].
  apply (key_steps_append "" s Hs).
Qed.

Lemma keypad_reaches_any_amount_witness : all_digits "1250" = true /\ rtc key_step "7" "1250".
Proof. split; [reflexivity|]. apply keypad_reaches_any_amount. reflexivity. Defined.

End FrontCart.
