(* ===== verification/CartStore.v ===== *)
(** * The cart in [localStorage], shared by the ordering pages

    [Menu.js], [MenuItemSelectionPage.js] and [Cart.js] pass the cart to
    one another through the key ["cart"] of [localStorage]: a page
    writes [JSON.stringify(cart)] and the next page mounts with
    [JSON.parse(localStorage.getItem("cart")) || []].  The store is the
    text, [None] when the key is absent.  A page's own state starts from
    what it read at mount ([Menu.js], [Cart.js]) or from [[]]
    ([MenuItemSelectionPage.js], which never reads the store).  A browser
    session is a sequence of [event]s on one [browser]: the store and the
    page on screen. *)

From S2P Require Import Prelude JsValue PgValue Json Db Catalog Float FrontCart.
Import Js Pg Json Db Catalog FrontCart.

Module CartStore.

(** [localStorage.getItem("cart")]: the stored text, or [null]. *)
Definition storage := option string.

(** [JSON.parse(localStorage.getItem("cart")) || []]: [JSON.parse(null)]
    reads the text ["null"]; a falsy result is replaced by [[]]. *)
Definition load_cart (st : storage) : result json_error jsval :=
  match json_parse (default "null" st) with
  | Ok v => Ok (if truthy v then v else JArr [])
  | Err e => Err e
  end.

(** [localStorage.setItem("cart", JSON.stringify(cart))]. *)
Definition save_cart (cart : list jsval) : storage := Some (json_stringify (JArr cart)).

(** [[...v]]: the elements of an array, the characters of a string; a
    [TypeError] for a value that is not iterable. *)
Definition spread_list (v : jsval) : result js_error (list jsval) :=
  match v with
  | JArr l => Ok l
  | JStr s => Ok (map (fun c => JStr (String c EmptyString)) (String.list_ascii_of_string s))
  | _ => Err TypeError
  end.

(** [{...v}]: the own enumerable properties of [v], keyed by name or index. *)
Definition spread_fields (v : jsval) : list (string * jsval) :=
  match v with
  | JObj fs => fs
  | JArr l => imap (fun i x => (to_js_string (jint (Z.of_nat i)), x)) l
  | JStr s => imap (fun i c => (to_js_string (jint (Z.of_nat i)), JStr (String c EmptyString)))
                   (String.list_ascii_of_string s)
  | _ => []
  end.

(** ** [Menu.js] *)

(** The state [addToCart] reads: the cart and the customizations. *)
Record menu_state := mk_menu_state { m_cart : jsval; m_custom : jsval }.

(** Mount (lines 30-34): [customizations] starts as [{}], the cart is
    what the store holds. *)
Definition menu_mount (st : storage) : result json_error menu_state :=
  match load_cart st with Ok c => Ok (mk_menu_state c (JObj [])) | Err e => Err e end.

(** [addToCart(item)] (lines 58-72): [[...cart, newItem]] becomes the
    state and is stored. *)
Definition menu_add (item : jsval) (s : menu_state) : result js_error (menu_state * storage) :=
  match spread_list (m_cart s) with
  | Ok l => let l' := add_to_cart (m_custom s) item l in Ok (mk_menu_state (JArr l') (m_custom s), save_cart l')
  | Err e => Err e
  end.

(** The options of the three selects (lines 24-28), with the field each
    sets and the value it shows by default (lines 125, 138, 151). *)
Definition sugar_options : list string := ["No Sugar"; "30%"; "50%"; "70%"; "100%"].
Definition ice_options : list string := ["No Ice"; "Less Ice"; "Normal Ice"; "Hot"].
Definition topping_options : list string :=
  ["None"; "Boba"; "Lychee Jelly"; "Pearls"; "Grass Jelly"; "Pudding"; "Aloe Vera"; "Red Beans"].
Definition selects : list (string * string * list string) :=
  [("sugar", "100%", sugar_options); ("ice", "Normal Ice", ice_options); ("topping", "None", topping_options)].

(** [handleCustomizationChange(itemid, field, value)] (lines 48-56):
    [{...prev, [itemid]: {...prev[itemid], [field]: value}}]. *)
Definition customization_change (itemid : jsval) (field value : string) (prev : jsval) : jsval :=
  let k := to_js_string itemid in
  JObj (obj_set k (JObj (obj_set field (JStr value) (spread_fields (prop k prev)))) (spread_fields prev)).

(** [customizations[item.itemid]?.field || d]: the option a select shows. *)
Definition select_value (custom itemid : jsval) (field d : string) : jsval :=
  match prop (to_js_string itemid) custom with
  | JUndefined | JNull => JStr d
  | o => let v := prop field o in if truthy v then v else JStr d
  end.

(** The customizations the three selects can produce from [{}]: each
    change sets one field of one item to an option of its select. *)
Inductive custom_reach : jsval -> Prop :=
| custom_init : custom_reach (JObj [])
| custom_step c itemid f d opts v :
    custom_reach c -> (f, d, opts) ∈ selects -> v ∈ opts ->
    custom_reach (customization_change itemid f v c).

(** The text the three selects of an item show. *)
Definition shown_text (custom itemid : jsval) : string :=
  "Sugar: " +:+ to_js_string (select_value custom itemid "sugar" "100%") +:+
  " | Ice: " +:+ to_js_string (select_value custom itemid "ice" "Normal Ice") +:+
  " | Topping: " +:+ to_js_string (select_value custom itemid "topping" "None").

(** ** [MenuItemSelectionPage.js] *)

(** [handleCustomize(item)] (lines 27-44) with the three answers of
    [prompt] ([None] for a cancelled prompt): an empty or cancelled
    answer returns; otherwise [{...item, customization}] is appended to
    the page's cart and the cart is stored. *)
Definition sel_order_item (item : jsval) (s i t : string) : jsval :=
  JObj (obj_set "customization" (JStr ("Sugar: " +:+ s +:+ " | Ice: " +:+ i +:+ " | Topping: " +:+ t))
                (spread_fields item)).

Definition sel_customize (item : jsval) (sugar ice topping : option string) (cart : list jsval)
  : option (list jsval * storage) :=
  match sugar, ice, topping with
  | Some s, Some i, Some t =>
      if truthy (JStr s) && truthy (JStr i) && truthy (JStr t) then
        Some (cart ++ [sel_order_item item s i t], save_cart (cart ++ [sel_order_item item s i t]))
      else None
  | _, _, _ => None
  end.

(** ** [Cart.js] *)

(** [removeItem(index)] (lines 15-20); after a successful [submitOrder]
    the key is removed and the page goes to [/payment] (lines 52-54). *)
Definition cart_remove (index : Z) (cart : jsval) : result js_error (jsval * storage) :=
  match spread_list cart with
  | Ok l => let l' := remove_item index l in Ok (JArr l', save_cart l')
  | Err e => Err e
  end.

(** ** A browser session *)

(** The page on screen and its state. *)
Inductive page :=
| OnMenu (s : menu_state)
| OnSelection (cart : list jsval)
| OnCart (cart : jsval)
| Away                            (** a page that does not touch the cart, e.g. [/payment] *)
| Crashed.                        (** a mount or a handler threw *)

Record browser := mk_browser { store : storage; screen : page }.

Inductive event :=
| GoMenu                                        (** navigate to [/menu] *)
| MenuAdd (item : jsval)                        (** its Add to Order button *)
| GoSelection                                   (** navigate to [/menu-category/:category] *)
| SelAdd (item : jsval) (sugar ice topping : option string)
| GoCart                                        (** navigate to [/cart] *)
| CartRemove (index : Z)                        (** its Remove button *)
| CartOrdered.                                  (** [submitOrder] answered with [success] *)

(** One event; [None] when it does not apply to the page on screen. *)
Definition browse (ev : event) (b : browser) : option browser :=
  match ev, screen b with
  | GoMenu, _ => Some (mk_browser (store b) (match menu_mount (store b) with Ok s => OnMenu s | Err _ => Crashed end))
  | MenuAdd item, OnMenu s =>
      Some (match menu_add item s with
            | Ok (s', st) => mk_browser st (OnMenu s')
            | Err _ => mk_browser (store b) Crashed
            end)
  | GoSelection, _ => Some (mk_browser (store b) (OnSelection []))
  | SelAdd item su ic tp, OnSelection cart =>
      Some (match sel_customize item su ic tp cart with
            | Some (cart', st) => mk_browser st (OnSelection cart')
            | None => b
            end)
  | GoCart, _ => Some (mk_browser (store b) (match load_cart (store b) with Ok c => OnCart c | Err _ => Crashed end))
  | CartRemove i, OnCart c =>
      Some (match cart_remove i c with
            | Ok (c', st) => mk_browser st (OnCart c')
            | Err _ => mk_browser (store b) Crashed
            end)
  | CartOrdered, OnCart _ => Some (mk_browser None Away)
  | _, _ => None
  end.

Fixpoint session (evs : list event) (b : browser) : option browser :=
  match evs with
  | [] => Some b
  | ev :: evs' => match browse ev b with Some b' => session evs' b' | None => None end
  end.

(** ** Lemmas *)

Lemma load_save l : forallb json_ok l = true -> load_cart (save_cart l) = Ok (JArr (map json_normal l)).
Proof. intros Hl. unfold load_cart, save_cart. cbn [default id]. by rewrite (json_parse_stringify (JArr l)). Qed.

Lemma load_none : load_cart None = Ok (JArr []).
Proof. reflexivity. Qed.

(** The shape of [customizations]: an object of objects with distinct
    keys, whose fields hold non-empty strings. *)
Definition custom_wf (c : jsval) : Prop :=
  exists fs, c = JObj fs /\ NoDup (map fst fs) /\
    Forall (fun kv => exists gs, kv.2 = JObj gs /\ NoDup (map fst gs) /\
                        Forall (fun fv => exists x, fv.2 = JStr x /\ x <> "") gs) fs.

Lemma selects_nonempty f d opts v : (f, d, opts) ∈ selects -> v ∈ opts -> v <> "".
Proof.
  unfold selects, sugar_options, ice_options, topping_options. intros Hs Hv.
  repeat (apply elem_of_cons in Hs as [Hs|Hs]; [injection Hs as -> -> ->;
            repeat (apply elem_of_cons in Hv as [->|Hv]; [discriminate|]); by apply elem_of_nil in Hv|]).
  by apply elem_of_nil in Hs.
Qed.

Lemma Forall_obj_set (P : string * jsval -> Prop) k v fs : Forall P fs -> P (k, v) -> Forall P (obj_set k v fs).
Proof.
  intros Hfs Hkv. induction Hfs as [|[k' w] fs Hw Hfs IH]; cbn [obj_set]; [by constructor|].
  destruct (String.eqb k k'); by constructor.
Qed.

Lemma custom_field c k o : custom_wf c -> prop k c = o -> o = JUndefined \/
  exists gs, o = JObj gs /\ NoDup (map fst gs) /\ Forall (fun fv => exists x, fv.2 = JStr x /\ x <> "") gs.
Proof.
  intros (fs & -> & Hnd & Hf) <-. unfold prop. cbn [get_prop]. destruct (field k fs) as [w|] eqn:E; [|by left].
  right. apply field_elem in E. rewrite Forall_forall in Hf. exact (Hf _ E).
Qed.

Lemma custom_reach_wf c : custom_reach c -> custom_wf c.
Proof.
  induction 1 as [|c itemid f d opts v _ IH Hs Hv].
  { exists []. split_and!; constructor. }
  pose proof (selects_nonempty _ _ _ _ Hs Hv) as Hne. destruct IH as (fs & -> & Hnd & Hf).
  set (k := to_js_string itemid). unfold customization_change. fold k. cbn [spread_fields].
  eexists. split; [reflexivity|]. split; [by apply obj_set_nodup|].
  apply Forall_obj_set; [done|]. cbn [snd].
  destruct (custom_field (JObj fs) k _ ltac:(by exists fs) eq_refl) as [->|(gs & -> & Hgs & Hg)]; cbn [spread_fields].
  - eexists. split; [reflexivity|]. split; [apply NoDup_singleton|]. repeat constructor. by exists v.
  - eexists. split; [reflexivity|]. split; [by apply obj_set_nodup|]. apply Forall_obj_set; [done|]. by exists v.
Qed.

(** What [addToCart] records for one field is what its select shows. *)
Lemma with_default_select c itemid f d :
  custom_wf c ->
  with_default d (prop f (if truthy (prop (to_js_string itemid) c) then prop (to_js_string itemid) c else JObj [])) =
  select_value c itemid f d.
Proof.
  intros Hc. unfold select_value.
  destruct (custom_field c (to_js_string itemid) _ Hc eq_refl) as [->|(gs & -> & _ & Hg)]; [reflexivity|].
  cbn [truthy]. unfold prop. cbn [get_prop]. destruct (field f gs) as [w|] eqn:E; [|reflexivity].
  apply field_elem in E. rewrite Forall_forall in Hg. destruct (Hg _ E) as (x & Hx & Hne). cbn [snd] in Hx. subst w.
  cbn [default id truthy with_default]. by rewrite (proj2 (String.eqb_neq x "")).
Qed.

(** ** Examples *)

Definition ex_menu_item (id : Z) (name price : string) : jsval :=
  JObj [("itemid", jint id); ("itemname", JStr name); ("itemtype", JStr "Milk Tea");
        ("itemprice", JStr price); ("available", JBool true)].

(** ** Theorems *)

(** C14: the Cart page shows the cart the Menu page built: after Add to
    Order on the Menu page, navigating to [/cart] mounts the Cart page
    with the Menu page's new cart, read back from the text stored in
    [localStorage] (up to the [undefined] fields [JSON.stringify] leaves
    out). *)
Theorem menu_cart_handoff st s l item :
  m_cart s = JArr l -> forallb json_ok (add_to_cart (m_custom s) item l) = true ->
  session [MenuAdd item; GoCart] (mk_browser st (OnMenu s)) =
  Some (mk_browser (save_cart (add_to_cart (m_custom s) item l))
                   (OnCart (json_normal (JArr (add_to_cart (m_custom s) item l))))).
Proof.
  intros Hc Hok. cbn [session browse screen store]. unfold menu_add. rewrite Hc. cbn [spread_list].
  cbn [session browse screen store]. by rewrite load_save.
Qed.

Lemma menu_cart_handoff_witness :
  m_cart (mk_menu_state (JArr []) (JObj [])) = JArr [] /\
  forallb json_ok (add_to_cart (JObj []) (ex_menu_item 3 "Taro" "4.50") []) = true /\
  session [MenuAdd (ex_menu_item 3 "Taro" "4.50"); GoCart] (mk_browser None (OnMenu (mk_menu_state (JArr []) (JObj [])))) =
  Some (mk_browser (save_cart (add_to_cart (JObj []) (ex_menu_item 3 "Taro" "4.50") []))
                   (OnCart (json_normal (JArr (add_to_cart (JObj []) (ex_menu_item 3 "Taro" "4.50") []))))).
Proof.
  split; [reflexivity|]. split; [reflexivity|].
  apply (menu_cart_handoff None (mk_menu_state (JArr []) (JObj [])) []); reflexivity.
Defined.

(** C13: the selection page overwrites the stored cart: it starts from an
    empty cart and never reads [localStorage], so after one item is added
    there, the Cart page shows that item alone, whatever the Menu page
    had put in the cart before. *)
Theorem selection_overwrites_cart st p s a b su ic tp :
  menu_mount st = Ok s -> su <> "" -> ic <> "" -> tp <> "" -> json_ok (sel_order_item b su ic tp) = true ->
  session [GoMenu; MenuAdd a; GoSelection; SelAdd b (Some su) (Some ic) (Some tp); GoCart] (mk_browser st p) =
  Some (mk_browser (save_cart [sel_order_item b su ic tp])
                   (OnCart (JArr [json_normal (sel_order_item b su ic tp)]))).
Proof.
  intros Hm Hs Hi Ht Hok. cbn [session browse screen store]. rewrite Hm. cbn [session browse screen store].
  destruct (menu_add a s) as [[s' st']|e]; cbn [session browse screen store];
    unfold sel_customize; cbn [truthy];
    rewrite (proj2 (String.eqb_neq su "")), (proj2 (String.eqb_neq ic "")), (proj2 (String.eqb_neq tp "")) by done;
    cbn [negb andb session browse screen store app];
    rewrite load_save by (cbn [forallb]; by rewrite Hok); reflexivity.
Qed.

Lemma selection_overwrites_cart_witness :
  menu_mount (save_cart [ex_menu_item 1 "Mango" "5.00"]) = Ok (mk_menu_state (JArr (map json_normal [ex_menu_item 1 "Mango" "5.00"])) (JObj [])) /\
  session [GoMenu; MenuAdd (ex_menu_item 3 "Taro" "4.50"); GoSelection;
           SelAdd (ex_menu_item 2 "Lychee" "4.00") (Some "50%") (Some "Hot") (Some "Boba"); GoCart]
          (mk_browser (save_cart [ex_menu_item 1 "Mango" "5.00"]) (OnSelection [])) =
  Some (mk_browser (save_cart [sel_order_item (ex_menu_item 2 "Lychee" "4.00") "50%" "Hot" "Boba"])
                   (OnCart (JArr [json_normal (sel_order_item (ex_menu_item 2 "Lychee" "4.00") "50%" "Hot" "Boba")]))).
Proof.
  assert (Hm : menu_mount (save_cart [ex_menu_item 1 "Mango" "5.00"]) =
               Ok (mk_menu_state (JArr (map json_normal [ex_menu_item 1 "Mango" "5.00"])) (JObj []))) by (vm_compute; reflexivity).
  split; [exact Hm|]. apply (selection_overwrites_cart _ _ _ _ _ _ _ _ Hm); try discriminate. vm_compute. reflexivity.
Defined.

(** C15: an item added on the selection page is ordered without its
    price: the page copies the menu row, whose price field is
    [itemprice], while [Cart.js] reads [item.price]; [Number(undefined)]
    is [NaN], which [JSON.stringify] writes as [null]. *)
Theorem selection_item_price_null d km s i t :
  0 <= km.1 <= int4_max ->
  order_item (json_normal (sel_order_item (menu_json d km) s i t)) =
  Some (JObj [("itemid", jint km.1); ("price", JNull);
              ("customization", JStr ("Sugar: " +:+ s +:+ " | Ice: " +:+ i +:+ " | Topping: " +:+ t))]).
Proof.
  intros Hk. destruct km as [k r]. cbn [fst snd] in *.
  set (text := "Sugar: " +:+ s +:+ " | Ice: " +:+ i +:+ " | Topping: " +:+ t).
  set (o := JObj [("itemid", jint k); ("itemname", jstr_opt (itemname r)); ("itemtype", jstr_opt (itemtype r));
                  ("itemprice", jnumeric_opt (itemprice r)); ("ingredients", JArr (map JStr (ingredients_of d k)));
                  ("customization", JStr text)]).
  assert (Hn : json_normal (sel_order_item (menu_json d (k, r)) s i t) = o).
  { unfold sel_order_item, menu_json, o. fold text. cbn [spread_fields].
    change (obj_set "customization" (JStr text) ?fs) with (fs ++ [("customization", JStr text)]).
    cbn [json_normal flat_map app fst snd]. rewrite map_map.
    destruct (itemname r), (itemtype r), (itemprice r); reflexivity. }
  unfold order_item. rewrite Hn. change (prop "itemid" o) with (JNum (100 * k)).
  rewrite json_number_num by (unfold int4_max in Hk; lia).
  change (prop "price" o) with JUndefined. change (json_number (F64.to_number JUndefined)) with (Some JNull).
  change (prop "customization" o) with (JStr text). reflexivity.
Qed.

Lemma selection_item_price_null_witness :
  0 <= (3, mk_menu (Some "Taro") (Some "Milk Tea") (Some 450) (Some true)).1 <= int4_max /\
  order_item (json_normal (sel_order_item (menu_json ex_menu_db (3, mk_menu (Some "Taro") (Some "Milk Tea") (Some 450) (Some true)))
                                          "50%" "Hot" "Boba")) =
  Some (JObj [("itemid", jint 3); ("price", JNull);
              ("customization", JStr ("Sugar: " +:+ "50%" +:+ " | Ice: " +:+ "Hot" +:+ " | Topping: " +:+ "Boba"))]).
Proof. split; [vm_compute; split; discriminate|]. apply selection_item_price_null. vm_compute. split; discriminate. Defined.

(** The cart records the options the Menu page shows: in every
    state of [customizations] the selects can produce, [addToCart] writes
    as the item's customization the three options its selects display,
    although the selects fall back on their defaults through [||] and
    [addToCart] through destructuring defaults. *)
Theorem cart_records_shown_options c item cart :
  custom_reach c ->
  add_to_cart c item cart =
  cart ++ [JObj [("itemid", prop "itemid" item); ("itemname", prop "itemname" item);
                 ("price", prop "itemprice" item); ("customization", JStr (shown_text c (prop "itemid" item)))]].
Proof. intros Hr. apply custom_reach_wf in Hr. unfold add_to_cart, shown_text. by rewrite !with_default_select. Qed.

Lemma cart_records_shown_options_witness :
  custom_reach (customization_change (jint 3) "ice" "Hot" (customization_change (jint 3) "sugar" "50%" (JObj []))) /\
  add_to_cart (customization_change (jint 3) "ice" "Hot" (customization_change (jint 3) "sugar" "50%" (JObj [])))
              (ex_menu_item 3 "Taro" "4.50") [] =
  [] ++ [JObj [("itemid", prop "itemid" (ex_menu_item 3 "Taro" "4.50"));
               ("itemname", prop "itemname" (ex_menu_item 3 "Taro" "4.50"));
               ("price", prop "itemprice" (ex_menu_item 3 "Taro" "4.50"));
               ("customization", JStr (shown_text (customization_change (jint 3) "ice" "Hot"
                                                    (customization_change (jint 3) "sugar" "50%" (JObj [])))
                                                  (prop "itemid" (ex_menu_item 3 "Taro" "4.50"))))]].
Proof.
  assert (Hr : custom_reach (customization_change (jint 3) "ice" "Hot" (customization_change (jint 3) "sugar" "50%" (JObj [])))).
  { apply (custom_step _ _ "ice" "Normal Ice" ice_options);
      [apply (custom_step _ _ "sugar" "100%" sugar_options); [apply custom_init| |]| |];
      unfold selects, sugar_options, ice_options; repeat constructor. }
  split; [exact Hr|]. by apply cart_records_shown_options.
Defined.

(** changing one select changes that option only: after
    [handleCustomizationChange(itemid, field, value)] the select of that
    field of that item shows [value], and every other select of every
    item shows what it showed before. *)
Theorem customization_change_select c itemid f v itemid' g d :
  custom_reach c -> v <> "" ->
  select_value (customization_change itemid f v c) itemid' g d =
  if String.eqb (to_js_string itemid') (to_js_string itemid) && String.eqb g f then JStr v
  else select_value c itemid' g d.
Proof.
  intros Hr Hv. pose proof (custom_reach_wf c Hr) as Hc. destruct Hc as (fs & -> & Hnd & Hf).
  unfold customization_change, select_value. cbn [spread_fields].
  set (k := to_js_string itemid). set (k' := to_js_string itemid').
  assert (Hp : forall X, prop k' (JObj (obj_set k X fs)) = if String.eqb k' k then X else prop k' (JObj fs)).
  { intros X. unfold prop. cbn [get_prop]. rewrite field_obj_set by done. by destruct (String.eqb k' k). }
  rewrite Hp. destruct (String.eqb_spec k' k) as [Hk|Hk]; cbn [andb]; [|reflexivity]. rewrite Hk.
  assert (Hs : forall gs, NoDup (map fst gs) ->
            prop g (JObj (obj_set f (JStr v) gs)) = if String.eqb g f then JStr v else prop g (JObj gs)).
  { intros gs Hgs. unfold prop. cbn [get_prop]. rewrite field_obj_set by done. by destruct (String.eqb g f). }
  destruct (custom_field (JObj fs) k _ ltac:(by exists fs) eq_refl) as [E|(gs & E & Hgs & _)];
    rewrite E; cbn [spread_fields].
  - rewrite Hs by constructor. destruct (String.eqb g f); cbn [truthy]; [by rewrite (proj2 (String.eqb_neq v ""))|done].
  - rewrite Hs by done. destruct (String.eqb g f); cbn [truthy]; [by rewrite (proj2 (String.eqb_neq v ""))|done].
Qed.

Lemma customization_change_select_witness :
  custom_reach (customization_change (jint 3) "sugar" "50%" (JObj [])) /\ "Hot" <> "" /\
  select_value (customization_change (jint 3) "ice" "Hot" (customization_change (jint 3) "sugar" "50%" (JObj [])))
               (jint 3) "sugar" "100%" =
  (if String.eqb (to_js_string (jint 3)) (to_js_string (jint 3)) && String.eqb "sugar" "ice" then JStr "Hot"
   else select_value (customization_change (jint 3) "sugar" "50%" (JObj [])) (jint 3) "sugar" "100%").
Proof.
  assert (Hr : custom_reach (customization_change (jint 3) "sugar" "50%" (JObj []))).
  { apply (custom_step _ _ "sugar" "100%" sugar_options); [apply custom_init| |];
      unfold selects, sugar_options; repeat constructor. }
  split; [exact Hr|]. split; [discriminate|]. apply customization_change_select; [exact Hr|discriminate].
Defined.

End CartStore.
