(* ===== verification/Pages.v ===== *)
(** * Front end: the pages that load data from the server

    Each page below loads its data with an [axios] GET to the backend
    ([http://localhost:5050/api/...]) when it mounts, keeps the answer's
    body in its state and renders it with [.map] (after a [.length === 0]
    test on most pages).  A page's load is modelled as a function from the
    server's reply to what the page shows: the rows it renders, or the
    [TypeError] its render throws, and the [alert] it raises.  The chart
    pages ([Trends.js], [ProductUsage.js]) show chart points, encoded as
    objects [{ label, value }].  Rendering itself (markup, styles) is not
    modelled.

    [catch_all_reply] is the answer of the catch-all route of [server.js]
    (lines 28-30): the build's [index.html] as text, or Express's 404 when
    the file does not exist. *)

From S2P Require Import Prelude JsValue PgValue Reports Router Float.
From Stdlib Require Import Ascii.
Import Js Pg Reports Router F64.

Module Pages.

(** ** JavaScript operations the pages use *)

(** [v.map(f)], [v.filter(f)], [v.sort(f)]: only an array has these
    methods; on any other value the call throws a [TypeError]. *)
Definition js_array (v : jsval) : result js_error (list jsval) :=
  match v with JArr l => Ok l | _ => Err TypeError end.

(** [v.length === 0 ? <empty message> : v.map(...)]. *)
Definition length_then_map (v : jsval) : result js_error (list jsval) :=
  match get_prop "length" v with
  | Ok (JNum 0) => Ok []
  | Ok _ => js_array v
  | Err e => Err e
  end.

(** [a || b]. *)
Definition js_or (a b : jsval) : jsval := if truthy a then a else b.

(** What a page shows: the rows it renders ([Err] when the render
    throws) and the text of the [alert] it raised, if any. *)
Record view := mk_view { shown : result js_error (list jsval); notice : option string }.

(** ** The pages *)

(** [Employee.js]: [viewEmployees] (lines 17-24) and the table of line
    125, [employeeList.map(...)]. *)
Definition employee_page (r : reply) : view :=
  match axios_ok r with
  | Some data => mk_view (js_array data) None
  | None => mk_view (Ok []) None
  end.

(** [Inventory.js]: [viewInventory] (lines 16-23) and the table of lines
    129-142. *)
Definition inventory_page (r : reply) : view :=
  match axios_ok r with
  | Some data => mk_view (length_then_map data) None
  | None => mk_view (Ok []) (Some "❌ Failed to fetch inventory")
  end.

(** [DrinkMenu.js]: [viewMenu] (lines 14-21) and the table of lines
    128-143. *)
Definition drink_menu_page (r : reply) : view :=
  match axios_ok r with
  | Some data => mk_view (length_then_map data) None
  | None => mk_view (Ok []) (Some "❌ Failed to fetch menu.")
  end.

(** [AddSeasonalItem.js]: [viewMenu] (lines 11-18) and the table of
    lines 115-131, which keeps the items whose [itemtype] is
    ["Seasonal"]. *)
Definition seasonal_page (r : reply) : view :=
  match axios_ok r with
  | Some data =>
      mk_view (match length_then_map data with
               | Ok l => Ok (filter (fun it => js_is (prop "itemtype" it) "Seasonal" = true) l)
               | Err e => Err e
               end) None
  | None => mk_view (Ok []) (Some "❌ Failed to fetch menu.")
  end.

(** [Menu.js]: [fetchMenu] (lines 36-46) and the grid of lines 108-112;
    a failure is only logged and the menu stays as it was, empty when
    the page has just mounted. *)
Definition menu_page (r : reply) : view :=
  match axios_ok r with
  | Some data => mk_view (length_then_map data) None
  | None => mk_view (Ok []) None
  end.

(** [encodeURIComponent(s)] on the UTF-8 bytes of [s]: the unreserved
    characters stay, every other byte becomes [%XX]. *)
Definition uri_unreserved (c : ascii) : bool :=
  let n := nat_of_ascii c in
  ((48 <=? n) && (n <=? 57))%nat || ((65 <=? n) && (n <=? 90))%nat || ((97 <=? n) && (n <=? 122))%nat ||
  existsb (fun m => (n =? m)%nat) [45; 95; 46; 33; 126; 42; 39; 40; 41]%nat.

Definition hex_digit (n : nat) : ascii := ascii_of_nat (if (n <? 10)%nat then 48 + n else 55 + n).

Fixpoint encode_uri_component (s : string) : string :=
  match s with
  | EmptyString => EmptyString
  | String c r =>
      if uri_unreserved c then String c (encode_uri_component r)
      else String "%"%char (String (hex_digit (nat_of_ascii c / 16)) (String (hex_digit (nat_of_ascii c mod 16))
             (encode_uri_component r)))
  end.

(** The path [fetchMenu(type)] requests (lines 38-40). *)
Definition menu_path (type : string) : string :=
  if String.eqb type "All" then "/api/menu" else "/api/menu/" +:+ encode_uri_component type.

(** ** Order history *)

(** [Object.values(v)]; [null] and [undefined] throw. *)
Definition object_values (v : jsval) : result js_error (list jsval) :=
  match v with
  | JUndefined | JNull => Err TypeError
  | JObj fs => Ok (map snd fs)
  | JArr l => Ok l
  | JStr s => Ok (map (fun c => JStr (String c EmptyString)) (String.list_ascii_of_string s))
  | JBool _ | JNum _ => Ok []
  end.

(** [s.includes(t)]. *)
Fixpoint includes (s t : string) : bool :=
  String.prefix t s || match s with EmptyString => false | String _ r => includes r t end.

(** The filter of [OrderHistory.js] (lines 23-27):
    [Object.values(txn).some(value =>
       String(value).toLowerCase().includes(searchTerm.toLowerCase()))]. *)
Definition txn_matches (search : string) (txn : jsval) : result js_error bool :=
  match object_values txn with
  | Ok vs => Ok (existsb (fun v => includes (string_lower (to_js_string v)) (string_lower search)) vs)
  | Err e => Err e
  end.

Fixpoint filter_js (p : jsval -> result js_error bool) (l : list jsval) : result js_error (list jsval) :=
  match l with
  | [] => Ok []
  | x :: r => match p x, filter_js p r with
              | Ok b, Ok r' => Ok (if b then x :: r' else r')
              | Err e, _ | _, Err e => Err e
              end
  end.

(** The comparator [(a, b) => b.id - a.id]: [a] may precede [b] when
    [b.id - a.id <= 0].  Transaction ids are [int4], which node-postgres
    hands over as numbers; a comparison with a non-number is [NaN], which
    [sort] treats as equal. *)
Definition id_desc (a b : jsval) : Prop :=
  match prop "id" a, prop "id" b with JNum x, JNum y => y <= x | _, _ => True end.

#[global] Instance id_desc_dec : RelDecision id_desc.
Proof. intros a b. unfold id_desc. destruct (prop "id" a), (prop "id" b); apply _. Defined.

(** [fetchTransactions] (lines 12-21): [res.data.sort(...)] throws on a
    non-array and the [catch] only logs, so the list stays empty. *)
Definition history_page (search : string) (r : reply) : view :=
  let txns := match axios_ok r with
              | Some data => match js_array data with Ok l => merge_sort id_desc l | Err _ => [] end
              | None => []
              end in
  mk_view (filter_js (txn_matches search) txns) None.

(** [OrdersPage.js] (lines 8-13): [axios.get(...).then(res =>
    setOrders(res.data))] and the list of lines 19-23. *)
Definition orders_page (r : reply) : view :=
  match axios_ok r with
  | Some data => mk_view (length_then_map data) None
  | None => mk_view (Ok []) None
  end.

(** [MenuItemSelectionPage.js] (lines 11-25): the items whose name
    contains the category,
    [res.data.filter(item => item.itemname.toLowerCase().includes(category.toLowerCase()))];
    a [TypeError] inside the [try] is only logged and [items] stays
    empty. *)
Definition name_has (category : string) (item : jsval) : result js_error bool :=
  match get_prop "itemname" item with
  | Ok (JStr n) => Ok (includes (string_lower n) (string_lower category))
  | _ => Err TypeError
  end.

Definition selection_page (category : string) (r : reply) : view :=
  match axios_ok r with
  | Some data =>
      match js_array data with
      | Ok l => match filter_js (name_has category) l with
                | Ok items => mk_view (Ok items) None
                | Err _ => mk_view (Ok []) None
                end
      | Err _ => mk_view (Ok []) None
      end
  | None => mk_view (Ok []) None
  end.

(** ** Reports *)

(** [reportData.length > 0 && reportData.map(...)] ([XReport.js] line
    81). *)
Definition length_pos_then_map (v : jsval) : result js_error (list jsval) :=
  match get_prop "length" v with
  | Ok (JNum c) => if 0 <? c then js_array v else Ok []
  | Ok _ => Ok []
  | Err e => Err e
  end.

(** [XReport.js] [handleGenerateReport] (lines 11-23). *)
Definition xreport_page (r : reply) : view :=
  match axios_ok r with
  | Some data => mk_view (length_pos_then_map data) None
  | None => mk_view (Ok []) (Some "❌ Failed to fetch report data.")
  end.

(** [ZReport.js] [prepareCSVData] (lines 33-55). *)
Definition csv_headers : list string :=
  ["Hour"; "Transactions"; "Sales Revenue"; "Total Sales"; "Total Tax"; "Service Charges"; "Voids";
   "Discards"; "Discounts"; "Employee Signatures"; "Payment Methods"].

Definition money_cols : list string :=
  ["sales_revenue"; "total_sales"; "total_tax"; "service_charges"; "voids"; "discards"; "discounts"].

(** An element of [Array.prototype.join]: [null] and [undefined] are
    empty. *)
Definition join_text (v : jsval) : string :=
  match v with JUndefined | JNull => "" | _ => to_js_string v end.

Definition newline : ascii := ascii_of_nat 10.

(** The template literal [`"${s}"`]. *)
Definition quoted (s : string) : string := String dquote (s +:+ String dquote EmptyString).

(** One CSV line; [None] when a [toFixed] is outside the model
    ([|x| >= 10^21]). *)
Definition csv_row (row : jsval) : result js_error (option string) :=
  match get_prop "hour" row with
  | Err e => Err e
  | Ok hour =>
      Ok (money ← mapM (fun k => to_fixed2 (to_number (prop k row))) money_cols;
          Some (String.concat "," ([join_text hour; join_text (prop "total_transactions" row)] ++ money ++
                  [quoted (to_js_string (js_or (prop "employee_signatures" row) (JStr "N/A")));
                   quoted (to_js_string (js_or (prop "payment_methods" row) (JStr "N/A")))])))
  end.

Definition prepare_csv (data : jsval) : result js_error (option string) :=
  match js_array data with
  | Err e => Err e
  | Ok rows =>
      match res_map csv_row rows with
      | Ok lines => Ok (ls ← mapM id lines;
                        Some (String.concat (String newline EmptyString) (String.concat "," csv_headers :: ls)))
      | Err e => Err e
      end
  end.

(** The state of [ZReport.js]: [reportData] and [csvData]. *)
Record zpage := mk_zpage { z_data : jsval; z_csv : option string }.

Definition zpage_init : zpage := mk_zpage (JArr []) (Some "").

Definition zreport_alert : string := "⚠️ Failed to fetch Z-report data. Check the backend or console.".

(** [fetchReportData] (lines 14-31) with the hours of the form (their
    [parseInt], [None] for [NaN]): the new state and the alert.
    [setReportData(data)] runs before [prepareCSVData(data)] throws. *)
Definition zreport_fetch (startHour endHour : option Z) (r : reply) (p : zpage) : zpage * option string :=
  if js_gt startHour endHour then (p, Some "Start hour cannot be greater than end hour")
  else match axios_ok r with
       | None => (p, Some zreport_alert)
       | Some data =>
           match prepare_csv data with
           | Ok csv => (mk_zpage data csv, None)
           | Err _ => (mk_zpage data (z_csv p), Some zreport_alert)
           end
       end.

(** The table of lines 136-143. *)
Definition zreport_view (pa : zpage * option string) : view :=
  mk_view (length_then_map (z_data pa.1)) pa.2.

(** ** Charts *)

(** [Trends.js] [loadTrendData] (lines 30-45): the points
    [item.date || item.usage_date] against
    [item.total_amount || item.order_count || item.used_quantity]. *)
Definition trend_point (item : jsval) : result js_error jsval :=
  match get_prop "total_amount" item, get_prop "order_count" item, get_prop "used_quantity" item,
        get_prop "date" item, get_prop "usage_date" item with
  | Ok a, Ok b, Ok c, Ok d, Ok u => Ok (JObj [("label", js_or d u); ("value", js_or a (js_or b c))])
  | _, _, _, _, _ => Err TypeError
  end.

(** [ProductUsage.js] [loadTrendData] (lines 24-38): [item.itemName]
    against [item.totalUsed]. *)
Definition usage_point (item : jsval) : result js_error jsval :=
  match get_prop "totalUsed" item, get_prop "itemName" item with
  | Ok v, Ok l => Ok (JObj [("label", l); ("value", v)])
  | _, _ => Err TypeError
  end.

Definition chart_alert : string := "❌ Failed to fetch trend data.".

(** A chart page: [trendData.map(...)] inside the [try]. *)
Definition chart_page (point : jsval -> result js_error jsval) (r : reply) : view :=
  match axios_ok r with
  | Some data =>
      match js_array data with
      | Ok l => match res_map point l with
                | Ok pts => mk_view (Ok pts) None
                | Err _ => mk_view (Ok []) (Some chart_alert)
                end
      | Err _ => mk_view (Ok []) (Some chart_alert)
      end
  | None => mk_view (Ok []) (Some chart_alert)
  end.

(** [arr[i]]: an element of an array, a character of a string. *)
Definition js_index (v : jsval) (i : nat) : result js_error jsval :=
  match v with
  | JArr l => Ok (default JUndefined (l !! i))
  | JStr s => Ok (match String.get i s with Some c => JStr (String c EmptyString) | None => JUndefined end)
  | _ => get_prop (to_js_string (jint (Z.of_nat i))) v
  end.

Definition weather_error : string := "查询失败，请检查城市名称。".

(** [WeatherPage.js]: [fetchWeather] (lines 9-18) keeps the body as
    [weather], or sets the error text; the card of lines 41-49 is
    rendered when [weather] is truthy and reads [weather.name],
    [weather.main.temp], [weather.weather[0].description],
    [weather.wind.speed] and [weather.main.humidity], in that order. *)
Definition weather_page (r : reply) : view :=
  match axios_ok r with
  | Some w =>
      if truthy w then
        match get_prop "name" w, get_prop "main" w ≫= get_prop "temp",
              (get_prop "weather" w ≫= fun a => js_index a 0) ≫= get_prop "description",
              get_prop "wind" w ≫= get_prop "speed", get_prop "main" w ≫= get_prop "humidity" with
        | Ok n, Ok t, Ok d, Ok sp, Ok h => mk_view (Ok [n; t; d; sp; h]) None
        | _, _, _, _, _ => mk_view (Err TypeError) None
        end
      else mk_view (Ok []) None
  | None => mk_view (Ok []) (Some weather_error)
  end.

(** ** The pages against the server *)

(** The answer of the catch-all [app.get('*')] (server.js lines 28-30):
    [res.sendFile] of [build/index.html], sent as text, or, when the file
    is missing, the 404 of Express's error handler. *)
Definition catch_all_reply (index_html : option string) : reply :=
  match index_html with
  | Some html => mk_reply 200 (JStr html)
  | None => mk_reply 404 (JStr "Not Found")
  end.

(** A page's data request: its path and what it makes of the reply. *)
Record load := mk_load { lpage : string; lpath : string; lview : reply -> view }.

(** The GET each page sends for its data: on mounting, or, for the two
    reports, on the Generate button with the form's initial hours. *)
Definition page_loads : list load :=
  [mk_load "Employee.js" "/api/employees" employee_page;
   mk_load "Inventory.js" "/api/inventory" inventory_page;
   mk_load "DrinkMenu.js" "/api/menu" drink_menu_page;
   mk_load "AddSeasonalItem.js" "/api/menu" seasonal_page;
   mk_load "Menu.js" (menu_path "All") menu_page;
   mk_load "OrderHistory.js" "/api/transactions" (history_page "");
   mk_load "OrdersPage.js" "/api/orders" orders_page;
   mk_load "MenuItemSelectionPage.js" "/api/menu" (selection_page "Milk Tea");
   mk_load "XReport.js" "/api/xreport" xreport_page;
   mk_load "ZReport.js" "/api/zreport" (fun r => zreport_view (zreport_fetch (Some 0) (Some 23) r zpage_init));
   mk_load "Trends.js" "/api/trends" (chart_page trend_point);
   mk_load "ProductUsage.js" "/api/productusage" (chart_page usage_point);
   mk_load "WeatherPage.js" "/api/weather/Beijing" weather_page].

(** ** Lemmas *)

Lemma length_then_map_str h :
  length_then_map (JStr h) = if (String.length h =? 0)%nat then Ok [] else Err TypeError.
Proof. unfold length_then_map. simpl. by destruct (String.length h). Qed.

Lemma length_pos_then_map_str h :
  length_pos_then_map (JStr h) = if (String.length h =? 0)%nat then Ok [] else Err TypeError.
Proof. unfold length_pos_then_map. simpl. by destruct (String.length h). Qed.

(** A page given a text body (or a failed request) renders no row. *)
Lemma catch_all_no_rows l html rows :
  l ∈ page_loads -> shown (lview l (catch_all_reply html)) = Ok rows -> rows = [].
Proof.
  unfold page_loads. intros Hl H.
  repeat (apply elem_of_cons in Hl as [->|Hl];
          [destruct html as [h|]; cbn -[length_then_map length_pos_then_map] in H;
           rewrite ?length_then_map_str, ?length_pos_then_map_str in H; cbn in H;
           try (destruct (String.length h =? 0)%nat; cbn in H); try (destruct (String.eqb h ""); cbn in H);
           simpl in H; congruence|]).
  by apply elem_of_nil in Hl.
Qed.

(** Served the index page, the weather lookup throws while rendering:
    the text has no [main], so [weather.main.temp] reads a property of
    [undefined]. *)
Lemma weather_page_index h : h <> "" -> shown (weather_page (catch_all_reply (Some h))) = Err TypeError.
Proof. intros Hh. unfold weather_page. cbn. by rewrite (proj2 (String.eqb_neq h "") Hh). Qed.

(** ** Examples *)

(** A Z report row with the fields [fs] and the given signature and
    payment texts, bound last ([JSON.parse] keeps the last binding of a
    key). *)
Definition zrow_with (fs : list (string * jsval)) (sig pay : string) : jsval :=
  JObj (fs ++ [("employee_signatures", JStr sig); ("payment_methods", JStr pay)]).

(** The text [","] between two names. *)
Definition ex_sep : string := String dquote ("," +:+ String dquote EmptyString).

(** ** Lemmas on the CSV export *)

Lemma mapM_option_ext {A B} (f g : A -> option B) l : (forall x, x ∈ l -> f x = g x) -> mapM f l = mapM g l.
Proof. induction l as [|x l IH]; intros H; [done|]. cbn. rewrite H, IH by set_solver. done. Qed.

Lemma res_map_app_cons {E A B} (f : A -> result E B) pre x y post :
  f x = f y -> res_map f (pre ++ x :: post) = res_map f (pre ++ y :: post).
Proof. intros H. induction pre as [|z pre IH]; cbn; [by rewrite H|by rewrite IH]. Qed.

(** [join(",")] of a line whose last two fields are [x] and [y] is the
    same as with the one field [x + "," + y]. *)
Lemma concat_cons_ne sep x xs : xs <> [] -> String.concat sep (x :: xs) = x +:+ sep +:+ String.concat sep xs.
Proof. by destruct xs. Qed.

Lemma concat_last2 sep l x y : String.concat sep (l ++ [x; y]) = String.concat sep (l ++ [x +:+ sep +:+ y]).
Proof.
  induction l as [|z l IH]; [reflexivity|]. cbn [app].
  rewrite !concat_cons_ne, IH by (destruct l; discriminate). reflexivity.
Qed.

(** A line is determined by the hour, the counted and money columns and
    the text of its two quoted fields joined by a comma. *)
Lemma csv_row_congr r1 r2 :
  get_prop "hour" r1 = get_prop "hour" r2 ->
  (forall k, k ∈ "total_transactions" :: money_cols -> prop k r1 = prop k r2) ->
  quoted (to_js_string (js_or (prop "employee_signatures" r1) (JStr "N/A"))) +:+ "," +:+
    quoted (to_js_string (js_or (prop "payment_methods" r1) (JStr "N/A"))) =
  quoted (to_js_string (js_or (prop "employee_signatures" r2) (JStr "N/A"))) +:+ "," +:+
    quoted (to_js_string (js_or (prop "payment_methods" r2) (JStr "N/A"))) ->
  csv_row r1 = csv_row r2.
Proof.
  intros Hh Hk Ht. unfold csv_row. rewrite Hh. destruct (get_prop "hour" r2); [|done].
  rewrite (Hk "total_transactions") by set_solver.
  rewrite (mapM_option_ext (fun k => to_fixed2 (to_number (prop k r1))) (fun k => to_fixed2 (to_number (prop k r2))))
    by (intros k Hin; by rewrite Hk by set_solver).
  destruct (mapM _ money_cols); [|done]. cbn [mbind option_bind]. f_equal. f_equal.
  rewrite !app_assoc, !concat_last2. by rewrite Ht.
Qed.

Lemma zrow_with_prop k fs s1 p1 s2 p2 :
  k ∈ "hour" :: "total_transactions" :: money_cols -> get_prop k (zrow_with fs s1 p1) = get_prop k (zrow_with fs s2 p2).
Proof.
  unfold zrow_with, money_cols. cbn [get_prop]. unfold field. rewrite !foldl_app.
  intros Hk. repeat (apply elem_of_cons in Hk as [->|Hk]; [reflexivity|]). by apply elem_of_nil in Hk.
Qed.

Lemma zrow_with_texts fs s p : s <> "" -> p <> "" ->
  to_js_string (js_or (prop "employee_signatures" (zrow_with fs s p)) (JStr "N/A")) = s /\
  to_js_string (js_or (prop "payment_methods" (zrow_with fs s p)) (JStr "N/A")) = p.
Proof.
  intros Hs Hp. unfold prop, zrow_with. cbn [get_prop]. unfold field. rewrite !foldl_app. cbn.
  unfold js_or. cbn [truthy]. by rewrite (proj2 (String.eqb_neq _ _) Hs), (proj2 (String.eqb_neq _ _) Hp).
Qed.

Lemma sep_nonempty x y : x +:+ ex_sep +:+ y <> "".
Proof. by destruct x. Qed.

(** Moving a [","] from the end of the first quoted field to the start
    of the second gives the same text. *)
Lemma quoted_sep a b c : quoted (a +:+ ex_sep +:+ b) +:+ "," +:+ quoted c = quoted a +:+ "," +:+ quoted (b +:+ ex_sep +:+ c).
Proof. unfold quoted, ex_sep. repeat (rewrite ?string_app_cons, ?string_app_assoc; cbn [String.append]). reflexivity. Qed.

(** ** Theorems *)

(** C10: no page of the front end ever shows data from the server: every
    GET a page sends for its data (employees, inventory, the menus, the
    order history, both reports, both charts) is answered by the
    catch-all route, whose reply is the build's [index.html] or a 404,
    and from that reply every page renders no row (it shows its empty
    message, or its render throws a [TypeError]). *)
Theorem pages_show_no_server_data static html :
  Forall (fun l => static (lpath l) = false) page_loads ->
  Forall (fun l => serve static (mk_req GET (lpath l)) = Handled HCatchAll [("0", lpath l)] /\
                   forall rows, shown (lview l (catch_all_reply html)) = Ok rows -> rows = []) page_loads.
Proof.
  rewrite !Forall_forall. intros Hs l Hl. split.
  - apply serve_get_catch_all; [by left | by apply Hs].
  - intros rows. by apply catch_all_no_rows.
Qed.

Definition ex_index_html : string := "<!DOCTYPE html><html><body><div id=root></div></body></html>".

Lemma pages_show_no_server_data_witness :
  Forall (fun l => serve (fun _ => false) (mk_req GET (lpath l)) = Handled HCatchAll [("0", lpath l)] /\
                   forall rows, shown (lview l (catch_all_reply (Some ex_index_html))) = Ok rows -> rows = [])
         page_loads.
Proof. apply pages_show_no_server_data. repeat constructor. Defined.

(** C31: the Z report's CSV export loses information: it wraps the
    signature and payment texts in double quotes without escaping the
    quotes inside them, so for any other fields and any texts [a], [b],
    [c] (with [a] and [c] non-empty, which the [|| "N/A"] would
    replace), the row signed [a","b] and paid by [c] and the row signed
    [a] and paid by [b","c] are different rows that export the same CSV,
    wherever they stand in the report. *)
Theorem zreport_csv_ambiguous fs a b c pre post :
  a <> "" -> c <> "" ->
  zrow_with fs (a +:+ ex_sep +:+ b) c <> zrow_with fs a (b +:+ ex_sep +:+ c) /\
  prepare_csv (JArr (pre ++ zrow_with fs (a +:+ ex_sep +:+ b) c :: post)) =
  prepare_csv (JArr (pre ++ zrow_with fs a (b +:+ ex_sep +:+ c) :: post)).
Proof.
  intros Ha Hc. split.
  - unfold zrow_with. intros [= Heq%app_inv_head]. injection Heq as Heq.
    apply (f_equal String.length) in Heq. rewrite !string_length_app in Heq. cbn in Heq. lia.
  - unfold prepare_csv. cbn [js_array]. rewrite (res_map_app_cons _ _ _ (zrow_with fs a (b +:+ ex_sep +:+ c))); [done|].
    apply csv_row_congr.
    + apply zrow_with_prop. set_solver.
    + intros k Hk. unfold prop. rewrite (zrow_with_prop k fs _ _ a (b +:+ ex_sep +:+ c)); [done|]. set_solver.
    + destruct (zrow_with_texts fs (a +:+ ex_sep +:+ b) c) as [-> ->]; [apply sep_nonempty|done|].
      destruct (zrow_with_texts fs a (b +:+ ex_sep +:+ c)) as [-> ->]; [done|apply sep_nonempty|].
      apply quoted_sep.
Qed.

(** The report whose signatures are [Amy","Bob] paid by [Cash] and the
    one signed by [Amy] paid by [Bob","Cash], in a report of one row. *)
Definition ex_zfields : list (string * jsval) :=
  [("hour", JStr "9"); ("total_transactions", JStr "1"); ("sales_revenue", JStr "4.50");
   ("total_sales", JStr "4.50"); ("total_tax", JStr "0.36"); ("service_charges", JStr "0.23");
   ("voids", JStr "0"); ("discards", JStr "0"); ("discounts", JStr "0")].

Lemma zreport_csv_ambiguous_witness :
  "Amy" <> "" /\ "Cash" <> "" /\
  zrow_with ex_zfields ("Amy" +:+ ex_sep +:+ "Bob") "Cash" <> zrow_with ex_zfields "Amy" ("Bob" +:+ ex_sep +:+ "Cash") /\
  prepare_csv (JArr ([] ++ [zrow_with ex_zfields ("Amy" +:+ ex_sep +:+ "Bob") "Cash"])) =
  prepare_csv (JArr ([] ++ [zrow_with ex_zfields "Amy" ("Bob" +:+ ex_sep +:+ "Cash")])) /\
  exists csv, prepare_csv (JArr [zrow_with ex_zfields "Amy" ("Bob" +:+ ex_sep +:+ "Cash")]) = Ok (Some csv).
Proof.
  split_and!; [discriminate|discriminate| | |].
  - exact (proj1 (zreport_csv_ambiguous ex_zfields "Amy" "Bob" "Cash" [] [] ltac:(discriminate) ltac:(discriminate))).
  - exact (proj2 (zreport_csv_ambiguous ex_zfields "Amy" "Bob" "Cash" [] [] ltac:(discriminate) ltac:(discriminate))).
  - eexists. vm_compute. reflexivity.
Defined.

End Pages.
