(* ===== verification/ChartPages.v ===== *)
(** * The chart pages: [Trends.js] and [ProductUsage.js]

    Each page holds its controls in React state and loads its chart with
    [axios.get] from an effect that runs whenever a control it depends on
    changes.  A page is modelled as its controls, the requests it has in
    flight, the points of its chart and the alerts it has raised; the
    user's events and the arrival of an answer are the steps of a
    relation, so that answers may come back in any order.  The server is
    a parameter, a relation [srv q r] between a request's query and its
    reply: [App.chart_pages_show_no_data] instantiates it with the real
    server, whose catch-all answers every one of these requests. *)

From S2P Require Import Prelude JsValue Dates Db Trends Pages.
Import Js Dates Db Trends Pages.

Module ChartPages.

(** What a chart page keeps of an answer: the points [trendData.map]
    gives when the answer is a 2xx array, [None] when [loadTrendData]
    ends in its [catch]. *)
Definition chart_receive (point : jsval -> result js_error jsval) (r : reply) : option (list jsval) :=
  match chart_page point r with
  | mk_view (Ok pts) None => Some pts
  | _ => None
  end.

(** ** [Trends.js] *)

(** The buttons of line 86 and the options of lines 109-111. *)
Definition trend_types : list string := ["Daily Sales"; "Peak Days"; "Total Orders"; "Product Usage"].
Definition trend_ranges : list string := ["Last 7 Days"; "Last 30 Days"; "All Time"].

(** [currentTrend] and [timeRange] (lines 22-23). *)
Record trends_ctl := mk_trends_ctl { currentTrend : string; timeRange : string }.

#[global] Instance trends_ctl_eq_dec : EqDecision trends_ctl.
Proof.
  intros [a b] [c d]. destruct (decide (a = c)), (decide (b = d));
    [left; congruence | right; congruence ..].
Defined.

Definition trends_init : trends_ctl := mk_trends_ctl "Daily Sales" "Last 7 Days".

(** The [params] of [loadTrendData] (lines 32-37): axios writes them in
    the query string and Express reads them back as strings. *)
Definition trends_params (c : trends_ctl) : jsval :=
  JObj [("trendType", JStr (currentTrend c)); ("timeRange", JStr (timeRange c))].

Record trends_page := mk_trends_page {
  t_ctl : trends_ctl;
  t_pending : list jsval;           (** the queries of the requests in flight, oldest first *)
  t_points : list jsval;            (** [dateLabels] and [salesData], as the points of [trend_point] *)
  t_alerts : list string
}.

(** A new state of the controls: React re-renders only when it differs
    from the current one, and the effect of lines 26-28 then sends a
    request with the new controls. *)
Definition trends_set (c : trends_ctl) (p : trends_page) : trends_page :=
  if decide (c = t_ctl p) then p
  else mk_trends_page c (t_pending p ++ [trends_params c]) (t_points p) (t_alerts p).

(** Mount: the effect runs once with the initial controls. *)
Definition trends_mount : trends_page := mk_trends_page trends_init [trends_params trends_init] [] [].

(** [onClick={() => setCurrentTrend(type)}] (line 89). *)
Definition trends_click (ty : string) (p : trends_page) : trends_page :=
  trends_set (mk_trends_ctl ty (timeRange (t_ctl p))) p.

(** [onChange={(e) => setTimeRange(e.target.value)}] (line 106). *)
Definition trends_range (r : string) (p : trends_page) : trends_page :=
  trends_set (mk_trends_ctl (currentTrend (t_ctl p)) r) p.

(** The answer [r] to the [i]-th request in flight: the two [set] calls of
    lines 39-40, or the alert of line 43.  Nothing compares the request
    with the current controls. *)
Definition trends_answer (i : nat) (r : reply) (p : trends_page) : trends_page :=
  match chart_receive trend_point r with
  | Some pts => mk_trends_page (t_ctl p) (delete i (t_pending p)) pts (t_alerts p)
  | None => mk_trends_page (t_ctl p) (delete i (t_pending p)) (t_points p) (t_alerts p ++ [chart_alert])
  end.

Inductive trends_step (srv : jsval -> reply -> Prop) : trends_page -> trends_page -> Prop :=
| trends_step_click p ty : ty ∈ trend_types -> trends_step srv p (trends_click ty p)
| trends_step_range p r : r ∈ trend_ranges -> trends_step srv p (trends_range r p)
| trends_step_answer p i q r :
    t_pending p !! i = Some q -> srv q r -> trends_step srv p (trends_answer i r p).

(** ** [ProductUsage.js] *)

(** The options of lines 103-105. *)
Definition usage_ranges : list string := ["Last 7 Days"; "Last 30 Days"; "Custom Range"].

(** [timeRange], [startDate] and [endDate] (lines 12-14). *)
Record usage_ctl := mk_usage_ctl { u_range : string; u_start : string; u_end : string }.

Definition usage_init : usage_ctl := mk_usage_ctl "Last 7 Days" "" "".

(** [const params = { startDate, endDate, timeRange }] (line 27). *)
Definition usage_params (c : usage_ctl) : jsval :=
  JObj [("startDate", JStr (u_start c)); ("endDate", JStr (u_end c)); ("timeRange", JStr (u_range c))].

Record usage_page := mk_usage_page {
  u_ctl : usage_ctl;
  u_pending : list jsval;
  u_loading : bool;                 (** [loading] (line 15) *)
  u_points : list jsval;
  u_alerts : list string
}.

(** [loadTrendData] up to the request (lines 24-28): [setLoading(true)]
    and the query of the current controls. *)
Definition usage_load (p : usage_page) : usage_page :=
  mk_usage_page (u_ctl p) (u_pending p ++ [usage_params (u_ctl p)]) true (u_points p) (u_alerts p).

(** Mount: [timeRange] is ["Last 7 Days"], so the effect loads. *)
Definition usage_mount : usage_page := usage_load (mk_usage_page usage_init [] false [] []).

(** [handleTimeRangeChange] (lines 67-71) clears both dates; the effect
    of lines 18-22, which depends on [timeRange] only, loads when the
    range changed to one other than ["Custom Range"]. *)
Definition usage_range (r : string) (p : usage_page) : usage_page :=
  let p' := mk_usage_page (mk_usage_ctl r "" "") (u_pending p) (u_loading p) (u_points p) (u_alerts p) in
  if negb (String.eqb r (u_range (u_ctl p))) && negb (String.eqb r "Custom Range") then usage_load p' else p'.

(** The two date inputs (lines 116 and 127), shown for ["Custom Range"]. *)
Definition usage_start (v : string) (p : usage_page) : usage_page :=
  mk_usage_page (mk_usage_ctl (u_range (u_ctl p)) v (u_end (u_ctl p))) (u_pending p) (u_loading p) (u_points p) (u_alerts p).
Definition usage_end (v : string) (p : usage_page) : usage_page :=
  mk_usage_page (mk_usage_ctl (u_range (u_ctl p)) (u_start (u_ctl p)) v) (u_pending p) (u_loading p) (u_points p) (u_alerts p).

Definition range_alert : string := "Please select a valid custom date range.".

(** [handleCustomDateRange] (lines 73-79), the Apply button. *)
Definition usage_apply (p : usage_page) : usage_page :=
  if truthy (JStr (u_start (u_ctl p))) && truthy (JStr (u_end (u_ctl p))) then usage_load p
  else mk_usage_page (u_ctl p) (u_pending p) (u_loading p) (u_points p) (u_alerts p ++ [range_alert]).

(** The answer to the [i]-th request: lines 29-31 or the alert of line
    34, then [setLoading(false)] in the [finally] (line 36), whatever
    other request is still in flight. *)
Definition usage_answer (i : nat) (r : reply) (p : usage_page) : usage_page :=
  match chart_receive usage_point r with
  | Some pts => mk_usage_page (u_ctl p) (delete i (u_pending p)) false pts (u_alerts p)
  | None => mk_usage_page (u_ctl p) (delete i (u_pending p)) false (u_points p) (u_alerts p ++ [chart_alert])
  end.

(** A day whose [toISOString] date has a four-digit year, the dates a
    date input holds and [::DATE] reads back ([Dates.date_in_iso]). *)
Definition day_ok (z : Z) : Prop := 0 <= c_year (days_to_civil z) <= 9999.

(** The value of an [<input type="date">]: [""] or the picked day. *)
Definition date_value (o : option Z) : string := default "" (iso_date <$> o).

Inductive usage_step (srv : jsval -> reply -> Prop) : usage_page -> usage_page -> Prop :=
| usage_step_range p r : r ∈ usage_ranges -> usage_step srv p (usage_range r p)
| usage_step_start p o :
    u_range (u_ctl p) = "Custom Range" -> from_option day_ok True o -> usage_step srv p (usage_start (date_value o) p)
| usage_step_end p o :
    u_range (u_ctl p) = "Custom Range" -> from_option day_ok True o -> usage_step srv p (usage_end (date_value o) p)
| usage_step_apply p : u_range (u_ctl p) = "Custom Range" -> usage_step srv p (usage_apply p)
| usage_step_answer p i q r :
    u_pending p !! i = Some q -> srv q r -> usage_step srv p (usage_answer i r p).

(** ** Theorems *)

(** C17: the Trends page shows whichever answer arrives last: with two
    requests in flight, answering the newer first and the older second
    leaves the controls as they are and the chart showing the answer to
    the older request. *)
Theorem trends_stale_answer srv p q1 q2 r1 r2 pts1 pts2 :
  t_pending p = [q1; q2] -> srv q1 r1 -> srv q2 r2 ->
  chart_receive trend_point r1 = Some pts1 -> chart_receive trend_point r2 = Some pts2 ->
  exists p', rtc (trends_step srv) p p' /\ t_ctl p' = t_ctl p /\ t_pending p' = [] /\ t_points p' = pts1.
Proof.
  intros Hp H1 H2 E1 E2.
  assert (Ha : trends_answer 1 r2 p = mk_trends_page (t_ctl p) [q1] pts2 (t_alerts p))
    by (unfold trends_answer; by rewrite E2, Hp).
  assert (Hb : trends_answer 0 r1 (mk_trends_page (t_ctl p) [q1] pts2 (t_alerts p)) =
                mk_trends_page (t_ctl p) [] pts1 (t_alerts p)) by (unfold trends_answer; by rewrite E1).
  exists (mk_trends_page (t_ctl p) [] pts1 (t_alerts p)). split_and!; try done.
  eapply rtc_l; [by apply (trends_step_answer srv p 1 q2); rewrite ?Hp|]. rewrite Ha, <- Hb.
  apply rtc_once. by apply (trends_step_answer srv _ 0 q1).
Qed.

Lemma trends_stale_answer_witness :
  (exists p', rtc (trends_step (fun q r => r = get_trends q 19723 ex_trend_db)) (trends_click "Total Orders" trends_mount) p' /\
     t_ctl p' = t_ctl (trends_click "Total Orders" trends_mount) /\ t_pending p' = [] /\
     t_points p' = default [] (chart_receive trend_point (get_trends (trends_params trends_init) 19723 ex_trend_db))) /\
  t_ctl (trends_click "Total Orders" trends_mount) = mk_trends_ctl "Total Orders" "Last 7 Days" /\
  default [] (chart_receive trend_point (get_trends (trends_params trends_init) 19723 ex_trend_db)) <>
  default [] (chart_receive trend_point (get_trends (trends_params (mk_trends_ctl "Total Orders" "Last 7 Days")) 19723 ex_trend_db)).
Proof.
  split_and!; [|reflexivity|vm_compute; congruence].
  apply (trends_stale_answer _ _ (trends_params trends_init) (trends_params (mk_trends_ctl "Total Orders" "Last 7 Days"))
           (get_trends (trends_params trends_init) 19723 ex_trend_db)
           (get_trends (trends_params (mk_trends_ctl "Total Orders" "Last 7 Days")) 19723 ex_trend_db)
           _ (default [] (chart_receive trend_point (get_trends (trends_params (mk_trends_ctl "Total Orders" "Last 7 Days")) 19723 ex_trend_db))));
    [reflexivity | reflexivity | reflexivity | vm_compute; reflexivity | vm_compute; reflexivity].
Defined.

End ChartPages.
