(* ===== verification/Navigation.v ===== *)
(** * Navigation between the pages of the front end

    [App.js] maps each path to a page (lines 119-142) and keeps the
    signed-in [user] (line 35), set by [handleLogin] and cleared by
    [handleLogout].  The pages move between paths with react-router's
    [navigate(path, { state })], which pushes an entry on the browser
    history, and [navigate(-1)], which goes back one entry.  A browser
    tab is modelled as App's [user], the current entry (its path and its
    [location.state]) and the entries behind it; the events are the
    buttons and timers of the pages that call [navigate].  Typing a URL
    and the browser's own buttons are not events: the theorems are
    about what the application's own controls reach.

    The paths reachable from the sign-in page are computed by a search
    over the site graph ([site_next], every target some control of a
    page can navigate to) and proved equal to the paths some run
    reaches: soundness by an invariant of the runs, completeness by one
    run per path. *)

From S2P Require Import Prelude JsValue Pages FrontLogin.
Import Js Pages FrontLogin.

Module Navigation.

(** ** Locations and the state of a tab *)

(** [location.pathname] and [location.state]; [navigate(path)] without a
    state leaves [location.state] [null]. *)
Record location := mk_loc { path : string; lstate : jsval }.

Record tab := mk_tab {
  user : option jsval;          (** App's [user] state *)
  here : location;
  behind : list location        (** the history entries before [here], most recent first *)
}.

Definition start : tab := mk_tab None (mk_loc "/" JNull) [].


(** ** The controls of each page *)

(** [Menu.js]: History, shown when [user?.name !== "Guest"] (lines
    80-87), and View Cart (line 174).  [Menu] is rendered by [/menu]
    with App's [user], by [Guest.js] with [guestUser] and by
    [Cashier.js] with no [user]. *)
Definition menu_links (menu_user : jsval) : list (string * jsval) :=
  (if js_is (prop "name" menu_user) "Guest" then [] else [("/order-history", JNull)]) ++ [("/cart", JNull)].

(** [guestUser] of [Guest.js] (lines 8-11). *)
Definition guest_user : jsval := JObj [("role", JStr "USER"); ("name", JStr "Guest")].

(** The buttons of [Manager.js] (lines 18-28 and 40). *)
Definition manager_paths : list string :=
  ["/drink-menu"; "/inventory"; "/trends"; "/employee"; "/menu"; "/add-seasonal"; "/product-usage";
   "/x-report"; "/z-report"; "/order-history"; "/"].

(** [location.state?.total || 0] of [PaymentPage.js] and
    [CashPaymentPage.js] (line 7). *)
Definition order_total (st : jsval) : jsval := js_or (prop "total" st) (jint 0).

(** [location.state?.user || {}] of [ThankYouPage.js] (line 10). *)
Definition thanks_user (st : jsval) : jsval := js_or (prop "user" st) (JObj []).

(** [Cashier.js]: the weather button (line 16) and the embedded menu,
    given no [user] (line 23). *)
Definition cashier_links : list (string * jsval) := ("/weather", JNull) :: menu_links JUndefined.

(** [Guest.js]: Back to Login (lines 17-19, 34) and the embedded menu
    (line 42). *)
Definition guest_links : list (string * jsval) := ("/", JNull) :: menu_links guest_user.

(** [PaymentPage.js]: [handleCash] and [handleCard] (lines 9-16). *)
Definition payment_links (st : jsval) : list (string * jsval) :=
  [("/payment/cash", JObj [("total", order_total st)]); ("/thankyou", JObj [("total", order_total st)])].

(** [CashPaymentPage.js]: the navigation that ends an accepted cash
    payment (lines 29-31); the amount check is [FrontCart.cash_submit]. *)
Definition cash_links (st : jsval) : list (string * jsval) := [("/thankyou", JObj [("total", order_total st)])].

(** [ThankYouPage.js]: Back to Menu (line 33). *)
Definition thanks_links (st : jsval) : list (string * jsval) := [("/menu", JObj [("user", thanks_user st)])].

(** The [navigate(path, { state })] calls of the page each route of
    [App.js] renders, given App's [user]. *)
Definition links (u : option jsval) (l : location) : list (string * jsval) :=
  let p := path l in
  if String.eqb p "/" then [("/guest", JNull)]                    (* Login.js 82 *)
  else if String.eqb p "/menu" then menu_links (default JNull u)
  else if String.eqb p "/cashier" then cashier_links
  else if String.eqb p "/guest" then guest_links
  else if String.eqb p "/manager" then (fun q => (q, JNull)) <$> manager_paths
  else if String.eqb p "/inventory" || String.eqb p "/employee" || String.eqb p "/trends"
  then [("/manager", JNull)]                          (* Inventory.js 121, Employee.js 146, Trends.js 153 *)
  else if String.eqb p "/payment" then payment_links (lstate l)
  else if String.eqb p "/payment/cash" then cash_links (lstate l)
  else if String.eqb p "/thankyou" then thanks_links (lstate l)
  else [].

(** The pages with a button calling [navigate(-1)]. *)
Definition back_pages : list string :=
  ["/cart"; "/guest"; "/menu-category/:category"; "/drink-menu"; "/add-seasonal"; "/product-usage";
   "/x-report"; "/z-report"].

(** [ThankYouPage.js] sets its redirect timer when the user it was given
    is named ["Guest"] (lines 13-20). *)
Definition redirects (l : location) : bool :=
  String.eqb (path l) "/thankyou" && js_is (prop "name" (thanks_user (lstate l))) "Guest".

(** ** Events *)

Inductive event :=
| Click (target : string)     (** a button calling [navigate(target, ...)] *)
| GoBack                      (** a button calling [navigate(-1)]: a page's Back, or the header's *)
| SignIn (userData : jsval)   (** [Login.js] calls [onLogin(res.data.user)] (lines 22, 35) *)
| Logout                      (** the header's logout button *)
| Ordered (total : jsval)     (** [Cart.js]: [submitOrder] succeeded (line 54) *)
| RedirectTimer.              (** the 5-second timer of [ThankYouPage.js] *)

(** [navigate(path, { state })]: the new entry goes on top. *)
Definition push (l : location) (t : tab) : tab := mk_tab (user t) l (here t :: behind t).

(** The header of [App.js] (lines 94-113): its Back and Logout buttons
    are there when a user is set ([user ? ... : <div/>]). *)
Definition header_buttons (t : tab) : bool := bool_decide (is_Some (user t)).

Definition step (ev : event) (t : tab) : option tab :=
  match ev with
  | Click q =>
      match list_find (fun ls => ls.1 = q) (links (user t) (here t)) with
      | Some (_, (_, st)) => Some (push (mk_loc q st) t)
      | None => None
      end
  | GoBack =>
      if bool_decide (path (here t) ∈ back_pages) || header_buttons t then
        match behind t with
        | l :: r => Some (mk_tab (user t) l r)
        | [] => None
        end
      else None
  | SignIn u =>
      if String.eqb (path (here t)) "/" then
        (* [setUser(userData)] runs before [userData.role.toLowerCase()] may throw *)
        match handle_login u with
        | Ok q => Some (push (mk_loc q JNull) (mk_tab (Some u) (here t) (behind t)))
        | Err _ => Some (mk_tab (Some u) (here t) (behind t))
        end
      else None
  | Logout =>                   (* App.js 59-62, shown when [user] is set (line 95) *)
      if header_buttons t then Some (push (mk_loc "/" JNull) (mk_tab None (here t) (behind t)))
      else None
  | Ordered total =>
      if String.eqb (path (here t)) "/cart" then Some (push (mk_loc "/payment" (JObj [("total", total)])) t)
      else None
  | RedirectTimer => if redirects (here t) then Some (push (mk_loc "/" JNull) t) else None
  end.

Fixpoint run (evs : list event) (t : tab) : option tab :=
  match evs with
  | [] => Some t
  | ev :: evs' => step ev t ≫= run evs'
  end.

(** ** The site graph *)

(** Every path the controls of the page at [p] can navigate to: the
    links of the page for a signed-in user who is not the guest (the
    most any user is offered), a successful order from the cart, the
    redirect timer of the thank-you page, and, when [signin] allows
    signing in, the landing pages of [handleLogin] and the header's
    logout. *)
Definition site_next (signin : bool) (p : string) : list string :=
  (fst <$> links (Some JNull) (mk_loc p JNull)) ++
  (if String.eqb p "/cart" then ["/payment"] else []) ++
  (if String.eqb p "/thankyou" then ["/"] else []) ++
  (if signin then "/" :: (if String.eqb p "/" then ["/manager"; "/cashier"; "/menu"] else []) else []).

(** Breadth-first search from [todo], [seen] the paths already found. *)
Fixpoint site_search (fuel : nat) (next : string -> list string) (seen todo : list string) : list string :=
  match fuel with
  | O => seen
  | S f =>
      match todo with
      | [] => seen
      | p :: r => if bool_decide (p ∈ seen) then site_search f next seen r
                  else site_search f next (seen ++ [p]) (r ++ next p)
      end
  end.

(** The paths found from the sign-in page; 400 steps exceed the edges
    of the graph, and [site_closed] checks that the search finished. *)
Definition site_paths (signin : bool) : list string := site_search 400 (site_next signin) [] ["/"].

(** A set of paths closed under the graph. *)
Definition site_closed (next : string -> list string) (R : list string) : bool :=
  forallb (fun p => forallb (fun q => bool_decide (q ∈ R)) (next p)) R.

(** [onLogin] was called. *)
Definition signs_in (ev : event) : bool := match ev with SignIn _ => true | _ => false end.

(** ** Lemmas *)

Lemma site_closed_spec next R p q : site_closed next R = true -> p ∈ R -> q ∈ next p -> q ∈ R.
Proof.
  unfold site_closed. rewrite forallb_forall. intros Hc Hp%list_elem_of_In Hq.
  specialize (Hc p Hp). rewrite forallb_forall in Hc. apply list_elem_of_In in Hq.
  specialize (Hc q Hq). by apply bool_decide_eq_true in Hc.
Qed.

Lemma menu_links_targets mu q : q ∈ (menu_links mu).*1 -> q ∈ (menu_links JNull).*1.
Proof. unfold menu_links. destruct (js_is _ _); cbn; set_solver. Qed.

(** The targets of a page's links do not depend on the state it was
    given, and a user other than the guest is offered the most. *)
Lemma links_targets u l q st : (q, st) ∈ links u l -> q ∈ fst <$> links (Some JNull) (mk_loc (path l) JNull).
Proof.
  intros Hq. apply (list_elem_of_fmap_2 fst) in Hq. cbn [fst] in Hq. revert Hq.
  unfold links, cashier_links, guest_links, payment_links, cash_links, thanks_links. cbn [path lstate default].
  repeat case_match; cbn [map fst] in *; try done. apply menu_links_targets.
Qed.

Lemma handle_login_landing u q : handle_login u = Ok q -> q ∈ ["/manager"; "/cashier"; "/menu"].
Proof.
  unfold handle_login, landing. destruct (get_prop _ _) as [[]|]; try done.
  intros [= <-]. repeat case_match; set_solver.
Qed.

(** The paths of a tab, current and behind, lie in [R]; while signing in
    is excluded, no user is set. *)
Definition tab_in (signin : bool) (R : list string) (t : tab) : Prop :=
  Forall (fun l => path l ∈ R) (here t :: behind t) /\ (signin = false -> user t = None).

Section soundness.
  Context (signin : bool) (R : list string).
  Hypothesis closed : site_closed (site_next signin) R = true.
  Hypothesis root : "/" ∈ R.

Lemma push_in l t : tab_in signin R t -> path l ∈ R -> tab_in signin R (push l t).
  Proof. intros [Hf Hu] Hl. split; [by constructor|done]. Qed.

Lemma next_in t q : tab_in signin R t -> q ∈ site_next signin (path (here t)) -> q ∈ R.
  Proof. intros [Hf _]. apply Forall_cons in Hf as [Hh _]. by apply site_closed_spec. Qed.

Lemma step_in ev t t' :
    tab_in signin R t -> (signin || negb (signs_in ev)) = true -> step ev t = Some t' -> tab_in signin R t'.
  Proof.
    intros Ht Hs. pose proof Ht as [Hf Hu]. destruct ev as [q| |u| |tot|]; cbn [step signs_in] in *.
    - destruct (list_find _ _) as [[i [q' st]]|] eqn:Ef; [|done]. intros [= <-].
      apply list_find_Some in Ef as (Hi & Hq & _). cbn in Hq. subst q'. apply push_in; [done|]. cbn [path].
      eapply next_in; [done|]. apply elem_of_app. left.
      eapply links_targets, list_elem_of_lookup_2, Hi.
    - destruct (bool_decide _ || header_buttons t); [|done]. destruct (behind t) as [|l r] eqn:Eb; [done|]. intros [= <-].
      apply Forall_cons in Hf as [_ Hf]. by split.
    - assert (Hsi : signin = true) by (by destruct signin).
      destruct (String.eqb_spec (path (here t)) "/") as [Hp|]; [|done].
      destruct (handle_login u) as [q|] eqn:Eh; intros [= <-].
      + split; [|by rewrite Hsi]. constructor; [|done]. eapply next_in; [done|]. rewrite Hp, Hsi.
        apply handle_login_landing in Eh. cbn. set_solver.
      + split; [done|by rewrite Hsi].
    - destruct (header_buttons t); [|done]. intros [= <-].
      apply push_in; [split; [exact Hf|done]|exact root].
    - destruct (String.eqb_spec (path (here t)) "/cart") as [Hp|]; [|done]. intros [= <-].
      apply push_in; [done|]. eapply next_in; [done|]. rewrite Hp. cbn. set_solver.
    - destruct (redirects _); [|done]. intros [= <-]. by apply push_in.
  Qed.

Lemma run_in evs t t' :
    tab_in signin R t -> forallb (fun ev => signin || negb (signs_in ev)) evs = true ->
    run evs t = Some t' -> tab_in signin R t'.
  Proof.
    revert t. induction evs as [|ev evs IH]; intros t Ht Hs; cbn [run].
    - by intros [= <-].
    - apply andb_prop in Hs as [He Hs]. destruct (step ev t) as [t1|] eqn:E; [|done]. cbn.
      apply IH; [|done]. by eapply step_in.
  Qed.
End soundness.

Lemma site_paths_closed b : site_closed (site_next b) (site_paths b) = true.
Proof. destruct b; vm_compute; reflexivity. Qed.

Lemma site_paths_root b : "/" ∈ site_paths b.
Proof. apply list_elem_of_In. destruct b; vm_compute; auto. Qed.

Lemma start_in b : tab_in b (site_paths b) start.
Proof. split; [constructor; [apply site_paths_root|constructor]|done]. Qed.

(** Every path a run visits, current or behind, is one the search found. *)
Lemma run_site_paths b evs t :
  forallb (fun ev => b || negb (signs_in ev)) evs = true -> run evs start = Some t ->
  Forall (fun l => path l ∈ site_paths b) (here t :: behind t).
Proof.
  intros Hs Hr. apply (run_in b (site_paths b) (site_paths_closed b) (site_paths_root b) evs start t);
    [apply start_in|done|done].
Qed.

(** ** One run per reachable path *)


Definition guest_order : list event :=
  [Click "/guest"; Click "/cart"; Ordered (jint 500); Click "/thankyou"].





(** ** The thank-you page's state *)

(** An entry for [/thankyou] carries only the order total. *)
Definition thanks_ok (l : location) : Prop := path l = "/thankyou" -> exists v, lstate l = JObj [("total", v)].

Lemma links_thankyou u l q st : (q, st) ∈ links u l -> q = "/thankyou" -> exists v, st = JObj [("total", v)].
Proof.
  intros Hin ->. apply list_elem_of_In in Hin.
  unfold links, menu_links, manager_paths, cashier_links, guest_links, payment_links, cash_links, thanks_links in Hin.
  repeat case_match; simpl in Hin; intuition (simplify_eq; eauto).
Qed.

Lemma push_thanks l t : thanks_ok l -> Forall thanks_ok (here t :: behind t) -> Forall thanks_ok (here (push l t) :: behind (push l t)).
Proof. intros Hl Hf. by constructor. Qed.

Lemma step_thanks ev t t' :
  Forall thanks_ok (here t :: behind t) -> step ev t = Some t' -> Forall thanks_ok (here t' :: behind t').
Proof.
  intros Hf. destruct ev as [q| |u| |tot|]; cbn [step].
  - destruct (list_find _ _) as [[i [q' st]]|] eqn:Ef; [|done]. intros [= <-].
    apply list_find_Some in Ef as (Hi & Hq & _). cbn in Hq. subst q'. apply push_thanks; [|done].
    intros Hp. eapply links_thankyou; [by eapply list_elem_of_lookup_2|done].
  - destruct (bool_decide _ || header_buttons t); [|done]. destruct (behind t) as [|l r]; [done|].
    intros [= <-]. by apply Forall_cons in Hf as [_ ?].
  - destruct (String.eqb _ _); [|done]. destruct (handle_login u) as [q|] eqn:Eh; intros [= <-]; [|done].
    apply push_thanks; [|done]. intros Hp. cbn in Hp. subst q. apply handle_login_landing in Eh. set_solver.
  - destruct (header_buttons t); [|done]. intros [= <-]. by apply push_thanks.
  - destruct (String.eqb _ _); [|done]. intros [= <-]. by apply push_thanks.
  - destruct (redirects _); [|done]. intros [= <-]. by apply push_thanks.
Qed.

Lemma run_thanks evs t t' :
  Forall thanks_ok (here t :: behind t) -> run evs t = Some t' -> Forall thanks_ok (here t' :: behind t').
Proof.
  revert t. induction evs as [|ev evs IH]; intros t Ht; cbn [run]; [by intros [= <-]|].
  destruct (step ev t) as [t1|] eqn:E; [|done]. cbn. apply IH. by eapply step_thanks.
Qed.

Lemma thanks_no_redirect l : thanks_ok l -> redirects l = false.
Proof.
  intros Hl. unfold redirects. destruct (String.eqb_spec (path l) "/thankyou") as [Hp|]; [|done].
  destruct (Hl Hp) as [v ->]. reflexivity.
Qed.

(** ** Theorems *)



(** The pages of the staff: the manager's dashboard and its pages, the
    cashier's dashboard and the weather page it links to. *)
Definition staff_pages : list string :=
  ["/manager"; "/cashier"; "/drink-menu"; "/inventory"; "/trends"; "/employee"; "/add-seasonal";
   "/product-usage"; "/x-report"; "/z-report"; "/weather"].

(** C20: without signing in, the controls of the pages never lead to a
    staff page: every entry of the history of a session that never calls
    [onLogin] is a customer page. *)
Theorem guest_no_staff_pages evs t :
  forallb (fun ev => negb (signs_in ev)) evs = true -> run evs start = Some t ->
  Forall (fun l => path l ∉ staff_pages) (here t :: behind t).
Proof.
  intros Hs Hr. pose proof (run_site_paths false evs t Hs Hr) as Hf.
  assert (Hd : forallb (fun p => negb (bool_decide (p ∈ staff_pages))) (site_paths false) = true)
    by (vm_compute; reflexivity).
  rewrite forallb_forall in Hd. eapply Forall_impl; [exact Hf|]. intros l Hl%list_elem_of_In%Hd.
  by apply negb_true_iff, bool_decide_eq_false in Hl.
Qed.

Lemma guest_no_staff_pages_witness :
  forallb (fun ev => negb (signs_in ev)) guest_order = true /\
  exists t, run guest_order start = Some t /\ Forall (fun l => path l ∉ staff_pages) (here t :: behind t).
Proof.
  split; [reflexivity|]. eexists. split; [vm_compute; reflexivity|].
  apply (guest_no_staff_pages guest_order); [reflexivity|vm_compute; reflexivity].
Defined.


(** C19: the thank-you page never redirects to the sign-in page: its
    timer is set only for a user named ["Guest"] in [location.state],
    and every control that navigates to [/thankyou] passes only the
    order total, so no entry of any session redirects. *)
Theorem thankyou_never_redirects evs t :
  run evs start = Some t -> Forall (fun l => redirects l = false) (here t :: behind t).
Proof.
  intros Hr. apply run_thanks in Hr; [|repeat constructor; by intros ?].
  eapply Forall_impl; [exact Hr|]. apply thanks_no_redirect.
Qed.

Lemma thankyou_never_redirects_witness :
  exists t, run guest_order start = Some t /\ Forall (fun l => redirects l = false) (here t :: behind t).
Proof.
  eexists. split; [vm_compute; reflexivity|]. apply (thankyou_never_redirects guest_order). vm_compute. reflexivity.
Defined.

End Navigation.
