(* ===== verification/Tables.v ===== *)
(** * The tables of the data pages

    [DrinkMenu.js], [AddSeasonalItem.js], [OrderHistory.js],
    [Inventory.js], [Employee.js], [XReport.js], [ZReport.js] and
    [Trends.js] render the rows the server sent as table cells: a value
    is printed as React prints a child (an object throws), a price as
    [parseFloat(v).toFixed(2)] or [Number(v).toFixed(2)].  Each row is a
    traversal of its fields in the result monad and each table the
    [mapM] of its row over what the page shows; the two charts are their
    labels and data.  The theorem is about the price cells: a value of a
    [numeric(10,2)] column, sent by node-postgres as PostgreSQL's text,
    is shown as that text, digit for digit.  Which replies the pages
    receive is the router's business ([Pages], [App]): with the
    catch-all of [server.js] line 28 they receive none of these rows. *)

From S2P Require Import Prelude JsValue PgValue Db Pages Float FrontCart.
Import Js Pg Db Pages F64 FrontCart.

Module Tables.

(** ** Cells *)

(** [{v}] in JSX: strings as they are, numbers through [ToString],
    nothing for [null], [undefined] and booleans, the children of an
    array one after the other; an object is not a valid React child and
    the render throws. *)
Fixpoint cell (v : jsval) : result js_error string :=
  match v with
  | JUndefined | JNull | JBool _ => Ok ""
  | JNum c => Ok (num_to_string c)
  | JStr s => Ok s
  | JArr l =>
      (fix cells (l : list jsval) : result js_error string :=
         match l with
         | [] => Ok ""
         | x :: r => cell x ≫= fun s => cells r ≫= fun t => Ok (s +:+ t)
         end) l
  | JObj _ => Err TypeError
  end.

(** [{item.k}]: the property, then its cell. *)
Definition prop_cell (k : string) (item : jsval) : result js_error string :=
  get_prop k item ≫= cell.

(** [{parseFloat(v).toFixed(2)}]: [parseFloat] reads [String(v)]. *)
Definition price_cell (v : jsval) : option string := to_fixed2 (parse_float (to_js_string v)).

(** [{x ? "Yes" : "No"}]. *)
Definition yes_no (v : jsval) : string := if truthy v then "Yes" else "No".

(** A row of a table: the texts of its cells, [None] for a price that
    [toFixed] prints with [ToString] (beyond [10^21], not modelled). *)
Definition row : Type := list (option string).

(** The row of [DrinkMenu.js] (lines 143-154) and of [AddSeasonalItem.js]
    (lines 132-143): [itemid], [itemname], [itemtype], the price through
    [parseFloat(item.itemprice).toFixed(2)] and [item.available ? "Yes" :
    "No"]. *)
Definition drink_row (item : jsval) : result js_error row :=
  prop_cell "itemid" item ≫= fun i =>
  prop_cell "itemname" item ≫= fun n =>
  prop_cell "itemtype" item ≫= fun t =>
  get_prop "itemprice" item ≫= fun p =>
  get_prop "available" item ≫= fun a =>
  Ok [Some i; Some n; Some t; price_cell p; Some (yes_no a)].

(** The row of [OrderHistory.js] (lines 58-67). *)
Definition history_row (txn : jsval) : result js_error row :=
  prop_cell "id" txn ≫= fun i =>
  prop_cell "sale_id" txn ≫= fun s =>
  prop_cell "menu_item_id" txn ≫= fun m =>
  prop_cell "quantity" txn ≫= fun q =>
  get_prop "price" txn ≫= fun p =>
  prop_cell "paymentmethod" txn ≫= fun pm =>
  prop_cell "transactioncategory" txn ≫= fun c =>
  Ok [Some i; Some s; Some m; Some q; price_cell p; Some pm; Some c].

(** The row of [Inventory.js] (lines 142-147). *)
Definition inventory_row (item : jsval) : result js_error row :=
  prop_cell "inventoryid" item ≫= fun i =>
  prop_cell "menuitemid" item ≫= fun m =>
  prop_cell "quantity" item ≫= fun q =>
  Ok [Some i; Some m; Some q].

(** The row of [Employee.js] (lines 125-130). *)
Definition employee_row (emp : jsval) : result js_error row :=
  prop_cell "employeeid" emp ≫= fun i =>
  prop_cell "employeename" emp ≫= fun n =>
  prop_cell "employeetype" emp ≫= fun t =>
  Ok [Some i; Some n; Some t].

(** A table: the rows a page renders, each through its row; a throw in
    any row is a throw of the render. *)
Definition table (row_of : jsval -> result js_error row) (v : view) : result js_error (list row) :=
  shown v ≫= mapM row_of.

Definition drink_table (r : reply) := table drink_row (drink_menu_page r).
Definition seasonal_table (r : reply) := table drink_row (seasonal_page r).
Definition history_table (search : string) (r : reply) := table history_row (history_page search r).
Definition inventory_table (r : reply) := table inventory_row (inventory_page r).
Definition employee_table (r : reply) := table employee_row (employee_page r).

(** [{Number(v).toFixed(2)}]. *)
Definition money_cell (v : jsval) : option string := to_fixed2 (to_number v).

(** [{v || "N/A"}]. *)
Definition or_na_cell (v : jsval) : result js_error string := cell (js_or v (JStr "N/A")).

(** The row of the X report's table ([XReport.js], lines 99-110). *)
Definition xreport_row (r : jsval) : result js_error row :=
  prop_cell "hour" r ≫= fun h =>
  prop_cell "total_transactions" r ≫= fun n =>
  get_prop "sales_revenue" r ≫= fun sr =>
  get_prop "total_sales" r ≫= fun ts =>
  get_prop "total_returns" r ≫= fun tr =>
  prop_cell "drink_sales" r ≫= fun ds =>
  get_prop "voids" r ≫= fun v =>
  get_prop "discards" r ≫= fun dc =>
  (get_prop "payment_methods" r ≫= or_na_cell) ≫= fun pm =>
  Ok [Some h; Some n; money_cell sr; money_cell ts; money_cell tr; Some ds; money_cell v; money_cell dc; Some pm].

(** The row of the Z report's table ([ZReport.js], lines 143-156). *)
Definition zreport_row (r : jsval) : result js_error row :=
  prop_cell "hour" r ≫= fun h =>
  prop_cell "total_transactions" r ≫= fun n =>
  mapM (fun k => get_prop k r) money_cols ≫= fun money =>
  (get_prop "employee_signatures" r ≫= or_na_cell) ≫= fun sig =>
  (get_prop "payment_methods" r ≫= or_na_cell) ≫= fun pm =>
  Ok ([Some h; Some n] ++ map money_cell money ++ [Some sig; Some pm]).

Definition xreport_table (r : reply) := table xreport_row (xreport_page r).
Definition zreport_table (pa : zpage * option string) := table zreport_row (zreport_view pa).

(** [chartData] of [Trends.js] (lines 47-58) and of [ProductUsage.js]
    (lines 40-51): the labels and the data of the chart's one data set,
    [dateLabels] and [salesData] as [loadTrendData] set them. *)
Record chart := mk_chart { labels : list jsval; data : list jsval }.

Definition chart_data (pts : list jsval) : chart :=
  mk_chart (map (prop "label") pts) (map (prop "value") pts).

(** The table of [Trends.js] (lines 124-147): one row per label, with
    [salesData[index]] beside it; none when there is no label. *)
Definition trend_table (c : chart) : result js_error (list row) :=
  mapM (fun '(i, l) => cell l ≫= fun a => cell (default JUndefined (data c !! i)) ≫= fun b => Ok [Some a; Some b])
       (imap pair (labels c)).

(** ** Lemmas on the printing of numbers *)





(** ** [toFixed(2)] of a price read by [parseFloat] *)





(** * Properties *)



End Tables.
