(* ===== verification/App.v ===== *)
(** * The server: every request through the router to its handler

    [server.js] as one step on the database: [Router.serve] picks the
    layer that answers a request and the handler it names runs on the
    request's query and body.  What the program does not determine is the
    environment [env]: the files of the build directory, Google's token
    verifier, the weather service and the clock.  The answer of a
    handler is its reply, except for the two reports, whose rows are the
    answer (their JSON text, which depends on PostgreSQL's numeric
    scales, is not modelled).  The second [POST /api/menu/add] handler
    (lines 455-470) has no model: no request reaches it, which
    [step_modelled] shows. *)

From S2P Require Import Prelude Dates Sequence JsValue PgValue Db Orders Inventory Reports Router Catalog Employees Trends Services Pages ChartPages.
Import Dates Sequence Js Pg Db Orders Inventory Reports Router Catalog Employees Trends Services Pages ChartPages.

Module App.

(** What the program takes from outside. *)
Record env := mk_env {
  static_hit : string -> bool;                       (** the files of [build/] *)
  index_html : option string;                        (** [build/index.html] *)
  verify : string -> option (list (string * jsval)); (** [client.verifyIdToken] *)
  weather : string -> option jsval;                  (** the weather service *)
  now : timestamp;                                   (** [NOW()] of the request *)
  clock1 : Z;                                        (** the two [new Date()] readings (ms) *)
  clock2 : Z
}.

(** A request: method, path, [req.query] and [req.body]. *)
Record http_req := mk_http { hmeth : meth; hpath : string; hquery : jsval; hbody : jsval }.

Inductive answer :=
| AReply (r : reply)
| AXReport (rows : list xrow)     (** [res.json(result.rows)] of [GET /api/xreport] *)
| AZReport (rows : list zrow)     (** [res.json(result.rows)] of [GET /api/zreport] *)
| ANoContent                      (** [cors()]: 204 to a preflight *)
| AFile                           (** [express.static]: a file of the build *)
| ANotFound                       (** Express's final handler: 404 *)
| AUnmodelled.                    (** the second [POST /api/menu/add] handler *)

(** [req.params[n]]. *)
Fixpoint param (n : string) (ps : params) : string :=
  match ps with [] => "" | (k, v) :: r => if String.eqb k n then v else param n r end.

Definition with_db (rd : reply * database) : answer * database := (AReply rd.1, rd.2).

(** The handler [h] on a request with parameters [ps]. *)
Definition handle (e : env) (h : handler) (ps : params) (q body : jsval) (d : database) : answer * database :=
  let today := ts_day (now e) in
  match h with
  | HAuthGoogleLogin => (AReply (post_auth_google_login (verify e) body), d)
  | HCatchAll => (AReply (catch_all_reply (index_html e)), d)
  | HLogin => (AReply (post_login body d), d)
  | HGuest => (AReply post_guest, d)
  | HMenu => (AReply (get_menu d), d)
  | HMenuType => (AReply (get_menu_type (param "type" ps) d), d)
  | HOrders => with_db (post_orders body d)
  | HMenuAdd => with_db (post_menu_add body d)
  | HMenuDelete => with_db (post_menu_delete body d)
  | HInventory => (AReply (get_inventory d), d)
  | HInventoryAdd => with_db (post_inventory_add body (now e) d)
  | HInventoryDelete => with_db (delete_inventory body d)
  | HInventoryUpdate => with_db (post_inventory_update body d)
  | HTrends => (AReply (get_trends q today d), d)
  | HEmployees => (AReply (get_employees d), d)
  | HEmployeesAdd => with_db (post_employees body d)
  | HEmployeesUpdate => with_db (put_employee (param "id" ps) body d)
  | HEmployeesDelete => with_db (delete_employee (param "id" ps) d)
  | HSeasonal => (AReply (get_seasonal d), d)
  | HMenuAddSeasonal => (AUnmodelled, d)
  | HMenuDeleteById => with_db (post_menu_delete_by_id body d)
  | HProductUsage => (AReply (get_productusage q (clock1 e) (clock2 e) d), d)
  | HXReport => match get_xreport q today d with Ok rows => (AXReport rows, d) | Err r => (AReply r, d) end
  | HZReport => match get_zreport q today d with Ok rows => (AZReport rows, d) | Err r => (AReply r, d) end
  | HTestDb => (AReply (get_test_db (ts_ms (now e))), d)
  | HTransactions => (AReply (get_transactions d), d)
  | HGoogleLogin => (AReply (post_google_login (verify e) body), d)
  | HWeather => (AReply (get_weather (weather e) (param "city" ps)), d)
  end.

(** One request served. *)
Definition step (e : env) (r : http_req) (d : database) : answer * database :=
  match serve (static_hit e) (mk_req (hmeth r) (hpath r)) with
  | Handled h ps => handle e h ps (hquery r) (hbody r) d
  | Preflight => (ANoContent, d)
  | StaticFile => (AFile, d)
  | NotFound => (ANotFound, d)
  end.

(** What a page's [axios.get(path, { params: q })] receives from the
    server on the database [d]: the reply of [step], when the answer is
    one ([None] for a file of the build or the report rows, whose JSON
    is not modelled). *)
Definition get_reply (e : env) (d : database) (path : string) (q : jsval) : option reply :=
  match (step e (mk_http GET path q (JObj [])) d).1 with AReply r => Some r | _ => None end.

(** Requests served one after the other. *)
Definition app_step (e : env) (d d' : database) : Prop := exists r, (step e r d).2 = d'.

(** ** Lemmas *)

(** No request reaches the handler the model leaves out. *)
Lemma step_modelled e r d : (step e r d).1 <> AUnmodelled.
Proof.
  unfold step. destruct (serve _ _) as [h ps| | |] eqn:Hs; try discriminate.
  destruct (decide (h = HMenuAddSeasonal)) as [->|Hne].
  - exfalso. eapply dead_unreachable; [|exact Hs]. unfold dead_handlers. set_solver.
  - destruct h; simpl; repeat case_match; done.
Qed.

Definition inventory_handlers : list handler := [HInventoryAdd; HInventoryDelete; HInventoryUpdate].

(** Only the three inventory handlers write the [inventory] table. *)
Lemma handle_inventory e h ps q body d :
  h ∉ inventory_handlers -> inventory (handle e h ps q body d).2 = inventory d.
Proof.
  intros Hh. destruct h; simpl; try reflexivity; try (exfalso; apply Hh; unfold inventory_handlers; set_solver).
  { destruct (post_orders_cases body d) as [(_ & new & s & -> & _)|(_ & Ht)]; [reflexivity|apply Ht]. }
  all: unfold post_menu_add, menu_insert, post_menu_delete, post_employees, insert_employee, put_employee,
         delete_employee, post_menu_delete_by_id; repeat case_match; by simplify_eq.
Qed.

(** A request served keeps at most one inventory row per menu item. *)
Lemma step_item_unique e r d : item_unique (inventory d) -> item_unique (inventory (step e r d).2).
Proof.
  intros Hu. unfold step. destruct (serve _ _) as [h ps| | |]; try done.
  destruct (decide (h ∈ inventory_handlers)) as [Hh|Hh]; [|by rewrite handle_inventory].
  unfold inventory_handlers in Hh. repeat (apply elem_of_cons in Hh as [->|Hh]; simpl;
    [first [by apply post_inventory_add_unique | by apply delete_inventory_unique
           | by apply post_inventory_update_unique]|]).
  by apply elem_of_nil in Hh.
Qed.

(** Every GET of a path that is not a file of the build gets the
    catch-all's reply, whatever its query and the database. *)
Lemma get_reply_catch_all e d path q :
  static_hit e path = false -> get_reply e d path q = Some (catch_all_reply (index_html e)).
Proof. intros Hs. unfold get_reply, step. cbn [hmeth hpath]. by rewrite serve_get_catch_all by auto. Qed.

(** A chart page ends in its [catch] on the catch-all's reply. *)
Lemma chart_receive_catch_all point html : chart_receive point (catch_all_reply html) = None.
Proof. by destruct html. Qed.

(** ** Examples *)

Definition ex_env : env :=
  mk_env (fun _ => false) None (fun _ => None) (fun _ => None) (mk_ts 19723 (9 * 3600)) 0 0.

Definition ex_app_db : database :=
  mk_db ∅ [] (mk_seq 1 false 1 int4_max) ∅ (mk_seq 1 false 1 int4_max) [] [] ∅ [] ∅ (mk_seq 1 false 1 int4_max).

Definition ex_add_req : http_req :=
  mk_http POST "/api/inventory/add" (JObj []) (JObj [("menuitemid", JStr "3"); ("quantity", JStr "5")]).

(** ** Theorems *)

(** C12: served one request at a time, the whole server keeps at most one
    inventory row per menu item: whatever requests arrive (any method,
    any path), only the three inventory handlers write the table, and
    each keeps the invariant. *)
Theorem app_inventory_unique e d0 d :
  item_unique (inventory d0) -> rtc (app_step e) d0 d -> item_unique (inventory d).
Proof.
  intros Hu Hr. induction Hr as [|x y z [r <-] _ IH]; [done|]. apply IH. by apply step_item_unique.
Qed.

Lemma app_inventory_unique_witness :
  item_unique (inventory (step ex_env ex_add_req ex_app_db).2).
Proof.
  apply (app_inventory_unique ex_env ex_app_db).
  - intros i j r s Hi. simpl in Hi. by rewrite lookup_empty in Hi.
  - apply rtc_once. by exists ex_add_req.
Defined.

(** C11: served by the real server, the two chart pages never show
    data: [GET /api/trends] and [GET /api/productusage] are answered by
    the catch-all of line 28 whatever the query and the database, so in
    every run of the Trends page (clicks on the trend buttons, range
    changes, answers in any order) and of the Product Usage page (range
    changes, date picks, Apply, answers) the chart keeps no point and
    every alert raised is the failure alert (or, on Product Usage, the
    custom-range alert of an Apply without both dates). *)
Theorem chart_pages_show_no_data e p u :
  static_hit e "/api/trends" = false -> static_hit e "/api/productusage" = false ->
  (rtc (trends_step (fun q r => exists d, get_reply e d "/api/trends" q = Some r)) trends_mount p ->
   t_points p = [] /\ Forall (fun a => a = chart_alert) (t_alerts p)) /\
  (rtc (usage_step (fun q r => exists d, get_reply e d "/api/productusage" q = Some r)) usage_mount u ->
   u_points u = [] /\ Forall (fun a => a = chart_alert \/ a = range_alert) (u_alerts u)).
Proof.
  intros Ht Hu. split; intros Hr.
  - refine (rtc_invariant _ (fun p => t_points p = [] /\ Forall (fun a => a = chart_alert) (t_alerts p))
              _ _ _ Hr _); [|done].
    intros x y [Hp Ha] Hs.
    destruct Hs as [x ty _|x r _|x i q r _ (d & Hd)]; unfold trends_click, trends_range, trends_set.
    1,2: case_decide; done.
    rewrite get_reply_catch_all in Hd by done. injection Hd as <-.
    unfold trends_answer. rewrite chart_receive_catch_all. cbn. split; [done|]. apply Forall_app_2; [done|by constructor].
  - refine (rtc_invariant _ (fun u => u_points u = [] /\ Forall (fun a => a = chart_alert \/ a = range_alert) (u_alerts u))
              _ _ _ Hr _); [|done].
    intros x y [Hp Ha] Hs.
    destruct Hs as [x r _|x o _ _|x o _ _|x _|x i q r _ (d & Hd)];
      unfold usage_range, usage_start, usage_end, usage_apply, usage_load.
    1: by case_match.
    1,2: done.
    + case_match; [done|]. cbn. split; [done|]. apply Forall_app_2; [done|]. by repeat constructor; right.
    + rewrite get_reply_catch_all in Hd by done. injection Hd as <-.
      unfold usage_answer. rewrite chart_receive_catch_all. cbn. split; [done|].
      apply Forall_app_2; [done|]. by repeat constructor; left.
Qed.

(** The Trends page's first request answered by the server of
    [ex_env]: the chart stays empty and the alert is raised. *)
Lemma chart_pages_show_no_data_witness :
  static_hit ex_env "/api/trends" = false /\ static_hit ex_env "/api/productusage" = false /\
  rtc (trends_step (fun q r => exists d, get_reply ex_env d "/api/trends" q = Some r))
      trends_mount (trends_answer 0 (catch_all_reply None) trends_mount) /\
  t_points (trends_answer 0 (catch_all_reply None) trends_mount) = [] /\
  Forall (fun a => a = chart_alert) (t_alerts (trends_answer 0 (catch_all_reply None) trends_mount)) /\
  t_alerts (trends_answer 0 (catch_all_reply None) trends_mount) = [chart_alert].
Proof.
  assert (Hr : rtc (trends_step (fun q r => exists d, get_reply ex_env d "/api/trends" q = Some r))
                   trends_mount (trends_answer 0 (catch_all_reply None) trends_mount)).
  { apply rtc_once. apply (trends_step_answer _ trends_mount 0 (trends_params trends_init)); [reflexivity|].
    exists ex_app_db. vm_compute. reflexivity. }
  destruct (proj1 (chart_pages_show_no_data ex_env _ usage_mount eq_refl eq_refl) Hr) as [H1 H2].
  split_and!; [reflexivity|reflexivity|exact Hr|exact H1|exact H2|reflexivity].
Defined.

End App.
