(* ===== verification/Forms.v ===== *)
(** * Front end: the forms that write, sent through the server

    The manager pages write with [axios.post], [axios.put] and
    [axios.delete]; each form's handler checks its fields and sends one
    request, built here as an [App.http_req] so that [App.step] serves
    it.  The fields are the strings the inputs hold.

    - [Inventory.js]: [addInventory] (lines 25-43), [updateInventory]
      (45-61) and [deleteInventory] (63-78).  The one input with the
      placeholder ["Item ID"] is sent as [menuitemid] by Add but as
      [inventoryid] by Update and Delete.
    - [Employee.js]: [addEmployee] (26-38), [updateEmployee] (40-52) and
      [deleteEmployee] (54-62); the id is spliced into the path.
    - [DrinkMenu.js] [deleteDrink] (44-58) and [AddSeasonalItem.js]
      [deleteDrink] (40-54) post the name to [/api/menu/delete]. *)

From S2P Require Import Prelude Sequence JsValue PgValue Db Inventory Router Catalog Float FrontCart App.
Import Sequence Js Pg Db Inventory Router Catalog FrontCart App.

Module Forms.

(** [if (!a || !b) { alert(...); return; }] on input strings. *)
Definition filled (fields : list string) : bool := forallb (fun f => truthy (JStr f)) fields.

(** ** [Inventory.js] *)

Definition inventory_add_form (itemId quantity : string) : option http_req :=
  if filled [itemId; quantity]
  then Some (mk_http POST "/api/inventory/add" (JObj [])
                     (JObj [("menuitemid", JStr itemId); ("quantity", JStr quantity)]))
  else None.

Definition inventory_update_form (itemId quantity : string) : option http_req :=
  if filled [itemId; quantity]
  then Some (mk_http POST "/api/inventory/update" (JObj [])
                     (JObj [("inventoryid", JStr itemId); ("quantity", JStr quantity)]))
  else None.

(** [axios.delete(url, { data: { inventoryid: itemId } })]. *)
Definition inventory_delete_form (itemId : string) : option http_req :=
  if filled [itemId]
  then Some (mk_http DELETE "/api/inventory/delete" (JObj []) (JObj [("inventoryid", JStr itemId)]))
  else None.

(** ** [Employee.js] *)

Definition employee_body (name password role : string) : jsval :=
  JObj [("employeename", JStr name); ("employeepassword", JStr password); ("employeetype", JStr role)].

Definition employee_add_form (name password role : string) : http_req :=
  mk_http POST "/api/employees" (JObj []) (employee_body name password role).

Definition employee_update_form (id name password role : string) : http_req :=
  mk_http PUT ("/api/employees/" +:+ id) (JObj []) (employee_body name password role).

(** [axios.delete(url)] sends no body; [express.json()] leaves [{}]. *)
Definition employee_delete_form (id : string) : http_req :=
  mk_http DELETE ("/api/employees/" +:+ id) (JObj []) (JObj []).

(** ** [DrinkMenu.js] and [AddSeasonalItem.js] *)

(** [axios.post(url, { itemname, itemtype, itemprice: parseFloat(price) })]:
    [None] when [JSON.stringify] would write a number outside the model. *)
Definition drink_add_req (drinkName itemtype price : string) : option http_req :=
  p ← json_number (F64.parse_float price);
  Some (mk_http POST "/api/menu/add" (JObj [])
                (JObj [("itemname", JStr drinkName); ("itemtype", JStr itemtype); ("itemprice", p)])).

(** [DrinkMenu.js] [addDrink] (lines 23-42); [None] when the guard returns. *)
Definition drink_add_form (drinkName category price : string) : option (option http_req) :=
  if filled [drinkName; category; price] then Some (drink_add_req drinkName category price) else None.

(** [AddSeasonalItem.js] [addDrink] (lines 20-38): the category is fixed. *)
Definition seasonal_add_form (drinkName price : string) : option (option http_req) :=
  if filled [drinkName; price] then Some (drink_add_req drinkName "Seasonal" price) else None.

Definition drink_delete_form (drinkName : string) : option http_req :=
  if filled [drinkName]
  then Some (mk_http POST "/api/menu/delete" (JObj []) (JObj [("itemname", JStr drinkName)]))
  else None.

(** ** Lemmas *)

Lemma filled_true fields : Forall (fun f => f <> "") fields -> filled fields = true.
Proof.
  unfold filled. induction 1 as [|x l Hx _ IH]; [done|]. cbn [forallb]. rewrite IH, andb_true_r. simpl.
  by apply negb_true_iff, String.eqb_neq.
Qed.

(** The seasonal form is the drink form with the category ["Seasonal"]. *)
Lemma seasonal_add_form_drink name price : seasonal_add_form name price = drink_add_form name "Seasonal" price.
Proof. unfold seasonal_add_form, drink_add_form, filled. simpl. by rewrite andb_true_r. Qed.

Lemma serve_menu_add static : serve static (mk_req POST "/api/menu/add") = Handled HMenuAdd [].
Proof. reflexivity. Qed.

Lemma serve_inventory_update static : serve static (mk_req POST "/api/inventory/update") = Handled HInventoryUpdate [].
Proof. reflexivity. Qed.

(** [POST /api/menu/delete] reaches the first registration (line 217). *)
Lemma serve_menu_delete static : serve static (mk_req POST "/api/menu/delete") = Handled HMenuDelete [].
Proof. reflexivity. Qed.

(** ** Theorems *)

(** C27: the Inventory page's Update sends the number typed in its
    ["Item ID"] input as the [inventoryid] of the row to change (Add
    sends the same input as a [menuitemid]): the server answers 200 and
    sets the quantity of the row whose inventory id is that number, and
    of no other row. *)
Theorem inventory_form_update_row itemId quantity k q e d :
  int4_in itemId = Ok k -> int4_in quantity = Ok q ->
  exists r, inventory_update_form itemId quantity = Some r /\
    (step e r d).1 = AReply (mk_reply 200 success_body) /\
    forall j, inventory (step e r d).2 !! j =
      if decide (j = k)
      then (fun x => mk_inv (Some q) (i_menuitemid x) (i_timestamp x) (i_restockdate x) (i_lastupdated x))
             <$> inventory d !! k
      else inventory d !! j.
Proof.
  intros Hk Hq. destruct itemId as [|c1 r1]; [discriminate|]. destruct quantity as [|c2 r2]; [discriminate|].
  eexists. split; [reflexivity|]. unfold step. rewrite serve_inventory_update. simpl.
  destruct (post_inventory_update_ok (JObj [("inventoryid", JStr (String c1 r1)); ("quantity", JStr (String c2 r2))])
              d k q) as [-> Hj]; [done|unfold to_int4; simpl; by rewrite Hk|unfold to_int4; simpl; by rewrite Hq|].
  split; [done|exact Hj].
Qed.

Lemma inventory_form_update_row_witness :
  exists r, inventory_update_form "3" "40" = Some r /\
    (step ex_env r ex_app_db).1 = AReply (mk_reply 200 success_body) /\
    forall j, inventory (step ex_env r ex_app_db).2 !! j =
      if decide (j = 3)
      then (fun x => mk_inv (Some 40) (i_menuitemid x) (i_timestamp x) (i_restockdate x) (i_lastupdated x))
             <$> inventory ex_app_db !! 3
      else inventory ex_app_db !! j.
Proof. apply inventory_form_update_row; reflexivity. Defined.

(** C32: Delete on the drink pages removes every menu item with the typed
    name, whatever its category: the seasonal page, which lists only
    [Seasonal] items, also deletes a regular drink of the same name, since
    the request reaches the first [POST /api/menu/delete] (by name) and
    never the second (by id). *)
Theorem drink_delete_removes_namesakes name e d :
  name <> "" ->
  exists r, drink_delete_form name = Some r /\
    (step e r d).1 = AReply (mk_reply 200 success_body) /\
    menuitem (step e r d).2 = filter (fun km => itemname km.2 <> Some name) (menuitem d).
Proof.
  intros Hn. destruct name as [|c r]; [done|]. eexists. split; [reflexivity|].
  unfold step. rewrite serve_menu_delete. cbn [handle with_db fst snd hbody hquery].
  split; [reflexivity|]. by apply post_menu_delete_items.
Qed.

Lemma drink_delete_removes_namesakes_witness :
  exists r, drink_delete_form "Mango" = Some r /\
    (step ex_env r ex_menu_db).1 = AReply (mk_reply 200 success_body) /\
    menuitem (step ex_env r ex_menu_db).2 = filter (fun km => itemname km.2 <> Some "Mango") (menuitem ex_menu_db).
Proof. apply drink_delete_removes_namesakes. discriminate. Defined.

(** C23: a price typed as [i.ff] in the drink form is stored exactly:
    [parseFloat] reads the double nearest to [100 i + f] hundredths,
    [JSON.stringify] writes it back as that decimal, PostgreSQL's
    [numeric(10,2)] reads the text as the same number of cents, and
    [POST /api/menu/add] inserts the item, available, under the id
    [MAX(menuitemid) + 1] (the seasonal form is this form with the category
    ["Seasonal"]). *)
Theorem drink_form_price_stored name cat i f e d id :
  name <> "" -> cat <> "" -> 0 <= i -> 0 <= f < 100 -> 100 * i + f < 10 ^ 10 -> menu_next_id d = Ok id ->
  exists r, drink_add_form name cat (price_text i f) = Some (Some r) /\
    (step e r d).1 = AReply (mk_reply 200 success_body) /\
    (step e r d).2 = set_menuitem (<[id := mk_menu (Some name) (Some cat) (Some (100 * i + f)) (Some true)]>
                                   (menuitem d)) d.
Proof.
  intros Hn Hc Hi Hf Hb Hid. unfold drink_add_form, drink_add_req.
  rewrite filled_true by (repeat constructor; [done|done|unfold price_text; by destruct (digits i)]).
  rewrite json_number_price by lia. eexists. split; [reflexivity|].
  unfold step. rewrite serve_menu_add. cbn [handle with_db fst snd hbody hquery hmeth hpath].
  unfold post_menu_add. rewrite Hid. rewrite (menu_insert_ok _ _ _ (Some (100 * i + f))); [done| |].
  - change (prop "itemprice" _) with (JNum (100 * i + f)). unfold to_numeric. cbn [prepare_value].
    by rewrite numeric_10_2_in_num_to_string by lia.
  - destruct (menuitem d !! id) eqn:E; [|done]. exfalso.
    pose proof (menu_next_id_fresh d id Hid id ltac:(by rewrite E)). lia.
Qed.

Lemma drink_form_price_stored_witness :
  exists r, drink_add_form "Taro" "Milk Tea" (price_text 5 50) = Some (Some r) /\
    (step ex_env r ex_menu_db).1 = AReply (mk_reply 200 success_body) /\
    (step ex_env r ex_menu_db).2 =
      set_menuitem (<[3 := mk_menu (Some "Taro") (Some "Milk Tea") (Some (100 * 5 + 50)) (Some true)]>
                    (menuitem ex_menu_db)) ex_menu_db.
Proof. apply drink_form_price_stored; try discriminate; try lia. reflexivity. Defined.

End Forms.
